(** * curtin.block: device discovery, multipath detection and the wipe engine

    A shallow embedding of [curtin/block/__init__.py] and the properties of
    its block-listing parser, sysfs partition reader, multipath heuristics
    and offset-based wipe routines.

    Conventions of the embedding:
    - Python [str] is [string] (a sequence of 8-bit characters), Python
      [bytes] is [list byte], Python [int] is [Z];
    - a [dict] is an association list in insertion order, with Python's
      update-in-place assignment; a [set] is a duplicate-free list;
    - an exception is a value of [exn]; a pure function that may raise
      returns [result]; a function that touches the system is a state
      transformer [World -> result A * World] whose state survives a raise;
    - external tools and the helpers of [curtin.util], [curtin.udev] and
      [curtin.log] are operations of the class [Collaborators]. *)

From Stdlib Require Import ZArith List String Ascii Bool Lia.
From Stdlib Require Import Init.Byte.
Import ListNotations.

Local Open Scope string_scope.
Local Open Scope list_scope.
Local Open Scope Z_scope.

Set Implicit Arguments.

(* ================================================================== *)
(** * Exceptions and results *)

(** The messages the module formats into its [ValueError]s and log lines.
    The format arguments are kept as data instead of rendered text. *)
Inductive message : Type :=
| msg_no_syspath (devpath syspath : string)
    (* "%s had no syspath (%s)" *)
| msg_both_none
    (* "Blockdev and sysfs_path cannot both be None" *)
| msg_short_read (got expected after : Z)
    (* "short read on reader got %d expected %d after %d" *)
| msg_not_file_or_blockdev
    (* "%s: not an existing file or block device" *)
| m_badoff (path : string) (size offset : Z) (strict : bool)
    (* "{path} (size={size}): invalid offset {offset}." [+ " Skipping."] *)
| m_short (path : string) (size tot offset wsize : Z) (strict : bool)
    (* "{path} (size={size}): {tot} bytes from {offset} > size."
       [+ " Shortened to {wsize} bytes."] *)
| msg_no_closing_quotation
| msg_no_escaped_character
| msg_unpack (got : nat)
    (* "not enough values to unpack" / "too many values to unpack" *)
| msg_invalid_literal (s : string)
    (* "invalid literal for int() with base 10" *)
| msg_no_uuid (devpath : string)
    (* "Target partition %s doesn't have UUID assigned" *)
| msg_wiping (path : string) (size buflen : Z)
    (* "%s is %s bytes. wiping with buflen=%s" *)
| msg_wiping_1M (path : string) (offsets : list Z)
    (* "wiping 1M on %s at offsets %s" *)
| msg_text (s : string).

Inductive exn : Type :=
| ValueError (m : message)
| KeyError (key : string)
| TypeError
| OSError (errno : Z) (about : string)
| ProcessExecutionError (cmd : list string) (exit_code : Z).

Inductive result (A : Type) : Type :=
| Ret (a : A)
| Raise (e : exn).
Arguments Ret {A} a.
Arguments Raise {A} e.

Definition rbind {A B} (r : result A) (k : A -> result B) : result B :=
  match r with
  | Ret a => k a
  | Raise e => Raise e
  end.

Notation "'let?' x ':=' r 'in' k" := (rbind r (fun x => k))
  (at level 10, x pattern, r at level 100, k at level 200).

(** [for x in l: acc = body(acc, x)], the first raise ends the loop. *)
Fixpoint rfold {A B} (body : B -> A -> result B) (l : list A) (acc : B)
  : result B :=
  match l with
  | [] => Ret acc
  | x :: l' => let? acc' := body acc x in rfold body l' acc'
  end.

Definition ENOENT : Z := 2.

(* ================================================================== *)
(** * Python strings *)

Definition startswith (s p : string) : bool := String.prefix p s.

(** [sub in s] *)
Fixpoint contains (sub s : string) : bool :=
  String.prefix sub s ||
  match s with
  | EmptyString => false
  | String _ s' => contains sub s'
  end.

(** [s.split(sep)] for a non-empty [sep]: the pieces between the
    occurrences of [sep] found left to right without overlap.  The first
    component of [split_from] is the piece being read, [skip] counts the
    characters of a matched separator that are still to be passed. *)
Fixpoint split_from (sep : string) (skip : nat) (s : string)
  : string * list string :=
  match s with
  | EmptyString => (EmptyString, [])
  | String c s' =>
      match skip with
      | S k => split_from sep k s'
      | O =>
          if String.prefix sep s
          then (EmptyString,
                let (p, ps) := split_from sep (String.length sep - 1) s' in
                p :: ps)
          else let (p, ps) := split_from sep O s' in (String c p, ps)
      end
  end.

Definition split (s sep : string) : list string :=
  let (p, ps) := split_from sep O s in p :: ps.

(** [l[-1]] on a list known to be non-empty ([split] never returns []). *)
Definition last_item (l : list string) : string := List.last l EmptyString.

(** [s.split(c, 1)] for a one-character separator: at most one cut. *)
Fixpoint split1 (s : string) (c : ascii) : list string :=
  match s with
  | EmptyString => [EmptyString]
  | String a s' =>
      if Ascii.eqb a c then [EmptyString; s']
      else match split1 s' c with
           | p :: ps => String a p :: ps
           | [] => [String a EmptyString]
           end
  end.

(** [k, v = tok.split(c, 1)]: unpacking needs exactly two pieces. *)
Definition unpack2 (l : list string) : result (string * string) :=
  match l with
  | [k; v] => Ret (k, v)
  | _ => Raise (ValueError (msg_unpack (List.length l)))
  end.

(** [s.replace(a, b)] for one-character [a] and [b]. *)
Fixpoint replace (s : string) (a b : ascii) : string :=
  match s with
  | EmptyString => EmptyString
  | String c s' => String (if Ascii.eqb c a then b else c) (replace s' a b)
  end.

(** [sep.join(l)] *)
Definition join (sep : string) (l : list string) : string :=
  String.concat sep l.

Definition LF : ascii := "010"%char.
Definition CR : ascii := "013"%char.

(** Line boundaries of [str.splitlines] in the ASCII range. *)
Definition is_linebreak (c : ascii) : bool :=
  match nat_of_ascii c with
  | 10 | 11 | 12 | 13 | 28 | 29 | 30 => true
  | _ => false
  end%nat.

(** [s.splitlines()]: no line ends are kept, "\r\n" is one boundary and a
    final boundary opens no empty last line. *)
Fixpoint splitlines (s : string) : list string :=
  match s with
  | EmptyString => []
  | String c s' =>
      if is_linebreak c then
        match s' with
        | String c' s'' =>
            if Ascii.eqb c CR && Ascii.eqb c' LF
            then EmptyString :: splitlines s''
            else EmptyString :: splitlines s'
        | EmptyString => [EmptyString]
        end
      else
        match splitlines s' with
        | [] => [String c EmptyString]
        | l :: ls => String c l :: ls
        end
  end.

(** Whitespace in the ASCII range, as [str.strip()], [str.split()] and
    [int()] see it. *)
Definition is_space (c : ascii) : bool :=
  match nat_of_ascii c with
  | 9 | 10 | 11 | 12 | 13 | 28 | 29 | 30 | 31 | 32 => true
  | _ => false
  end%nat.

Fixpoint lstrip (s : string) : string :=
  match s with
  | EmptyString => EmptyString
  | String c s' => if is_space c then lstrip s' else s
  end.

(** [s.rstrip()] *)
Fixpoint rstrip (s : string) : string :=
  match s with
  | EmptyString => EmptyString
  | String c s' =>
      match rstrip s' with
      | EmptyString => if is_space c then EmptyString else String c EmptyString
      | t => String c t
      end
  end.

Definition strip (s : string) : string := lstrip (rstrip s).

(** [s.rstrip('\n')] *)
Fixpoint rstrip_newlines (s : string) : string :=
  match s with
  | EmptyString => EmptyString
  | String c s' =>
      match rstrip_newlines s' with
      | EmptyString => if Ascii.eqb c LF then EmptyString else String c EmptyString
      | t => String c t
      end
  end.

(** [s.split(None, maxsplit)]: fields separated by runs of whitespace; after
    [maxsplit] cuts the rest of the string, leading whitespace removed, is
    the last field.  [word] reads one field off the front. *)
Fixpoint word (s : string) : string * string :=
  match s with
  | EmptyString => (EmptyString, EmptyString)
  | String c s' =>
      if is_space c then (EmptyString, s)
      else let (w, rest) := word s' in (String c w, rest)
  end.

Fixpoint split_ws_fuel (fuel : nat) (maxsplit : nat) (s : string) : list string :=
  match fuel with
  | O => []
  | S fuel' =>
      match lstrip s with
      | EmptyString => []
      | t =>
          match maxsplit with
          | O => [t]
          | S m => let (w, rest) := word t in w :: split_ws_fuel fuel' m rest
          end
      end
  end.

Definition split_ws (s : string) (maxsplit : nat) : list string :=
  split_ws_fuel (S (String.length s)) maxsplit s.

(** [int(s)] in base 10: surrounding whitespace, an optional sign and at
    least one decimal digit (ASCII digits only). *)
Definition digit_of (c : ascii) : option Z :=
  let n := nat_of_ascii c in
  if ((48 <=? n) && (n <=? 57))%nat then Some (Z.of_nat n - 48) else None.

(** Decimal digits, single underscores allowed between two digits. *)
Fixpoint digits_value (acc : Z) (after_digit : bool) (s : string) : option Z :=
  match s with
  | EmptyString => if after_digit then Some acc else None
  | String c s' =>
      match digit_of c with
      | Some d => digits_value (10 * acc + d) true s'
      | None =>
          if Ascii.eqb c "_" && after_digit then
            match s' with
            | String c' _ =>
                match digit_of c' with
                | Some _ => digits_value acc false s'
                | None => None
                end
            | EmptyString => None
            end
          else None
      end
  end.

Definition unsigned_value (s : string) : option Z := digits_value 0 false s.

Definition int (s : string) : result Z :=
  let t := strip s in
  let v :=
    match t with
    | String "-" t' => option_map Z.opp (unsigned_value t')
    | String "+" t' => unsigned_value t'
    | _ => unsigned_value t
    end in
  match v with
  | Some z => Ret z
  | None => Raise (ValueError (msg_invalid_literal s))
  end.

(* ================================================================== *)
(** * posixpath *)

Definition sep : string := "/".

(** Everything after the last "/" ([p[p.rfind('/')+1:]]). *)
Fixpoint basename (p : string) : string :=
  match p with
  | EmptyString => EmptyString
  | String c p' =>
      if contains sep p then
        if Ascii.eqb c "/" && negb (contains sep p') then p' else basename p'
      else p
  end.

(** Everything up to and including the last "/" ([p[:p.rfind('/')+1]]). *)
Fixpoint head_to_last_slash (p : string) : string :=
  match p with
  | EmptyString => EmptyString
  | String c p' =>
      if contains sep p then String c (head_to_last_slash p') else EmptyString
  end.

Fixpoint all_slashes (s : string) : bool :=
  match s with
  | EmptyString => true
  | String c s' => Ascii.eqb c "/" && all_slashes s'
  end.

Fixpoint rstrip_slashes (s : string) : string :=
  match s with
  | EmptyString => EmptyString
  | String c s' =>
      match rstrip_slashes s' with
      | EmptyString => if Ascii.eqb c "/" then EmptyString else String c EmptyString
      | t => String c t
      end
  end.

Definition dirname (p : string) : string :=
  let head := head_to_last_slash p in
  if all_slashes head then head else rstrip_slashes head.

Fixpoint endswith_slash (s : string) : bool :=
  match s with
  | EmptyString => false
  | String c EmptyString => Ascii.eqb c "/"
  | String _ s' => endswith_slash s'
  end.

(** [os.path.join(a, b)] *)
Definition path_join (a b : string) : string :=
  if startswith b "/" then b
  else match a with
       | EmptyString => b
       | _ => if endswith_slash a then (a ++ b)%string
              else (a ++ "/" ++ b)%string
       end.

(** [os.path.normpath] *)
Definition norm_step (initial_slashes : bool) (new_comps : list string)
  (comp : string) : list string :=
  if String.eqb comp "" || String.eqb comp "." then new_comps
  else if negb (String.eqb comp "..")
          || (negb initial_slashes && match new_comps with [] => true | _ => false end)
          || String.eqb (List.last new_comps "") ".."
       then new_comps ++ [comp]
       else List.removelast new_comps.

Definition normpath (path : string) : string :=
  match path with
  | EmptyString => "."
  | _ =>
      let initial : nat :=
        if startswith path "/" then
          if startswith path "//" && negb (startswith path "///")
          then 2%nat else 1%nat
        else 0%nat in
      let comps := fold_left (norm_step (negb (Nat.eqb initial 0)))
                     (split path "/") [] in
      let p := (match initial with
                | O => ""
                | S O => "/"
                | _ => "//"
                end ++ join "/" comps)%string in
      match p with
      | EmptyString => "."
      | _ => p
      end
  end.

(* ================================================================== *)
(** * Python dicts, sets and slices *)

Definition dict (V : Type) : Type := list (string * V).

Fixpoint dict_get {V} (d : dict V) (k : string) : option V :=
  match d with
  | [] => None
  | (k', v) :: d' => if String.eqb k' k then Some v else dict_get d' k
  end.

(** [d[k] = v]: an existing key keeps its place, a new one goes last. *)
Fixpoint dict_set {V} (d : dict V) (k : string) (v : V) : dict V :=
  match d with
  | [] => [(k, v)]
  | (k', v') :: d' =>
      if String.eqb k' k then (k, v) :: d' else (k', v') :: dict_set d' k v
  end.

(** [d[k]] *)
Definition dict_item {V} (d : dict V) (k : string) : result V :=
  match dict_get d k with
  | Some v => Ret v
  | None => Raise (KeyError k)
  end.

(** [dict(pairs)] *)
Definition dict_of_pairs {V} (l : list (string * V)) : dict V :=
  fold_left (fun d kv => dict_set d (fst kv) (snd kv)) l [].

Definition mem (x : string) (l : list string) : bool :=
  existsb (String.eqb x) l.

(** [s.add(x)] *)
Definition set_add (s : list string) (x : string) : list string :=
  if mem x s then s else s ++ [x].

(** [itertools.combinations(l, 2)] *)
Fixpoint combinations2 {A} (l : list A) : list (A * A) :=
  match l with
  | [] => []
  | x :: l' => map (fun y => (x, y)) l' ++ combinations2 l'
  end.

(** [b[0:n]]: a negative [n] counts from the end. *)
Definition slice0 {A} (b : list A) (n : Z) : list A :=
  if 0 <=? n then firstn (Z.to_nat n) b
  else firstn (Z.to_nat (Z.of_nat (List.length b) + n)) b.

(** [b'\0' * n] *)
Definition zeros (n : Z) : list byte := repeat x00 (Z.to_nat n).

Definition blen (b : list byte) : Z := Z.of_nat (List.length b).

(* ================================================================== *)
(** * shlex.split *)

(** The lexer of [shlex.split(s)]: POSIX mode, split on whitespace only, no
    comment characters.  [LxEscape es] is the state after a backslash;
    [es] is the state to return to: a word ([None]) or a quotation. *)
Inductive lexstate : Type :=
| LxSpace
| LxWord
| LxQuote (q : ascii)
| LxEscape (escapedstate : option ascii).

Definition shlex_whitespace (c : ascii) : bool :=
  match nat_of_ascii c with
  | 32 | 9 | 13 | 10 => true
  | _ => false
  end%nat.

Definition DQUOTE : ascii := "034"%char.

Definition shlex_quote (c : ascii) : bool :=
  Ascii.eqb c "'" || Ascii.eqb c DQUOTE.

Definition shlex_escape (c : ascii) : bool := Ascii.eqb c "\".

Definition snoc (s : string) (c : ascii) : string :=
  (s ++ String c EmptyString)%string.

Fixpoint shlex_run (st : lexstate) (token : string) (s : string)
  : result (list string) :=
  match s with
  | EmptyString =>
      match st with
      | LxSpace => Ret []
      | LxWord => Ret [token]
      | LxQuote _ => Raise (ValueError msg_no_closing_quotation)
      | LxEscape _ => Raise (ValueError msg_no_escaped_character)
      end
  | String c s' =>
      match st with
      | LxSpace =>
          if shlex_whitespace c then shlex_run LxSpace EmptyString s'
          else if shlex_escape c then shlex_run (LxEscape None) EmptyString s'
          else if shlex_quote c then shlex_run (LxQuote c) EmptyString s'
          else shlex_run LxWord (String c EmptyString) s'
      | LxWord =>
          if shlex_whitespace c then
            let? rest := shlex_run LxSpace EmptyString s' in Ret (token :: rest)
          else if shlex_quote c then shlex_run (LxQuote c) token s'
          else if shlex_escape c then shlex_run (LxEscape None) token s'
          else shlex_run LxWord (snoc token c) s'
      | LxQuote q =>
          if Ascii.eqb c q then shlex_run LxWord token s'
          else if shlex_escape c && Ascii.eqb q DQUOTE
               then shlex_run (LxEscape (Some q)) token s'
               else shlex_run (LxQuote q) (snoc token c) s'
      | LxEscape None => shlex_run LxWord (snoc token c) s'
      | LxEscape (Some q) =>
          let token' :=
            if negb (shlex_escape c) && negb (Ascii.eqb c q)
            then snoc token "\"%char else token in
          shlex_run (LxQuote q) (snoc token' c) s'
      end
  end.

Definition shlex_split (s : string) : result (list string) :=
  shlex_run LxSpace EmptyString s.

(* ================================================================== *)
(** * Device naming *)

Definition get_dev_name_entry (devname : string) : string * string :=
  let bname := last_item (split devname "/dev/") in
  (bname, ("/dev/" ++ bname)%string).

Definition dev_short (devname : string) : string :=
  if contains sep devname then basename devname else devname.

Definition dev_path (devname : string) : string :=
  if startswith devname "/dev/" then devname
  else ("/dev/" ++ devname)%string.

(* ================================================================== *)
(** * The block-listing parser *)

Definition _lsblock_pairs_to_dict (lines : string)
  : result (dict (dict string)) :=
  rfold (fun ret line =>
           let? toks := shlex_split line in
           let? cur := rfold (fun cur tok =>
                                let? (k, v) := unpack2 (split1 tok "=") in
                                Ret (dict_set cur k v))
                             toks [] in
           (* use KNAME, as NAME may include spaces and other info *)
           let? kname := dict_item cur "KNAME" in
           let cur := dict_set cur "device_path"
                        (snd (get_dev_name_entry kname)) in
           let? kname := dict_item cur "KNAME" in
           Ret (dict_set ret kname cur))
        (splitlines lines) [].

(* ================================================================== *)
(** * The system the module runs on *)

(** The file type bits of [st_mode]. *)
Inductive file_type : Type :=
| S_IFBLK | S_IFCHR | S_IFDIR | S_IFIFO | S_IFREG | S_IFSOCK.

Definition S_ISBLK (t : file_type) : bool :=
  match t with S_IFBLK => true | _ => false end.

Definition S_ISREG (t : file_type) : bool :=
  match t with S_IFREG => true | _ => false end.

Inductive level : Type := DEBUG | WARN.

(** The state of the machine as the module observes it.  Paths name
    objects one to one: two paths are two objects. *)
Record World : Type := mkWorld {
  os_stat : string -> result file_type;      (* os.stat(p).st_mode *)
  os_path_realpath : string -> string;
  os_listdir : string -> result (list string);
  read_text : string -> result string;       (* open(p, "r").read() *)
  file_data : string -> result (list byte);  (* the bytes behind open(p, "rb+") *)
  LOG : list (level * message)               (* records written so far *)
}.

Definition M (A : Type) : Type := World -> result A * World.

Definition ret {A} (a : A) : M A := fun w => (Ret a, w).

Definition raise {A} (e : exn) : M A := fun w => (Raise e, w).

Definition bind {A B} (m : M A) (k : A -> M B) : M B :=
  fun w =>
    match m w with
    | (Ret a, w') => k a w'
    | (Raise e, w') => (Raise e, w')
    end.

Notation "x <- m ;; k" := (bind m (fun x => k))
  (at level 61, m at next level, right associativity).
Notation "' p <- m ;; k" := (bind m (fun x => match x with p => k end))
  (at level 61, p pattern, m at next level, right associativity).
Notation "m ;; k" := (bind m (fun _ => k))
  (at level 61, right associativity).

(** A pure computation that may raise, run inside [M]. *)
Definition lift {A} (r : result A) : M A := fun w => (r, w).

(** A read-only observation of the world. *)
Definition ask {A} (f : World -> A) : M A := fun w => (Ret (f w), w).

Definition query {A} (f : World -> result A) : M A := fun w => (f w, w).

(** [for x in l: body(x)] with an accumulator for the loop's variables. *)
Fixpoint mfold {A B} (body : B -> A -> M B) (l : list A) (acc : B) : M B :=
  match l with
  | [] => ret acc
  | x :: l' => acc' <- body acc x ;; mfold body l' acc'
  end.

(** [for i in range(n): acc = body(acc)] *)
Fixpoint mrepeat {B} (n : nat) (body : B -> M B) (acc : B) : M B :=
  match n with
  | O => ret acc
  | S n' => acc' <- body acc ;; mrepeat n' body acc'
  end.

Definition log_debug (m : message) : M unit :=
  fun w => (Ret tt, mkWorld (os_stat w) (os_path_realpath w) (os_listdir w)
                      (read_text w) (file_data w) (LOG w ++ [(DEBUG, m)])).

Definition log_warn (m : message) : M unit :=
  fun w => (Ret tt, mkWorld (os_stat w) (os_path_realpath w) (os_listdir w)
                      (read_text w) (file_data w) (LOG w ++ [(WARN, m)])).

(** [os.path.exists] and [os.path.isfile]: a failing [stat] means no. *)
Definition os_path_exists (p : string) : M bool :=
  ask (fun w => match os_stat w p with Ret _ => true | Raise _ => false end).

Definition os_path_isfile (p : string) : M bool :=
  ask (fun w => match os_stat w p with Ret t => S_ISREG t | Raise _ => false end).

(** What the module takes from [curtin.util], [curtin.udev] and from the
    tools it runs; their code is outside the module. *)
Class Collaborators : Type := {
  util_subp : list string -> list Z -> M (string * string);
      (* util.subp(cmd, rcs=..., capture=True) -> (out, err) *)
  util_load_file : string -> World -> result string;
      (* util.load_file(path): the text of a file; it only reads *)
  util_is_file_not_found_exc : exn -> bool;
  udevadm_settle : M unit;
  os_unlink : string -> M unit
}.

(** [try: m  except <the exceptions h answers> as e: h e] *)
Definition try_except {A} (m : M A) (h : exn -> option (M A)) : M A :=
  fun w =>
    match m w with
    | (Ret a, w') => (Ret a, w')
    | (Raise e, w') =>
        match h e with
        | Some k => k w'
        | None => (Raise e, w')
        end
    end.

(** [for x in l: ... return r ...]: the loop ends at the first [return]. *)
Fixpoint mfor_return {A R} (body : A -> M (option R)) (l : list A)
  : M (option R) :=
  match l with
  | [] => ret None
  | x :: l' =>
      r <- body x ;;
      match r with
      | Some v => ret (Some v)
      | None => mfor_return body l'
      end
  end.

(** Truth value of a string or [None]. *)
Definition truthy (o : option string) : bool :=
  match o with
  | Some (String _ _) => true
  | _ => false
  end.

Definition opt_eqb (a b : option string) : bool :=
  match a, b with
  | Some x, Some y => String.eqb x y
  | None, None => true
  | _, _ => false
  end.

(* ================================================================== *)
(** * curtin/block/__init__.py *)

Section Block.

Context {collab : Collaborators}.

Definition is_block_device (path : string) : M bool :=
  try_except
    (t <- query (fun w => os_stat w path) ;; ret (S_ISBLK t))
    (fun e =>
       match e with
       | OSError _ _ =>
           Some (if negb (util_is_file_not_found_exc e)
                 then raise e
                 else ret false)
       | _ => None
       end).

Definition is_valid_device (devname : string) : M bool :=
  let devent := snd (get_dev_name_entry devname) in
  is_block_device devent.

Definition get_blockdev_for_partition (devpath : string)
  : M (string * option string) :=
  rpath <- ask (fun w => os_path_realpath w devpath) ;;
  let bname := basename rpath in
  let syspath := ("/sys/class/block/" ++ bname)%string in
  ex <- os_path_exists syspath ;;
  syspath' <-
    (if negb ex then
       let syspath2 := ("/sys/class/block/cciss!" ++ bname)%string in
       ex2 <- os_path_exists syspath2 ;;
       if negb ex2
       then raise (ValueError (msg_no_syspath devpath syspath))
       else ret syspath2
     else ret syspath) ;;
  let ptpath := path_join syspath' "partition" in
  exp <- os_path_exists ptpath ;;
  if negb exp then ret (rpath, None)
  else
    ptraw <- query (util_load_file ptpath) ;;
    let ptnum := rstrip ptraw in
    rsyspath <- ask (fun w => os_path_realpath w syspath') ;;
    let disksyspath := dirname rsyspath in
    mmraw <- query (util_load_file (path_join disksyspath "dev")) ;;
    let diskmajmin := rstrip mmraw in
    diskdevpath <-
      ask (fun w => os_path_realpath w ("/dev/block/" ++ diskmajmin)%string) ;;
    ret (diskdevpath, Some ptnum).

Definition sys_block_path (devname : string) (add : option string)
  (strict : bool) : M string :=
  let toks := ["/sys/class/block"] in
  (* insert parent dev if devname is partition *)
  ' (parent, partnum) <- get_blockdev_for_partition devname ;;
  let toks := if truthy partnum then toks ++ [dev_short parent] else toks in
  let toks := toks ++ [dev_short devname] in
  let toks := match add with Some a => toks ++ [a] | None => toks end in
  let path := join sep toks in
  ex <- os_path_exists path ;;
  if strict && negb ex then raise (OSError ENOENT path)
  else ret (normpath path).

(** [os.path.join(p, q)] where [p] may be [None] (a [TypeError]). *)
Definition path_join_opt (p : option string) (q : string) : M string :=
  match p with
  | Some p' => ret (path_join p' q)
  | None => raise TypeError
  end.

(** One entry of [sysfs_partition_data]: (kernel name, number, offset, size). *)
Definition ptentry : Type := (string * Z * Z * Z)%type.

Definition sysfs_partition_data (blockdev sysfs_path : option string)
  : M (list ptentry) :=
  match blockdev, sysfs_path with
  | None, None => raise (ValueError msg_both_none)
  | _, _ =>
      sysfs_path <-
        (match blockdev with
         | Some (String _ _ as b) =>
             p <- sys_block_path b None true ;; ret (Some p)
         | _ => ret sysfs_path
         end) ;;
      let ptdata : list ptentry := [] in
      (* queue property is only on parent devices, ie, we can't read
         /sys/class/block/vda/vda1/queue/* as queue is only on the
         parent device *)
      ' (parent, partnum) <-
        (match blockdev with
         | Some b => get_blockdev_for_partition b
         | None => raise TypeError     (* os.path.realpath(None) *)
         end) ;;
      let sysfs_prefix := sysfs_path in
      sysfs_prefix <-
        (if truthy partnum
         then p <- sys_block_path parent None true ;; ret (Some p)
         else ret sysfs_prefix) ;;
      f <- path_join_opt sysfs_prefix "queue/logical_block_size" ;;
      s <- query (util_load_file f) ;;
      block_size <- lift (int s) ;;
      f <- path_join_opt sysfs_path "queue/logical_block_size" ;;
      s <- query (util_load_file f) ;;
      block_size <- lift (int s) ;;
      let unit := block_size in
      match sysfs_path with
      | None => raise TypeError     (* not reached: the join above raised *)
      | Some sysfs_path =>
      ds <- query (fun w => os_listdir w sysfs_path) ;;
      mfold (fun ptdata d =>
               let partd := path_join sysfs_path d in
               data <- mfold (fun (data : dict Z) sfile =>
                                let dfile := path_join partd sfile in
                                isf <- os_path_isfile dfile ;;
                                if negb isf then ret data
                                else
                                  s <- query (util_load_file dfile) ;;
                                  v <- lift (int s) ;;
                                  ret (dict_set data sfile v))
                             ["partition"; "start"; "size"] [] ;;
               match dict_get data "partition" with
               | None => ret ptdata
               | Some partition =>
                   start <- lift (dict_item data "start") ;;
                   size <- lift (dict_item data "size") ;;
                   ret (ptdata ++ [(d, partition, start * unit, size * unit)])
               end)
            ds ptdata
      end
  end.

Definition lsblk_keys : list string :=
  ["ALIGNMENT"; "DISC-ALN"; "DISC-GRAN"; "DISC-MAX"; "DISC-ZERO";
   "FSTYPE"; "GROUP"; "KNAME"; "LABEL"; "LOG-SEC"; "MAJ:MIN";
   "MIN-IO"; "MODE"; "MODEL"; "MOUNTPOINT"; "NAME"; "OPT-IO"; "OWNER";
   "PHY-SEC"; "RM"; "RO"; "ROTA"; "RQ-SIZE"; "SCHED"; "SIZE"; "STATE";
   "TYPE"; "UUID"].

(** [l.remove(x)] for an [x] that is in [l]: the first occurrence goes. *)
Fixpoint list_remove (l : list string) (x : string) : list string :=
  match l with
  | [] => []
  | y :: l' => if String.eqb y x then l' else y :: list_remove l' x
  end.

Definition _lsblock (args : option (list string)) : M (dict (dict string)) :=
  let keys := lsblk_keys in
  let args := match args with None => [] | Some a => a end in
  let args := map (fun x => replace x "!" "/") args in
  (* in order to avoid a very odd error with '-o' and all output fields
     above we just drop one.  doesn't really matter which one. *)
  let keys := list_remove keys "SCHED" in
  let basecmd := ["lsblk"; "--noheadings"; "--bytes"; "--pairs";
                  ("--output=" ++ join "," keys)%string] in
  ' (out, _err) <- util_subp (basecmd ++ args) [0] ;;
  let out := replace out "!" "/" in
  lift (_lsblock_pairs_to_dict out).

Definition get_unused_blockdev_info : M (dict (dict string)) :=
  bdinfo <- _lsblock (Some ["--nodeps"]) ;;
  mfold (fun unused (item : string * dict string) =>
           let (devname, data) := item in
           p <- lift (dict_item data "device_path") ;;
           cur <- _lsblock (Some [p]) ;;
           let mountpoints :=
             filter (fun x => truthy (dict_get (snd x) "MOUNTPOINT")) cur in
           if (List.length mountpoints =? 0)%nat
           then ret (dict_set unused devname data)
           else ret unused)
        bdinfo [].

(** One line of /proc/mounts. *)
Record mount : Type := mkMount {
  m_dev : string; m_mp : string; m_vfs : string;
  m_opts : string; m_freq : string; m_passno : string
}.

Definition get_proc_mounts : M (list mount) :=
  text <- query (fun w => read_text w "/proc/mounts") ;;
  ret (fold_left
         (fun mounts line =>
            match split_ws (strip line) 5 with
            | [dev; mp; vfs; opts; freq; passno] =>
                mounts ++ [mkMount dev mp vfs opts freq passno]
            | _ => mounts                      (* except ValueError: continue *)
            end)
         (split text (String LF EmptyString)) []).

Definition get_devices_for_mp (mountpoint : string) : M (list string) :=
  bdinfo <- _lsblock None ;;
  found <- mfold (fun found (item : string * dict string) =>
                    let (devname, data) := item in
                    mp <- lift (dict_item data "MOUNTPOINT") ;;
                    if String.eqb mp mountpoint
                    then p <- lift (dict_item data "device_path") ;;
                         ret (set_add found p)
                    else ret found)
                 bdinfo [] ;;
  match found with
  | _ :: _ => ret found
  | [] =>
      mounts <- get_proc_mounts ;;
      mfold (fun acc m =>
               if String.eqb (m_mp m) mountpoint
               then p <- ask (fun w => os_path_realpath w (m_dev m)) ;;
                    ret (acc ++ [p])
               else ret acc)
            mounts []
  end.

Definition opt_neqb (a : option string) (b : string) : bool :=
  negb (opt_eqb a (Some b)).

Definition rescan_block_devices : M unit :=
  unused <- get_unused_blockdev_info ;;
  devices <- mfold (fun devices (item : string * dict string) =>
                      let (devname, data) := item in
                      if opt_eqb (dict_get data "RM") (Some "1") then ret devices
                      else if opt_neqb (dict_get data "RO") "0"
                              || opt_neqb (dict_get data "TYPE") "disk"
                      then ret devices
                      else p <- lift (dict_item data "device_path") ;;
                           ret (devices ++ [p]))
                   unused [] ;;
  match devices with
  | [] => log_debug (msg_text "no devices found to rescan")
  | _ =>
      let cmd := ["blockdev"; "--rereadpt"] ++ devices in
      try_except
        (_ <- util_subp cmd [0] ;; ret tt)
        (fun e =>
           match e with
           | ProcessExecutionError _ _ =>
               Some (log_warn (msg_text "rescanning devices failed"))
           | _ => None
           end) ;;
      udevadm_settle
  end.

Definition blkid (devs : option (list string)) (cache : bool)
  : M (dict (dict string)) :=
  (if negb cache then
     mfold (fun (_ : unit) cachefile =>
              ex <- os_path_exists cachefile ;;
              if ex then os_unlink cachefile else ret tt)
           ["/run/blkid/blkid.tab"; "/dev/.blkid.tab"; "/etc/blkid.tab"] tt
   else ret tt) ;;
  let cmd := ["blkid"; "-o"; "full"] in
  ' (out, err) <- util_subp cmd [0] ;;
  lift (rfold (fun data line =>
                 let? (curdev, curdata) := unpack2 (split1 line ":") in
                 let? toks := shlex_split curdata in
                 let? pairs := rfold (fun acc tok =>
                                        let? kv := unpack2 (split1 tok "=") in
                                        Ret (acc ++ [kv]))
                                     toks [] in
                 Ret (dict_set data curdev (dict_of_pairs pairs)))
              (splitlines out) []).

Definition detect_multipath (target_mountpoint : string) : M bool :=
  rescan_block_devices ;;
  binfo <- blkid None false ;;
  log_debug (msg_text "detect_multipath found blkid info") ;;
  target_devs <- get_devices_for_mp target_mountpoint ;;
  log_debug (msg_text "target_devs") ;;
  r <- mfor_return
         (fun (item : string * dict string) =>
            let (devpath, data) := item in
            (* We need to figure out UUID of the target device first *)
            if negb (mem devpath target_devs) then ret None
            else
              let target_uuid := dict_get data "UUID" in
              if negb (truthy target_uuid) then
                log_warn (msg_no_uuid devpath) ;; ret None
              else
                log_debug (msg_text "devpath: uuid") ;;
                mfor_return
                  (fun (other : string * dict string) =>
                     let (other_devpath, other_data) := other in
                     if opt_eqb (dict_get other_data "UUID") target_uuid
                        && negb (String.eqb other_devpath devpath)
                     then ret (Some true)
                     else ret None)
                  binfo)
         binfo ;;
  match r with
  | Some b => ret b
  | None => ret false
  end.

Definition get_scsi_wwid (device : string) (replace_whitespace : bool)
  : M (option string) :=
  let cmd := ["/lib/udev/scsi_id"; "--whitelisted";
              ("--device=" ++ device)%string] in
  let cmd := if replace_whitespace then cmd ++ ["--replace-whitespace"]
             else cmd in
  try_except
    (' (out, err) <- util_subp cmd [0] ;;
     let scsi_wwid := rstrip_newlines out in
     ret (Some scsi_wwid))
    (fun e =>
       match e with
       | ProcessExecutionError _ _ =>
           Some (log_warn (msg_text "Failed to get WWID") ;; ret None)
       | _ => None
       end).

Definition get_multipath_wwids : M (list string) :=
  let multipath_devices : list string := [] in
  let multipath_wwids : list string := [] in
  binfo <- blkid None true ;;
  let devuuids :=
    flat_map (fun (item : string * dict string) =>
                match dict_get (snd item) "UUID" with
                | Some u => [(fst item, u)]
                | None => []
                end) binfo in
  (* Looking for two disks which contain filesystems with the same UUID. *)
  multipath_devices <-
    mfold (fun devices (pr : (string * string) * (string * string)) =>
             let '((dev1, uuid1), (dev2, uuid2)) := pr in
             if String.eqb uuid1 uuid2
             then ' (disk, _) <- get_blockdev_for_partition dev1 ;;
                  ret (set_add devices disk)
             else ret devices)
          (combinations2 devuuids) multipath_devices ;;
  mfold (fun wwids device =>
           wwid <- get_scsi_wwid device false ;;
           match wwid with
           | Some (String _ _ as x) => ret (set_add wwids x)
           | _ => ret wwids
           end)
        multipath_devices multipath_wwids.

End Block.

(* ================================================================== *)
(** * File objects *)

(** [write_at pos b c]: the content [c] after [b] is written at offset
    [pos]: the bytes under [b] are replaced, a write that ends past the end
    makes the file longer, a gap before [pos] reads as zeros. *)
Definition write_at (pos : Z) (b c : list byte) : list byte :=
  match b with
  | [] => c
  | _ =>
      let p := Z.to_nat pos in
      firstn p c ++ repeat x00 (p - List.length c)
        ++ b ++ skipn (p + List.length b) c
  end.

Definition set_file_data (path : string) (c : list byte) (w : World) : World :=
  mkWorld (os_stat w) (os_path_realpath w) (os_listdir w) (read_text w)
    (fun q => if String.eqb q path then Ret c else file_data w q)
    (LOG w).

(** A file object opened on [name], positioned at [pos]. *)
Record file : Type := mkFile { name : string; pos : Z }.

(** [open(path, "rb+")]: no truncation, position 0. *)
Definition open_rb_plus (path : string) : M file :=
  fun w =>
    match file_data w path with
    | Ret _ => (Ret (mkFile path 0), w)
    | Raise e => (Raise e, w)
    end.

(** [fp.seek(0, 2)] *)
Definition seek_end (fp : file) : M file :=
  fun w =>
    match file_data w (name fp) with
    | Ret c => (Ret (mkFile (name fp) (blen c)), w)
    | Raise e => (Raise e, w)
    end.

(** [fp.seek(p)] *)
Definition seek (fp : file) (p : Z) : file := mkFile (name fp) p.

(** [fp.tell()] *)
Definition tell (fp : file) : Z := pos fp.

(** [fp.write(b)] *)
Definition write (fp : file) (b : list byte) : M file :=
  fun w =>
    match file_data w (name fp) with
    | Ret c =>
        (Ret (mkFile (name fp) (pos fp + blen b)),
         set_file_data (name fp) (write_at (pos fp) b c) w)
    | Raise e => (Raise e, w)
    end.

(* ================================================================== *)
(** * The wipe engine *)

(** The [while True] loop of [wipe_file].  [k] counts the calls made to
    the reader so far, [readfunc k] is what call number [k] returns.
    [None]: the loop is still running when the fuel is used up. *)
Fixpoint wipe_file_loop (fuel : nat) (readfunc : nat -> list byte)
  (buflen size : Z) (k : nat) (fp : file) (w : World)
  : option (result unit * World) :=
  match fuel with
  | O => None
  | S fuel' =>
      let pbuf := readfunc k in
      let pos := tell fp in
      if negb (blen pbuf =? buflen) && (blen pbuf + pos <? size) then
        Some (Raise (ValueError (msg_short_read (blen pbuf) buflen pos)), w)
      else if pos + buflen >=? size then
        match write fp (slice0 pbuf (size - pos)) w with
        | (Ret _, w') => Some (Ret tt, w')
        | (Raise e, w') => Some (Raise e, w')
        end
      else
        match write fp pbuf w with
        | (Ret fp', w') => wipe_file_loop fuel' readfunc buflen size (S k) fp' w'
        | (Raise e, w') => Some (Raise e, w')
        end
  end.

(** [wipe_file(path, reader, buflen)]; the default [buflen] is 4 MiB.  A
    reader is given by the buffers its successive calls return. *)
Definition wipe_file (fuel : nat) (path : string)
  (reader : option (nat -> list byte)) (buflen : Z) (w : World)
  : option (result unit * World) :=
  let readfunc :=
    match reader with
    | Some r => r
    | None => let buf := zeros buflen in fun _ => buf
    end in
  match (fp <- open_rb_plus path ;;
         (* get the size by seeking to end. *)
         fp <- seek_end fp ;;
         let size := tell fp in
         log_debug (msg_wiping path size buflen) ;;
         ret (size, seek fp 0)) w with
  | (Ret (size, fp), w') => wipe_file_loop fuel readfunc buflen size O fp w'
  | (Raise e, w') => Some (Raise e, w')
  end.

Definition zero_file_at_offsets (path : string) (offsets : list Z)
  (buflen count : Z) (strict : bool) : M unit :=
  let buf := zeros buflen in
  let tot := buflen * count in
  fp <- open_rb_plus path ;;
  (* get the size by seeking to end. *)
  fp <- seek_end fp ;;
  let size := tell fp in
  mfold (fun fp offset =>
           let pos := if offset <? 0 then size + offset else offset in
           if (pos >? size) || (pos <? 0) then
             if strict
             then raise (ValueError (m_badoff path size offset strict))
             else log_debug (m_badoff path size offset strict) ;; ret fp
           else
             let wsize := size - pos in
             (if pos + tot >? size then
                if strict
                then raise (ValueError (m_short path size tot offset wsize strict))
                else log_debug (m_short path size tot offset wsize strict)
              else ret tt) ;;
             let fp := seek fp pos in
             mrepeat (Z.to_nat count)
               (fun fp =>
                  let pos := tell fp in
                  if pos + buflen >? size
                  then write fp (slice0 buf (size - pos))
                  else write fp buf)
               fp)
        offsets fp ;;
  ret tt.

Section Wipe.

Context {collab : Collaborators}.

Definition quick_zero (path : string) (partitions : bool) : M unit :=
  (* zero 1M at front, 1M at end, and 1M at front
     if this is a block device and partitions is true, then
     zero 1M at front and end of each partition. *)
  let buflen := 1024 in
  let count := 1024 in
  let zero_size := buflen * count in
  let offsets := [0; - zero_size] in
  is_block <- is_block_device path ;;
  ok <- (if is_block then ret true else os_path_isfile path) ;;
  if negb ok then raise (ValueError msg_not_file_or_blockdev)
  else
    offsets <-
      (if partitions && is_block then
         ptdata <- sysfs_partition_data (Some path) None ;;
         ret (fold_left
                (fun offsets (e : ptentry) =>
                   let '(kname, ptnum, start, size) := e in
                   offsets ++ [start] ++ [start + size - zero_size])
                ptdata offsets)
       else ret offsets) ;;
    log_debug (msg_wiping_1M path offsets) ;;
    zero_file_at_offsets path offsets buflen count false.

End Wipe.

(* ================================================================== *)
(** * Functions used to state the properties *)

(** The iteration structure of [wipe_file] read off the reader alone:
    position before call [k], the short-read test and the last-block test
    at call [k], and the content after the first [k] full writes. *)
Fixpoint wipe_pos (readfunc : nat -> list byte) (k : nat) : Z :=
  match k with
  | O => 0
  | S k' => wipe_pos readfunc k' + blen (readfunc k')
  end.

Definition short_read_at (readfunc : nat -> list byte) (buflen size : Z)
  (k : nat) : Prop :=
  blen (readfunc k) <> buflen /\ blen (readfunc k) + wipe_pos readfunc k < size.

Definition last_block_at (readfunc : nat -> list byte) (buflen size : Z)
  (k : nat) : Prop :=
  wipe_pos readfunc k + buflen >= size.

(** Call [k] is made: no earlier call raised or wrote the last block. *)
Definition reaches (readfunc : nat -> list byte) (buflen size : Z)
  (k : nat) : Prop :=
  forall j, (j < k)%nat ->
    ~ short_read_at readfunc buflen size j /\
    ~ last_block_at readfunc buflen size j.

Fixpoint wipe_written (readfunc : nat -> list byte) (k : nat)
  (c : list byte) : list byte :=
  match k with
  | O => c
  | S k' =>
      write_at (wipe_pos readfunc k') (readfunc k') (wipe_written readfunc k' c)
  end.

(** The position an offset of [zero_file_at_offsets] resolves to. *)
Definition resolve (size offset : Z) : Z :=
  if offset <? 0 then size + offset else offset.

Definition inside (size offset : Z) : Prop :=
  0 <= resolve size offset <= size.

(** [zeroed a b c c']: [c'] is [c] with the bytes at [a <= i < b] zero. *)
Definition zeroed (a b : Z) (c c' : list byte) : Prop :=
  List.length c' = List.length c /\
  forall i : nat,
    nth i c' x00 =
    if (a <=? Z.of_nat i) && (Z.of_nat i <? b) then x00 else nth i c x00.

(** Two worlds that differ at most in the bytes behind [path]. *)
Definition same_but_data (path : string) (w w' : World) : Prop :=
  os_stat w' = os_stat w /\
  os_path_realpath w' = os_path_realpath w /\
  os_listdir w' = os_listdir w /\
  read_text w' = read_text w /\
  (forall q, q <> path -> file_data w' q = file_data w q).

Definition default_args (args : option (list string)) : list string :=
  match args with
  | None => []
  | Some a => a
  end.

(** The command line [_lsblock] builds for the arguments it is given. *)
Definition lsblk_cmd (args : list string) : list string :=
  ["lsblk"; "--noheadings"; "--bytes"; "--pairs";
   ("--output=" ++ join "," (list_remove lsblk_keys "SCHED"))%string]
  ++ args.

(** The [(device, UUID)] pairs [get_multipath_wwids] compares. *)
Definition devuuids_of (binfo : dict (dict string)) : list (string * string) :=
  flat_map (fun (item : string * dict string) =>
              match dict_get (snd item) "UUID" with
              | Some u => [(fst item, u)]
              | None => []
              end) binfo.

Definition scsi_id_cmd (device : string) : list string :=
  ["/lib/udev/scsi_id"; "--whitelisted"; ("--device=" ++ device)%string].

(* ================================================================== *)
(** * Example systems *)

Definition nl : string := String LF EmptyString.

Fixpoint assoc {V} (l : list (string * V)) (k : string) : option V :=
  match l with
  | [] => None
  | (k', v) :: l' => if String.eqb k' k then Some v else assoc l' k
  end.

Definition found {V} (l : list (string * V)) (k : string) : result V :=
  match assoc l k with
  | Some v => Ret v
  | None => Raise (OSError ENOENT k)
  end.

(** A system given by tables: file types, symbolic links resolved by
    [realpath], directory listings, text files and raw contents. *)
Definition system (types : list (string * file_type))
  (links : list (string * string)) (dirs : list (string * list string))
  (texts : list (string * string)) (datas : list (string * list byte))
  : World :=
  mkWorld (found types)
          (fun p => match assoc links p with Some t => t | None => p end)
          (found dirs) (found texts) (found datas) [].

Fixpoint cmd_eqb (a b : list string) : bool :=
  match a, b with
  | [], [] => true
  | x :: a', y :: b' => String.eqb x y && cmd_eqb a' b'
  | _, _ => false
  end.

Fixpoint answer (table : list (list string * string)) (cmd : list string)
  : result (string * string) :=
  match table with
  | [] => Raise (ProcessExecutionError cmd 1)
  | (c, out) :: table' =>
      if cmd_eqb c cmd then Ret (out, EmptyString) else answer table' cmd
  end.

Definition not_found_errno (e : exn) : bool :=
  match e with
  | OSError n _ => (n =? 2) || (n =? 5) || (n =? 6)   (* ENOENT, EIO, ENXIO *)
  | _ => false
  end.

(** Tools that answer from a table and change nothing. *)
Definition table_tools (table : list (list string * string)) : Collaborators :=
  {| util_subp := fun cmd _ => lift (answer table cmd);
     util_load_file := fun p w => read_text w p;
     util_is_file_not_found_exc := not_found_errno;
     udevadm_settle := ret tt;
     os_unlink := fun _ => ret tt |}.

(** Tools that print nothing and leave their command line in the log. *)
Definition recording_tools : Collaborators :=
  {| util_subp := fun cmd _ =>
       log_debug (msg_text (join " " cmd)) ;; ret (EmptyString, EmptyString);
     util_load_file := fun p w => read_text w p;
     util_is_file_not_found_exc := not_found_errno;
     udevadm_settle := ret tt;
     os_unlink := fun _ => ret tt |}.

(** A virtio disk [vda] with one partition [vda1], as sysfs shows it. *)
Definition vda_types : list (string * file_type) :=
  [("/dev/vda", S_IFBLK); ("/dev/vda1", S_IFBLK);
   ("/sys/class/block/vda", S_IFDIR);
   ("/sys/class/block/vda/dev", S_IFREG);
   ("/sys/class/block/vda/queue", S_IFDIR);
   ("/sys/class/block/vda/queue/logical_block_size", S_IFREG);
   ("/sys/class/block/vda/vda1", S_IFDIR);
   ("/sys/class/block/vda/vda1/partition", S_IFREG);
   ("/sys/class/block/vda/vda1/start", S_IFREG);
   ("/sys/class/block/vda/vda1/size", S_IFREG);
   ("/sys/class/block/vda1", S_IFDIR);
   ("/sys/class/block/vda1/partition", S_IFREG)].

Definition vda_links : list (string * string) :=
  [("/sys/class/block/vda",
    "/sys/devices/pci0000:00/0000:00:04.0/virtio1/block/vda");
   ("/sys/class/block/vda1",
    "/sys/devices/pci0000:00/0000:00:04.0/virtio1/block/vda/vda1");
   ("/dev/block/253:0", "/dev/vda");
   ("/dev/block/253:1", "/dev/vda1")].

Definition vda_dirs : list (string * list string) :=
  [("/sys/class/block/vda", ["dev"; "queue"; "size"; "vda1"]);
   ("/sys/class/block/vda/vda1", ["dev"; "partition"; "size"; "start"])].

Definition vda_texts : list (string * string) :=
  [("/sys/class/block/vda/queue/logical_block_size", "512" ++ nl);
   ("/sys/class/block/vda/vda1/partition", "1" ++ nl);
   ("/sys/class/block/vda/vda1/start", "2048" ++ nl);
   ("/sys/class/block/vda/vda1/size", "204800" ++ nl);
   ("/sys/class/block/vda1/partition", "1" ++ nl);
   ("/sys/devices/pci0000:00/0000:00:04.0/virtio1/block/vda/dev",
    "253:0" ++ nl)]%string.

Definition vda_system : World :=
  system vda_types vda_links vda_dirs vda_texts [].

(** The same tree with a [queue] of its own placed under the partition
    (4096) and one entry below the partition that carries partition files;
    sysfs has neither, the tree only shows which value the code uses. *)
Definition vda_system_own_queue : World :=
  system
    (vda_types ++
       [("/sys/class/block/vda/vda1/sub", S_IFDIR);
        ("/sys/class/block/vda/vda1/sub/partition", S_IFREG);
        ("/sys/class/block/vda/vda1/sub/start", S_IFREG);
        ("/sys/class/block/vda/vda1/sub/size", S_IFREG)])
    vda_links
    [("/sys/class/block/vda", ["dev"; "queue"; "size"; "vda1"]);
     ("/sys/class/block/vda/vda1", ["partition"; "size"; "start"; "sub"])]
    (vda_texts ++
       [("/sys/class/block/vda/vda1/queue/logical_block_size",
         ("4096" ++ nl)%string);
        ("/sys/class/block/vda/vda1/sub/partition", ("2" ++ nl)%string);
        ("/sys/class/block/vda/vda1/sub/start", ("8" ++ nl)%string);
        ("/sys/class/block/vda/vda1/sub/size", ("16" ++ nl)%string)])
    [].

Definition empty_system : World := system [] [] [] [] [].

(** A system whose only file is the regular file "disk.img". *)
Definition img_system (content : list byte) : World :=
  system [("disk.img", S_IFREG)] [] [] [] [("disk.img", content)].

(** A system where /etc/hostname is a regular file: the look-up of a path
    below it fails with ENOTDIR. *)
Definition ENOTDIR : Z := 20.

Definition notdir_system : World :=
  mkWorld (fun p => if String.eqb p "/etc/hostname/disk.img"
                    then Raise (OSError ENOTDIR p)
                    else found [("/etc/hostname", S_IFREG)] p)
          (fun p => p)
          (fun p => Raise (OSError ENOENT p)) (fun p => Raise (OSError ENOENT p))
          (fun p => Raise (OSError ENOENT p)) [].

(** A regular file of 3 MiB, every byte 0xff. *)
Definition MiB : Z := 1024 * 1024.

Definition big_content : list byte := repeat xff (Z.to_nat (3 * MiB)).

Definition big_system : World :=
  mkWorld (fun _ => Ret S_IFREG) (fun p => p)
          (fun p => Raise (OSError ENOENT p)) (fun p => Raise (OSError ENOENT p))
          (fun _ => Ret big_content) [].

(** A reader that hands out four bytes, then two, then four again. *)
Definition short_reader (k : nat) : list byte :=
  match k with
  | 1%nat => [xaa; xaa]
  | _ => [xaa; xaa; xaa; xaa]
  end.

(** A reader that answers its first call with four bytes when one is
    asked for. *)
Definition long_reader (k : nat) : list byte :=
  match k with
  | O => [xff; xff; xff; xff]
  | _ => [xff]
  end.

Definition dq : string := String DQUOTE EmptyString.

(** An lsblk line whose KNAME value is a path under /dev. *)
Definition sda_line : string :=
  ("KNAME=" ++ dq ++ "/dev/sda" ++ dq ++ " NAME=" ++ dq ++ "sda" ++ dq)%string.

(** Three disks with one partition each; the file systems on [sda1] and
    [sdb1] carry the same UUID (a cloned disk), the disks have WWIDs of
    their own. *)
Definition clone_types : list (string * file_type) :=
  [("/sys/class/block/sda1", S_IFDIR);
   ("/sys/class/block/sda1/partition", S_IFREG);
   ("/sys/class/block/sdb1", S_IFDIR);
   ("/sys/class/block/sdb1/partition", S_IFREG);
   ("/sys/class/block/sdc1", S_IFDIR);
   ("/sys/class/block/sdc1/partition", S_IFREG)].

Definition clone_links : list (string * string) :=
  [("/sys/class/block/sda1", "/sys/devices/host0/block/sda/sda1");
   ("/sys/class/block/sdb1", "/sys/devices/host1/block/sdb/sdb1");
   ("/sys/class/block/sdc1", "/sys/devices/host2/block/sdc/sdc1");
   ("/dev/block/8:0", "/dev/sda");
   ("/dev/block/8:16", "/dev/sdb");
   ("/dev/block/8:32", "/dev/sdc")].

Definition clone_texts : list (string * string) :=
  [("/sys/class/block/sda1/partition", ("1" ++ nl)%string);
   ("/sys/class/block/sdb1/partition", ("1" ++ nl)%string);
   ("/sys/class/block/sdc1/partition", ("1" ++ nl)%string);
   ("/sys/devices/host0/block/sda/dev", ("8:0" ++ nl)%string);
   ("/sys/devices/host1/block/sdb/dev", ("8:16" ++ nl)%string);
   ("/sys/devices/host2/block/sdc/dev", ("8:32" ++ nl)%string);
   ("/proc/mounts", ("/dev/sda1 /target ext4 rw 0 0" ++ nl)%string)].

Definition clone_system : World :=
  system clone_types clone_links [] clone_texts [].

Definition clone_blkid : string :=
  ("/dev/sda1: UUID=" ++ dq ++ "U1" ++ dq ++ " TYPE=" ++ dq ++ "ext4" ++ dq ++ nl
   ++ "/dev/sdb1: UUID=" ++ dq ++ "U1" ++ dq ++ " TYPE=" ++ dq ++ "ext4" ++ dq ++ nl
   ++ "/dev/sdc1: UUID=" ++ dq ++ "U2" ++ dq ++ " TYPE=" ++ dq ++ "ext4" ++ dq ++ nl
  )%string.

Definition lsblk_row (kname type mountpoint : string) : string :=
  ("KNAME=" ++ dq ++ kname ++ dq ++ " NAME=" ++ dq ++ kname ++ dq
   ++ " RM=" ++ dq ++ "0" ++ dq ++ " RO=" ++ dq ++ "0" ++ dq
   ++ " TYPE=" ++ dq ++ type ++ dq
   ++ " MOUNTPOINT=" ++ dq ++ mountpoint ++ dq ++ nl)%string.

Definition clone_tools : Collaborators :=
  table_tools
    [(["blkid"; "-o"; "full"], clone_blkid);
     (scsi_id_cmd "/dev/sda", ("WWID-A" ++ nl)%string);
     (scsi_id_cmd "/dev/sdb", ("WWID-B" ++ nl)%string);
     (lsblk_cmd ["--nodeps"],
      (lsblk_row "sda" "disk" "" ++ lsblk_row "sdb" "disk" ""
       ++ lsblk_row "sdc" "disk" "")%string);
     (lsblk_cmd ["/dev/sda"],
      (lsblk_row "sda" "disk" "" ++ lsblk_row "sda1" "part" "/target")%string);
     (lsblk_cmd ["/dev/sdb"],
      (lsblk_row "sdb" "disk" "" ++ lsblk_row "sdb1" "part" "")%string);
     (lsblk_cmd ["/dev/sdc"],
      (lsblk_row "sdc" "disk" "" ++ lsblk_row "sdc1" "part" "")%string);
     (["blockdev"; "--rereadpt"; "/dev/sdb"; "/dev/sdc"], EmptyString);
     (lsblk_cmd [],
      (lsblk_row "sda" "disk" "" ++ lsblk_row "sda1" "part" "/target"
       ++ lsblk_row "sdb" "disk" "" ++ lsblk_row "sdb1" "part" ""
       ++ lsblk_row "sdc" "disk" "" ++ lsblk_row "sdc1" "part" "")%string)].

(** lsblk on a Smart Array disk: the kernel names it "cciss!c0d0", its
    device node is /dev/cciss/c0d0. *)
Definition cciss_tools : Collaborators :=
  table_tools
    [(lsblk_cmd ["/dev/cciss/c0d0"], lsblk_row "cciss!c0d0" "disk" "")].

(** lsblk on a disk and a logical volume: the NAME of the volume is not
    its kernel name. *)
Definition lvm_listing : string :=
  (lsblk_row "sda" "disk" ""
   ++ "KNAME=" ++ dq ++ "dm-0" ++ dq ++ " NAME=" ++ dq ++ "vg0-root (dm-0)" ++ dq
   ++ " TYPE=" ++ dq ++ "lvm" ++ dq ++ nl)%string.

(** A listing that names [sda] twice, the second time as mounted. *)
Definition twice_listing : string :=
  (lsblk_row "sda" "disk" "" ++ lsblk_row "sdb" "disk" ""
   ++ lsblk_row "sda" "disk" "/mnt")%string.

(** blkid listing [sda1] twice, the first time with a stale UUID. *)
Definition stale_tools : Collaborators :=
  table_tools
    [(["blkid"; "-o"; "full"],
      ("/dev/sda1: UUID=" ++ dq ++ "OLD" ++ dq ++ nl
       ++ "/dev/sdb1: UUID=" ++ dq ++ "U2" ++ dq ++ nl
       ++ "/dev/sda1: UUID=" ++ dq ++ "U1" ++ dq
       ++ " TYPE=" ++ dq ++ "ext4" ++ dq ++ nl)%string)].

(** Four partitions of which three are mounted on /target: [sda1] and
    [sdd1] carry no UUID, [sdb1] and [sdc1] carry the same one. *)
Definition target_blkid : string :=
  ("/dev/sda1: TYPE=" ++ dq ++ "ext4" ++ dq ++ nl
   ++ "/dev/sdb1: UUID=" ++ dq ++ "U1" ++ dq ++ nl
   ++ "/dev/sdc1: UUID=" ++ dq ++ "U1" ++ dq ++ nl
   ++ "/dev/sdd1: TYPE=" ++ dq ++ "ext4" ++ dq ++ nl)%string.

Definition target_tools : Collaborators :=
  table_tools
    [(["blkid"; "-o"; "full"], target_blkid);
     (lsblk_cmd ["--nodeps"], EmptyString);
     (lsblk_cmd [],
      (lsblk_row "sda1" "part" "/target" ++ lsblk_row "sdb1" "part" "/target"
       ++ lsblk_row "sdc1" "part" "" ++ lsblk_row "sdd1" "part" "/target")%string)].

Definition clone_parent (d : string) : string :=
  if String.eqb d "/dev/sda1" then "/dev/sda"
  else if String.eqb d "/dev/sdb1" then "/dev/sdb"
  else "/dev/sdc".

Definition clone_lookup (d : string) : option string :=
  if String.eqb d "/dev/sda" then Some ("WWID-A" ++ nl)%string
  else if String.eqb d "/dev/sdb" then Some ("WWID-B" ++ nl)%string
  else None.

(* ================================================================== *)
(** * Loop bodies and closed forms

    The bodies of the module's loops under names of their own (each is
    shown equal to the loop it is taken from), and the functions that say
    in closed form what the loops compute. *)

Unset Implicit Arguments.

(** The body of the block loop of [zero_file_at_offsets]. *)
Definition block_body (buflen size : Z) (fp : file) : M file :=
  let pos := tell fp in
  if pos + buflen >? size
  then write fp (slice0 (zeros buflen) (size - pos))
  else write fp (zeros buflen).

(** Where [n] blocks written from position [p] end. *)
Definition block_end (buflen size : Z) (n : nat) (p : Z) : Z :=
  Z.min (p + Z.of_nat n * Z.max buflen 0) size.

(** The two tests [zero_file_at_offsets] makes on an offset. *)
Definition outside_b (size offset : Z) : bool :=
  (resolve size offset >? size) || (resolve size offset <? 0).

Definition short_b (size tot offset : Z) : bool :=
  resolve size offset + tot >? size.

(** The content after one offset is processed without a raise. *)
Definition zero_at (buflen count size offset : Z) (c : list byte) : list byte :=
  if outside_b size offset then c
  else
    let p := resolve size offset in
    write_at p (zeros (block_end buflen size (Z.to_nat count) p - p)) c.

(** The log records one offset leaves when [strict] is false. *)
Definition offset_records (path : string) (buflen count size offset : Z)
  : list (level * message) :=
  if outside_b size offset then [(DEBUG, m_badoff path size offset false)]
  else if short_b size (buflen * count) offset
       then [(DEBUG, m_short path size (buflen * count) offset
                      (size - resolve size offset) false)]
       else [].

(** The body of the offset loop of [zero_file_at_offsets]. *)
Definition offset_body (path : string) (buflen count : Z) (strict : bool)
  (size : Z) (fp : file) (offset : Z) : M file :=
  let pos := resolve size offset in
  if (pos >? size) || (pos <? 0) then
    if strict
    then raise (ValueError (m_badoff path size offset strict))
    else log_debug (m_badoff path size offset strict) ;; ret fp
  else
    (if pos + buflen * count >? size then
       if strict
       then raise (ValueError (m_short path size (buflen * count) offset
                                 (size - pos) strict))
       else log_debug (m_short path size (buflen * count) offset
                         (size - pos) strict)
     else ret tt) ;;
    mrepeat (Z.to_nat count) (block_body buflen size) (seek fp pos).

(** The offset resolves inside the file and its whole window fits: the
    strict mode does not raise on it. *)
Definition fits (buflen count size offset : Z) : Prop :=
  inside size offset /\ resolve size offset + buflen * count <= size.

(** The content after a list of offsets. *)
Definition zero_all (buflen count size : Z) (offsets : list Z) (c : list byte)
  : list byte :=
  fold_left (fun c o => zero_at buflen count size o c) offsets c.

(** What the strict mode raises at the first offset that is outside the
    file or whose window does not fit. *)
Definition strict_error (path : string) (buflen count size offset : Z) : exn :=
  if outside_b size offset
  then ValueError (m_badoff path size offset true)
  else ValueError (m_short path size (buflen * count) offset
                     (size - resolve size offset) true).

(** The [readfunc] of [wipe_file]: the reader, or the zero source. *)
Definition reader_of (reader : option (nat -> list byte)) (buflen : Z)
  : nat -> list byte :=
  match reader with
  | Some r => r
  | None => fun _ => zeros buflen
  end.

(** The state of the loop when call [k] is about to be made. *)
Definition loop_state (path : string) (rf : nat -> list byte) (c : list byte)
  (w0 : World) (k : nat) (w : World) : Prop :=
  file_data w path = Ret (wipe_written rf k c) /\
  same_but_data path w0 w /\ LOG w = LOG w0.

(** The token loop and the line loop of [_lsblock_pairs_to_dict]. *)
Definition lsblock_tokens (toks : list string) (cur : dict string)
  : result (dict string) :=
  rfold (fun cur tok =>
           let? (k, v) := unpack2 (split1 tok "=") in
           Ret (dict_set cur k v))
        toks cur.

Definition lsblock_line (ret : dict (dict string)) (line : string)
  : result (dict (dict string)) :=
  let? toks := shlex_split line in
  let? cur := lsblock_tokens toks [] in
  let? kname := dict_item cur "KNAME" in
  let cur := dict_set cur "device_path" (snd (get_dev_name_entry kname)) in
  let? kname := dict_item cur "KNAME" in
  Ret (dict_set ret kname cur).

(** What holds of every row [row] stored under the key [k]. *)
Definition row_ok (k : string) (row : dict string) : Prop :=
  dict_get row "KNAME" = Some k /\
  dict_get row "device_path" =
    Some ("/dev/" ++ last_item (split k "/dev/"))%string.

(** The part of a token before its first "=". *)
Definition key_of (tok : string) : string := hd EmptyString (split1 tok "=").

(** A line in the pairs format: it lexes, every token is KEY=VALUE and one
    of the keys is KNAME. *)
Definition pairs_line (line : string) : Prop :=
  exists toks,
    shlex_split line = Ret toks /\
    Forall (fun tok => contains "=" tok = true) toks /\
    Exists (fun tok => key_of tok = "KNAME") toks.

Definition pairs_format (lines : string) : Prop :=
  Forall pairs_line (splitlines lines).

(** [dict(pairs)[key]]: the value of the last pair with the key [key]. *)
Fixpoint last_value {V} (key : string) (l : list (string * V)) : option V :=
  match l with
  | [] => None
  | (k, v) :: l' =>
      match last_value key l' with
      | Some v' => Some v'
      | None => if String.eqb k key then Some v else None
      end
  end.

(** The part of a token after its first "=", and the value the tokens of
    a line give to a key: that of the last KEY=VALUE token with that key. *)
Definition value_of (tok : string) : string :=
  nth 1 (split1 tok "=") EmptyString.

Definition token_value (key : string) (toks : list string) : option string :=
  last_value key (map (fun tok => (key_of tok, value_of tok)) toks).

(** [row] is the row of a line of the block listing with the tokens
    [toks], and [k] the key it is stored under: [k] is the line's KNAME
    value, the row has the line's values and the device path built from
    [k]. *)
Definition row_of_tokens (toks : list string) (k : string) (row : dict string)
  : Prop :=
  token_value "KNAME" toks = Some k /\
  dict_get row "device_path" =
    Some ("/dev/" ++ last_item (split k "/dev/"))%string /\
  forall key, key <> "device_path" -> dict_get row key = token_value key toks.

(** The inner and outer loops of [detect_multipath]. *)
Definition other_scan (binfo : dict (dict string)) (devpath : string)
  (target_uuid : option string) : M (option bool) :=
  mfor_return
    (fun (other : string * dict string) =>
       let (other_devpath, other_data) := other in
       if opt_eqb (dict_get other_data "UUID") target_uuid
          && negb (String.eqb other_devpath devpath)
       then ret (Some true)
       else ret None)
    binfo.

Definition target_step (binfo : dict (dict string)) (target_devs : list string)
  (item : string * dict string) : M (option bool) :=
  let (devpath, data) := item in
  if negb (mem devpath target_devs) then ret None
  else
    let target_uuid := dict_get data "UUID" in
    if negb (truthy target_uuid) then
      log_warn (msg_no_uuid devpath) ;; ret None
    else
      log_debug (msg_text "devpath: uuid") ;;
      other_scan binfo devpath target_uuid.

(** [other] is another device with the UUID [uuid]; [item] is a target
    with a UUID that another device shares. *)
Definition shares (devpath : string) (uuid : option string)
  (other : string * dict string) : bool :=
  opt_eqb (dict_get (snd other) "UUID") uuid && negb (String.eqb (fst other) devpath).

Definition hit (binfo : dict (dict string)) (target_devs : list string)
  (item : string * dict string) : bool :=
  mem (fst item) target_devs && truthy (dict_get (snd item) "UUID")
  && existsb (shares (fst item) (dict_get (snd item) "UUID")) binfo.

Definition log_grows (w w' : World) : Prop :=
  forall x, In x (LOG w) -> In x (LOG w').

(** The entries a loop looks at that ends at the first entry passing [f]:
    all of them, or those up to and including that entry. *)
Fixpoint upto_first {A} (f : A -> bool) (l : list A) : list A :=
  match l with
  | [] => []
  | x :: l' => if f x then [x] else x :: upto_first f l'
  end.

(** What the outer loop of [detect_multipath] logs for an entry it looks
    at. *)
Definition scan_records (target_devs : list string)
  (item : string * dict string) : list (level * message) :=
  if negb (mem (fst item) target_devs) then []
  else if negb (truthy (dict_get (snd item) "UUID"))
       then [(WARN, msg_no_uuid (fst item))]
       else [(DEBUG, msg_text "devpath: uuid")].

(** The devices that come first in a pair with equal UUIDs. *)
Definition first_of_pairs (binfo : dict (dict string)) : list string :=
  flat_map (fun pr : (string * string) * (string * string) =>
              if String.eqb (snd (fst pr)) (snd (snd pr))
              then [fst (fst pr)] else [])
           (combinations2 (devuuids_of binfo)).

Section CollaboratorDefinitions.

Context {collab : Collaborators}.

(** [path] is neither a block device nor an existing regular file:
    [os.stat] fails on it, for whatever reason, or shows a file of another
    kind. *)
Definition not_blockdev_nor_file (w : World) (path : string) : Prop :=
  forall t, os_stat w path = Ret t -> S_ISBLK t = false /\ S_ISREG t = false.

(** The bodies of the two loops of [get_multipath_wwids]. *)
Definition candidate_step (devices : list string)
  (pr : (string * string) * (string * string)) : M (list string) :=
  let '((dev1, uuid1), (dev2, uuid2)) := pr in
  if String.eqb uuid1 uuid2
  then ' (disk, _) <- get_blockdev_for_partition dev1 ;;
       ret (set_add devices disk)
  else ret devices.

Definition wwid_step (wwids : list string) (device : string) : M (list string) :=
  wwid <- get_scsi_wwid device false ;;
  match wwid with
  | Some (String _ _ as x) => ret (set_add wwids x)
  | _ => ret wwids
  end.

(** The scsi_id tool answers for device [d] as [lookup d] says, whenever it
    is asked: with that output, or with a failure. *)
Definition lookup_answers (lookup : string -> option string) (d : string)
  : Prop :=
  forall w',
    match lookup d with
    | Some out =>
        exists err, fst (util_subp (scsi_id_cmd d) [0] w') = Ret (out, err)
    | None =>
        exists c x,
          fst (util_subp (scsi_id_cmd d) [0] w') = Raise (ProcessExecutionError c x)
    end.

End CollaboratorDefinitions.

(* ================================================================== *)
(** * The rest of the module

    The functions of [curtin/block/__init__.py] that build on the ones
    above: the installable-device filter, the partition listing, the
    multipath flush, the sector-size and UUID queries, the mount-point
    list, the lookup of a disk by serial number and the dispatch of
    [wipe_volume]. *)

(** What these functions take from [curtin.util], [tempfile], [os] and the
    machine besides: [float_at_least_14_04 s] stands for
    [float(s) >= 14.04] (a [ValueError] when [s] is no float literal) and
    [urandom_read k] for what call number [k] of [reader.read] on
    /dev/urandom returns. *)
Class Helpers : Type := {
  util_which : string -> M (option string);
  util_lsb_release : M (dict string);
  float_at_least_14_04 : string -> result bool;
  urandom_read : nat -> list byte;
  tempfile_mkdtemp : M string;
  util_do_mount : string -> string -> M unit;
  util_do_umount : string -> M unit;
  os_rmdir : string -> M unit
}.


(** [l.sort(key=len)]: a stable sort, entries of equal length keep their
    order. *)
Fixpoint insert_by_len (x : string) (l : list string) : list string :=
  match l with
  | [] => [x]
  | y :: l' =>
      if (String.length x <=? String.length y)%nat then x :: l
      else y :: insert_by_len x l'
  end.

Definition sort_by_len (l : list string) : list string :=
  fold_right insert_by_len [] l.

Section BlockRest.

Context {collab : Collaborators} {helpers : Helpers}.

Definition get_installable_blockdevs (include_removable : bool)
  (min_size : option Z) : M (list string) :=
  let good : list string := [] in
  unused <- get_unused_blockdev_info ;;
  mfold (fun good (item : string * dict string) =>
           let (devname, data) := item in
           if negb include_removable && opt_eqb (dict_get data "RM") (Some "1")
           then ret good
           else if opt_neqb (dict_get data "RO") "0"
                   || opt_neqb (dict_get data "TYPE") "disk"
           then ret good
           else
             small <-
               lift (match min_size with
                     | Some m =>
                         let? sz := int (match dict_get data "SIZE" with
                                         | Some s => s
                                         | None => "0"
                                         end) in
                         Ret (sz <? m)
                     | None => Ret false
                     end) ;;
             if small then ret good else ret (good ++ [devname]))
        unused good.


Definition stop_all_unused_multipath_devices : M unit :=
  multipath <- util_which "multipath" ;;
  (* Command multipath is not available only when multipath-tools package
     is not installed. *)
  match multipath with
  | Some (String _ _ as multipath) =>
      (* Command multipath -F flushes all unused multipath device maps *)
      let cmd := [multipath; "-F"] in
      try_except
        (* unless multipath cleared *everything* it will exit with 1 *)
        (_ <- util_subp cmd [0; 1] ;; ret tt)
        (fun e =>
           match e with
           | ProcessExecutionError _ _ =>
               Some (log_warn (msg_text "Failed to stop multipath devices"))
           | _ => None
           end)
  | _ => ret tt
  end.


Definition get_blockdev_sector_size (devpath : string) : M (Z * Z) :=
  info <- _lsblock (Some [devpath]) ;;
  log_debug (msg_text "get_blockdev_sector_size: info") ;;
  parent <- lift (match map fst info with
                  | [parent] => Ret parent
                  | keys => Raise (ValueError (msg_unpack (List.length keys)))
                  end) ;;
  row <- lift (dict_item info parent) ;;
  s <- lift (dict_item row "LOG-SEC") ;;
  logical <- lift (int s) ;;
  row <- lift (dict_item info parent) ;;
  s <- lift (dict_item row "PHY-SEC") ;;
  physical <- lift (int s) ;;
  ret (logical, physical).

Definition get_volume_uuid (path : string) : M string :=
  ' (out, _err) <- util_subp ["blkid"; "-o"; "export"; path] [0] ;;
  r <- mfor_return
         (fun line =>
            if contains "UUID" line
            then ret (Some (last_item (split line "=")))
            else ret None)
         (splitlines out) ;;
  match r with
  | Some uuid => ret uuid
  | None => ret ""
  end.

Definition get_mountpoints : M (list string) :=
  info <- _lsblock None ;;
  mounts <- get_proc_mounts ;;
  let proc_mounts := map m_mp mounts in
  let lsblock_mounts :=
    flat_map (fun (item : string * dict string) =>
                match dict_get (snd item) "MOUNTPOINT" with
                | Some (String _ _ as mp) => [mp]
                | _ => []
                end) info in
  ret (fold_left set_add (proc_mounts ++ lsblock_mounts) []).

Definition lookup_disk (serial : string) : M string :=
  (* Get all volumes in /dev/disk/by-id/ containing the serial string. *)
  names <- query (fun w => os_listdir w "/dev/disk/by-id/") ;;
  let disks := filter (fun x => contains serial x) names in
  match disks with
  | [] =>
      raise (ValueError (msg_text ("no disk with serial '" ++ serial ++ "' found")))
  | _ =>
      (* Sort by length and take the shortest path name, as the longer path
         names will be the partitions on the disk. *)
      let disks := sort_by_len disks in
      path <- ask (fun w => os_path_realpath w
                              ("/dev/disk/by-id/" ++ hd "" disks)) ;;
      ex <- os_path_exists path ;;
      if negb ex
      then raise (ValueError (msg_text
                    ("path '" ++ path ++ "' to block device for disk with serial '"
                     ++ serial ++ "' does not exist")))
      else ret path
  end.

(** [wipe_volume(path, mode)]; the fuel is that of [wipe_file]. *)
Definition wipe_volume (fuel : nat) (path mode : string) (w : World)
  : option (result unit * World) :=
  if String.eqb mode "pvremove" then
    Some ((let cmds := [["pvremove"; "--force"; "--force"; "--yes"; path]] in
           rel <- util_lsb_release ;;
           release_code_str <-
             (match dict_get rel "release" with
              | Some s =>
                  if String.eqb s "UNAVAILABLE"
                  then log_warn (msg_text
                         "unable to find release number, assuming trusty or later") ;;
                       ret "14.04"
                  else ret s
              | None =>
                  log_warn (msg_text
                    "unable to find release number, assuming trusty or later") ;;
                  ret "14.04"
              end) ;;
           trusty <- lift (float_at_least_14_04 release_code_str) ;;
           let cmds :=
             cmds ++ map (fun cmd => if trusty then cmd ++ ["--cache"] else cmd)
                       [["pvscan"]; ["vgscan"; "--mknodes"]] in
           mfold (fun (_ : unit) cmd => _ <- util_subp cmd [0; 5] ;; ret tt)
                 cmds tt) w)
  else if String.eqb mode "zero" then
    wipe_file fuel path None (4 * 1024 * 1024) w
  else if String.eqb mode "random" then
    wipe_file fuel path (Some urandom_read) (4 * 1024 * 1024) w
  else if String.eqb mode "superblock" then
    Some (quick_zero path false w)
  else if String.eqb mode "superblock-recursive" then
    Some (quick_zero path true w)
  else
    Some (raise (ValueError (msg_text ("wipe mode " ++ mode ++ " not supported"))) w).

End BlockRest.

(* ================================================================== *)
(** * Functions used to state the further properties *)

(** What the first [n] calls of a reader return, end to end. *)
Definition stream (rf : nat -> list byte) (n : nat) : list byte :=
  List.concat (map rf (seq 0 n)).

(** Byte [i] lies in the window that [zero_file_at_offsets] writes for
    [offset]: the offset resolves inside the file and [i] is one of the
    [buflen * count] bytes from there (none for a negative [buflen]). *)
Definition in_window (buflen count size offset : Z) (i : nat) : bool :=
  negb (outside_b size offset)
  && (resolve size offset <=? Z.of_nat i)
  && (Z.of_nat i <? block_end buflen size (Z.to_nat count) (resolve size offset)).

(** A computation that only observes the system: the state it ends in is
    the state it started from, whether it returns or raises. *)
Definition read_only {A} (m : M A) : Prop := forall w, snd (m w) = w.

(** The offsets [quick_zero] hands to [zero_file_at_offsets] for a block
    device with the partitions [ptdata]. *)
Definition partition_offsets (ptdata : list ptentry) : list Z :=
  [0; - MiB] ++
  flat_map (fun e : ptentry =>
              let '(kname, ptnum, start, size) := e in
              [start; start + size - MiB]) ptdata.

Section RestDefinitions.

Context {collab : Collaborators}.

(** [int(util.load_file(f))] *)
Definition read_int (f : string) (w : World) : result Z :=
  let? s := util_load_file f w in int s.

(** [os.path.exists(p)] as a function of the state. *)
Definition exists_at (w : World) (p : string) : bool :=
  match os_stat w p with
  | Ret _ => true
  | Raise _ => false
  end.

(** The sysfs directory [get_blockdev_for_partition] settles on for the
    device name [bname]: the plain entry, or the one of a cciss device. *)
Definition sysfs_entry (w : World) (bname : string) : option string :=
  if exists_at w ("/sys/class/block/" ++ bname)%string
  then Some ("/sys/class/block/" ++ bname)%string
  else if exists_at w ("/sys/class/block/cciss!" ++ bname)%string
       then Some ("/sys/class/block/cciss!" ++ bname)%string
       else None.

(** [os.path.isfile(f)] as a function of the state. *)
Definition isfile_at (w : World) (f : string) : bool :=
  match os_stat w f with
  | Ret t => S_ISREG t
  | Raise _ => false
  end.

(** The directory [d] under [sysfs_path] has a regular file "partition". *)
Definition has_partition_file (w : World) (sysfs_path d : string) : bool :=
  isfile_at w (path_join (path_join sysfs_path d) "partition").

(** The bodies of the two loops of [sysfs_partition_data]: over the three
    files of one directory, and over the directories. *)
Definition partition_file_step (partd : string) (data : dict Z)
  (sfile : string) : M (dict Z) :=
  let dfile := path_join partd sfile in
  isf <- os_path_isfile dfile ;;
  if negb isf then ret data
  else
    s <- query (util_load_file dfile) ;;
    v <- lift (int s) ;;
    ret (dict_set data sfile v).

Definition partition_step (sysfs_path : string) (unit : Z)
  (ptdata : list ptentry) (d : string) : M (list ptentry) :=
  let partd := path_join sysfs_path d in
  data <- mfold (partition_file_step partd) ["partition"; "start"; "size"] [] ;;
  match dict_get data "partition" with
  | None => ret ptdata
  | Some partition =>
      start <- lift (dict_item data "start") ;;
      size <- lift (dict_item data "size") ;;
      ret (ptdata ++ [(d, partition, start * unit, size * unit)])
  end.

End RestDefinitions.

(** The pairs format as lsblk writes it: a row is a sequence of
    KEY="VALUE" pairs separated by one space, the output is one row per
    line.  A key is made of characters other than white space, quotes, the
    backslash, "=" and line breaks; a value of characters other than the
    double quote, the backslash and line breaks. *)
Fixpoint all_chars (f : ascii -> bool) (s : string) : bool :=
  match s with
  | EmptyString => true
  | String c s' => f c && all_chars f s'
  end.

Definition word_char (c : ascii) : bool :=
  negb (shlex_whitespace c) && negb (shlex_quote c) && negb (shlex_escape c).

Definition key_char (c : ascii) : bool :=
  word_char c && negb (Ascii.eqb c "=") && negb (is_linebreak c).

Definition value_char (c : ascii) : bool :=
  negb (Ascii.eqb c DQUOTE) && negb (shlex_escape c) && negb (is_linebreak c).

Definition well_formed_pair (kv : string * string) : Prop :=
  all_chars key_char (fst kv) = true /\ all_chars value_char (snd kv) = true.

Definition quote_pair (kv : string * string) : string :=
  (fst kv ++ "=" ++ dq ++ snd kv ++ dq)%string.

Definition pairs_row (l : list (string * string)) : string :=
  join " " (map quote_pair l).

Definition pairs_output (rows : list (list (string * string))) : string :=
  String.concat "" (map (fun row => (pairs_row row ++ nl)%string) rows).

(** The row the parser stores for the pairs [l] of a line, and the table it
    builds from the rows of an output. *)
Definition stored_row (l : list (string * string)) : dict string :=
  let cur := dict_of_pairs l in
  match dict_get cur "KNAME" with
  | Some kname =>
      dict_set cur "device_path"
        ("/dev/" ++ last_item (split kname "/dev/"))%string
  | None => cur
  end.

Definition stored_table (rows : list (list (string * string)))
  : dict (dict string) :=
  fold_left (fun ret l =>
               match dict_get (dict_of_pairs l) "KNAME" with
               | Some kname => dict_set ret kname (stored_row l)
               | None => ret
               end) rows [].

(** The last character of a string. *)
Fixpoint last_char (s : string) : option ascii :=
  match s with
  | EmptyString => None
  | String c EmptyString => Some c
  | String _ s' => last_char s'
  end.

(** The [device_path] a row of the block listing carries (the parser puts
    one into every row). *)
Definition device_path_of (row : dict string) : string :=
  match dict_get row "device_path" with
  | Some p => p
  | None => ""
  end.

(** A table as [_lsblock] returns it: keys are unique and every row is the
    row of its key. *)
Definition lsblock_table (t : dict (dict string)) : Prop :=
  NoDup (map fst t) /\ forall k row, In (k, row) t -> row_ok k row.

(** The three tests [get_installable_blockdevs] and [rescan_block_devices]
    make on a row. *)
Definition removable (data : dict string) : bool :=
  opt_eqb (dict_get data "RM") (Some "1").

Definition writable_disk (data : dict string) : bool :=
  negb (opt_neqb (dict_get data "RO") "0" || opt_neqb (dict_get data "TYPE") "disk").

(** The devices [rescan_block_devices] hands to blockdev. *)
Definition rescan_targets (unused : dict (dict string)) : list string :=
  flat_map (fun item : string * dict string =>
              if removable (snd item) then []
              else if writable_disk (snd item) then [device_path_of (snd item)]
                   else []) unused.

(** A row has something mounted. *)
Definition mounted (item : string * dict string) : bool :=
  truthy (dict_get (snd item) "MOUNTPOINT").

Section ToolDefinitions.

Context {collab : Collaborators}.

(** lsblk is a query: it answers from its arguments alone and changes
    nothing. *)
Definition lsblk_answers (answer : list string -> result (string * string))
  : Prop :=
  forall args w, util_subp (lsblk_cmd args) [0] w = (answer args, w).

(** What [_lsblock] returns when lsblk answers as [answer] says. *)
Definition lsblock_of (answer : list string -> result (string * string))
  (args : list string) : result (dict (dict string)) :=
  let? (out, _) := answer (map (fun x => replace x "!" "/") args) in
  _lsblock_pairs_to_dict (replace out "!" "/").

End ToolDefinitions.

(** [data.get('SIZE', '0')] *)
Definition size_text (data : dict string) : string :=
  match dict_get data "SIZE" with
  | Some s => s
  | None => "0"
  end.

(** The tests a device passes to be installable. *)
Definition installable (include_removable : bool) (min_size : option Z)
  (data : dict string) : Prop :=
  (include_removable = true \/ removable data = false) /\
  writable_disk data = true /\
  forall m, min_size = Some m -> exists sz, int (size_text data) = Ret sz /\ m <= sz.

(** The body of the loop of [get_installable_blockdevs]. *)
Definition installable_step (include_removable : bool) (min_size : option Z)
  (good : list string) (item : string * dict string) : M (list string) :=
  let (devname, data) := item in
  if negb include_removable && opt_eqb (dict_get data "RM") (Some "1")
  then ret good
  else if opt_neqb (dict_get data "RO") "0"
          || opt_neqb (dict_get data "TYPE") "disk"
  then ret good
  else
    small <-
      lift (match min_size with
            | Some m =>
                let? sz := int (match dict_get data "SIZE" with
                                | Some s => s
                                | None => "0"
                                end) in
                Ret (sz <? m)
            | None => Ret false
            end) ;;
    if small then ret good else ret (good ++ [devname]).

(** The row is mounted at [mountpoint], as lsblk has it. *)
Definition mounted_at (mountpoint : string) (item : string * dict string) : bool :=
  opt_eqb (dict_get (snd item) "MOUNTPOINT") (Some mountpoint).

Section RootDefinitions.

Context {helpers : Helpers}.


End RootDefinitions.

Section UnusedDefinitions.

Context {collab : Collaborators}.

(** The body of the loop of [get_unused_blockdev_info]. *)
Definition unused_step (unused : dict (dict string))
  (item : string * dict string) : M (dict (dict string)) :=
  let (devname, data) := item in
  p <- lift (dict_item data "device_path") ;;
  cur <- _lsblock (Some [p]) ;;
  let mountpoints :=
    filter (fun x => truthy (dict_get (snd x) "MOUNTPOINT")) cur in
  if (List.length mountpoints =? 0)%nat
  then ret (dict_set unused devname data)
  else ret unused.

(** The listing of the device of a row shows nothing mounted, when lsblk
    answers as [answer] says. *)
Definition unmounted (answer : list string -> result (string * string))
  (item : string * dict string) : bool :=
  match lsblock_of answer [device_path_of (snd item)] with
  | Ret cur => forallb (fun x => negb (mounted x)) cur
  | Raise _ => false
  end.

End UnusedDefinitions.

(** A field of /proc/mounts cut out by white space: not empty and free of
    white space. *)
Definition field (s : string) : Prop :=
  s <> "" /\ all_chars (fun c => negb (is_space c)) s = true.

(** A file in the layout of /proc/mounts: one row of fields per line, the
    fields of a row one space apart, every line ended by a newline. *)
Definition mounts_text (rows : list (list string)) : string :=
  String.concat "" (map (fun r => (join " " r ++ nl)%string) rows).

(** What a row of fields stands for: nothing when it has fewer than six
    fields, otherwise one entry whose last component is the sixth field
    with everything that follows it on the line. *)
Definition row_mounts (r : list string) : list mount :=
  match r with
  | dev :: mp :: vfs :: opts :: freq :: passno :: more =>
      [mkMount dev mp vfs opts freq (join " " (passno :: more))]
  | _ => []
  end.

(* ================================================================== *)
(** * Further example systems *)

(** The disk [vda] of [vda_system] with sixteen bytes behind /dev/vda. *)
Definition vda_disk_system : World :=
  system vda_types vda_links vda_dirs vda_texts
    [("/dev/vda", repeat xff 16)].

(** blkid's export listing of one partition. *)
Definition export_tools : Collaborators :=
  table_tools
    [(["blkid"; "-o"; "export"; "/dev/sda1"],
      ("DEVNAME=/dev/sda1" ++ nl ++ "UUID=U1" ++ nl ++ "TYPE=ext4" ++ nl
       ++ "PARTUUID=0001-01" ++ nl)%string)].

(** A disk and its first partition under /dev/disk/by-id/. *)
Definition byid_system : World :=
  system [("/dev/sda", S_IFBLK); ("/dev/sda1", S_IFBLK)]
    [("/dev/disk/by-id/ata-QEMU_S1", "/dev/sda");
     ("/dev/disk/by-id/ata-QEMU_S1-part1", "/dev/sda1")]
    [("/dev/disk/by-id/", ["ata-QEMU_S1-part1"; "ata-QEMU_S1"; "ata-QEMU_S2"])]
    [] [].

(** lsblk's listing of a loop device: one row. *)
Definition loop_tools : Collaborators :=
  table_tools
    [(lsblk_cmd ["/dev/loop0"],
      ("KNAME=" ++ dq ++ "loop0" ++ dq ++ " LOG-SEC=" ++ dq ++ "512" ++ dq
       ++ " PHY-SEC=" ++ dq ++ "4096" ++ dq ++ nl)%string)].

(** Two partitions with file systems of their own. *)
Definition plain_tools : Collaborators :=
  table_tools
    [(["blkid"; "-o"; "full"],
      ("/dev/sda1: UUID=" ++ dq ++ "U1" ++ dq ++ nl
       ++ "/dev/sdb1: UUID=" ++ dq ++ "U2" ++ dq ++ nl)%string)].

(** A machine without the multipath tool on which no file system mounts,
    and one that has the tool and mounts everything; the release is 16.04
    and /dev/urandom hands out full blocks. *)
Definition no_multipath : Helpers :=
  {| util_which := fun _ => ret None;
     util_lsb_release := ret [("release", "16.04")];
     float_at_least_14_04 := fun _ => Ret true;
     urandom_read := fun _ => repeat xaa (Z.to_nat (4 * 1024 * 1024));
     tempfile_mkdtemp := ret "/tmp/tmpdir";
     util_do_mount := fun _ _ => raise (ProcessExecutionError ["mount"] 32);
     util_do_umount := fun _ => ret tt;
     os_rmdir := fun _ => ret tt |}.

Definition with_multipath : Helpers :=
  {| util_which := fun _ => ret (Some "/sbin/multipath");
     util_lsb_release := ret [("release", "16.04")];
     float_at_least_14_04 := fun _ => Ret true;
     urandom_read := fun _ => repeat xaa (Z.to_nat (4 * 1024 * 1024));
     tempfile_mkdtemp := ret "/tmp/tmpdir";
     util_do_mount := fun _ _ => ret tt;
     util_do_umount := fun _ => ret tt;
     os_rmdir := fun _ => ret tt |}.

(** How tools that answer from a table answer lsblk. *)
Definition tool_answer (tools : Collaborators) (args : list string)
  : result (string * string) :=
  fst (@util_subp tools (lsblk_cmd args) [0] empty_system).

(** The tables lsblk gives on [clone_system]: all devices, and the
    top-level ones. *)
Definition clone_listing : dict (dict string) :=
  Eval vm_compute in
    match fst (@_lsblock clone_tools None clone_system) with
    | Ret t => t
    | Raise _ => []
    end.

Definition clone_disks : dict (dict string) :=
  Eval vm_compute in
    match fst (@_lsblock clone_tools (Some ["--nodeps"]) clone_system) with
    | Ret t => t
    | Raise _ => []
    end.

(** A /proc/mounts of three lines, one of them cut short. *)
Definition mounts_system : World :=
  system [] [] []
    [("/proc/mounts",
      mounts_text
        [["rootfs"; "/"; "rootfs"; "rw"; "0"; "0"];
         ["none"; "/broken"];
         ["/dev/sda1"; "/target"; "ext4"; "rw"; "0"; "0"; "#"; "root"]])]
    [].

(** A reader that hands out two bytes at a time. *)
Definition pair_reader (k : nat) : list byte := [xaa; xbb].


(* ================================================================== *)
(** * Properties *)

(* ---------- dicts ---------- *)

Lemma dict_get_set_same {V} (d : dict V) k v :
  dict_get (dict_set d k v) k = Some v.
Proof.
  induction d as [|[k' v'] d IH]; simpl.
  - rewrite String.eqb_refl. reflexivity.
  - destruct (String.eqb_spec k' k) as [-> | Hne]; simpl.
    + rewrite String.eqb_refl. reflexivity.
    + destruct (String.eqb_spec k' k); [contradiction | exact IH].
Qed.

Lemma dict_get_set_other {V} (d : dict V) k v k' :
  k' <> k -> dict_get (dict_set d k v) k' = dict_get d k'.
Proof.
  intros Hne. induction d as [|[k0 v0] d IH]; simpl.
  - destruct (String.eqb_spec k k'); [congruence | reflexivity].
  - destruct (String.eqb_spec k0 k) as [-> | Hk]; simpl.
    + destruct (String.eqb_spec k k'); [congruence | reflexivity].
    + destruct (String.eqb_spec k0 k'); [reflexivity | exact IH].
Qed.

Lemma in_dict_set {V} (d : dict V) k v k' v' :
  In (k', v') (dict_set d k v) -> (k' = k /\ v' = v) \/ In (k', v') d.
Proof.
  induction d as [|[k0 v0] d IH]; simpl.
  - intros [H | []]. inversion H. auto.
  - destruct (String.eqb_spec k0 k) as [-> | Hk]; simpl.
    + intros [H | H]; [inversion H; auto | auto].
    + intros [H | H]; [auto |]. destruct (IH H); auto.
Qed.

Lemma mem_In (x : string) (l : list string) : mem x l = true <-> In x l.
Proof.
  unfold mem. rewrite existsb_exists. split.
  - intros (y & Hy & E). apply String.eqb_eq in E. subst. exact Hy.
  - intros H. exists x. split; [exact H | apply String.eqb_refl].
Qed.

Lemma dict_set_keys {V} (d : dict V) (k : string) (v : V) :
  map fst (dict_set d k v) =
  if mem k (map fst d) then map fst d else map fst d ++ [k].
Proof.
  unfold mem. induction d as [|[k' v'] d IH]; cbn [dict_set map fst existsb].
  - reflexivity.
  - rewrite (String.eqb_sym k k').
    destruct (String.eqb_spec k' k) as [-> | Hne]; cbn [orb map fst].
    + reflexivity.
    + rewrite IH. destruct (existsb (String.eqb k) (map fst d)); reflexivity.
Qed.

Lemma dict_set_nodup {V} (d : dict V) (k : string) (v : V) :
  NoDup (map fst d) -> NoDup (map fst (dict_set d k v)).
Proof.
  intros Hd. rewrite dict_set_keys.
  destruct (mem k (map fst d)) eqn:E; [exact Hd|].
  apply NoDup_app; [exact Hd | repeat constructor; intros [] |].
  intros x Hx [<- | []].
  apply mem_In in Hx. congruence.
Qed.

Lemma dict_set_length {V} (d : dict V) (k : string) (v : V) :
  (List.length (dict_set d k v) <= S (List.length d))%nat.
Proof.
  induction d as [|[k' v'] d IH]; cbn [dict_set List.length].
  - lia.
  - destruct (String.eqb k' k); cbn [List.length]; lia.
Qed.

Lemma dict_get_in {V} (d : dict V) (k : string) (v : V) :
  NoDup (map fst d) -> In (k, v) d -> dict_get d k = Some v.
Proof.
  induction d as [|[k' v'] d IH]; intros Hnd Hin; [destruct Hin|].
  cbn [map fst] in Hnd. inversion Hnd as [|? ? Hnot Hnd']; subst.
  cbn [dict_get]. destruct Hin as [Heq | Hin].
  - inversion Heq; subst. rewrite String.eqb_refl. reflexivity.
  - destruct (String.eqb_spec k' k) as [-> | Hne].
    + exfalso. apply Hnot. apply (in_map fst) in Hin. exact Hin.
    + apply IH; assumption.
Qed.

Lemma dict_get_fold_set {V} (l : list (string * V)) :
  forall (d : dict V) (key : string),
  dict_get (fold_left (fun d kv => dict_set d (fst kv) (snd kv)) l d) key =
  match last_value key l with
  | Some v => Some v
  | None => dict_get d key
  end.
Proof.
  induction l as [|[k v] l IH]; intros d key; [reflexivity|].
  cbn [fold_left last_value fst snd]. rewrite IH.
  destruct (last_value key l); [reflexivity|].
  destruct (String.eqb_spec k key) as [-> | Hne].
  - apply dict_get_set_same.
  - apply dict_get_set_other. congruence.
Qed.

Lemma last_value_in {V} (key : string) (l : list (string * V)) (v : V) :
  last_value key l = Some v -> In (key, v) l.
Proof.
  induction l as [|[k x] l IH]; [discriminate|].
  cbn [last_value]. destruct (last_value key l) as [v'|].
  - intros H. inversion H; subst. right. apply IH. reflexivity.
  - destruct (String.eqb_spec k key) as [-> | Hne]; [| discriminate].
    intros H. inversion H; subst. left. reflexivity.
Qed.

Lemma last_value_none {V} (key : string) (l : list (string * V)) :
  last_value key l = None <-> ~ In key (map fst l).
Proof.
  induction l as [|[k x] l IH]; cbn [last_value map fst In].
  - tauto.
  - destruct (last_value key l) as [v'|].
    + split; [discriminate|]. intros H. exfalso.
      assert (Hn : ~ In key (map fst l)) by tauto.
      apply IH in Hn. discriminate.
    + destruct (String.eqb_spec k key) as [-> | Hne].
      * split; [discriminate | tauto].
      * split; [| reflexivity]. intros _ [H | H]; [congruence|].
        apply (proj1 IH eq_refl H).
Qed.

Lemma last_value_split {V} (pre : list (string * V)) (k : string) (v : V)
  (post : list (string * V)) :
  ~ In k (map fst post) -> last_value k (pre ++ (k, v) :: post) = Some v.
Proof.
  intros Hpost. apply last_value_none in Hpost.
  induction pre as [|[k' v'] pre IH]; cbn [app last_value].
  - rewrite Hpost, String.eqb_refl. reflexivity.
  - rewrite IH. reflexivity.
Qed.

Lemma dict_get_some_in {V} (d : dict V) (k : string) (v : V) :
  dict_get d k = Some v -> In (k, v) d.
Proof.
  induction d as [|[k' v'] d IH]; [discriminate|].
  cbn [dict_get]. destruct (String.eqb_spec k' k) as [-> | Hne].
  - intros H. inversion H; subst. left. reflexivity.
  - intros H. right. exact (IH H).
Qed.

(* ---------- split ---------- *)

Lemma split_from_absent (sep s : string) :
  contains sep s = false -> split_from sep O s = (s, []).
Proof.
  induction s as [|c s IH]; intros H; [reflexivity|].
  cbn [contains] in H. apply orb_false_iff in H. destruct H as [Hp Hc].
  cbn [split_from]. rewrite Hp, (IH Hc). reflexivity.
Qed.

Lemma split_absent (s sep : string) :
  contains sep s = false -> split s sep = [s].
Proof. intros H. unfold split. rewrite split_from_absent by exact H. reflexivity. Qed.

Lemma get_dev_name_entry_plain (k : string) :
  contains "/dev/" k = false ->
  get_dev_name_entry k = (k, ("/dev/" ++ k)%string).
Proof.
  intros H. unfold get_dev_name_entry. rewrite split_absent by exact H.
  reflexivity.
Qed.

(* ---------- the parser ---------- *)

Lemma lsblock_unfold lines :
  _lsblock_pairs_to_dict lines = rfold lsblock_line (splitlines lines) [].
Proof. reflexivity. Qed.

Lemma lsblock_line_rows ret line ret' :
  (forall k row, In (k, row) ret -> row_ok k row) ->
  lsblock_line ret line = Ret ret' ->
  forall k row, In (k, row) ret' -> row_ok k row.
Proof.
  intros Hret Hrun k row Hin. unfold lsblock_line in Hrun.
  destruct (shlex_split line) as [toks|]; [| discriminate]. cbn [rbind] in Hrun.
  destruct (lsblock_tokens toks []) as [cur|]; [| discriminate]. cbn [rbind] in Hrun.
  unfold dict_item in Hrun at 1.
  destruct (dict_get cur "KNAME") as [kname|] eqn:Ek; [| discriminate].
  cbn [rbind] in Hrun. unfold dict_item in Hrun.
  rewrite dict_get_set_other in Hrun by discriminate.
  rewrite Ek in Hrun. cbn [rbind] in Hrun. inversion Hrun; subst; clear Hrun.
  apply in_dict_set in Hin. destruct Hin as [[-> ->] | Hin]; [| auto].
  split.
  - rewrite dict_get_set_other by discriminate. exact Ek.
  - rewrite dict_get_set_same. reflexivity.
Qed.

Lemma rfold_rows lines :
  forall ret ret',
  (forall k row, In (k, row) ret -> row_ok k row) ->
  rfold lsblock_line lines ret = Ret ret' ->
  forall k row, In (k, row) ret' -> row_ok k row.
Proof.
  induction lines as [|line lines IH]; intros ret ret' Hret Hrun.
  - inversion Hrun; subst. exact Hret.
  - cbn [rfold] in Hrun.
    destruct (lsblock_line ret line) as [ret1|] eqn:E1; [| discriminate].
    cbn [rbind] in Hrun.
    eapply IH; [| exact Hrun].
    eapply lsblock_line_rows; eauto.
Qed.

(** A token with an "=" in it. *)
Lemma split1_pair (tok : string) :
  contains "=" tok = true -> exists k v, split1 tok "=" = [k; v].
Proof.
  induction tok as [|a tok IH]; intros H; [discriminate|].
  cbn [split1]. destruct (Ascii.eqb a "=") eqn:Ea.
  - eauto.
  - cbn [contains] in H.
    assert (Hp : String.prefix "=" (String a tok) = false).
    { apply Ascii.eqb_neq in Ea.
      change (String.prefix "=" (String a tok))
        with (if Ascii.ascii_dec "="%char a then String.prefix "" tok else false).
      destruct (Ascii.ascii_dec "="%char a) as [E | E]; [congruence|].
      reflexivity. }
    rewrite Hp in H. cbn [orb] in H.
    destruct (IH H) as (k & v & ->). eauto.
Qed.

Lemma lsblock_tokens_total (toks : list string) :
  Forall (fun tok => contains "=" tok = true) toks ->
  forall cur, exists cur',
    lsblock_tokens toks cur = Ret cur' /\
    forall k, (dict_get cur k <> None \/ Exists (fun tok => key_of tok = k) toks) ->
              dict_get cur' k <> None.
Proof.
  induction 1 as [|tok toks Htok Htoks IH]; intros cur.
  - exists cur. split; [reflexivity|].
    intros k [H | H]; [exact H | inversion H].
  - destruct (split1_pair tok Htok) as (k0 & v0 & Hs).
    destruct (IH (dict_set cur k0 v0)) as (cur' & Hrun & Hkeys).
    exists cur'. split.
    + unfold lsblock_tokens in *. cbn [rfold]. rewrite Hs. exact Hrun.
    + intros k Hk. apply Hkeys.
      destruct (String.eqb_spec k k0) as [-> | Hne].
      * left. rewrite dict_get_set_same. discriminate.
      * destruct Hk as [Hk | Hk].
        -- left. rewrite dict_get_set_other by exact Hne. exact Hk.
        -- inversion Hk; subst; [| right; assumption].
           unfold key_of in Hne. rewrite Hs in Hne. cbn in Hne. congruence.
Qed.

Lemma lsblock_line_total ret line :
  pairs_line line -> exists ret', lsblock_line ret line = Ret ret'.
Proof.
  intros (toks & Hlex & Heq & Hkn). unfold lsblock_line. rewrite Hlex.
  cbn [rbind].
  destruct (lsblock_tokens_total toks Heq []) as (cur & Hrun & Hkeys).
  rewrite Hrun. cbn [rbind]. unfold dict_item.
  destruct (dict_get cur "KNAME") as [kname|] eqn:Ek.
  - cbn [rbind]. rewrite dict_get_set_other by discriminate. rewrite Ek.
    cbn [rbind]. eauto.
  - exfalso. apply (Hkeys "KNAME"); auto.
Qed.

Lemma rfold_lines_total lines :
  Forall pairs_line lines ->
  forall ret, exists ret', rfold lsblock_line lines ret = Ret ret'.
Proof.
  induction 1 as [|line lines Hline Hlines IH]; intros ret.
  - exists ret. reflexivity.
  - destruct (lsblock_line_total ret line Hline) as (ret1 & H1).
    destruct (IH ret1) as (ret' & H').
    exists ret'. cbn [rfold]. rewrite H1. exact H'.
Qed.

Lemma lsblock_tokens_nodup (toks : list string) :
  forall cur cur',
  NoDup (map fst cur) -> lsblock_tokens toks cur = Ret cur' ->
  NoDup (map fst cur').
Proof.
  induction toks as [|tok toks IH]; intros cur cur' Hnd Hrun.
  - inversion Hrun; subst. exact Hnd.
  - unfold lsblock_tokens in *. cbn [rfold] in Hrun.
    destruct (unpack2 (split1 tok "=")) as [[k v] |]; [| discriminate].
    cbn [rbind] in Hrun.
    apply (IH (dict_set cur k v) cur'); [| exact Hrun].
    apply dict_set_nodup. exact Hnd.
Qed.

(** What one line adds to the table. *)
Lemma lsblock_line_inv ret line ret' :
  lsblock_line ret line = Ret ret' ->
  exists toks cur kname,
    shlex_split line = Ret toks /\
    lsblock_tokens toks [] = Ret cur /\
    dict_get cur "KNAME" = Some kname /\
    ret' = dict_set ret kname
             (dict_set cur "device_path" (snd (get_dev_name_entry kname))).
Proof.
  intros Hrun. unfold lsblock_line in Hrun.
  destruct (shlex_split line) as [toks|] eqn:Hlex; [| discriminate].
  cbn [rbind] in Hrun.
  destruct (lsblock_tokens toks []) as [cur|] eqn:Htok; [| discriminate].
  cbn [rbind] in Hrun.
  unfold dict_item in Hrun at 1.
  destruct (dict_get cur "KNAME") as [kname|] eqn:Ek; [| discriminate].
  cbn [rbind] in Hrun. unfold dict_item in Hrun.
  rewrite dict_get_set_other in Hrun by discriminate.
  rewrite Ek in Hrun. cbn [rbind] in Hrun. inversion Hrun; subst.
  exists toks, cur, kname. repeat split; first [assumption | reflexivity].
Qed.

Lemma lsblock_lines_keys (lines : list string) :
  forall ret ret',
  NoDup (map fst ret) ->
  (forall k row, In (k, row) ret -> NoDup (map fst row)) ->
  rfold lsblock_line lines ret = Ret ret' ->
  NoDup (map fst ret') /\
  (forall k row, In (k, row) ret' -> NoDup (map fst row)) /\
  (List.length ret' <= List.length ret + List.length lines)%nat.
Proof.
  induction lines as [|line lines IH]; intros ret ret' Hnd Hrows Hrun.
  - inversion Hrun; subst. split; [exact Hnd|]. split; [exact Hrows|].
    cbn [List.length]. unfold dict in *. lia.
  - cbn [rfold] in Hrun.
    destruct (lsblock_line ret line) as [ret1|] eqn:E1; [| discriminate].
    cbn [rbind] in Hrun.
    destruct (lsblock_line_inv ret line ret1 E1)
      as (toks & cur & kname & _ & Htok & _ & ->).
    destruct (IH (dict_set ret kname
                    (dict_set cur "device_path" (snd (get_dev_name_entry kname))))
                 ret') as (H1 & H2 & H3).
    + apply dict_set_nodup. exact Hnd.
    + intros k row Hin. apply in_dict_set in Hin.
      destruct Hin as [[_ ->] | Hin]; [| eapply Hrows; exact Hin].
      apply dict_set_nodup.
      apply (lsblock_tokens_nodup toks [] cur); [constructor | exact Htok].
    + exact Hrun.
    + split; [exact H1|]. split; [exact H2|].
      pose proof (dict_set_length ret kname
                    (dict_set cur "device_path" (snd (get_dev_name_entry kname)))).
      cbn [List.length]. unfold dict in *. lia.
Qed.

(** The token loop stores under every key the value of the last token with
    that key. *)
Lemma lsblock_tokens_fold (toks : list string) :
  forall cur cur',
  lsblock_tokens toks cur = Ret cur' ->
  cur' = fold_left (fun d kv => dict_set d (fst kv) (snd kv))
           (map (fun tok => (key_of tok, value_of tok)) toks) cur.
Proof.
  induction toks as [|tok toks IH]; intros cur cur' Hrun.
  - inversion Hrun; subst. reflexivity.
  - unfold lsblock_tokens in *. cbn [rfold] in Hrun.
    destruct (split1 tok "=") as [|k [|v [|? ?]]] eqn:Es;
      cbn [unpack2 rbind] in Hrun; try discriminate.
    assert (Hk : key_of tok = k) by (unfold key_of; rewrite Es; reflexivity).
    assert (Hv : value_of tok = v) by (unfold value_of; rewrite Es; reflexivity).
    cbn [map fold_left fst snd]. rewrite Hk, Hv. apply IH. exact Hrun.
Qed.

Lemma lsblock_tokens_value (toks : list string) (cur : dict string) :
  lsblock_tokens toks [] = Ret cur ->
  forall key, dict_get cur key = token_value key toks.
Proof.
  intros Hrun key. rewrite (lsblock_tokens_fold toks [] cur Hrun).
  rewrite dict_get_fold_set. unfold token_value.
  destruct (last_value key _); reflexivity.
Qed.

(** The line loop: the table is built from one entry per line. *)
Lemma lsblock_lines_entries (lines : list string) :
  forall ret ret',
  rfold lsblock_line lines ret = Ret ret' ->
  exists entries : list (string * dict string),
    Forall2 (fun line e =>
               exists toks, shlex_split line = Ret toks /\
                            row_of_tokens toks (fst e) (snd e))
            lines entries /\
    ret' = fold_left (fun d kv => dict_set d (fst kv) (snd kv)) entries ret.
Proof.
  induction lines as [|line lines IH]; intros ret ret' Hrun.
  - inversion Hrun; subst. exists []. split; [constructor | reflexivity].
  - cbn [rfold] in Hrun.
    destruct (lsblock_line ret line) as [ret1|] eqn:E1; [| discriminate].
    cbn [rbind] in Hrun.
    destruct (lsblock_line_inv ret line ret1 E1)
      as (toks & cur & kname & Hlex & Htok & Hk & ->).
    destruct (IH _ ret' Hrun) as (entries & Hall & ->).
    exists ((kname, dict_set cur "device_path" (snd (get_dev_name_entry kname)))
              :: entries).
    split; [| reflexivity].
    constructor; [| exact Hall].
    exists toks. split; [exact Hlex|]. cbn [fst snd]. split; [| split].
    + rewrite <- (lsblock_tokens_value toks cur Htok). exact Hk.
    + rewrite dict_get_set_same. reflexivity.
    + intros key Hkey. rewrite dict_get_set_other by exact Hkey.
      apply (lsblock_tokens_value toks cur Htok).
Qed.

Lemma Forall2_in_l {A B} (R : A -> B -> Prop) (l : list A) (l' : list B) (x : A) :
  Forall2 R l l' -> In x l -> exists y, In y l' /\ R x y.
Proof.
  induction 1 as [|a b l l' Hab Hl IH]; intros Hin; [destruct Hin|].
  destruct Hin as [<- | Hin].
  - exists b. split; [left; reflexivity | exact Hab].
  - destruct (IH Hin) as (y & Hy & Hr). exists y. split; [right; exact Hy | exact Hr].
Qed.

Lemma Forall2_in_r {A B} (R : A -> B -> Prop) (l : list A) (l' : list B) (y : B) :
  Forall2 R l l' -> In y l' -> exists x, In x l /\ R x y.
Proof.
  induction 1 as [|a b l l' Hab Hl IH]; intros Hin; [destruct Hin|].
  destruct Hin as [<- | Hin].
  - exists a. split; [left; reflexivity | exact Hab].
  - destruct (IH Hin) as (x & Hx & Hr). exists x. split; [right; exact Hx | exact Hr].
Qed.

(** What a parse of the block listing returns, line by line: every line
    has its KNAME value among the keys, every row is the row of a line
    with that KNAME value, and of the lines with the same KNAME value the
    last one counts. *)
Lemma lsblock_lines_table (lines : string) (ret : dict (dict string)) :
  _lsblock_pairs_to_dict lines = Ret ret ->
  (forall line, In line (splitlines lines) ->
     exists toks k row,
       shlex_split line = Ret toks /\ token_value "KNAME" toks = Some k /\
       In (k, row) ret)
  /\
  (forall k row, In (k, row) ret ->
     exists line toks,
       In line (splitlines lines) /\ shlex_split line = Ret toks /\
       row_of_tokens toks k row)
  /\
  (forall pre line post toks k,
     splitlines lines = pre ++ line :: post ->
     shlex_split line = Ret toks -> token_value "KNAME" toks = Some k ->
     (forall l toks', In l post -> shlex_split l = Ret toks' ->
        token_value "KNAME" toks' <> Some k) ->
     exists row, dict_get ret k = Some row /\ row_of_tokens toks k row).
Proof.
  intros Hrun. rewrite lsblock_unfold in Hrun.
  destruct (lsblock_lines_entries (splitlines lines) [] ret Hrun)
    as (entries & Hall & Hret).
  assert (Hget : forall k, dict_get ret k = last_value k entries).
  { intros k. rewrite Hret, dict_get_fold_set.
    destruct (last_value k entries); reflexivity. }
  split; [| split].
  - intros line Hin.
    destruct (Forall2_in_l _ _ _ line Hall Hin) as ([k row] & He & toks & Hlex & Hk & _).
    cbn [fst] in Hk.
    destruct (last_value k entries) as [row'|] eqn:El.
    + exists toks, k, row'. split; [exact Hlex|]. split; [exact Hk|].
      apply dict_get_some_in. rewrite Hget. exact El.
    + exfalso. apply last_value_none in El. apply El.
      apply (in_map fst) in He. exact He.
  - intros k row Hin.
    assert (Hnd : NoDup (map fst ret)).
    { destruct (lsblock_lines_keys (splitlines lines) [] ret) as (H & _);
        [constructor | intros ? ? [] | exact Hrun | exact H]. }
    pose proof (dict_get_in ret k row Hnd Hin) as Hg. rewrite Hget in Hg.
    apply last_value_in in Hg.
    destruct (Forall2_in_r _ _ _ (k, row) Hall Hg) as (line & Hl & toks & Hlex & Hrow).
    exists line, toks. auto.
  - intros pre line post toks k Hsplit Hlex Hk Hpost.
    rewrite Hsplit in Hall. apply Forall2_app_inv_l in Hall.
    destruct Hall as (epre & erest & _ & Hrest & ->).
    inversion Hrest as [|? [k' row] ? epost (toks' & Hlex' & Hrow) Hepost]; subst.
    rewrite Hlex in Hlex'. inversion Hlex'; subst toks'.
    cbn [fst snd] in Hrow. destruct Hrow as (Hk' & Hrow).
    rewrite Hk in Hk'. inversion Hk'; subst k'.
    exists row. split.
    + rewrite Hget. apply last_value_split. intros Hin.
      apply in_map_iff in Hin. destruct Hin as ([k2 row2] & Heq & Hin).
      cbn [fst] in Heq. subst k2.
      destruct (Forall2_in_r _ _ _ (k, row2) Hepost Hin)
        as (l & Hl & toks2 & Hlex2 & Hk2 & _).
      exact (Hpost l toks2 Hl Hlex2 Hk2).
    + split; [exact Hk | exact Hrow].
Qed.

(** C7 (amended).  [_lsblock_pairs_to_dict] returns a table for every
    output in the pairs format.  The table is keyed by the KNAME values of
    the lines: every line has its KNAME value among the keys, and every row
    is the row of a line of the output whose KNAME value is the key it is
    stored under; the row holds the values of that line's tokens, NAME as
    it is written, and a [device_path] that is "/dev/" followed by what
    comes after the last "/dev/" in the KNAME value, so "/dev/" followed by
    the KNAME value whenever that value does not contain "/dev/". *)
Theorem lsblock_pairs_keyed_by_kname (lines : string) :
  (pairs_format lines -> exists ret, _lsblock_pairs_to_dict lines = Ret ret)
  /\
  (forall ret, _lsblock_pairs_to_dict lines = Ret ret ->
   (forall line, In line (splitlines lines) ->
      exists toks k row,
        shlex_split line = Ret toks /\ token_value "KNAME" toks = Some k /\
        In (k, row) ret)
   /\
   (forall k row, In (k, row) ret ->
     (exists line toks,
        In line (splitlines lines) /\ shlex_split line = Ret toks /\
        row_of_tokens toks k row) /\
     dict_get row "KNAME" = Some k /\
     dict_get row "device_path" =
       Some ("/dev/" ++ last_item (split k "/dev/"))%string /\
     (contains "/dev/" k = false ->
      dict_get row "device_path" = Some ("/dev/" ++ k)%string))).
Proof.
  split.
  - intros H. rewrite lsblock_unfold. apply rfold_lines_total. exact H.
  - intros ret Hrun.
    destruct (lsblock_lines_table lines ret Hrun) as (Hlines & Hrows & _).
    split; [exact Hlines|].
    intros k row Hin. split; [exact (Hrows k row Hin)|].
    rewrite lsblock_unfold in Hrun.
    destruct (rfold_rows (splitlines lines) [] ret) with (k := k) (row := row)
      as [Hk Hp]; auto.
    { intros k0 row0 []. }
    split; [exact Hk|]. split; [exact Hp|].
    intros Hc. rewrite Hp. rewrite split_absent by exact Hc. reflexivity.
Qed.

(** C7, counterexample.  For the line KNAME="/dev/sda" NAME="sda" the row
    is keyed "/dev/sda" and its [device_path] is "/dev/sda", not
    "/dev//dev/sda". *)
Lemma lsblock_device_path_not_prefixed :
  pairs_format sda_line /\
  _lsblock_pairs_to_dict sda_line =
    Ret [("/dev/sda",
          [("KNAME", "/dev/sda"); ("NAME", "sda"); ("device_path", "/dev/sda")])]
  /\ "/dev/sda" <> ("/dev/" ++ "/dev/sda")%string.
Proof.
  split; [| split].
  - constructor; [| constructor].
    exists ["KNAME=/dev/sda"; "NAME=sda"]. split; [reflexivity|]. split.
    + repeat constructor.
    + constructor. reflexivity.
  - reflexivity.
  - discriminate.
Qed.

(* ---------- _lsblock ---------- *)

Lemma replace_absent (s : string) (a b : ascii) :
  contains (String a EmptyString) s = false -> replace s a b = s.
Proof.
  induction s as [|c s IH]; intros H; [reflexivity|].
  cbn [contains] in H. apply orb_false_iff in H. destruct H as [Hp Hc].
  cbn [replace]. rewrite (IH Hc).
  change (String.prefix (String a EmptyString) (String c s))
    with (if Ascii.ascii_dec a c then String.prefix "" s else false) in Hp.
  destruct (Ascii.ascii_dec a c) as [E | E].
  - subst. destruct s; discriminate.
  - destruct (Ascii.eqb_spec c a); [congruence | reflexivity].
Qed.

Lemma replace_removes (s : string) (a b : ascii) :
  a <> b -> contains (String a EmptyString) (replace s a b) = false.
Proof.
  intros Hab. induction s as [|c s IH]; [reflexivity|].
  cbn [replace contains]. rewrite IH, orb_false_r.
  set (c' := if Ascii.eqb c a then b else c).
  change (String.prefix (String a EmptyString) (String c' (replace s a b)))
    with (if Ascii.ascii_dec a c' then String.prefix "" (replace s a b) else false).
  destruct (Ascii.ascii_dec a c') as [E | E]; [| reflexivity].
  exfalso. subst c'. destruct (Ascii.eqb_spec c a); congruence.
Qed.

Lemma replace_chars (s : string) (a b : ascii) :
  String.length (replace s a b) = String.length s /\
  forall i, String.get i (replace s a b) =
            match String.get i s with
            | Some c => Some (if Ascii.eqb c a then b else c)
            | None => None
            end.
Proof.
  induction s as [|c s [IHl IHg]]; cbn [replace String.length].
  - split; [reflexivity|]. intros i. destruct i; reflexivity.
  - split; [rewrite IHl; reflexivity|].
    intros [|i]; cbn [String.get]; [reflexivity | apply IHg].
Qed.

(** C8 (amended).  [_lsblock] runs lsblk on its arguments with every "!"
    replaced by "/", and parses the tool's output with every "!" replaced
    by "/": when the tool answers, the result of the call is the parse of
    the replaced output.  Replacing keeps the length, turns each "!" into
    "/" and keeps every other character, "/" included: an argument without
    "!" is passed as it is, and the parsed output contains no "!". *)
Theorem lsblock_replaces_bang {collab : Collaborators}
  (args : option (list string)) (w : World) :
  let args' := map (fun x => replace x "!" "/") (default_args args) in
  _lsblock args w =
    (' (out, _) <- util_subp (lsblk_cmd args') [0] ;;
     lift (_lsblock_pairs_to_dict (replace out "!" "/"))) w
  /\ (forall out err w1,
        util_subp (lsblk_cmd args') [0] w = (Ret (out, err), w1) ->
        _lsblock args w = (_lsblock_pairs_to_dict (replace out "!" "/"), w1))
  /\ (forall s,
        String.length (replace s "!" "/") = String.length s /\
        forall i, String.get i (replace s "!" "/") =
                  match String.get i s with
                  | Some c => Some (if Ascii.eqb c "!" then "/"%char else c)
                  | None => None
                  end)
  /\ (forall x, contains "!" x = false -> replace x "!" "/" = x)
  /\ (forall s, contains "!" (replace s "!" "/") = false).
Proof.
  cbv zeta.
  assert (H : _lsblock args w =
    (' (out, _) <- util_subp
         (lsblk_cmd (map (fun x => replace x "!" "/") (default_args args))) [0] ;;
     lift (_lsblock_pairs_to_dict (replace out "!" "/"))) w)
    by (destruct args; reflexivity).
  split; [exact H|]. split; [| split; [| split]].
  - intros out err w1 Hrun. rewrite H. unfold bind. rewrite Hrun. reflexivity.
  - intros s. apply replace_chars.
  - intros x Hx. apply replace_absent. exact Hx.
  - intros s. apply replace_removes. discriminate.
Qed.

(** C8, counterexample.  The argument "/dev/sda" reaches the tool's command
    line with its slashes as they are. *)
Lemma lsblock_passes_slash_unescaped :
  LOG (snd (@_lsblock recording_tools (Some ["/dev/sda"]) empty_system)) =
  [(DEBUG, msg_text (join " " (lsblk_cmd ["/dev/sda"])))].
Proof. reflexivity. Qed.

Lemma in_set_add (s : list string) (x y : string) :
  In y (set_add s x) <-> In y s \/ y = x.
Proof.
  unfold set_add. destruct (mem x s) eqn:E.
  - apply mem_In in E. split; [auto|]. intros [H | ->]; assumption.
  - rewrite in_app_iff. cbn. intuition.
Qed.

Lemma truthy_iff (o : option string) :
  truthy o = true <-> exists u, o = Some u /\ u <> "".
Proof.
  destruct o as [[|a u]|]; cbn; split; try discriminate.
  - intros (u & H & Hu). inversion H. congruence.
  - intros _. eexists. split; [reflexivity | discriminate].
  - intros (u' & H & Hu). reflexivity.
  - intros (u & H & _). discriminate.
Qed.

(* ---------- detect_multipath ---------- *)

Lemma other_scan_eq devpath uuid (l : dict (dict string)) (w : World) :
  other_scan l devpath uuid w =
  (Ret (if existsb (shares devpath uuid) l then Some true else None), w).
Proof.
  unfold other_scan. induction l as [|[o od] l IH]; [reflexivity|].
  cbn [mfor_return existsb]. unfold bind. unfold shares at 1. cbn [fst snd].
  destruct (opt_eqb (dict_get od "UUID") uuid && negb (String.eqb o devpath)).
  - reflexivity.
  - cbn. exact IH.
Qed.

Lemma target_step_spec binfo target_devs devpath data (w : World) :
  exists w1,
    target_step binfo target_devs (devpath, data) w =
      (Ret (if hit binfo target_devs (devpath, data) then Some true else None), w1) /\
    log_grows w w1 /\
    (mem devpath target_devs = true ->
     truthy (dict_get data "UUID") = false ->
     In (WARN, msg_no_uuid devpath) (LOG w1)).
Proof.
  unfold target_step, hit. cbn [fst snd].
  destruct (mem devpath target_devs) eqn:Em; cbn [negb andb].
  - destruct (truthy (dict_get data "UUID")) eqn:Et; cbn [negb andb].
    + unfold bind, log_debug. rewrite other_scan_eq.
      eexists. split; [reflexivity|]. split.
      * intros x Hx. cbn. apply in_or_app. auto.
      * discriminate.
    + unfold bind, log_warn, ret.
      eexists. split; [reflexivity|]. split.
      * intros x Hx. cbn. apply in_or_app. auto.
      * intros _ _. cbn. apply in_or_app. right. left. reflexivity.
  - exists w. split; [reflexivity|]. split; [intros x; auto | discriminate].
Qed.

Lemma target_scan_spec binfo target_devs (l : dict (dict string)) :
  forall w, exists w',
    mfor_return (target_step binfo target_devs) l w =
      (Ret (if existsb (hit binfo target_devs) l then Some true else None), w') /\
    log_grows w w' /\
    (existsb (hit binfo target_devs) l = false ->
     forall devpath data, In (devpath, data) l ->
       mem devpath target_devs = true ->
       truthy (dict_get data "UUID") = false ->
       In (WARN, msg_no_uuid devpath) (LOG w')).
Proof.
  induction l as [|[devpath data] l IH]; intros w.
  - exists w. cbn. unfold ret. split; [reflexivity|]. split; [intros x; auto|].
    intros _ d dt [].
  - cbn [mfor_return existsb]. unfold bind.
    destruct (target_step_spec binfo target_devs devpath data w)
      as (w1 & Hstep & Hg1 & Hw1).
    rewrite Hstep.
    destruct (hit binfo target_devs (devpath, data)) eqn:Eh; cbn [orb].
    + exists w1. split; [reflexivity|]. split; [exact Hg1 | discriminate].
    + destruct (IH w1) as (w' & Hrun & Hg & Hw).
      exists w'. split; [exact Hrun|]. split.
      * intros x Hx. apply Hg, Hg1, Hx.
      * intros Hno d dt [Hin | Hin] Hm Hu.
        -- inversion Hin; subst. apply Hg. apply Hw1; assumption.
        -- eapply Hw; eauto.
Qed.

Lemma hit_iff binfo target_devs (l : dict (dict string)) :
  existsb (hit binfo target_devs) l = true <->
  exists devpath data uuid other other_data,
    In (devpath, data) l /\ In devpath target_devs /\
    dict_get data "UUID" = Some uuid /\ uuid <> "" /\
    In (other, other_data) binfo /\ other <> devpath /\
    dict_get other_data "UUID" = Some uuid.
Proof.
  rewrite existsb_exists. split.
  - intros ([devpath data] & Hin & Hh). unfold hit in Hh. cbn [fst snd] in Hh.
    apply andb_true_iff in Hh. destruct Hh as [Hh Hs].
    apply andb_true_iff in Hh. destruct Hh as [Hm Ht].
    apply mem_In in Hm. apply truthy_iff in Ht. destruct Ht as (u & Hu & Hne).
    apply existsb_exists in Hs. destruct Hs as ([o od] & Ho & Hsh).
    unfold shares in Hsh. cbn [fst snd] in Hsh.
    apply andb_true_iff in Hsh. destruct Hsh as [He Hd].
    rewrite Hu in He. destruct (dict_get od "UUID") as [u'|] eqn:Eu; [| discriminate].
    cbn in He. apply String.eqb_eq in He. subst u'.
    apply negb_true_iff in Hd. apply String.eqb_neq in Hd.
    exists devpath, data, u, o, od. auto 10.
  - intros (devpath & data & u & o & od & Hin & Hm & Hu & Hne & Ho & Hd & Hou).
    exists (devpath, data). split; [exact Hin|]. unfold hit. cbn [fst snd].
    apply andb_true_iff. split; [apply andb_true_iff; split|].
    + apply mem_In. exact Hm.
    + apply truthy_iff. eauto.
    + apply existsb_exists. exists (o, od). split; [exact Ho|].
      unfold shares. cbn [fst snd]. rewrite Hou, Hu. cbn.
      rewrite String.eqb_refl. cbn. apply negb_true_iff.
      apply String.eqb_neq. exact Hd.
Qed.

Lemma upto_first_none {A} (f : A -> bool) (l : list A) :
  existsb f l = false -> upto_first f l = l.
Proof.
  induction l as [|x l IH]; intros H; [reflexivity|].
  cbn [existsb] in H. apply orb_false_iff in H. destruct H as [Hx Hl].
  cbn [upto_first]. rewrite Hx, (IH Hl). reflexivity.
Qed.

Lemma upto_first_some {A} (f : A -> bool) (l : list A) :
  existsb f l = true ->
  exists pre x post,
    l = pre ++ x :: post /\ upto_first f l = pre ++ [x] /\ f x = true /\
    forall y, In y pre -> f y = false.
Proof.
  induction l as [|x l IH]; intros H; [discriminate|].
  cbn [existsb upto_first] in *. destruct (f x) eqn:Ex.
  - exists [], x, l. repeat split; auto. intros y [].
  - destruct (IH H) as (pre & y & post & -> & Hu & Hy & Hpre).
    exists (x :: pre), y, post. rewrite Hu. repeat split; auto.
    intros z [<- | Hz]; auto.
Qed.

Lemma target_step_log binfo target_devs item (w : World) :
  LOG (snd (target_step binfo target_devs item w)) =
  LOG w ++ scan_records target_devs item.
Proof.
  destruct item as [devpath data]. unfold target_step, scan_records.
  cbn [fst snd].
  destruct (mem devpath target_devs); cbn [negb].
  - destruct (truthy (dict_get data "UUID")); cbn [negb].
    + unfold bind, log_debug. rewrite other_scan_eq. reflexivity.
    + reflexivity.
  - cbn. rewrite app_nil_r. reflexivity.
Qed.

Lemma target_scan_log binfo target_devs (l : dict (dict string)) :
  forall w,
    LOG (snd (mfor_return (target_step binfo target_devs) l w)) =
    LOG w ++ flat_map (scan_records target_devs)
               (upto_first (hit binfo target_devs) l).
Proof.
  induction l as [|[devpath data] l IH]; intros w.
  - cbn. rewrite app_nil_r. reflexivity.
  - cbn [mfor_return upto_first]. unfold bind.
    pose proof (target_step_log binfo target_devs (devpath, data) w) as Hlog.
    destruct (target_step_spec binfo target_devs devpath data w)
      as (w1 & Hstep & _).
    rewrite Hstep in Hlog |- *. cbn [snd] in Hlog.
    destruct (hit binfo target_devs (devpath, data)).
    + cbn [ret snd flat_map]. rewrite app_nil_r. exact Hlog.
    + rewrite IH, Hlog. cbn [flat_map]. rewrite app_assoc. reflexivity.
Qed.

Section Multipath.

Context {collab : Collaborators}.

(** C6.  When the rescan, the blkid query and the lookup of the target
    devices succeed, [detect_multipath] returns; it returns [True] if and
    only if some blkid entry whose device path is a target device carries a
    non-empty UUID that an entry for a different device path carries too.
    A target entry without a UUID raises nothing.  The loop looks at the
    entries in blkid's order, all of them when the answer is [False] and
    those up to the first entry that decides when it is [True]; what it
    logs is one record per target entry looked at, a warning for one
    without a UUID.  So every target entry without a UUID that the loop
    looks at has its warning in the log, in both cases. *)
Theorem detect_multipath_iff (target_mountpoint : string) (w w1 w2 w3 : World)
  (binfo : dict (dict string)) (target_devs : list string) :
  rescan_block_devices w = (Ret tt, w1) ->
  blkid None false w1 = (Ret binfo, w2) ->
  get_devices_for_mp target_mountpoint
    (snd (log_debug (msg_text "detect_multipath found blkid info") w2))
    = (Ret target_devs, w3) ->
  exists b w',
    detect_multipath target_mountpoint w = (Ret b, w') /\
    (b = true <->
     exists devpath data uuid other other_data,
       In (devpath, data) binfo /\ In devpath target_devs /\
       dict_get data "UUID" = Some uuid /\ uuid <> "" /\
       In (other, other_data) binfo /\ other <> devpath /\
       dict_get other_data "UUID" = Some uuid) /\
    (b = false ->
     forall devpath data,
       In (devpath, data) binfo -> In devpath target_devs ->
       truthy (dict_get data "UUID") = false ->
       In (WARN, msg_no_uuid devpath) (LOG w')) /\
    let looked_at := upto_first (hit binfo target_devs) binfo in
    LOG w' = LOG w3 ++ (DEBUG, msg_text "target_devs")
                       :: flat_map (scan_records target_devs) looked_at /\
    (b = false -> looked_at = binfo) /\
    (b = true ->
     exists pre item post,
       binfo = pre ++ item :: post /\ looked_at = pre ++ [item] /\
       hit binfo target_devs item = true /\
       forall x, In x pre -> hit binfo target_devs x = false) /\
    (forall devpath data,
       In (devpath, data) looked_at -> In devpath target_devs ->
       truthy (dict_get data "UUID") = false ->
       In (WARN, msg_no_uuid devpath) (LOG w')).
Proof.
  intros Hres Hblk Hdev.
  unfold detect_multipath. unfold bind at 1. rewrite Hres.
  unfold bind at 1. rewrite Hblk.
  unfold bind at 1.
  change (log_debug (msg_text "detect_multipath found blkid info") w2)
    with (Ret tt, snd (log_debug (msg_text "detect_multipath found blkid info") w2)).
  cbv iota beta. unfold bind at 1. rewrite Hdev.
  unfold bind at 1. unfold log_debug at 1.
  match goal with |- context [bind (mfor_return ?f binfo) _ ?w0] =>
    change f with (target_step binfo target_devs);
    destruct (target_scan_spec binfo target_devs binfo w0) as (w' & Hrun & Hg & Hw);
    pose proof (target_scan_log binfo target_devs binfo w0) as Hlog
  end.
  rewrite Hrun in Hlog. cbn [snd LOG] in Hlog.
  rewrite <- app_assoc in Hlog. cbn [app] in Hlog.
  unfold bind at 1. rewrite Hrun.
  assert (Hwarn : forall devpath data,
            In (devpath, data) (upto_first (hit binfo target_devs) binfo) ->
            In devpath target_devs ->
            truthy (dict_get data "UUID") = false ->
            In (WARN, msg_no_uuid devpath) (LOG w')).
  { intros devpath data Hin Hm Hu. rewrite Hlog.
    apply in_or_app. right. right. apply in_flat_map.
    exists (devpath, data). split; [exact Hin|].
    unfold scan_records. cbn [fst snd].
    apply mem_In in Hm. rewrite Hm, Hu. left. reflexivity. }
  destruct (existsb (hit binfo target_devs) binfo) eqn:Eh.
  - exists true, w'. split; [reflexivity|]. split.
    { split; [intros _; apply hit_iff; exact Eh | reflexivity]. }
    split; [discriminate|]. cbv zeta.
    split; [exact Hlog|]. split; [discriminate|].
    split; [intros _; apply upto_first_some; exact Eh | exact Hwarn].
  - exists false, w'. split; [reflexivity|]. split.
    { split; [discriminate|]. intros H. apply hit_iff in H. congruence. }
    split.
    { intros _ devpath data Hin Hm Hu. apply (Hw eq_refl devpath data Hin).
      - apply mem_In. exact Hm.
      - exact Hu. }
    cbv zeta. split; [exact Hlog|].
    split; [intros _; apply upto_first_none; exact Eh|].
    split; [discriminate | exact Hwarn].
Qed.

(* ---------- get_multipath_wwids ---------- *)

Lemma get_multipath_wwids_unfold (w : World) :
  get_multipath_wwids w =
  (binfo <- blkid None true ;;
   devices <- mfold candidate_step (combinations2 (devuuids_of binfo)) [] ;;
   mfold wwid_step devices []) w.
Proof. reflexivity. Qed.

Lemma candidates_spec (parent : string -> string) (w1 : World)
  (l : list ((string * string) * (string * string))) :
  let firsts := flat_map (fun pr : (string * string) * (string * string) =>
                            if String.eqb (snd (fst pr)) (snd (snd pr))
                            then [fst (fst pr)] else []) l in
  (forall d, In d firsts ->
     exists pn, get_blockdev_for_partition d w1 = (Ret (parent d, pn), w1)) ->
  forall acc, exists acc',
    mfold candidate_step l acc w1 = (Ret acc', w1) /\
    forall p, In p acc' <-> In p acc \/ In p (map parent firsts).
Proof.
  induction l as [|[[d1 u1] [d2 u2]] l IH]; intros firsts Hp acc.
  - exists acc. split; [reflexivity|]. cbn. intuition.
  - cbn [mfold]. unfold bind at 1. unfold candidate_step at 1.
    subst firsts. cbn [flat_map fst snd] in *.
    destruct (String.eqb u1 u2) eqn:Eu.
    + destruct (Hp d1) as (pn & Hrun1); [left; reflexivity|].
      unfold bind at 1. rewrite Hrun1. unfold ret at 1.
      destruct (IH (fun d Hd => Hp d (or_intror Hd)) (set_add acc (parent d1)))
        as (acc' & Hrun & Hacc).
      exists acc'. split; [exact Hrun|].
      intros p. rewrite Hacc, in_set_add. cbn [app map In]. intuition.
    + unfold ret at 1.
      destruct (IH Hp acc) as (acc' & Hrun & Hacc).
      exists acc'. split; [exact Hrun|]. exact Hacc.
Qed.

Lemma get_scsi_wwid_spec (lookup : string -> option string) (d : string) (w : World) :
  lookup_answers lookup d ->
  exists w',
    get_scsi_wwid d false w = (Ret (option_map rstrip_newlines (lookup d)), w').
Proof.
  intros H. specialize (H w). unfold get_scsi_wwid, try_except, bind.
  change (["/lib/udev/scsi_id"; "--whitelisted"; ("--device=" ++ d)%string])
    with (scsi_id_cmd d).
  destruct (util_subp (scsi_id_cmd d) [0] w) as [r w1]. cbn [fst] in H.
  destruct (lookup d) as [out|].
  - destruct H as (err & ->). eexists. reflexivity.
  - destruct H as (c & x & ->). unfold log_warn, ret. eexists. reflexivity.
Qed.

Lemma wwids_spec (lookup : string -> option string) (devs : list string) :
  (forall d, In d devs -> lookup_answers lookup d) ->
  forall acc w, exists acc' w',
    mfold wwid_step devs acc w = (Ret acc', w') /\
    forall x, In x acc' <->
      In x acc \/
      exists d out, In d devs /\ lookup d = Some out /\
                    x = rstrip_newlines out /\ x <> "".
Proof.
  induction devs as [|d devs IH]; intros Hl acc w.
  - exists acc, w. split; [reflexivity|].
    intros x. split; [auto|]. intros [H | (d & out & [] & _)]. exact H.
  - cbn [mfold]. unfold bind at 1. unfold wwid_step at 1. unfold bind at 1.
    destruct (get_scsi_wwid_spec lookup d w (Hl d (or_introl eq_refl))) as (w1 & Hrun1).
    rewrite Hrun1.
    destruct (lookup d) as [out|] eqn:El; cbn [option_map].
    + destruct (rstrip_newlines out) as [|a x0] eqn:Eo.
      * unfold ret at 1.
        destruct (IH (fun d' Hd' => Hl d' (or_intror Hd')) acc w1)
          as (acc' & w' & Hrun & Hacc).
        exists acc', w'. split; [exact Hrun|].
        intros x. rewrite Hacc. split.
        -- intros [H | (d' & out' & Hin & Hlk & Hx & Hne)]; [auto|].
           right. exists d', out'. cbn [In]. auto.
        -- intros [H | (d' & out' & [-> | Hin] & Hlk & Hx & Hne)]; [auto | |].
           ++ rewrite El in Hlk. inversion Hlk; subst. congruence.
           ++ right. exists d', out'. auto.
      * unfold ret at 1.
        destruct (IH (fun d' Hd' => Hl d' (or_intror Hd'))
                     (set_add acc (String a x0)) w1)
          as (acc' & w' & Hrun & Hacc).
        exists acc', w'. split; [exact Hrun|].
        intros x. rewrite Hacc, in_set_add. split.
        -- intros [[H | ->] | (d' & out' & Hin & Hlk & Hx & Hne)]; [auto | |].
           ++ right. exists d, out. cbn [In]. repeat split; auto. discriminate.
           ++ right. exists d', out'. cbn [In]. auto.
        -- intros [H | (d' & out' & [-> | Hin] & Hlk & Hx & Hne)]; [auto | |].
           ++ rewrite El in Hlk. inversion Hlk; subst. left. right. congruence.
           ++ right. exists d', out'. auto.
    + unfold ret at 1.
      destruct (IH (fun d' Hd' => Hl d' (or_intror Hd')) acc w1)
        as (acc' & w' & Hrun & Hacc).
      exists acc', w'. split; [exact Hrun|].
      intros x. rewrite Hacc. split.
      * intros [H | (d' & out' & Hin & Hlk & Hx & Hne)]; [auto|].
        right. exists d', out'. cbn [In]. auto.
      * intros [H | (d' & out' & [-> | Hin] & Hlk & Hx & Hne)]; [auto | |].
        -- congruence.
        -- right. exists d', out'. auto.
Qed.

(** C2 (amended).  In [get_multipath_wwids], for every pair of devices, in
    the order of blkid's output, that carry an identical UUID, the parent
    disk of the first device of the pair is a candidate (the second
    device's parent is not looked up); the returned set holds exactly the
    WWIDs of the candidates whose lookup succeeds with a non-empty string.
    [parent] and [lookup] describe what the parent resolution and the
    scsi_id tool answer. *)
Theorem get_multipath_wwids_first_of_pair (w w1 : World)
  (binfo : dict (dict string)) (parent : string -> string)
  (lookup : string -> option string) :
  blkid None true w = (Ret binfo, w1) ->
  (forall d, In d (first_of_pairs binfo) ->
     exists pn, get_blockdev_for_partition d w1 = (Ret (parent d, pn), w1)) ->
  (forall d, In d (first_of_pairs binfo) -> lookup_answers lookup (parent d)) ->
  exists wwids w',
    get_multipath_wwids w = (Ret wwids, w') /\
    forall x, In x wwids <->
      exists d out,
        In d (first_of_pairs binfo) /\ lookup (parent d) = Some out /\
        x = rstrip_newlines out /\ x <> "".
Proof.
  intros Hblk Hpar Hlk.
  rewrite get_multipath_wwids_unfold. unfold bind at 1. rewrite Hblk.
  destruct (candidates_spec parent w1 (combinations2 (devuuids_of binfo)) Hpar [])
    as (devs & Hrun1 & Hdevs).
  unfold bind at 1. rewrite Hrun1.
  destruct (wwids_spec lookup devs) with (acc := @nil string) (w := w1)
    as (wwids & w' & Hrun2 & Hw).
  { intros d Hd. apply Hdevs in Hd. destruct Hd as [[] | Hd].
    apply in_map_iff in Hd. destruct Hd as (d0 & <- & Hd0). apply Hlk. exact Hd0. }
  exists wwids, w'. split; [exact Hrun2|].
  intros x. rewrite Hw. split.
  - intros [[] | (d & out & Hd & Hl & Hx & Hne)].
    apply Hdevs in Hd. destruct Hd as [[] | Hd].
    apply in_map_iff in Hd. destruct Hd as (d0 & <- & Hd0).
    exists d0, out. auto.
  - intros (d & out & Hd & Hl & Hx & Hne). right.
    exists (parent d), out. repeat split; auto.
    apply Hdevs. right. apply in_map. exact Hd.
Qed.

End Multipath.

Lemma blen_nonneg (b : list byte) : 0 <= blen b.
Proof. unfold blen. lia. Qed.

Lemma blen_zeros (n : Z) : blen (zeros n) = Z.max n 0.
Proof. unfold blen, zeros. rewrite repeat_length. lia. Qed.

Lemma blen_app (a b : list byte) : blen (a ++ b) = blen a + blen b.
Proof. unfold blen. rewrite length_app. lia. Qed.

Lemma write_at_nil pos c : write_at pos [] c = c.
Proof. reflexivity. Qed.

Lemma write_at_inside (pos : Z) (b c : list byte) :
  0 <= pos -> pos + blen b <= blen c ->
  write_at pos b c =
  firstn (Z.to_nat pos) c ++ b ++ skipn (Z.to_nat pos + List.length b) c.
Proof.
  intros Hp Hb. unfold write_at. destruct b as [|x b].
  - simpl. rewrite Nat.add_0_r. symmetry. apply firstn_skipn.
  - unfold blen in *.
    replace (Z.to_nat pos - List.length c)%nat with 0%nat by lia.
    reflexivity.
Qed.

Lemma write_at_length (pos : Z) (b c : list byte) :
  0 <= pos -> pos + blen b <= blen c ->
  List.length (write_at pos b c) = List.length c.
Proof.
  intros Hp Hb. rewrite write_at_inside by assumption.
  unfold blen in *. rewrite !length_app, length_firstn, length_skipn. lia.
Qed.

Lemma write_at_zeros_join (p a b : Z) (c : list byte) :
  0 <= p -> 0 <= a -> 0 <= b -> p + a + b <= blen c ->
  write_at (p + a) (zeros b) (write_at p (zeros a) c) = write_at p (zeros (a + b)) c.
Proof.
  intros Hp Ha Hb Hc.
  assert (Hl : List.length (write_at p (zeros a) c) = List.length c).
  { apply write_at_length; [lia|]. rewrite blen_zeros. lia. }
  rewrite (write_at_inside (p + a) (zeros b)); [| lia | unfold blen in *; rewrite Hl; fold (blen (zeros b)); rewrite blen_zeros; lia ].
  rewrite (write_at_inside p (zeros a)); [| lia | rewrite blen_zeros; lia ].
  rewrite (write_at_inside p (zeros (a+b))); [| lia | rewrite blen_zeros; lia ].
  unfold zeros, blen in *. rewrite !repeat_length.
  set (P := Z.to_nat p). set (A := Z.to_nat a). set (B := Z.to_nat b).
  replace (Z.to_nat (p + a)) with (P + A)%nat by lia.
  replace (Z.to_nat (a + b)) with (A + B)%nat by lia.
  assert (HP : (P + A + B <= List.length c)%nat) by lia.
  rewrite repeat_app.
  rewrite firstn_app. rewrite length_firstn.
  replace (Nat.min P (List.length c)) with P by lia.
  rewrite (firstn_all2 (n := (P + A)%nat) (firstn P c)) by (rewrite length_firstn; lia).
  replace (P + A - P)%nat with A by lia.
  rewrite firstn_app, repeat_length. replace (A - A)%nat with 0%nat by lia.
  rewrite firstn_O, app_nil_r.
  rewrite (firstn_all2 (n := A)) by (rewrite repeat_length; lia).
  rewrite <- !app_assoc. f_equal. f_equal. f_equal.
  rewrite skipn_app, length_firstn.
  replace (Nat.min P (List.length c)) with P by lia.
  rewrite (skipn_all2 (n := (P + A + B)%nat) (firstn P c)) by (rewrite length_firstn; lia).
  simpl. rewrite skipn_app, repeat_length.
  rewrite (skipn_all2 (n := (P + A + B - P)%nat)) by (rewrite repeat_length; lia).
  simpl. rewrite skipn_skipn. f_equal. lia.
Qed.

Lemma firstn_repeat_le (A : Type) (a : A) (n m : nat) :
  (n <= m)%nat -> firstn n (repeat a m) = repeat a n.
Proof.
  revert m. induction n as [|n IH]; intros [|m] H; simpl; try reflexivity; try lia.
  f_equal. apply IH. lia.
Qed.

Lemma slice0_zeros (n k : Z) :
  0 <= k <= n -> slice0 (zeros n) k = zeros k.
Proof.
  intros H. unfold slice0, zeros.
  destruct (0 <=? k) eqn:E; [| lia].
  apply firstn_repeat_le. lia.
Qed.

Lemma write_at_zeros_zeroed (p n : Z) (c : list byte) :
  0 <= p -> 0 <= n -> p + n <= blen c ->
  zeroed p (p + n) c (write_at p (zeros n) c).
Proof.
  intros Hp Hn Hc. split.
  - apply write_at_length; [lia | rewrite blen_zeros; lia].
  - intros i. rewrite write_at_inside; [| lia | rewrite blen_zeros; lia].
    unfold zeros, blen in *. rewrite repeat_length.
    destruct (Nat.ltb i (Z.to_nat p)) eqn:E1.
    + apply Nat.ltb_lt in E1.
      rewrite app_nth1 by (rewrite length_firstn; lia).
      rewrite nth_firstn.
      destruct (Nat.ltb_spec i (Z.to_nat p)); [| lia].
      destruct (Z.leb_spec p (Z.of_nat i)); [lia | reflexivity].
    + apply Nat.ltb_ge in E1.
      rewrite app_nth2 by (rewrite length_firstn; lia).
      rewrite length_firstn.
      replace (Nat.min (Z.to_nat p) (List.length c)) with (Z.to_nat p) by lia.
      destruct (Z.leb_spec p (Z.of_nat i)); [| lia]. simpl.
      destruct (Z.ltb_spec (Z.of_nat i) (p + n)).
      * rewrite app_nth1 by (rewrite repeat_length; lia).
        apply nth_repeat.
      * rewrite app_nth2 by (rewrite repeat_length; lia).
        rewrite repeat_length, nth_skipn. f_equal. lia.
Qed.

Lemma zeroed_refl (a : Z) (c : list byte) : zeroed a a c c.
Proof.
  split; [reflexivity|]. intros i.
  destruct (Z.leb_spec a (Z.of_nat i)), (Z.ltb_spec (Z.of_nat i) a);
    simpl; try reflexivity; lia.
Qed.

Lemma block_body_step buflen (fp : file) (w : World) (c : list byte) :
  file_data w (name fp) = Ret c ->
  0 <= pos fp <= blen c ->
  let e := block_end buflen (blen c) 1 (pos fp) in
  block_body buflen (blen c) fp w =
  (Ret (mkFile (name fp) e),
   set_file_data (name fp) (write_at (pos fp) (zeros (e - pos fp)) c) w).
Proof.
  intros Hd Hp e. unfold block_body, tell.
  subst e. unfold block_end.
  destruct (Z.gtb_spec (pos fp + buflen) (blen c)); unfold write; rewrite Hd.
  - rewrite slice0_zeros by lia.
    rewrite blen_zeros.
    replace (Z.min (pos fp + Z.of_nat 1 * Z.max buflen 0) (blen c)) with (blen c) by lia.
    replace (pos fp + Z.max (blen c - pos fp) 0) with (blen c) by lia.
    reflexivity.
  - rewrite blen_zeros.
    replace (Z.min (pos fp + Z.of_nat 1 * Z.max buflen 0) (blen c))
      with (pos fp + Z.max buflen 0) by lia.
    replace (pos fp + Z.max buflen 0 - pos fp) with (Z.max buflen 0) by lia.
    replace (zeros (Z.max buflen 0)) with (zeros buflen)
      by (unfold zeros; f_equal; lia).
    reflexivity.
Qed.

Lemma file_data_set_same path c w :
  file_data (set_file_data path c w) path = Ret c.
Proof. simpl. rewrite String.eqb_refl. reflexivity. Qed.

Lemma file_data_set_other path c w q :
  q <> path -> file_data (set_file_data path c w) q = file_data w q.
Proof.
  intros H. simpl. destruct (String.eqb_spec q path); [contradiction | reflexivity].
Qed.

Lemma same_but_data_refl path w : same_but_data path w w.
Proof. repeat split; reflexivity. Qed.

Lemma same_but_data_set path c w w' :
  same_but_data path w w' -> same_but_data path w (set_file_data path c w').
Proof.
  intros (H1 & H2 & H3 & H4 & H5). repeat split; simpl; try assumption.
  intros q Hq. destruct (String.eqb_spec q path); [contradiction | auto].
Qed.

Lemma block_loop buflen (n : nat) :
  forall (fp : file) (w : World) (c : list byte),
  file_data w (name fp) = Ret c ->
  0 <= pos fp <= blen c ->
  let e := block_end buflen (blen c) n (pos fp) in
  exists w',
    mrepeat n (block_body buflen (blen c)) fp w = (Ret (mkFile (name fp) e), w') /\
    file_data w' (name fp) = Ret (write_at (pos fp) (zeros (e - pos fp)) c) /\
    same_but_data (name fp) w w' /\ LOG w' = LOG w.
Proof.
  induction n as [|n IH]; intros fp w c Hd Hp e.
  - exists w. subst e. unfold block_end. simpl.
    replace (Z.min (pos fp + 0) (blen c)) with (pos fp) by lia.
    rewrite Z.sub_diag. unfold ret. destruct fp; simpl in *.
    repeat split; auto.
  - cbn [mrepeat]. unfold bind. rewrite (block_body_step buflen fp w c Hd Hp).
    set (e1 := block_end buflen (blen c) 1 (pos fp)).
    set (c1 := write_at (pos fp) (zeros (e1 - pos fp)) c).
    assert (He1 : pos fp <= e1 <= blen c) by (subst e1; unfold block_end; lia).
    assert (Hl : blen c1 = blen c).
    { unfold blen. f_equal. apply write_at_length; [lia | rewrite blen_zeros; lia]. }
    destruct (IH (mkFile (name fp) e1) (set_file_data (name fp) c1 w) c1)
      as (w' & Hrun & Hdata & Hsame & Hlog).
    + simpl. rewrite String.eqb_refl. reflexivity.
    + simpl. lia.
    + exists w'. cbn [name pos] in *. rewrite Hl in *.
      assert (Hee : block_end buflen (blen c) n e1 = e).
      { subst e e1. unfold block_end. nia. }
      rewrite Hee in *. split; [exact Hrun|]. split.
      * rewrite Hdata. f_equal. subst c1.
        assert (e1 <= e) by (subst e e1; unfold block_end; nia).
        assert (e <= blen c) by (subst e; unfold block_end; lia).
        replace e1 with (pos fp + (e1 - pos fp)) at 1 by lia.
        rewrite write_at_zeros_join by lia. f_equal. f_equal. lia.
      * split.
        -- destruct Hsame as (H1 & H2 & H3 & H4 & H5).
           repeat split; simpl in *; try assumption.
           intros q Hq. rewrite H5 by assumption.
           destruct (String.eqb_spec q (name fp)); [contradiction | reflexivity].
        -- rewrite Hlog. reflexivity.
Qed.

Lemma zero_file_at_offsets_unfold path offsets buflen count strict w c :
  file_data w path = Ret c ->
  zero_file_at_offsets path offsets buflen count strict w =
  (mfold (offset_body path buflen count strict (blen c)) offsets
     (mkFile path (blen c)) ;; ret tt) w.
Proof.
  intros Hd. unfold zero_file_at_offsets, bind at 1, open_rb_plus.
  rewrite Hd. unfold bind at 1, seek_end. cbn [name]. rewrite Hd. reflexivity.
Qed.

Lemma zero_at_length buflen count size offset c :
  size = blen c -> blen (zero_at buflen count size offset c) = blen c.
Proof.
  intros ->. unfold zero_at, outside_b.
  destruct (Z.gtb_spec (resolve (blen c) offset) (blen c)); simpl; [reflexivity|].
  destruct (Z.ltb_spec (resolve (blen c) offset) 0); simpl; [reflexivity|].
  unfold blen at 1. rewrite write_at_length; [reflexivity | lia |].
  rewrite blen_zeros. unfold block_end. lia.
Qed.

Lemma offset_body_ok path buflen count strict fp offset w c :
  file_data w path = Ret c -> name fp = path ->
  (strict = false \/
   (outside_b (blen c) offset = false /\
    short_b (blen c) (buflen * count) offset = false)) ->
  exists w' fp',
    offset_body path buflen count strict (blen c) fp offset w = (Ret fp', w') /\
    name fp' = path /\
    file_data w' path = Ret (zero_at buflen count (blen c) offset c) /\
    same_but_data path w w' /\
    LOG w' = LOG w ++ (if strict then []
                       else offset_records path buflen count (blen c) offset).
Proof.
  intros Hd Hn Hs. unfold offset_body, zero_at, offset_records, outside_b, short_b in *.
  set (p := resolve (blen c) offset) in *.
  destruct ((p >? blen c) || (p <? 0)) eqn:Eout.
  - destruct Hs as [-> | [Hs _]]; [| discriminate].
    eexists. exists fp. unfold bind, log_debug, ret. simpl.
    repeat split; auto.
  - apply orb_false_iff in Eout. destruct Eout as [E1 E2].
    rewrite Z.gtb_ltb, Z.ltb_ge in E1. rewrite Z.ltb_ge in E2.
    assert (Hpre : exists w1, 
      (if p + buflen * count >? blen c
       then if strict
            then raise (ValueError (m_short path (blen c) (buflen * count) offset (blen c - p) strict))
            else log_debug (m_short path (blen c) (buflen * count) offset (blen c - p) strict)
       else ret tt) w = (Ret tt, w1) /\
      file_data w1 path = Ret c /\ same_but_data path w w1 /\
      LOG w1 = LOG w ++ (if strict then [] else
         if p + buflen * count >? blen c
         then [(DEBUG, m_short path (blen c) (buflen * count) offset (blen c - p) false)]
         else [])).
    { destruct (p + buflen * count >? blen c) eqn:Esh.
      - destruct Hs as [-> | [_ Hs]]; [| discriminate].
        eexists. unfold log_debug. simpl. repeat split; auto.
      - exists w. unfold ret. repeat split; auto.
        destruct strict; rewrite app_nil_r; reflexivity. }
    destruct Hpre as (w1 & Hrun1 & Hd1 & Hsame1 & Hlog1).
    unfold bind at 1. rewrite Hrun1.
    destruct (block_loop buflen (Z.to_nat count) (seek fp p) w1 c)
      as (w' & Hrun & Hdata & Hsame & Hlog).
    + simpl. rewrite Hn. exact Hd1.
    + simpl. lia.
    + cbn [name pos seek] in *. rewrite Hn in *.
      exists w'. eexists. split; [exact Hrun|]. split; [reflexivity|].
      split; [exact Hdata|]. split.
      * destruct Hsame1 as (A1 & A2 & A3 & A4 & A5).
        destruct Hsame as (B1 & B2 & B3 & B4 & B5).
        repeat split; try congruence.
        intros q Hq. rewrite B5, A5 by assumption. reflexivity.
      * rewrite Hlog, Hlog1. reflexivity.
Qed.

Lemma outside_b_false size offset :
  outside_b size offset = false <-> inside size offset.
Proof.
  unfold outside_b, inside. rewrite orb_false_iff, Z.gtb_ltb, !Z.ltb_ge. lia.
Qed.

Lemma short_b_false size tot offset :
  short_b size tot offset = false <-> resolve size offset + tot <= size.
Proof. unfold short_b. rewrite Z.gtb_ltb, Z.ltb_ge. reflexivity. Qed.

Lemma fits_clean buflen count size offset :
  fits buflen count size offset <->
  outside_b size offset = false /\ short_b size (buflen * count) offset = false.
Proof. unfold fits. rewrite outside_b_false, short_b_false. reflexivity. Qed.

Lemma fits_dec buflen count size offset :
  {fits buflen count size offset} + {~ fits buflen count size offset}.
Proof.
  destruct (outside_b size offset) eqn:E1.
  - right. rewrite fits_clean. intros [H _]. congruence.
  - destruct (short_b size (buflen * count) offset) eqn:E2.
    + right. rewrite fits_clean. intros [_ H]. congruence.
    + left. rewrite fits_clean. auto.
Qed.

Lemma zero_all_length buflen count size offsets :
  forall c, size = blen c -> blen (zero_all buflen count size offsets c) = blen c.
Proof.
  induction offsets as [|o l IH]; intros c Hs; simpl; [reflexivity|].
  unfold zero_all in *. simpl. rewrite IH.
  - apply zero_at_length. exact Hs.
  - rewrite zero_at_length; assumption.
Qed.

Lemma same_but_data_trans path w1 w2 w3 :
  same_but_data path w1 w2 -> same_but_data path w2 w3 ->
  same_but_data path w1 w3.
Proof.
  intros (A1 & A2 & A3 & A4 & A5) (B1 & B2 & B3 & B4 & B5).
  repeat split; try congruence.
  intros q Hq. rewrite B5, A5 by assumption. reflexivity.
Qed.

Lemma mfold_app {A B} (body : B -> A -> M B) (l1 l2 : list A) :
  forall acc w,
  mfold body (l1 ++ l2) acc w =
  match mfold body l1 acc w with
  | (Ret a, w') => mfold body l2 a w'
  | (Raise e, w') => (Raise e, w')
  end.
Proof.
  induction l1 as [|x l1 IH]; intros acc w; simpl; [reflexivity|].
  unfold bind. destruct (body acc x w) as [[a|e] w']; [apply IH | reflexivity].
Qed.

Lemma offsets_ok path buflen count strict size offsets :
  forall fp w c,
  file_data w path = Ret c -> name fp = path -> size = blen c ->
  (strict = false \/ Forall (fits buflen count size) offsets) ->
  exists w' fp',
    mfold (offset_body path buflen count strict size) offsets fp w = (Ret fp', w') /\
    name fp' = path /\
    file_data w' path = Ret (zero_all buflen count size offsets c) /\
    same_but_data path w w' /\
    LOG w' = LOG w ++ (if strict then []
                       else flat_map (offset_records path buflen count size) offsets).
Proof.
  induction offsets as [|o l IH]; intros fp w c Hd Hn Hs Hc.
  - exists w, fp. simpl. unfold ret. repeat split; auto.
    destruct strict; rewrite app_nil_r; reflexivity.
  - subst size.
    destruct (offset_body_ok path buflen count strict fp o w c Hd Hn)
      as (w1 & fp1 & Hrun1 & Hn1 & Hd1 & Hsame1 & Hlog1).
    { destruct Hc as [Hc | Hc]; [left; exact Hc | right].
      inversion Hc; subst. apply fits_clean. assumption. }
    destruct (IH fp1 w1 (zero_at buflen count (blen c) o c) Hd1 Hn1)
      as (w' & fp' & Hrun & Hn' & Hd' & Hsame & Hlog).
    { rewrite zero_at_length; reflexivity. }
    { destruct Hc as [Hc | Hc]; [left; exact Hc | right].
      inversion Hc; subst; assumption. }
    exists w', fp'. cbn [mfold]. unfold bind. rewrite Hrun1.
    split; [exact Hrun|]. split; [exact Hn'|]. split; [exact Hd'|]. split.
    + eapply same_but_data_trans; eassumption.
    + rewrite Hlog, Hlog1. destruct strict.
      * rewrite !app_nil_r. reflexivity.
      * simpl. rewrite app_assoc. reflexivity.
Qed.

Lemma offset_body_raise path buflen count size fp offset w :
  ~ fits buflen count size offset ->
  offset_body path buflen count true size fp offset w =
  (Raise (strict_error path buflen count size offset), w).
Proof.
  intros Hc. rewrite fits_clean in Hc.
  unfold offset_body, strict_error, outside_b, short_b in *.
  destruct ((resolve size offset >? size) || (resolve size offset <? 0)).
  - reflexivity.
  - destruct (resolve size offset + buflen * count >? size).
    + reflexivity.
    + exfalso. apply Hc. split; reflexivity.
Qed.

Lemma offsets_raise path buflen count size pre off post fp w c :
  file_data w path = Ret c -> name fp = path -> size = blen c ->
  Forall (fits buflen count size) pre ->
  ~ fits buflen count size off ->
  exists w',
    mfold (offset_body path buflen count true size) (pre ++ off :: post) fp w
    = (Raise (strict_error path buflen count size off), w') /\
    file_data w' path = Ret (zero_all buflen count size pre c) /\
    same_but_data path w w' /\ LOG w' = LOG w.
Proof.
  intros Hd Hn Hs Hpre Hoff.
  destruct (offsets_ok path buflen count true size pre fp w c Hd Hn Hs (or_intror Hpre))
    as (w' & fp' & Hrun & Hn' & Hd' & Hsame & Hlog).
  exists w'. rewrite mfold_app, Hrun. cbn [mfold]. unfold bind.
  rewrite offset_body_raise by assumption.
  rewrite app_nil_r in Hlog. auto.
Qed.

(* ---------- wipe_file ---------- *)

Lemma wipe_file_unfold fuel path reader buflen w c :
  file_data w path = Ret c ->
  wipe_file fuel path reader buflen w =
  wipe_file_loop fuel (reader_of reader buflen) buflen (blen c) O
    (mkFile path 0) (snd (log_debug (msg_wiping path (blen c) buflen) w)).
Proof.
  intros Hd. unfold wipe_file, bind, open_rb_plus. rewrite Hd.
  unfold seek_end. cbn [name]. rewrite Hd. destruct reader; reflexivity.
Qed.

Lemma short_read_dec rf buflen size k :
  negb (blen (rf k) =? buflen) && (blen (rf k) + wipe_pos rf k <? size) = true
  <-> short_read_at rf buflen size k.
Proof.
  unfold short_read_at. rewrite andb_true_iff, negb_true_iff, Z.eqb_neq, Z.ltb_lt.
  reflexivity.
Qed.

Lemma last_block_dec rf buflen size k :
  (wipe_pos rf k + buflen >=? size) = true <-> last_block_at rf buflen size k.
Proof.
  unfold last_block_at. rewrite Z.geb_le. lia.
Qed.

Lemma loop_step_continue path rf buflen size c w0 k w fuel :
  loop_state path rf c w0 k w ->
  ~ short_read_at rf buflen size k -> ~ last_block_at rf buflen size k ->
  exists w',
    loop_state path rf c w0 (S k) w' /\
    wipe_file_loop (S fuel) rf buflen size k (mkFile path (wipe_pos rf k)) w =
    wipe_file_loop fuel rf buflen size (S k) (mkFile path (wipe_pos rf (S k))) w'.
Proof.
  intros (Hd & Hsame & Hlog) Hs Hl.
  cbn [wipe_file_loop]. unfold tell. cbn [pos].
  destruct (negb (blen (rf k) =? buflen) && (blen (rf k) + wipe_pos rf k <? size)) eqn:E1.
  { apply short_read_dec in E1. contradiction. }
  destruct (wipe_pos rf k + buflen >=? size) eqn:E2.
  { apply last_block_dec in E2. contradiction. }
  unfold write. cbn [name pos]. rewrite Hd.
  eexists. split; [| reflexivity].
  split; [apply file_data_set_same|]. split; [| exact Hlog].
  apply same_but_data_set. exact Hsame.
Qed.

Lemma loop_advance path rf buflen size c w0 (n : nat) :
  forall k w fuel,
  loop_state path rf c w0 k w ->
  (forall j, (k <= j < k + n)%nat ->
     ~ short_read_at rf buflen size j /\ ~ last_block_at rf buflen size j) ->
  exists w',
    loop_state path rf c w0 (k + n) w' /\
    wipe_file_loop (n + fuel) rf buflen size k (mkFile path (wipe_pos rf k)) w =
    wipe_file_loop fuel rf buflen size (k + n)
      (mkFile path (wipe_pos rf (k + n))) w'.
Proof.
  induction n as [|n IH]; intros k w fuel Hst Hj.
  - exists w. rewrite Nat.add_0_r. split; [exact Hst | reflexivity].
  - destruct (Hj k ltac:(lia)) as [Hs Hl].
    destruct (loop_step_continue path rf buflen size c w0 k w (n + fuel) Hst Hs Hl)
      as (w1 & Hst1 & Hrun1).
    destruct (IH (S k) w1 fuel Hst1) as (w' & Hst' & Hrun').
    { intros j Hjr. apply Hj. lia. }
    exists w'. replace (k + S n)%nat with (S k + n)%nat by lia.
    split; [exact Hst'|].
    change (S n + fuel)%nat with (S (n + fuel)). rewrite Hrun1. exact Hrun'.
Qed.

Lemma loop_raise_inv path rf buflen size c w0 (fuel : nat) :
  forall k w g e a w',
  loop_state path rf c w0 k w ->
  reaches rf buflen size k ->
  wipe_file_loop fuel rf buflen size k (mkFile path (wipe_pos rf k)) w =
    Some (Raise (ValueError (msg_short_read g e a)), w') ->
  exists k', reaches rf buflen size k' /\ short_read_at rf buflen size k' /\
             g = blen (rf k') /\ e = buflen /\ a = wipe_pos rf k'.
Proof.
  induction fuel as [|fuel IH]; intros k w g e a w' Hst Hr Hrun; [discriminate|].
  destruct (negb (blen (rf k) =? buflen) && (blen (rf k) + wipe_pos rf k <? size)) eqn:E1.
  - cbn [wipe_file_loop] in Hrun. unfold tell in Hrun. cbn [pos] in Hrun.
    rewrite E1 in Hrun. inversion Hrun; subst.
    exists k. apply short_read_dec in E1. auto.
  - assert (Hs : ~ short_read_at rf buflen size k).
    { intros H. apply short_read_dec in H. congruence. }
    destruct (wipe_pos rf k + buflen >=? size) eqn:E2.
    + cbn [wipe_file_loop] in Hrun. unfold tell in Hrun. cbn [pos] in Hrun.
      rewrite E1, E2 in Hrun. unfold write in Hrun. cbn [name pos] in Hrun.
      destruct Hst as (Hd & _). rewrite Hd in Hrun. discriminate.
    + assert (Hl : ~ last_block_at rf buflen size k).
      { intros H. apply last_block_dec in H. congruence. }
      destruct (loop_step_continue path rf buflen size c w0 k w fuel Hst Hs Hl)
        as (w1 & Hst1 & Hrun1).
      rewrite Hrun1 in Hrun.
      apply (IH (S k) w1 g e a w' Hst1); [| exact Hrun].
      intros j Hj. destruct (Nat.eq_dec j k) as [-> | Hne]; [auto|].
      apply Hr. lia.
Qed.

Lemma loop_stop path rf buflen size c w0 k w fuel :
  loop_state path rf c w0 k w ->
  (short_read_at rf buflen size k ->
   wipe_file_loop (S fuel) rf buflen size k (mkFile path (wipe_pos rf k)) w =
   Some (Raise (ValueError (msg_short_read (blen (rf k)) buflen (wipe_pos rf k))), w))
  /\
  (~ short_read_at rf buflen size k -> last_block_at rf buflen size k ->
   wipe_file_loop (S fuel) rf buflen size k (mkFile path (wipe_pos rf k)) w =
   Some (Ret tt,
         set_file_data path
           (write_at (wipe_pos rf k) (slice0 (rf k) (size - wipe_pos rf k))
              (wipe_written rf k c)) w)).
Proof.
  intros (Hd & _). split.
  - intros Hs. apply short_read_dec in Hs.
    cbn [wipe_file_loop]. unfold tell. cbn [pos]. rewrite Hs. reflexivity.
  - intros Hs Hl.
    cbn [wipe_file_loop]. unfold tell. cbn [pos].
    destruct (negb (blen (rf k) =? buflen) && (blen (rf k) + wipe_pos rf k <? size)) eqn:E1.
    { apply short_read_dec in E1. contradiction. }
    apply last_block_dec in Hl. rewrite Hl.
    unfold write. cbn [name pos]. rewrite Hd. reflexivity.
Qed.

Lemma loop_state_start path rf c w m :
  file_data w path = Ret c ->
  loop_state path rf c (snd (log_debug m w)) O (snd (log_debug m w)).
Proof.
  intros Hd. split; [exact Hd|]. split; [apply same_but_data_refl | reflexivity].
Qed.

Lemma wipe_pos_nonneg rf k : 0 <= wipe_pos rf k.
Proof.
  induction k as [|k IH]; cbn [wipe_pos]; [lia|].
  pose proof (blen_nonneg (rf k)). lia.
Qed.

Lemma wipe_written_length rf k c :
  wipe_pos rf k <= blen c ->
  List.length (wipe_written rf k c) = List.length c.
Proof.
  induction k as [|k IH]; cbn [wipe_pos wipe_written]; intros H; [reflexivity|].
  pose proof (blen_nonneg (rf k)). pose proof (wipe_pos_nonneg rf k).
  assert (Hl : List.length (wipe_written rf k c) = List.length c) by (apply IH; lia).
  rewrite write_at_length; [exact Hl | lia |].
  unfold blen in *. rewrite Hl. lia.
Qed.

(** A call that is reached after blocks of at most [buflen] bytes starts
    at or before end-of-file. *)
Lemma reaches_pos rf buflen size k :
  0 <= size -> reaches rf buflen size k ->
  (forall j, (j < k)%nat -> blen (rf j) <= buflen) ->
  wipe_pos rf k <= size.
Proof.
  intros Hs Hr Hb. destruct k as [|k]; [exact Hs|].
  cbn [wipe_pos]. destruct (Hr k ltac:(lia)) as [_ Hl].
  unfold last_block_at in Hl. specialize (Hb k ltac:(lia)). lia.
Qed.

(** The last block of a loop that has not passed end-of-file is cut to
    fit. *)
Lemma final_block_fits rf size k c :
  size = blen c -> wipe_pos rf k <= size ->
  slice0 (rf k) (size - wipe_pos rf k) =
    firstn (Z.to_nat (size - wipe_pos rf k)) (rf k) /\
  wipe_pos rf k + blen (slice0 (rf k) (size - wipe_pos rf k)) <= size /\
  List.length (write_at (wipe_pos rf k) (slice0 (rf k) (size - wipe_pos rf k))
                 (wipe_written rf k c)) = List.length c.
Proof.
  intros -> Hp.
  assert (Hs : slice0 (rf k) (blen c - wipe_pos rf k) =
               firstn (Z.to_nat (blen c - wipe_pos rf k)) (rf k)).
  { unfold slice0. destruct (Z.leb_spec 0 (blen c - wipe_pos rf k)); [reflexivity | lia]. }
  assert (Hf : blen (firstn (Z.to_nat (blen c - wipe_pos rf k)) (rf k))
               <= Z.of_nat (Z.to_nat (blen c - wipe_pos rf k))).
  { unfold blen. rewrite length_firstn. lia. }
  pose proof (wipe_pos_nonneg rf k).
  pose proof (wipe_written_length rf k c Hp) as Hl.
  rewrite Hs. split; [reflexivity|]. split; [lia|].
  rewrite write_at_length; [exact Hl | lia |].
  unfold blen in *. rewrite Hl. lia.
Qed.

(** C3 (amended).  [wipe_file] raises the short-read [ValueError] exactly
    when a call of the reader that is reached returns a buffer [pbuf] with
    [len(pbuf) != buflen] and [len(pbuf) + pos < size]; a reached call that
    does not raise and is the last block ([pos + buflen >= size]) writes
    [pbuf[0:size-pos]] after the full blocks before it and the call
    returns.  [size] is the length at open, [pos] the position of the
    write.  The last block is cut to fit whenever [pos <= size]: what is
    written is then the first [size - pos] bytes of [pbuf] (all of it when
    it is shorter), the write ends at or before [size] and the file keeps
    its length; and [pos <= size] holds at every reached call as long as no
    earlier block was longer than [buflen]. *)
Theorem wipe_file_short_read_iff path reader buflen w c :
  file_data w path = Ret c ->
  let rf := reader_of reader buflen in
  let size := blen c in
  (forall k fuel, reaches rf buflen size k -> (k < fuel)%nat ->
     (short_read_at rf buflen size k ->
      exists w',
        wipe_file fuel path reader buflen w =
        Some (Raise (ValueError
                (msg_short_read (blen (rf k)) buflen (wipe_pos rf k))), w') /\
        file_data w' path = Ret (wipe_written rf k c))
     /\
     (~ short_read_at rf buflen size k ->
      last_block_at rf buflen size k ->
      exists w',
        wipe_file fuel path reader buflen w = Some (Ret tt, w') /\
        file_data w' path =
        Ret (write_at (wipe_pos rf k) (slice0 (rf k) (size - wipe_pos rf k))
               (wipe_written rf k c)) /\
        (wipe_pos rf k <= size ->
         slice0 (rf k) (size - wipe_pos rf k) =
           firstn (Z.to_nat (size - wipe_pos rf k)) (rf k) /\
         wipe_pos rf k + blen (slice0 (rf k) (size - wipe_pos rf k)) <= size /\
         exists c', file_data w' path = Ret c' /\
                    List.length c' = List.length c)))
  /\
  (forall fuel g e a w',
     wipe_file fuel path reader buflen w =
     Some (Raise (ValueError (msg_short_read g e a)), w') ->
     exists k, reaches rf buflen size k /\ short_read_at rf buflen size k /\
               g = blen (rf k) /\ e = buflen /\ a = wipe_pos rf k)
  /\
  (forall k, reaches rf buflen size k ->
     (forall j, (j < k)%nat -> blen (rf j) <= buflen) ->
     wipe_pos rf k <= size).
Proof.
  intros Hd rf size. split; [| split].
  - intros k fuel Hr Hk.
    destruct fuel as [|fuel]; [lia|].
    pose proof (loop_state_start path rf c w (msg_wiping path size buflen) Hd) as Hst0.
    set (w1 := snd (log_debug (msg_wiping path size buflen) w)) in *.
    destruct (loop_advance path rf buflen size c w1 k O w1 (S fuel - k) Hst0)
      as (wk & Hstk & Hrun).
    { intros j Hj. apply Hr. lia. }
    change (0 + k)%nat with k in Hrun.
    replace (k + (S fuel - k))%nat with (S fuel) in Hrun by lia.
    replace (S fuel - k)%nat with (S (fuel - k)) in Hrun by lia.
    rewrite (wipe_file_unfold (S fuel) path reader buflen w c Hd).
    fold rf size w1. change (wipe_pos rf 0) with 0 in Hrun. rewrite Hrun.
    destruct (loop_stop path rf buflen size c w1 k wk (fuel - k) Hstk) as [Hshort Hlast].
    split.
    + intros Hs. exists wk. split; [apply Hshort; exact Hs | apply Hstk].
    + intros Hs Hl. eexists. split; [apply Hlast; assumption|].
      split; [apply file_data_set_same|].
      intros Hp.
      destruct (final_block_fits rf size k c eq_refl Hp) as (H1 & H2 & H3).
      split; [exact H1|]. split; [exact H2|].
      eexists. split; [apply file_data_set_same | exact H3].
  - intros fuel g e a w' Hrun.
    rewrite (wipe_file_unfold fuel path reader buflen w c Hd) in Hrun.
    eapply (loop_raise_inv path rf buflen size c _ fuel O); [| | exact Hrun].
    + apply loop_state_start. exact Hd.
    + intros j Hj. lia.
  - intros k Hr Hb. apply (reaches_pos rf buflen size k); [| exact Hr | exact Hb].
    apply blen_nonneg.
Qed.

(* ---------- lengths ---------- *)

Lemma first_misfit buflen count size (l : list Z) :
  Forall (fits buflen count size) l \/
  exists pre off post,
    l = pre ++ off :: post /\ Forall (fits buflen count size) pre /\
    ~ fits buflen count size off.
Proof.
  induction l as [|o l IH].
  - left. constructor.
  - destruct (fits_dec buflen count size o) as [Ho | Ho].
    + destruct IH as [IH | (pre & off & post & -> & Hpre & Hoff)].
      * left. constructor; assumption.
      * right. exists (o :: pre), off, post. repeat split; auto.
    + right. exists [], o, l. repeat split; auto.
Qed.

Lemma zero_file_at_offsets_run path offsets buflen count strict w c :
  file_data w path = Ret c ->
  exists r w' pre,
    zero_file_at_offsets path offsets buflen count strict w = (r, w') /\
    file_data w' path = Ret (zero_all buflen count (blen c) pre c) /\
    same_but_data path w w'.
Proof.
  intros Hd. rewrite (zero_file_at_offsets_unfold path offsets buflen count strict w c Hd).
  unfold bind.
  destruct strict.
  - destruct (first_misfit buflen count (blen c) offsets)
      as [Hall | (pre & off & post & -> & Hpre & Hoff)].
    + destruct (offsets_ok path buflen count true (blen c) offsets
                  (mkFile path (blen c)) w c Hd eq_refl eq_refl (or_intror Hall))
        as (w' & fp' & Hrun & _ & Hd' & Hsame & _).
      rewrite Hrun. exists (Ret tt), w', offsets. auto.
    + destruct (offsets_raise path buflen count (blen c) pre off post
                  (mkFile path (blen c)) w c Hd eq_refl eq_refl Hpre Hoff)
        as (w' & Hrun & Hd' & Hsame & _).
      rewrite Hrun. eexists _, w', pre. auto.
  - destruct (offsets_ok path buflen count false (blen c) offsets
                (mkFile path (blen c)) w c Hd eq_refl eq_refl (or_introl eq_refl))
      as (w' & fp' & Hrun & _ & Hd' & Hsame & _).
    rewrite Hrun. exists (Ret tt), w', offsets. auto.
Qed.

Lemma blen_firstn_le (n : nat) (b : list byte) :
  blen (firstn n b) <= Z.of_nat n.
Proof. unfold blen. rewrite length_firstn. lia. Qed.

Lemma blen_length_eq (a b : list byte) :
  blen a = blen b -> List.length a = List.length b.
Proof. unfold blen. lia. Qed.

Lemma wipe_loop_keeps_length rf buflen (fuel : nat) :
  (forall k, blen (rf k) <= buflen) ->
  forall k fp w c r w',
  file_data w (name fp) = Ret c ->
  0 <= pos fp <= blen c ->
  wipe_file_loop fuel rf buflen (blen c) k fp w = Some (r, w') ->
  exists c', file_data w' (name fp) = Ret c' /\ List.length c' = List.length c.
Proof.
  intros Hrf. induction fuel as [|fuel IH]; intros k fp w c r w' Hd Hp Hrun;
    [discriminate|].
  cbn [wipe_file_loop] in Hrun. unfold tell in Hrun.
  destruct (negb (blen (rf k) =? buflen) && (blen (rf k) + pos fp <? blen c)) eqn:E1.
  { inversion Hrun; subst. exists c. auto. }
  destruct (pos fp + buflen >=? blen c) eqn:E2.
  - unfold write in Hrun. rewrite Hd in Hrun. inversion Hrun; subst.
    eexists. split; [apply file_data_set_same|].
    apply write_at_length; [lia|].
    unfold slice0. destruct (Z.leb_spec 0 (blen c - pos fp)); [| lia].
    pose proof (blen_firstn_le (Z.to_nat (blen c - pos fp)) (rf k)). lia.
  - unfold write in Hrun. rewrite Hd in Hrun.
    assert (Hb : blen (rf k) = buflen).
    { apply andb_false_iff in E1. destruct E1 as [E1 | E1].
      - apply negb_false_iff, Z.eqb_eq in E1. exact E1.
      - apply Z.ltb_ge in E1. rewrite Z.geb_leb, Z.leb_gt in E2.
        specialize (Hrf k). lia. }
    assert (Hlt : pos fp + buflen < blen c).
    { rewrite Z.geb_leb, Z.leb_gt in E2. lia. }
    assert (Hl : List.length (write_at (pos fp) (rf k) c) = List.length c).
    { apply write_at_length; lia. }
    destruct (IH (S k) (mkFile (name fp) (pos fp + blen (rf k)))
                (set_file_data (name fp) (write_at (pos fp) (rf k) c) w)
                (write_at (pos fp) (rf k) c) r w') as (c' & Hd' & Hl').
    + apply file_data_set_same.
    + cbn [pos]. unfold blen at 3. rewrite Hl. fold (blen c).
      pose proof (blen_nonneg (rf k)). lia.
    + unfold blen at 1. rewrite Hl. exact Hrun.
    + exists c'. cbn [name] in Hd'. split; [exact Hd' | congruence].
Qed.

Lemma wipe_loop_terminates rf buflen size (fuel : nat) :
  0 < buflen ->
  forall k fp w c,
  file_data w (name fp) = Ret c ->
  (0 < fuel)%nat -> size - pos fp < Z.of_nat fuel * buflen ->
  exists r w', wipe_file_loop fuel rf buflen size k fp w = Some (r, w').
Proof.
  intros Hb. induction fuel as [|fuel IH]; intros k fp w c Hd Hf Hm; [lia|].
  cbn [wipe_file_loop]. unfold tell.
  destruct (negb (blen (rf k) =? buflen) && (blen (rf k) + pos fp <? size)) eqn:E1.
  { eauto. }
  destruct (pos fp + buflen >=? size) eqn:E2.
  - unfold write. rewrite Hd. eauto.
  - unfold write. rewrite Hd.
    rewrite Z.geb_leb, Z.leb_gt in E2.
    assert (Hge : buflen <= blen (rf k)).
    { apply andb_false_iff in E1. destruct E1 as [E1 | E1].
      - apply negb_false_iff, Z.eqb_eq in E1. lia.
      - apply Z.ltb_ge in E1. lia. }
    eapply IH.
    + apply file_data_set_same.
    + nia.
    + cbn [pos]. nia.
Qed.

(* ---------- zero_file_at_offsets: the three outcomes ---------- *)

Lemma zero_nonstrict path offsets buflen count w c :
  file_data w path = Ret c ->
  exists w',
    zero_file_at_offsets path offsets buflen count false w = (Ret tt, w') /\
    file_data w' path = Ret (zero_all buflen count (blen c) offsets c) /\
    same_but_data path w w' /\
    LOG w' = LOG w ++ flat_map (offset_records path buflen count (blen c)) offsets.
Proof.
  intros Hd. rewrite (zero_file_at_offsets_unfold path offsets buflen count false w c Hd).
  unfold bind.
  destruct (offsets_ok path buflen count false (blen c) offsets
              (mkFile path (blen c)) w c Hd eq_refl eq_refl (or_introl eq_refl))
    as (w' & fp' & Hrun & _ & Hd' & Hsame & Hlog).
  rewrite Hrun. exists w'. auto.
Qed.

Lemma zero_strict_ok path offsets buflen count w c :
  file_data w path = Ret c ->
  Forall (fits buflen count (blen c)) offsets ->
  exists w',
    zero_file_at_offsets path offsets buflen count true w = (Ret tt, w') /\
    file_data w' path = Ret (zero_all buflen count (blen c) offsets c) /\
    same_but_data path w w' /\ LOG w' = LOG w.
Proof.
  intros Hd Hall. rewrite (zero_file_at_offsets_unfold path offsets buflen count true w c Hd).
  unfold bind.
  destruct (offsets_ok path buflen count true (blen c) offsets
              (mkFile path (blen c)) w c Hd eq_refl eq_refl (or_intror Hall))
    as (w' & fp' & Hrun & _ & Hd' & Hsame & Hlog).
  rewrite Hrun. exists w'. rewrite app_nil_r in Hlog. auto.
Qed.

Lemma zero_strict_raise path pre off post buflen count w c :
  file_data w path = Ret c ->
  Forall (fits buflen count (blen c)) pre ->
  ~ fits buflen count (blen c) off ->
  exists w',
    zero_file_at_offsets path (pre ++ off :: post) buflen count true w =
      (Raise (strict_error path buflen count (blen c) off), w') /\
    file_data w' path = Ret (zero_all buflen count (blen c) pre c) /\
    same_but_data path w w' /\ LOG w' = LOG w.
Proof.
  intros Hd Hpre Hoff.
  rewrite (zero_file_at_offsets_unfold path _ buflen count true w c Hd).
  unfold bind.
  destruct (offsets_raise path buflen count (blen c) pre off post
              (mkFile path (blen c)) w c Hd eq_refl eq_refl Hpre Hoff)
    as (w' & Hrun & Hd' & Hsame & Hlog).
  rewrite Hrun. exists w'. auto.
Qed.

Lemma zero_at_outside buflen count size off c :
  ~ inside size off -> zero_at buflen count size off c = c.
Proof.
  intros H. unfold zero_at. destruct (outside_b size off) eqn:E; [reflexivity|].
  apply outside_b_false in E. contradiction.
Qed.

Lemma zero_all_app buflen count size l1 l2 c :
  zero_all buflen count size (l1 ++ l2) c =
  zero_all buflen count size l2 (zero_all buflen count size l1 c).
Proof. unfold zero_all. apply fold_left_app. Qed.

Lemma same_data_everywhere path w w1 w2 c' :
  same_but_data path w w1 -> same_but_data path w w2 ->
  file_data w1 path = Ret c' -> file_data w2 path = Ret c' ->
  forall q, file_data w1 q = file_data w2 q.
Proof.
  intros (_ & _ & _ & _ & H1) (_ & _ & _ & _ & H2) Hd1 Hd2 q.
  destruct (String.eqb_spec q path) as [-> | Hne]; [congruence|].
  rewrite H1, H2 by assumption. reflexivity.
Qed.

(** C4.  For an offset of [zero_file_at_offsets] that resolves outside
    [0, size]: with [strict=False] it is logged and skipped, the bytes of
    every file are what they are without that offset; with [strict=True]
    the call raises the invalid-offset error for it when the loop comes to
    it, that is when every earlier offset is inside the file and its window
    fits (the offsets are taken in order and the strict mode ends at the
    first one that fails).  An invalid-offset error or log record only ever
    names an offset of the list that resolves outside [0, size]. *)
Theorem zero_file_at_offsets_invalid_offset path buflen count w c :
  file_data w path = Ret c ->
  let size := blen c in
  (forall pre off post, ~ inside size off ->
     exists w' w0,
       zero_file_at_offsets path (pre ++ off :: post) buflen count false w
         = (Ret tt, w') /\
       zero_file_at_offsets path (pre ++ post) buflen count false w
         = (Ret tt, w0) /\
       (forall q, file_data w' q = file_data w0 q) /\
       In (DEBUG, m_badoff path size off false) (LOG w'))
  /\
  (forall pre off post, ~ inside size off ->
     Forall (fits buflen count size) pre ->
     exists w' w0,
       zero_file_at_offsets path (pre ++ off :: post) buflen count true w
         = (Raise (ValueError (m_badoff path size off true)), w') /\
       zero_file_at_offsets path pre buflen count true w = (Ret tt, w0) /\
       (forall q, file_data w' q = file_data w0 q))
  /\
  (forall offsets strict r w',
     zero_file_at_offsets path offsets buflen count strict w = (r, w') ->
     forall lvl p s o st,
       r = Raise (ValueError (m_badoff p s o st)) \/
       (In (lvl, m_badoff p s o st) (LOG w') /\
        ~ In (lvl, m_badoff p s o st) (LOG w)) ->
       In o offsets /\ ~ inside size o).
Proof.
  intros Hd size. subst size. split; [| split].
  - intros pre off post Hout.
    destruct (zero_nonstrict path (pre ++ off :: post) buflen count w c Hd)
      as (w' & Hrun & Hd' & Hsame & Hlog).
    destruct (zero_nonstrict path (pre ++ post) buflen count w c Hd)
      as (w0 & Hrun0 & Hd0 & Hsame0 & _).
    exists w', w0. split; [exact Hrun|]. split; [exact Hrun0|]. split.
    + eapply same_data_everywhere; eauto.
      rewrite Hd0. f_equal. rewrite !zero_all_app.
      change (zero_all buflen count (blen c) (off :: post)
                (zero_all buflen count (blen c) pre c))
        with (zero_all buflen count (blen c) post
                (zero_at buflen count (blen c) off
                   (zero_all buflen count (blen c) pre c))).
      rewrite zero_at_outside by exact Hout. reflexivity.
    + rewrite Hlog. apply in_or_app. right.
      rewrite flat_map_app. apply in_or_app. right.
      cbn [flat_map]. apply in_or_app. left.
      unfold offset_records.
      destruct (outside_b (blen c) off) eqn:E; [left; reflexivity|].
      apply outside_b_false in E. contradiction.
  - intros pre off post Hout Hpre.
    assert (Hoff : ~ fits buflen count (blen c) off) by (intros [H _]; contradiction).
    destruct (zero_strict_raise path pre off post buflen count w c Hd Hpre Hoff)
      as (w' & Hrun & Hd' & Hsame & _).
    destruct (zero_strict_ok path pre buflen count w c Hd Hpre)
      as (w0 & Hrun0 & Hd0 & Hsame0 & _).
    exists w', w0. split.
    + rewrite Hrun. unfold strict_error.
      destruct (outside_b (blen c) off) eqn:E; [reflexivity|].
      apply outside_b_false in E. contradiction.
    + split; [exact Hrun0|]. eapply same_data_everywhere; eauto.
  - intros offsets strict r w' Hrun lvl p s o st Hcase.
    destruct strict.
    + destruct (first_misfit buflen count (blen c) offsets)
        as [Hall | (pre & off & post & -> & Hpre & Hoff)].
      * destruct (zero_strict_ok path offsets buflen count w c Hd Hall)
          as (w1 & Hrun1 & _ & _ & Hlog).
        rewrite Hrun in Hrun1. inversion Hrun1; subst.
        destruct Hcase as [Hr | [Hin Hnin]]; [discriminate|].
        rewrite Hlog in Hin. contradiction.
      * destruct (zero_strict_raise path pre off post buflen count w c Hd Hpre Hoff)
          as (w1 & Hrun1 & _ & _ & Hlog).
        rewrite Hrun in Hrun1. inversion Hrun1; subst.
        destruct Hcase as [Hr | [Hin Hnin]].
        -- unfold strict_error in Hr.
           destruct (outside_b (blen c) off) eqn:E; inversion Hr; subst.
           split; [apply in_elt|].
           intros Hins. apply outside_b_false in Hins. congruence.
        -- rewrite Hlog in Hin. contradiction.
    + destruct (zero_nonstrict path offsets buflen count w c Hd)
        as (w1 & Hrun1 & _ & _ & Hlog).
      rewrite Hrun in Hrun1. inversion Hrun1; subst.
      destruct Hcase as [Hr | [Hin Hnin]]; [discriminate|].
      rewrite Hlog in Hin. apply in_app_or in Hin.
      destruct Hin as [Hin | Hin]; [contradiction|].
      apply in_flat_map in Hin. destruct Hin as (o' & Ho' & Hrec).
      unfold offset_records in Hrec.
      destruct (outside_b (blen c) o') eqn:E.
      * destruct Hrec as [Hrec | []]. inversion Hrec; subst.
        split; [exact Ho'|].
        intros Hins. apply outside_b_false in Hins. congruence.
      * destruct (short_b (blen c) (buflen * count) o').
        -- destruct Hrec as [Hrec | []]. discriminate.
        -- destruct Hrec.
Qed.

(* ---------- quick_zero ---------- *)

Lemma zero_at_zeroed buflen count size off c :
  size = blen c -> inside size off ->
  zeroed (resolve size off)
         (block_end buflen size (Z.to_nat count) (resolve size off))
         c (zero_at buflen count size off c).
Proof.
  intros -> Hin. unfold zero_at.
  destruct (outside_b (blen c) off) eqn:E.
  { apply outside_b_false in Hin. congruence. }
  unfold inside in Hin.
  set (p := resolve (blen c) off) in *.
  set (e := block_end buflen (blen c) (Z.to_nat count) p).
  assert (He : p <= e <= blen c) by (subst e; unfold block_end; nia).
  replace e with (p + (e - p)) at 1 by lia.
  apply write_at_zeros_zeroed; lia.
Qed.

(** C9 (amended).  [zero_file_at_offsets] leaves the length of the target
    as it was, whatever the offsets and whether it raises or not.
    [wipe_file] leaves the length as it was on every path that ends,
    provided no call of the reader returns more than [buflen] bytes; with
    [buflen > 0] the call does end. *)
Theorem wipe_keeps_file_length path w c :
  file_data w path = Ret c ->
  (forall offsets buflen count strict,
     exists r w' c',
       zero_file_at_offsets path offsets buflen count strict w = (r, w') /\
       file_data w' path = Ret c' /\ List.length c' = List.length c)
  /\
  (forall off buflen count,
     inside (blen c) off -> 0 <= buflen -> 0 <= count ->
     resolve (blen c) off + buflen * count >= blen c ->
     exists w' c',
       zero_file_at_offsets path [off] buflen count false w = (Ret tt, w') /\
       file_data w' path = Ret c' /\
       zeroed (resolve (blen c) off) (blen c) c c')
  /\
  (forall reader buflen,
     (forall k, blen (reader_of reader buflen k) <= buflen) ->
     (forall fuel r w',
        wipe_file fuel path reader buflen w = Some (r, w') ->
        exists c', file_data w' path = Ret c' /\ List.length c' = List.length c)
     /\
     (0 < buflen ->
      exists r w',
        wipe_file (S (Z.to_nat (blen c))) path reader buflen w = Some (r, w'))).
Proof.
  intros Hd. split; [| split].
  - intros offsets buflen count strict.
    destruct (zero_file_at_offsets_run path offsets buflen count strict w c Hd)
      as (r & w' & pre & Hrun & Hd' & _).
    exists r, w'. eexists. split; [exact Hrun|]. split; [exact Hd'|].
    apply blen_length_eq. apply zero_all_length. reflexivity.
  - intros off buflen count Hin Hb Hc Hcross.
    destruct (zero_nonstrict path [off] buflen count w c Hd)
      as (w' & Hrun & Hd' & _).
    exists w'. eexists. split; [exact Hrun|]. split; [exact Hd'|].
    unfold zero_all. cbn [fold_left].
    pose proof (zero_at_zeroed buflen count (blen c) off c eq_refl Hin) as Hz.
    replace (block_end buflen (blen c) (Z.to_nat count) (resolve (blen c) off))
      with (blen c) in Hz; [exact Hz|].
    unfold block_end. rewrite Z2Nat.id by lia.
    unfold inside in Hin. nia.
  - intros reader buflen Hrf. split.
    + intros fuel r w' Hrun.
      rewrite (wipe_file_unfold fuel path reader buflen w c Hd) in Hrun.
      eapply (wipe_loop_keeps_length (reader_of reader buflen) buflen fuel Hrf
                O (mkFile path 0)); [| | exact Hrun].
      * exact Hd.
      * cbn [pos]. pose proof (blen_nonneg c). lia.
    + intros Hb.
      rewrite (wipe_file_unfold _ path reader buflen w c Hd).
      eapply wipe_loop_terminates with (c := c); auto.
      * lia.
      * cbn [pos]. pose proof (blen_nonneg c). nia.
Qed.

Section QuickZero.

Context {collab : Collaborators}.

Lemma is_block_device_eq (path : string) (w : World) :
  is_block_device path w =
  (match os_stat w path with
   | Ret t => Ret (S_ISBLK t)
   | Raise (OSError n a) =>
       if util_is_file_not_found_exc (OSError n a) then Ret false
       else Raise (OSError n a)
   | Raise e => Raise e
   end, w).
Proof.
  unfold is_block_device, try_except, bind, query, ret.
  destruct (os_stat w path) as [t | e]; [reflexivity|].
  destruct e; try reflexivity.
  destruct (util_is_file_not_found_exc (OSError errno about)); reflexivity.
Qed.

Lemma os_path_isfile_eq (path : string) (w : World) :
  os_path_isfile path w =
  (Ret match os_stat w path with Ret t => S_ISREG t | Raise _ => false end, w).
Proof. reflexivity. Qed.

(** C10 (amended).  When [path] is neither a block device nor an existing
    regular file, [quick_zero] fails for both values of [partitions] and
    the system is left as it was.  It fails with the [ValueError] when
    [os.stat] succeeds on another kind of file or fails with an [OSError]
    that [util.is_file_not_found_exc] accepts; when [os.stat] fails with
    any other error, [is_block_device] lets that error pass and it is what
    [quick_zero] raises. *)
Theorem quick_zero_rejects_other_paths (path : string) (partitions : bool)
  (w : World) :
  not_blockdev_nor_file w path ->
  (forall t, os_stat w path = Ret t ->
     quick_zero path partitions w =
     (Raise (ValueError msg_not_file_or_blockdev), w))
  /\
  (forall n a, os_stat w path = Raise (OSError n a) ->
     quick_zero path partitions w =
     (Raise (if util_is_file_not_found_exc (OSError n a)
             then ValueError msg_not_file_or_blockdev
             else OSError n a), w))
  /\
  (forall e, os_stat w path = Raise e -> (forall n a, e <> OSError n a) ->
     quick_zero path partitions w = (Raise e, w))
  /\
  exists e, quick_zero path partitions w = (Raise e, w).
Proof.
  intros H.
  assert (H1 : forall t, os_stat w path = Ret t ->
            quick_zero path partitions w =
            (Raise (ValueError msg_not_file_or_blockdev), w)).
  { intros t Es. destruct (H t Es) as [Hb Hr].
    unfold quick_zero. unfold bind at 1. rewrite is_block_device_eq, Es, Hb.
    unfold bind at 1. rewrite os_path_isfile_eq, Es, Hr. reflexivity. }
  assert (H2 : forall n a, os_stat w path = Raise (OSError n a) ->
            quick_zero path partitions w =
            (Raise (if util_is_file_not_found_exc (OSError n a)
                    then ValueError msg_not_file_or_blockdev
                    else OSError n a), w)).
  { intros n a Es.
    unfold quick_zero. unfold bind at 1. rewrite is_block_device_eq, Es.
    destruct (util_is_file_not_found_exc (OSError n a)); [| reflexivity].
    unfold bind at 1. rewrite os_path_isfile_eq, Es. reflexivity. }
  assert (H3 : forall e, os_stat w path = Raise e ->
            (forall n a, e <> OSError n a) ->
            quick_zero path partitions w = (Raise e, w)).
  { intros e Es Hne.
    unfold quick_zero. unfold bind at 1. rewrite is_block_device_eq, Es.
    destruct e; try reflexivity. exfalso. exact (Hne _ _ eq_refl). }
  split; [exact H1|]. split; [exact H2|]. split; [exact H3|].
  destruct (os_stat w path) as [t | e] eqn:Es.
  - eexists. exact (H1 t eq_refl).
  - destruct e as [m | k | | n a | c x];
      try (eexists; apply H3; [reflexivity | discriminate]).
    eexists. exact (H2 n a eq_refl).
Qed.

(** C5.  [quick_zero(path, partitions=False)] on a regular file of size
    S >= 2 MiB is [zero_file_at_offsets] on the offsets [0; -1 MiB] with
    1024 blocks of 1024 bytes and [strict=False]; it returns, the bytes in
    [0, 1 MiB) and in [S - 1 MiB, S) are zero afterwards, every other byte
    and the length are unchanged, and so is every other file. *)
Theorem quick_zero_regular_file (path : string) (w : World) (c : list byte) :
  os_stat w path = Ret S_IFREG ->
  file_data w path = Ret c ->
  2 * MiB <= blen c ->
  quick_zero path false w =
    (log_debug (msg_wiping_1M path [0; - MiB]) ;;
     zero_file_at_offsets path [0; - MiB] 1024 1024 false) w
  /\
  exists w' c',
    quick_zero path false w = (Ret tt, w') /\
    file_data w' path = Ret c' /\
    List.length c' = List.length c /\
    (forall i : nat,
       nth i c' x00 =
       if (Z.of_nat i <? MiB) || (blen c - MiB <=? Z.of_nat i)
       then x00 else nth i c x00) /\
    same_but_data path w w'.
Proof.
  intros Hs Hd Hsize.
  assert (Hq : quick_zero path false w =
    (log_debug (msg_wiping_1M path [0; - MiB]) ;;
     zero_file_at_offsets path [0; - MiB] 1024 1024 false) w).
  { unfold quick_zero. unfold bind at 1. rewrite is_block_device_eq, Hs.
    cbn [S_ISBLK]. unfold bind at 1. rewrite os_path_isfile_eq, Hs.
    reflexivity. }
  split; [exact Hq|].
  rewrite Hq. unfold bind at 1. unfold log_debug at 1.
  set (w1 := mkWorld _ _ _ _ _ _).
  assert (Hd1 : file_data w1 path = Ret c) by exact Hd.
  destruct (zero_nonstrict path [0; - MiB] 1024 1024 w1 c Hd1)
    as (w' & Hrun & Hd' & Hsame & _).
  exists w'. eexists. split; [exact Hrun|]. split; [exact Hd'|].
  unfold zero_all. cbn [fold_left].
  set (c1 := zero_at 1024 1024 (blen c) 0 c).
  assert (Hin1 : inside (blen c) 0).
  { unfold inside, resolve. unfold MiB in Hsize. cbn. lia. }
  assert (Hin2 : inside (blen c) (- MiB)).
  { unfold inside, resolve, MiB in *. cbn. lia. }
  pose proof (zero_at_zeroed 1024 1024 (blen c) 0 c eq_refl Hin1) as [Hl1 Hz1].
  fold c1 in Hl1, Hz1.
  assert (Hb1 : blen c = blen c1) by (unfold blen; congruence).
  assert (Hin2' : inside (blen c) (- MiB)) by exact Hin2.
  pose proof (zero_at_zeroed 1024 1024 (blen c) (- MiB) c1 Hb1 Hin2) as [Hl2 Hz2].
  assert (Hr1 : resolve (blen c) 0 = 0) by reflexivity.
  assert (Hr2 : resolve (blen c) (- MiB) = blen c - MiB).
  { unfold resolve, MiB. cbn. lia. }
  assert (He1 : block_end 1024 (blen c) (Z.to_nat 1024) 0 = MiB).
  { unfold block_end, MiB in *. rewrite Z2Nat.id by lia. lia. }
  assert (He2 : block_end 1024 (blen c) (Z.to_nat 1024) (blen c - MiB) = blen c).
  { unfold block_end, MiB in *. rewrite Z2Nat.id by lia. lia. }
  rewrite Hr1, He1 in Hz1. rewrite Hr2, He2 in Hz2.
  split; [congruence|]. split.
  - intros i. rewrite Hz2, Hz1.
    destruct (Z.leb_spec (blen c - MiB) (Z.of_nat i)); cbn [orb andb].
    + destruct (Z.ltb_spec (Z.of_nat i) (blen c)).
      * rewrite orb_true_r. reflexivity.
      * rewrite orb_true_r.
        destruct (Z.leb_spec 0 (Z.of_nat i)); [| lia].
        destruct (Z.ltb_spec (Z.of_nat i) MiB); cbn [andb]; [reflexivity|].
        apply nth_overflow. unfold blen in *. lia.
    + rewrite orb_false_r.
      destruct (Z.leb_spec 0 (Z.of_nat i)); [| lia]. reflexivity.
  - destruct Hsame as (A1 & A2 & A3 & A4 & A5). repeat split; assumption.
Qed.

End QuickZero.

(* ================================================================== *)
(** * The module on the example systems *)

(** C1 (the code departs from the claim).  [sysfs_partition_data] reads the
    logical block size of the parent disk and then overwrites it with a
    second read under the path it was asked about.  On the disk [vda] the
    partition [vda1] comes back in bytes of 512; asked about the partition
    [/dev/vda1], whose parent [/dev/vda] has a readable queue (512), the
    call raises on the missing [vda1/queue/logical_block_size]; and where
    the partition has a queue value of its own (4096), that value is the
    unit of what is returned. *)
Theorem sysfs_partition_data_reads_own_queue :
  fst (@sysfs_partition_data (table_tools []) (Some "/dev/vda") None vda_system)
    = Ret [("vda1", 1, 2048 * 512, 204800 * 512)]
  /\ fst (@get_blockdev_for_partition (table_tools []) "/dev/vda1" vda_system)
     = Ret ("/dev/vda", Some "1")
  /\ read_text vda_system "/sys/class/block/vda/queue/logical_block_size"
     = Ret ("512" ++ nl)%string
  /\ fst (@sysfs_partition_data (table_tools []) (Some "/dev/vda1") None vda_system)
     = Raise (OSError ENOENT "/sys/class/block/vda/vda1/queue/logical_block_size")
  /\ fst (@sysfs_partition_data (table_tools []) (Some "/dev/vda1") None
            vda_system_own_queue)
     = Ret [("sub", 2, 8 * 4096, 16 * 4096)].
Proof. repeat split; vm_compute; reflexivity. Qed.

(** C2, counterexample.  [sda1] and [sdb1] carry the same UUID, their
    parents are [sda] and [sdb], both WWID lookups succeed with a non-empty
    string, and the result holds the WWID of [sda] only. *)
Lemma get_multipath_wwids_skips_second_parent :
  fst (@blkid clone_tools None true clone_system) =
    Ret [("/dev/sda1", [("UUID", "U1"); ("TYPE", "ext4")]);
         ("/dev/sdb1", [("UUID", "U1"); ("TYPE", "ext4")]);
         ("/dev/sdc1", [("UUID", "U2"); ("TYPE", "ext4")])]
  /\ fst (@get_blockdev_for_partition clone_tools "/dev/sda1" clone_system)
     = Ret ("/dev/sda", Some "1")
  /\ fst (@get_blockdev_for_partition clone_tools "/dev/sdb1" clone_system)
     = Ret ("/dev/sdb", Some "1")
  /\ fst (@get_scsi_wwid clone_tools "/dev/sda" false clone_system)
     = Ret (Some "WWID-A")
  /\ fst (@get_scsi_wwid clone_tools "/dev/sdb" false clone_system)
     = Ret (Some "WWID-B")
  /\ fst (@get_multipath_wwids clone_tools clone_system) = Ret ["WWID-A"].
Proof. repeat split; vm_compute; reflexivity. Qed.

(** A run whose result is known, with the state it ends in. *)
Lemma run_eq {A} (m : M A) (w : World) (a : A) :
  fst (m w) = Ret a -> m w = (Ret a, snd (m w)).
Proof. destruct (m w) as [r w']. cbn. intros ->. reflexivity. Qed.

(** C2 on the cloned disks: the only first-of-pair device is [sda1]. *)
Lemma get_multipath_wwids_first_of_pair_witness :
  exists wwids w',
    @get_multipath_wwids clone_tools clone_system = (Ret wwids, w') /\
    forall x, In x wwids <->
      exists d out,
        In d (first_of_pairs
                [("/dev/sda1", [("UUID", "U1"); ("TYPE", "ext4")]);
                 ("/dev/sdb1", [("UUID", "U1"); ("TYPE", "ext4")]);
                 ("/dev/sdc1", [("UUID", "U2"); ("TYPE", "ext4")])]) /\
        clone_lookup (clone_parent d) = Some out /\
        x = rstrip_newlines out /\ x <> "".
Proof.
  apply (@get_multipath_wwids_first_of_pair clone_tools clone_system clone_system).
  - vm_compute. reflexivity.
  - intros d Hd. vm_compute in Hd. destruct Hd as [<- | []].
    exists (Some "1"). vm_compute. reflexivity.
  - intros d Hd. vm_compute in Hd. destruct Hd as [<- | []].
    intros w'. vm_compute. eexists. reflexivity.
Defined.

(** C3, counterexample.  On a file of 3 bytes with [buflen = 1], a reader
    that answers 4 bytes and then 2: the first block passes the test
    (4 + 0 >= 3), is no last block (0 + 1 < 3) and is written in full, so
    the second call starts at position 4; it passes the test too and is
    the last block, [pbuf[0:3-4]] is the first byte of [pbuf], and that
    byte is written at position 4, beyond the end of the file. *)
Lemma wipe_file_final_block_past_end :
  let rf := short_reader in
  reaches rf 1 3 1 /\ ~ short_read_at rf 1 3 1 /\ last_block_at rf 1 3 1 /\
  wipe_pos rf 1 = 4 /\
  slice0 (rf 1%nat) (3 - wipe_pos rf 1) = [xaa] /\
  exists w',
    wipe_file 3 "disk.img" (Some short_reader) 1 (img_system [x01; x02; x03]) =
      Some (Ret tt, w') /\
    file_data w' "disk.img" = Ret [xaa; xaa; xaa; xaa; xaa].
Proof.
  cbv zeta. split; [| split; [| split; [| split; [| split]]]].
  - intros j Hj. assert (j = 0)%nat by lia. subst j.
    unfold short_read_at, last_block_at. cbn. lia.
  - unfold short_read_at. cbn. lia.
  - unfold last_block_at. cbn. lia.
  - reflexivity.
  - reflexivity.
  - eexists. split; [vm_compute; reflexivity | reflexivity].
Qed.

(** C3 on a file of 10 bytes.  With a reader whose second call returns 2
    bytes at position 4 (2 + 4 < 10) the call raises.  With the zero
    source and [buflen = 4] the third call is the last block: it starts at
    position 8 and its first 2 bytes are written. *)
Lemma wipe_file_short_read_iff_witness :
  (exists w',
     wipe_file 5 "disk.img" (Some short_reader) 4 (img_system (repeat x01 10)) =
     Some (Raise (ValueError (msg_short_read 2 4 4)), w') /\
     file_data w' "disk.img" =
     Ret ([xaa; xaa; xaa; xaa] ++ repeat x01 6))
  /\
  (exists w',
     wipe_file 5 "disk.img" None 4 (img_system (repeat x01 10)) =
     Some (Ret tt, w') /\
     slice0 (zeros 4) (10 - 8) = [x00; x00] /\
     exists c', file_data w' "disk.img" = Ret c' /\ List.length c' = 10%nat).
Proof.
  split.
  - destruct (wipe_file_short_read_iff "disk.img" (Some short_reader) 4
                (img_system (repeat x01 10)) (repeat x01 10) eq_refl) as [H _].
    destruct (H 1%nat 5%nat) as [Hshort _].
    + intros j Hj. assert (j = 0)%nat by lia. subst j.
      unfold short_read_at, last_block_at. cbn. lia.
    + lia.
    + apply Hshort. unfold short_read_at. cbn. lia.
  - destruct (wipe_file_short_read_iff "disk.img" None 4
                (img_system (repeat x01 10)) (repeat x01 10) eq_refl) as [H _].
    assert (Hb : forall k, blen (reader_of None 4 k) = 4) by reflexivity.
    assert (Hc : blen (repeat x01 10) = 10) by reflexivity.
    destruct (H 2%nat 5%nat) as [_ Hlast].
    + intros j Hj. unfold short_read_at, last_block_at. rewrite Hc.
      destruct j as [|[|j]]; [| | lia]; cbn [wipe_pos]; rewrite !Hb; lia.
    + lia.
    + destruct Hlast as (w' & Hrun & _ & Hfit).
      * unfold short_read_at. rewrite Hb. lia.
      * unfold last_block_at. rewrite Hc. cbn [wipe_pos]. rewrite !Hb. lia.
      * exists w'. split; [exact Hrun|].
        destruct Hfit as (_ & _ & Hlen).
        { rewrite Hc. cbn [wipe_pos]. rewrite !Hb. lia. }
        split; [reflexivity | exact Hlen].
Defined.

(** The offsets are taken in order.  On a file of 3 bytes, strict, offsets
    [0; 9]: the call ends with the short-write error of offset 0, and the
    offset 9, which resolves outside [0, 3], is not looked at. *)
Lemma zero_file_at_offsets_short_write_first :
  ~ inside 3 9 /\
  zero_file_at_offsets "disk.img" [0; 9] 2 2 true (img_system [x41; x42; x43]) =
  (Raise (ValueError (m_short "disk.img" 3 4 0 3 true)),
   img_system [x41; x42; x43]).
Proof.
  split.
  - unfold inside, resolve. cbn. lia.
  - reflexivity.
Qed.

(** C4 on a file of 6 bytes with offsets [0; 9; -1]: 9 is outside. *)
Lemma zero_file_at_offsets_invalid_offset_witness :
  (exists w' w0,
     zero_file_at_offsets "disk.img" ([0] ++ 9 :: [-1]) 2 2 false
       (img_system [x41; x42; x43; x44; x45; x46]) = (Ret tt, w') /\
     zero_file_at_offsets "disk.img" ([0] ++ [-1]) 2 2 false
       (img_system [x41; x42; x43; x44; x45; x46]) = (Ret tt, w0) /\
     (forall q, file_data w' q = file_data w0 q) /\
     In (DEBUG, m_badoff "disk.img" 6 9 false) (LOG w'))
  /\
  (exists w' w0,
     zero_file_at_offsets "disk.img" ([0] ++ 9 :: [-1]) 2 2 true
       (img_system [x41; x42; x43; x44; x45; x46])
       = (Raise (ValueError (m_badoff "disk.img" 6 9 true)), w') /\
     zero_file_at_offsets "disk.img" [0] 2 2 true
       (img_system [x41; x42; x43; x44; x45; x46]) = (Ret tt, w0) /\
     (forall q, file_data w' q = file_data w0 q)).
Proof.
  destruct (zero_file_at_offsets_invalid_offset "disk.img" 2 2
              (img_system [x41; x42; x43; x44; x45; x46])
              [x41; x42; x43; x44; x45; x46] eq_refl) as (H1 & H2 & _).
  split.
  - apply (H1 [0] 9 [-1]). unfold inside, resolve. cbn. lia.
  - apply (H2 [0] 9 [-1]).
    + unfold inside, resolve. cbn. lia.
    + constructor; [| constructor]. unfold fits, inside, resolve. cbn. lia.
Defined.

(** C9, counterexample.  On a file of 3 bytes with [buflen = 1], a reader
    whose first answer has 4 bytes: no short read is raised, the 4 bytes are
    written in full and the call returns with a file of 4 bytes. *)
Lemma wipe_file_long_read_grows_file :
  match wipe_file 3 "disk.img" (Some long_reader) 1
          (img_system [x01; x02; x03]) with
  | Some (Ret tt, w') => file_data w' "disk.img" = Ret [xff; xff; xff; xff]
  | _ => False
  end.
Proof. vm_compute. reflexivity. Qed.

(** C9 on files of 6 and of 10 bytes. *)
Lemma wipe_keeps_file_length_witness :
  (exists r w' c',
     zero_file_at_offsets "disk.img" [0; 9; -1] 2 2 true
       (img_system [x41; x42; x43; x44; x45; x46]) = (r, w') /\
     file_data w' "disk.img" = Ret c' /\ List.length c' = 6%nat)
  /\
  (exists r w',
     wipe_file 11 "disk.img" (Some short_reader) 4
       (img_system (repeat x01 10)) = Some (r, w')).
Proof.
  destruct (wipe_keeps_file_length "disk.img"
              (img_system [x41; x42; x43; x44; x45; x46])
              [x41; x42; x43; x44; x45; x46] eq_refl) as (Hz & _ & _).
  destruct (wipe_keeps_file_length "disk.img"
              (img_system (repeat x01 10)) (repeat x01 10) eq_refl) as (_ & _ & Hw).
  split.
  - apply Hz.
  - destruct (Hw (Some short_reader) 4) as [_ Ht].
    + intros k. destruct k as [|[|k]]; cbn; lia.
    + apply Ht. lia.
Defined.

Lemma big_content_length : blen big_content = 3 * MiB.
Proof. unfold blen, big_content. rewrite repeat_length. unfold MiB. lia. Qed.

(** C5 on a regular file of 3 MiB. *)
Lemma quick_zero_regular_file_witness :
  exists w' c',
    @quick_zero clone_tools "disk.img" false big_system = (Ret tt, w') /\
    file_data w' "disk.img" = Ret c' /\
    List.length c' = List.length big_content /\
    (forall i : nat,
       nth i c' x00 =
       if (Z.of_nat i <? MiB) || (blen big_content - MiB <=? Z.of_nat i)
       then x00 else nth i big_content x00) /\
    same_but_data "disk.img" big_system w'.
Proof.
  apply (@quick_zero_regular_file clone_tools "disk.img" big_system big_content).
  - reflexivity.
  - reflexivity.
  - rewrite big_content_length. unfold MiB. lia.
Defined.

(** C10, counterexample.  The path /etc/hostname/disk.img, below a regular
    file, is neither a block device nor an existing regular file;
    [os.stat] fails on it with ENOTDIR, which is none of the errors
    [util.is_file_not_found_exc] accepts (ENOENT, EIO, ENXIO), and
    [quick_zero] ends with that [OSError], not with the [ValueError]. *)
Lemma quick_zero_stat_error_passes :
  not_blockdev_nor_file notdir_system "/etc/hostname/disk.img" /\
  forall partitions,
    @quick_zero (table_tools []) "/etc/hostname/disk.img" partitions notdir_system =
    (Raise (OSError ENOTDIR "/etc/hostname/disk.img"), notdir_system).
Proof.
  split.
  - intros t Ht. discriminate Ht.
  - intros [|]; reflexivity.
Qed.

(** C10 on a path that does not exist. *)
Lemma quick_zero_rejects_other_paths_witness :
  @quick_zero clone_tools "/dev/nothing" true (img_system [x41]) =
  (Raise (ValueError msg_not_file_or_blockdev), img_system [x41]).
Proof.
  destruct (@quick_zero_rejects_other_paths clone_tools "/dev/nothing" true
              (img_system [x41])) as (_ & H & _).
  - intros t Ht. discriminate Ht.
  - exact (H ENOENT "/dev/nothing" eq_refl).
Defined.

(** C6 on four partitions, three of them mounted on /target: [sda1] has
    no UUID and is warned about, [sdb1] shares its UUID with [sdc1] and
    decides, [sdd1] has no UUID either and is not looked at. *)
Lemma detect_multipath_iff_witness :
  exists w',
    @detect_multipath target_tools "/target" empty_system = (Ret true, w') /\
    In (WARN, msg_no_uuid "/dev/sda1") (LOG w') /\
    ~ In (WARN, msg_no_uuid "/dev/sdd1") (LOG w').
Proof.
  edestruct (@detect_multipath_iff target_tools "/target" empty_system)
    as (b & w' & Hrun & Hb & _ & Hlog & _ & _ & Hwarn).
  { apply run_eq. vm_compute. reflexivity. }
  { apply run_eq. vm_compute. reflexivity. }
  { apply run_eq. vm_compute. reflexivity. }
  assert (Ht : b = true).
  { apply Hb. exists "/dev/sdb1", [("UUID", "U1")], "U1", "/dev/sdc1", [("UUID", "U1")].
    repeat split; try discriminate; cbn; auto. }
  subst b. exists w'. split; [exact Hrun|]. split.
  - apply (Hwarn "/dev/sda1" [("TYPE", "ext4")]); [cbn; auto | cbn; auto | reflexivity].
  - rewrite Hlog. vm_compute. intros H.
    repeat (destruct H as [H | H]; [discriminate|]). exact H.
Defined.

(** C7 on the listing of a disk and a logical volume: the volume is stored
    under its KNAME "dm-0", with the NAME lsblk printed and the device path
    of the kernel name. *)
Lemma lsblock_pairs_keyed_by_kname_witness :
  exists ret row,
    _lsblock_pairs_to_dict lvm_listing = Ret ret /\
    In ("dm-0", row) ret /\
    dict_get row "NAME" = Some "vg0-root (dm-0)" /\
    dict_get row "device_path" = Some "/dev/dm-0".
Proof.
  destruct (lsblock_pairs_keyed_by_kname lvm_listing) as [H1 H2].
  destruct H1 as (ret & Hrun).
  { constructor; [| constructor; [| constructor]].
    - exists ["KNAME=sda"; "NAME=sda"; "RM=0"; "RO=0"; "TYPE=disk"; "MOUNTPOINT="].
      split; [vm_compute; reflexivity|]. split.
      + repeat constructor.
      + constructor. reflexivity.
    - exists ["KNAME=dm-0"; "NAME=vg0-root (dm-0)"; "TYPE=lvm"].
      split; [vm_compute; reflexivity|]. split.
      + repeat constructor.
      + constructor. reflexivity. }
  destruct (H2 ret Hrun) as [Hlines Hrows].
  destruct (Hlines ("KNAME=" ++ dq ++ "dm-0" ++ dq ++ " NAME=" ++ dq
                    ++ "vg0-root (dm-0)" ++ dq ++ " TYPE=" ++ dq ++ "lvm" ++ dq)%string)
    as (toks & k & row & Hlex & Hk & Hin).
  { vm_compute. right. left. reflexivity. }
  vm_compute in Hlex. inversion Hlex; subst toks.
  vm_compute in Hk. inversion Hk; subst k.
  exists ret, row. split; [exact Hrun|]. split; [exact Hin|].
  destruct (Hrows "dm-0" row Hin) as ((line & toks & Hl & Hlex2 & Hrow) & _ & Hp & _).
  split; [| exact Hp].
  vm_compute in Hl. destruct Hl as [<- | [<- | []]].
  - vm_compute in Hlex2. inversion Hlex2; subst toks.
    destruct Hrow as (Hk2 & _). vm_compute in Hk2. discriminate.
  - vm_compute in Hlex2. inversion Hlex2; subst toks.
    destruct Hrow as (_ & _ & Hvals). rewrite Hvals by discriminate. reflexivity.
Defined.

(** C8 on a Smart Array disk: the argument "/dev/cciss!c0d0" reaches lsblk
    as "/dev/cciss/c0d0", and the row lsblk prints for the kernel name
    "cciss!c0d0" is stored under "cciss/c0d0". *)
Lemma lsblock_replaces_bang_witness :
  replace "/dev/cciss!c0d0" "!" "/" = "/dev/cciss/c0d0" /\
  @_lsblock cciss_tools (Some ["/dev/cciss!c0d0"]) empty_system =
  (Ret [("cciss/c0d0",
         [("KNAME", "cciss/c0d0"); ("NAME", "cciss/c0d0"); ("RM", "0");
          ("RO", "0"); ("TYPE", "disk"); ("MOUNTPOINT", "");
          ("device_path", "/dev/cciss/c0d0")])],
   empty_system).
Proof.
  split; [reflexivity|].
  destruct (@lsblock_replaces_bang cciss_tools (Some ["/dev/cciss!c0d0"])
              empty_system) as (_ & H & _).
  exact (H (lsblk_row "cciss!c0d0" "disk" "") "" empty_system eq_refl).
Defined.

(* ================================================================== *)
(** * Further properties *)

(* ---------- wipe_file as a stream copy ---------- *)

Lemma stream_S rf n : stream rf (S n) = stream rf n ++ rf n.
Proof.
  unfold stream. rewrite seq_S, map_app, concat_app. cbn [map List.concat Nat.add].
  rewrite app_nil_r. reflexivity.
Qed.

Lemma stream_length rf buflen n :
  (forall k, blen (rf k) = buflen) -> blen (stream rf n) = Z.of_nat n * buflen.
Proof.
  intros Hrf. induction n as [|n IH].
  - reflexivity.
  - rewrite stream_S, blen_app, IH, Hrf. lia.
Qed.

Lemma stream_add rf n m : exists more, stream rf (n + m) = stream rf n ++ more.
Proof.
  induction m as [|m [more IH]].
  - exists []. rewrite Nat.add_0_r, app_nil_r. reflexivity.
  - exists (more ++ rf (n + m)%nat).
    replace (n + S m)%nat with (S (n + m)) by lia.
    rewrite stream_S, IH, app_assoc. reflexivity.
Qed.

Lemma wipe_pos_full rf buflen k :
  (forall k, blen (rf k) = buflen) -> wipe_pos rf k = Z.of_nat k * buflen.
Proof.
  intros Hrf. induction k as [|k IH]; cbn [wipe_pos].
  - reflexivity.
  - rewrite IH, Hrf. lia.
Qed.

Lemma wipe_written_full rf buflen c k :
  (forall k, blen (rf k) = buflen) -> 0 <= buflen ->
  Z.of_nat k * buflen <= blen c ->
  wipe_written rf k c = stream rf k ++ skipn (Z.to_nat (Z.of_nat k * buflen)) c.
Proof.
  intros Hrf Hb. induction k as [|k IH]; intros Hk.
  - reflexivity.
  - cbn [wipe_written]. rewrite IH by nia.
    rewrite (wipe_pos_full rf buflen k Hrf).
    pose proof (stream_length rf buflen k Hrf) as Hlen.
    assert (Hl : List.length (stream rf k) = Z.to_nat (Z.of_nat k * buflen)).
    { unfold blen in Hlen. lia. }
    rewrite write_at_inside.
    + rewrite firstn_app, <- Hl, firstn_all, Nat.sub_diag, firstn_O, app_nil_r.
      rewrite skipn_app, Hl.
      rewrite skipn_all2 by lia.
      rewrite skipn_skipn, stream_S, <- app_assoc. cbn [app].
      do 3 f_equal. pose proof (Hrf k) as Hrk. unfold blen in Hrk. lia.
    + nia.
    + rewrite Hrf, blen_app, Hlen. unfold blen. rewrite length_skipn.
      unfold blen in Hk. lia.
Qed.

Lemma last_block_index buflen size :
  0 < buflen -> 0 <= size ->
  exists K : nat,
    Z.of_nat K <= size /\
    Z.of_nat K * buflen <= size /\
    size <= (Z.of_nat K + 1) * buflen /\
    forall j : nat, (j < K)%nat -> (Z.of_nat j + 1) * buflen < size.
Proof.
  intros Hb Hs.
  destruct (Z.eq_dec size 0) as [-> | Hne].
  - exists O. repeat split; try lia.
  - exists (Z.to_nat ((size - 1) / buflen)).
    pose proof (Z.div_mod (size - 1) buflen ltac:(lia)) as Hdm.
    pose proof (Z.mod_pos_bound (size - 1) buflen Hb) as Hm.
    assert (Hq : 0 <= (size - 1) / buflen) by (apply Z.div_pos; lia).
    rewrite Z2Nat.id by exact Hq.
    repeat split; try nia.
Qed.

Lemma log_debug_frame path m w :
  same_but_data path w (snd (log_debug m w)).
Proof. repeat split; reflexivity. Qed.

Lemma wipe_file_full_blocks path reader buflen w c :
  file_data w path = Ret c ->
  0 < buflen ->
  (forall k, blen (reader_of reader buflen k) = buflen) ->
  forall (n fuel : nat),
    blen c <= Z.of_nat n * buflen -> (List.length c < fuel)%nat ->
    exists w',
      wipe_file fuel path reader buflen w = Some (Ret tt, w') /\
      file_data w' path =
        Ret (firstn (List.length c) (stream (reader_of reader buflen) n)) /\
      same_but_data path w w' /\
      LOG w' = LOG w ++ [(DEBUG, msg_wiping path (blen c) buflen)].
Proof.
  intros Hd Hb Hrf n fuel Hn Hfuel.
  set (rf := reader_of reader buflen) in *.
  pose proof (blen_nonneg c) as Hc0.
  destruct (last_block_index buflen (blen c) Hb Hc0) as (K & HKs & HKlo & HKhi & HKj).
  rewrite (wipe_file_unfold fuel path reader buflen w c Hd). fold rf.
  set (w0 := snd (log_debug (msg_wiping path (blen c) buflen) w)).
  assert (Hnever : forall k, ~ short_read_at rf buflen (blen c) k).
  { intros k [Hne _]. apply Hne. apply Hrf. }
  destruct (loop_advance path rf buflen (blen c) c w0 K O w0 (fuel - K)%nat)
    as (w1 & Hst1 & Hrun1).
  { apply loop_state_start. exact Hd. }
  { intros j Hj. split; [apply Hnever|].
    unfold last_block_at. rewrite (wipe_pos_full rf buflen j Hrf).
    pose proof (HKj j ltac:(lia)). lia. }
  cbn [Nat.add] in Hst1, Hrun1. change (wipe_pos rf 0) with 0 in Hrun1.
  assert (HKf : (K < fuel)%nat) by (unfold blen in HKs; lia).
  replace (K + (fuel - K))%nat with fuel in Hrun1 by lia.
  rewrite Hrun1.
  destruct (loop_stop path rf buflen (blen c) c w0 K w1 (fuel - K - 1)%nat Hst1)
    as [_ Hstop].
  replace (S (fuel - K - 1)) with (fuel - K)%nat in Hstop by lia.
  rewrite Hstop; [| apply Hnever |].
  2:{ unfold last_block_at. rewrite (wipe_pos_full rf buflen K Hrf). lia. }
  destruct Hst1 as (Hd1 & Hsame1 & Hlog1).
  eexists. split; [reflexivity|].
  split; [| split].
  - rewrite file_data_set_same. f_equal.
    rewrite (wipe_written_full rf buflen c K Hrf) by lia.
    rewrite (wipe_pos_full rf buflen K Hrf).
    pose proof (stream_length rf buflen K Hrf) as Hlen.
    assert (Hl : List.length (stream rf K) = Z.to_nat (Z.of_nat K * buflen)).
    { unfold blen in Hlen. lia. }
    assert (Hnk : (K < n)%nat \/ blen c = 0).
    { destruct K as [|K'].
      - destruct n; [right; lia | left; lia].
      - left. pose proof (HKj K' ltac:(lia)). nia. }
    assert (Htarget :
      firstn (List.length c) (stream rf n) =
      stream rf K ++ firstn (List.length c - List.length (stream rf K)) (rf K)).
    { destruct Hnk as [Hlt | Hz].
      - destruct (stream_add rf (S K) (n - S K)) as [more Hmore].
        replace (S K + (n - S K))%nat with n in Hmore by lia.
        rewrite Hmore, stream_S.
        rewrite firstn_app.
        replace (List.length c - List.length (stream rf K ++ rf K))%nat with O.
        2:{ rewrite length_app. pose proof (Hrf K) as HrK. unfold blen in HrK, HKhi. nia. }
        rewrite firstn_O, app_nil_r.
        rewrite firstn_app.
        rewrite firstn_all2 by (unfold blen in HKlo; lia).
        reflexivity.
      - assert (c = []) by (destruct c; [reflexivity | unfold blen in Hz; cbn in Hz; lia]).
        subst c. assert (K = O) by (cbn in HKs; lia). subst K. reflexivity. }
    rewrite Htarget.
    unfold slice0.
    destruct (0 <=? blen c - Z.of_nat K * buflen) eqn:E; [| apply Z.leb_gt in E; lia].
    remember (firstn (Z.to_nat (blen c - Z.of_nat K * buflen)) (rf K)) as b eqn:Eb.
    assert (Hbl : List.length b = Z.to_nat (blen c - Z.of_nat K * buflen)).
    { subst b. rewrite length_firstn. pose proof (Hrf K) as HrK. unfold blen in HrK. lia. }
    replace (List.length c - List.length (stream rf K))%nat
      with (Z.to_nat (blen c - Z.of_nat K * buflen)) by (unfold blen; lia).
    rewrite <- Eb.
    destruct b as [|b0 b'] eqn:Ebb.
    + cbn [write_at]. rewrite app_nil_r.
      rewrite skipn_all2 by (cbn in Hbl; unfold blen in *; lia).
      rewrite app_nil_r. reflexivity.
    + rewrite <- Ebb in *. rewrite write_at_inside.
      * rewrite firstn_app, <- Hl, firstn_all, Nat.sub_diag, firstn_O, app_nil_r.
        rewrite skipn_all2.
        { rewrite app_nil_r. reflexivity. }
        rewrite length_app, length_skipn. unfold blen in *. lia.
      * nia.
      * rewrite blen_app, Hlen. unfold blen at 1 2. rewrite Hbl, length_skipn.
        unfold blen. lia.
  - eapply same_but_data_trans; [apply log_debug_frame|].
    apply same_but_data_set. exact Hsame1.
  - cbn [LOG set_file_data]. rewrite Hlog1. reflexivity.
Qed.

Lemma stream_zeros buflen n :
  stream (fun _ => zeros buflen) n = repeat x00 (n * Z.to_nat buflen).
Proof.
  induction n as [|n IH].
  - reflexivity.
  - rewrite stream_S, IH. unfold zeros. rewrite <- repeat_app.
    f_equal. lia.
Qed.

Lemma wipe_loop_spins path buflen c (fuel : nat) :
  (buflen = 0 /\ 0 < blen c) \/ (buflen < 0 /\ blen c = 0) ->
  forall k w,
    file_data w path = Ret c ->
    wipe_file_loop fuel (fun _ => zeros buflen) buflen (blen c) k
      (mkFile path 0) w = None.
Proof.
  intros Hcase. induction fuel as [|fuel IH]; intros k w Hd.
  - reflexivity.
  - cbn [wipe_file_loop]. unfold tell. cbn [pos].
    assert (Hz : zeros buflen = []).
    { unfold zeros. replace (Z.to_nat buflen) with O by lia. reflexivity. }
    rewrite Hz in *. change (blen []) with 0.
    replace (negb (0 =? buflen) && (0 + 0 <? blen c)) with false.
    2:{ destruct Hcase as [[-> _] | [_ ->]]; [reflexivity|].
        rewrite andb_false_r. reflexivity. }
    replace (0 + buflen >=? blen c) with false.
    2:{ symmetry. rewrite Z.geb_leb, Z.leb_gt. lia. }
    unfold write. cbn [name pos]. rewrite Hd.
    change (0 + blen []) with 0. cbn [write_at].
    apply IH. apply file_data_set_same.
Qed.

(* ---------- zero_file_at_offsets byte by byte ---------- *)

Lemma zero_at_nth buflen count size off c (i : nat) :
  size = blen c ->
  nth i (zero_at buflen count size off c) x00 =
  if in_window buflen count size off i then x00 else nth i c x00.
Proof.
  intros Hs. unfold in_window.
  destruct (outside_b size off) eqn:Eo.
  - unfold zero_at. rewrite Eo. reflexivity.
  - apply outside_b_false in Eo.
    destruct (zero_at_zeroed buflen count size off c Hs Eo) as [_ Hz].
    rewrite Hz. reflexivity.
Qed.

Lemma zero_all_nth buflen count size offsets :
  forall c (i : nat),
  size = blen c ->
  nth i (zero_all buflen count size offsets c) x00 =
  if existsb (fun o => in_window buflen count size o i) offsets
  then x00 else nth i c x00.
Proof.
  induction offsets as [|o l IH]; intros c i Hs.
  - reflexivity.
  - change (zero_all buflen count size (o :: l) c)
      with (zero_all buflen count size l (zero_at buflen count size o c)).
    rewrite IH by (rewrite zero_at_length; assumption).
    rewrite zero_at_nth by assumption.
    cbn [existsb].
    destruct (in_window buflen count size o i); cbn [orb].
    + destruct (existsb _ l); reflexivity.
    + reflexivity.
Qed.

Lemma existsb_same_elements {A} (f : A -> bool) (l l' : list A) :
  (forall x, In x l <-> In x l') -> existsb f l = existsb f l'.
Proof.
  intros H. apply eq_true_iff_eq. rewrite !existsb_exists.
  split; intros (x & Hin & Hf); exists x; (split; [apply H; exact Hin | exact Hf]).
Qed.

Lemma zero_all_same_elements buflen count size l l' c :
  size = blen c ->
  (forall o, In o l <-> In o l') ->
  zero_all buflen count size l c = zero_all buflen count size l' c.
Proof.
  intros Hs H.
  apply nth_ext with (d := x00) (d' := x00).
  - apply blen_length_eq. rewrite !zero_all_length by assumption. reflexivity.
  - intros i _. rewrite !zero_all_nth by assumption.
    rewrite (existsb_same_elements _ l l' H). reflexivity.
Qed.

Lemma zero_all_idem buflen count size l c :
  size = blen c ->
  zero_all buflen count size l (zero_all buflen count size l c) =
  zero_all buflen count size l c.
Proof.
  intros Hs.
  apply nth_ext with (d := x00) (d' := x00).
  - apply blen_length_eq. rewrite !zero_all_length; try assumption; try reflexivity.
    rewrite zero_all_length; assumption.
  - intros i _. rewrite zero_all_nth by (rewrite zero_all_length; assumption).
    rewrite zero_all_nth by assumption.
    destruct (existsb _ l); reflexivity.
Qed.

(* ---------- computations that only read ---------- *)

Lemma read_only_ret {A} (a : A) : read_only (ret a).
Proof. intros w. reflexivity. Qed.

Lemma read_only_raise {A} (e : exn) : read_only (@raise A e).
Proof. intros w. reflexivity. Qed.

Lemma read_only_lift {A} (r : result A) : read_only (lift r).
Proof. intros w. reflexivity. Qed.

Lemma read_only_ask {A} (f : World -> A) : read_only (ask f).
Proof. intros w. reflexivity. Qed.

Lemma read_only_query {A} (f : World -> result A) : read_only (query f).
Proof. intros w. reflexivity. Qed.

Lemma read_only_bind {A B} (m : M A) (k : A -> M B) :
  read_only m -> (forall a, read_only (k a)) -> read_only (bind m k).
Proof.
  intros Hm Hk w. unfold bind. specialize (Hm w).
  destruct (m w) as [[a | e] w1]; cbn [snd] in Hm; subst w1.
  - apply Hk.
  - reflexivity.
Qed.

Lemma read_only_mfold {A B} (body : B -> A -> M B) (l : list A) :
  (forall acc x, read_only (body acc x)) ->
  forall acc, read_only (mfold body l acc).
Proof.
  intros Hb. induction l as [|x l IH]; intros acc; cbn [mfold].
  - apply read_only_ret.
  - apply read_only_bind; [apply Hb | exact IH].
Qed.

Lemma read_only_exists (p : string) : read_only (os_path_exists p).
Proof. apply read_only_ask. Qed.

Lemma read_only_isfile (p : string) : read_only (os_path_isfile p).
Proof. apply read_only_ask. Qed.

Lemma read_only_run {A} (m : M A) (w w' : World) (r : result A) :
  read_only m -> m w = (r, w') -> w' = w.
Proof. intros H E. specialize (H w). rewrite E in H. exact H. Qed.

Create HintDb read_only.

#[local] Hint Resolve read_only_ret read_only_raise read_only_lift
  read_only_ask read_only_query read_only_exists read_only_isfile : read_only.

Ltac read_only_step :=
  match goal with
  | |- read_only (bind _ _) => apply read_only_bind; [| intros ?]
  | |- read_only (mfold _ _ _) => apply read_only_mfold; intros ? ?
  | |- read_only (if ?b then _ else _) => destruct b
  | |- read_only (match ?x with Some _ => _ | None => _ end) => destruct x
  | |- read_only (match ?x with (_, _) => _ end) => destruct x
  | |- read_only (match ?x with [] => _ | _ :: _ => _ end) => destruct x
  | |- read_only (match ?x with EmptyString => _ | String _ _ => _ end) => destruct x
  | |- read_only _ => solve [auto with read_only]
  end.

Section ReadOnly.

Context {collab : Collaborators}.

Lemma read_only_get_blockdev_for_partition (devpath : string) :
  read_only (get_blockdev_for_partition devpath).
Proof. unfold get_blockdev_for_partition. repeat read_only_step. Qed.

Lemma read_only_sys_block_path devname add strict :
  read_only (sys_block_path devname add strict).
Proof.
  unfold sys_block_path.
  apply read_only_bind; [apply read_only_get_blockdev_for_partition|].
  intros [parent partnum]. repeat read_only_step.
Qed.

Lemma read_only_sysfs_partition_data blockdev sysfs_path :
  read_only (sysfs_partition_data blockdev sysfs_path).
Proof.
  assert (Hs := read_only_sys_block_path).
  assert (Hg := read_only_get_blockdev_for_partition).
  unfold sysfs_partition_data, path_join_opt.
  destruct blockdev as [b|], sysfs_path as [s|];
    repeat first [ apply Hs | apply Hg | read_only_step ].
Qed.

End ReadOnly.
(* ---------- sysfs: parent resolution and the partition table ---------- *)

Lemma read_only_eq {A} (m : M A) (w : World) :
  read_only m -> m w = (fst (m w), w).
Proof.
  intros H. specialize (H w). destruct (m w) as [r w']. cbn in *. congruence.
Qed.

Section Sysfs.

Context {collab : Collaborators}.

Lemma partition_file_step_eq partd data sfile w :
  partition_file_step partd data sfile w =
  (if isfile_at w (path_join partd sfile)
   then let? v := read_int (path_join partd sfile) w in
        Ret (dict_set data sfile v)
   else Ret data, w).
Proof.
  unfold partition_file_step, bind, os_path_isfile, ask, query, lift, ret,
    isfile_at, read_int.
  destruct (os_stat w (path_join partd sfile)) as [t | e]; [| reflexivity].
  destruct (S_ISREG t); [| reflexivity]. cbn [negb].
  destruct (util_load_file (path_join partd sfile) w) as [s | e]; [| reflexivity].
  cbn [rbind]. destruct (int s); reflexivity.
Qed.

Lemma read_only_partition_step sp unit acc d :
  read_only (partition_step sp unit acc d).
Proof.
  unfold partition_step. apply read_only_bind.
  - apply read_only_mfold. intros data sfile w.
    rewrite partition_file_step_eq. reflexivity.
  - intros data. repeat read_only_step.
Qed.

Lemma partition_step_spec sp unit acc d w acc' w' :
  partition_step sp unit acc d w = (Ret acc', w') ->
  (has_partition_file w sp d = false /\ acc' = acc) \/
  (has_partition_file w sp d = true /\
   exists n start size,
     read_int (path_join (path_join sp d) "partition") w = Ret n /\
     read_int (path_join (path_join sp d) "start") w = Ret start /\
     read_int (path_join (path_join sp d) "size") w = Ret size /\
     acc' = acc ++ [(d, n, start * unit, size * unit)]).
Proof.
  unfold partition_step, has_partition_file.
  cbn [mfold]. unfold bind at 1 2.
  rewrite partition_file_step_eq.
  set (partd := path_join sp d).
  destruct (isfile_at w (path_join partd "partition")) eqn:Ep.
  - destruct (read_int (path_join partd "partition") w) as [n | e] eqn:Rp;
      cbn [rbind]; [| discriminate].
    unfold bind at 1 2. rewrite partition_file_step_eq.
    destruct (isfile_at w (path_join partd "start")) eqn:Es.
    + destruct (read_int (path_join partd "start") w) as [start | e] eqn:Rs;
        cbn [rbind]; [| discriminate].
      unfold bind at 1 2. rewrite partition_file_step_eq.
      destruct (isfile_at w (path_join partd "size")) eqn:Ez.
      * destruct (read_int (path_join partd "size") w) as [size | e] eqn:Rz;
          cbn [rbind]; [| discriminate].
        cbn. intros H. inversion H; subst.
        right. split; [reflexivity|]. exists n, start, size.
        repeat split; reflexivity.
      * cbn. discriminate.
    + unfold bind at 1 2. rewrite partition_file_step_eq.
      destruct (isfile_at w (path_join partd "size")) eqn:Ez.
      * destruct (read_int (path_join partd "size") w) as [size | e] eqn:Rz;
          cbn [rbind]; [| discriminate].
        cbn. discriminate.
      * cbn. discriminate.
  - unfold bind at 1 2. rewrite partition_file_step_eq.
    destruct (isfile_at w (path_join partd "start")) eqn:Es.
    + destruct (read_int (path_join partd "start") w) as [start | e] eqn:Rs;
        cbn [rbind]; [| discriminate].
      unfold bind at 1 2. rewrite partition_file_step_eq.
      destruct (isfile_at w (path_join partd "size")) eqn:Ez.
      * destruct (read_int (path_join partd "size") w) as [size | e] eqn:Rz;
          cbn [rbind]; [| discriminate].
        cbn. intros H. inversion H; subst. left. split; reflexivity.
      * cbn. intros H. inversion H; subst. left. split; reflexivity.
    + unfold bind at 1 2. rewrite partition_file_step_eq.
      destruct (isfile_at w (path_join partd "size")) eqn:Ez.
      * destruct (read_int (path_join partd "size") w) as [size | e] eqn:Rz;
          cbn [rbind]; [| discriminate].
        cbn. intros H. inversion H; subst. left. split; reflexivity.
      * cbn. intros H. inversion H; subst. left. split; reflexivity.
Qed.

Lemma partition_loop_spec sp unit (ds : list string) :
  forall acc w out w',
  mfold (partition_step sp unit) ds acc w = (Ret out, w') ->
  exists new,
    out = acc ++ new /\
    map (fun e : ptentry => let '(k, _, _, _) := e in k) new =
      filter (has_partition_file w sp) ds /\
    forall k n off sz, In (k, n, off, sz) new ->
      read_int (path_join (path_join sp k) "partition") w = Ret n /\
      exists start size,
        read_int (path_join (path_join sp k) "start") w = Ret start /\
        read_int (path_join (path_join sp k) "size") w = Ret size /\
        off = start * unit /\ sz = size * unit.
Proof.
  induction ds as [|d ds IH]; intros acc w out w' Hrun.
  - cbn in Hrun. inversion Hrun; subst. exists []. rewrite app_nil_r.
    split; [reflexivity|]. split; [reflexivity|]. intros k n off sz [].
  - cbn [mfold] in Hrun. unfold bind at 1 in Hrun.
    rewrite (read_only_eq _ w (read_only_partition_step sp unit acc d)) in Hrun.
    destruct (fst (partition_step sp unit acc d w)) as [acc1 | e] eqn:E1;
      [| discriminate].
    assert (Hstep : partition_step sp unit acc d w = (Ret acc1, w)).
    { rewrite (read_only_eq _ w (read_only_partition_step sp unit acc d)), E1.
      reflexivity. }
    destruct (IH acc1 w out w' Hrun) as (new & Hout & Hmap & Hall).
    destruct (partition_step_spec sp unit acc d w acc1 w Hstep)
      as [[Hno ->] | (Hyes & n & start & size & Hn & Hs & Hz & ->)].
    + exists new. cbn [filter]. rewrite Hno.
      split; [exact Hout|]. split; [exact Hmap | exact Hall].
    + exists ((d, n, start * unit, size * unit) :: new).
      cbn [filter map]. rewrite Hyes, Hmap, Hout, <- app_assoc.
      split; [reflexivity|]. split; [reflexivity|].
      intros k n' off sz [Heq | Hin].
      * inversion Heq; subst. split; [exact Hn|]. exists start, size.
        repeat split; assumption.
      * apply Hall. exact Hin.
Qed.

Lemma get_blockdev_for_partition_eq devpath w :
  get_blockdev_for_partition devpath w =
  (let rpath := os_path_realpath w devpath in
   let bname := basename rpath in
   match sysfs_entry w bname with
   | None =>
       Raise (ValueError (msg_no_syspath devpath ("/sys/class/block/" ++ bname)))
   | Some sp =>
       if exists_at w (path_join sp "partition") then
         let? ptraw := util_load_file (path_join sp "partition") w in
         let? mmraw :=
           util_load_file (path_join (dirname (os_path_realpath w sp)) "dev") w in
         Ret (os_path_realpath w ("/dev/block/" ++ rstrip mmraw),
              Some (rstrip ptraw))
       else Ret (rpath, None)
   end, w).
Proof.
  unfold get_blockdev_for_partition, sysfs_entry, exists_at.
  unfold bind, os_path_exists, ask, query, ret, raise.
  cbv zeta.
  set (bname := basename (os_path_realpath w devpath)).
  destruct (os_stat w ("/sys/class/block/" ++ bname)) as [t | e]; cbn [negb].
  - destruct (os_stat w (path_join ("/sys/class/block/" ++ bname) "partition"));
      cbn [negb]; [| reflexivity].
    destruct (util_load_file _ w); cbn [rbind]; [| reflexivity].
    destruct (util_load_file _ w); reflexivity.
  - destruct (os_stat w ("/sys/class/block/cciss!" ++ bname)) as [t | e2];
      cbn [negb]; [| reflexivity].
    destruct (os_stat w (path_join ("/sys/class/block/cciss!" ++ bname) "partition"));
      cbn [negb]; [| reflexivity].
    destruct (util_load_file _ w); cbn [rbind]; [| reflexivity].
    destruct (util_load_file _ w); reflexivity.
Qed.

End Sysfs.
(* ---------- split, basename and the device names ---------- *)

Lemma prefix_empty (s : string) : String.prefix "" s = true.
Proof. destruct s; reflexivity. Qed.

Lemma contains_empty (sep : string) : sep <> "" -> contains sep "" = false.
Proof. destruct sep; [congruence | reflexivity]. Qed.

Lemma split_from_whole (sep s p : string) :
  sep <> "" ->
  split_from sep O s = (p, []) -> p = s /\ contains sep s = false.
Proof.
  intros Hsep. revert p. induction s as [|c s IH]; intros p H.
  - cbn in H. inversion H. split; [reflexivity | apply contains_empty; exact Hsep].
  - cbn [split_from] in H.
    destruct (String.prefix sep (String c s)) eqn:Ep.
    + destruct (split_from sep (String.length sep - 1) s). discriminate.
    + destruct (split_from sep 0 s) as [p' ps'] eqn:E. inversion H; subst.
      destruct (IH p' eq_refl) as [-> Hc].
      split; [reflexivity|]. cbn [contains]. rewrite Ep, Hc. reflexivity.
Qed.

Lemma last_cons_default {A} (l : list A) (x d d' : A) :
  List.last (x :: l) d = List.last (x :: l) d'.
Proof.
  revert x. induction l as [|y l IH]; intros x.
  - reflexivity.
  - change (List.last (y :: l) d = List.last (y :: l) d'). apply IH.
Qed.

Lemma split_from_last (sep : string) :
  sep <> "" ->
  forall s skip,
    contains sep (List.last (snd (split_from sep skip s))
                    (fst (split_from sep skip s))) = false.
Proof.
  intros Hsep. induction s as [|c s IH]; intros skip.
  - cbn. apply contains_empty. exact Hsep.
  - cbn [split_from]. destruct skip as [|k]; [| apply IH].
    destruct (String.prefix sep (String c s)) eqn:Ep.
    + specialize (IH (String.length sep - 1)%nat).
      destruct (split_from sep (String.length sep - 1) s) as [p ps].
      cbn [fst snd] in *. destruct ps as [|q ps]; [exact IH|].
      change (List.last (p :: q :: ps) "") with (List.last (q :: ps) "").
      rewrite (last_cons_default ps q "" p). exact IH.
    + pose proof (IH O) as IH0.
      pose proof (split_from_whole sep s) as Hw.
      destruct (split_from sep 0 s) as [p ps]. cbn [fst snd] in *.
      destruct ps as [|q ps].
      * destruct (Hw p Hsep eq_refl) as [-> Hc].
        cbn [List.last contains]. rewrite Ep, Hc. reflexivity.
      * rewrite (last_cons_default ps q (String c p) p). exact IH0.
Qed.

Lemma split_last_no_sep (s sep : string) :
  sep <> "" -> contains sep (last_item (split s sep)) = false.
Proof.
  intros Hsep. unfold last_item, split.
  pose proof (split_from_last sep Hsep s O) as H.
  destruct (split_from sep 0 s) as [p ps]. cbn [fst snd] in H.
  destruct ps as [|q ps]; [exact H|].
  change (List.last (p :: q :: ps) "") with (List.last (q :: ps) "").
  rewrite (last_cons_default ps q "" p). exact H.
Qed.

Lemma contains_sep_basename (p : string) : contains sep (basename p) = false.
Proof.
  induction p as [|c p IH].
  - reflexivity.
  - cbn [basename]. destruct (contains sep (String c p)) eqn:E.
    + destruct (Ascii.eqb c "/" && negb (contains sep p)) eqn:E2.
      * apply andb_true_iff in E2. destruct E2 as [_ E2].
        apply negb_true_iff in E2. exact E2.
      * exact IH.
    + exact E.
Qed.

Lemma contains_sep_slash (q : string) : contains sep (String "/" q) = true.
Proof.
  cbn [contains].
  change (String.prefix sep (String "/" q))
    with (if Ascii.ascii_dec "/" "/" then String.prefix "" q else false).
  destruct (Ascii.ascii_dec "/" "/") as [_ | Hne]; [| congruence].
  rewrite prefix_empty. reflexivity.
Qed.

Lemma contains_sep_app_slash (p q : string) :
  contains sep (p ++ String "/" q) = true.
Proof.
  induction p as [|d p IHp].
  - apply contains_sep_slash.
  - cbn [append contains]. rewrite IHp. apply orb_true_r.
Qed.

Lemma basename_after_slash (p q : string) :
  contains sep q = false -> basename (p ++ String "/" q) = q.
Proof.
  intros Hq. induction p as [|c p IH].
  - cbn [append basename]. rewrite contains_sep_slash.
    rewrite Ascii.eqb_refl, Hq. reflexivity.
  - cbn [append basename].
    rewrite (contains_sep_app_slash (String c p) q : contains sep (String c (p ++ String "/" q)) = true).
    rewrite (contains_sep_app_slash p q). cbn [negb].
    rewrite andb_false_r. exact IH.
Qed.

Lemma startswith_app (p s : string) : startswith (p ++ s) p = true.
Proof.
  unfold startswith. induction p as [|c p IH].
  - destruct s; reflexivity.
  - cbn. destruct (Ascii.ascii_dec c c); [exact IH | congruence].
Qed.

Lemma split_from_skip (sep s1 t : string) :
  split_from sep (String.length s1) (s1 ++ t) = split_from sep O t.
Proof.
  induction s1 as [|c s1 IH].
  - reflexivity.
  - cbn [String.length append split_from]. exact IH.
Qed.

Lemma split_sep_app (sep t : string) :
  sep <> "" -> split (sep ++ t) sep = "" :: split t sep.
Proof.
  intros Hsep. destruct sep as [|c sep']; [congruence|].
  unfold split. cbn [append split_from].
  change (String c (sep' ++ t)) with (String c sep' ++ t)%string.
  rewrite (startswith_app (String c sep') t : String.prefix _ _ = true).
  cbn [String.length]. rewrite Nat.sub_succ, Nat.sub_0_r.
  rewrite split_from_skip. reflexivity.
Qed.

(* ---------- lines the parser fails on ---------- *)

Lemma rfold_app {A B} (body : B -> A -> result B) (l1 l2 : list A) :
  forall acc,
  rfold body (l1 ++ l2) acc =
  (let? a := rfold body l1 acc in rfold body l2 a).
Proof.
  induction l1 as [|x l1 IH]; intros acc; cbn [app rfold].
  - reflexivity.
  - destruct (body acc x); cbn [rbind]; [apply IH | reflexivity].
Qed.

Lemma split1_absent (tok : string) (c : ascii) :
  contains (String c "") tok = false -> split1 tok c = [tok].
Proof.
  induction tok as [|a tok IH]; intros H; [reflexivity|].
  cbn [contains] in H. apply orb_false_iff in H. destruct H as [Hp Hc].
  change (String.prefix (String c "") (String a tok))
    with (if Ascii.ascii_dec c a then String.prefix "" tok else false) in Hp.
  cbn [split1].
  destruct (Ascii.eqb_spec a c) as [-> | Hne].
  - destruct (Ascii.ascii_dec c c); [| congruence].
    rewrite prefix_empty in Hp. discriminate.
  - rewrite (IH Hc). reflexivity.
Qed.

Lemma lsblock_tokens_keys_back (toks : list string) :
  forall cur cur' k,
  lsblock_tokens toks cur = Ret cur' ->
  dict_get cur' k <> None ->
  dict_get cur k <> None \/ Exists (fun tok => key_of tok = k) toks.
Proof.
  induction toks as [|tok toks IH]; intros cur cur' k Hrun Hk.
  - inversion Hrun; subst. left. exact Hk.
  - unfold lsblock_tokens in *. cbn [rfold] in Hrun.
    destruct (split1 tok "=") as [|k0 [|v0 [|? ?]]] eqn:Es;
      cbn [unpack2 rbind] in Hrun; try discriminate.
    destruct (IH _ _ k Hrun Hk) as [H | H].
    + destruct (String.eqb_spec k k0) as [-> | Hne].
      * right. constructor. unfold key_of. rewrite Es. reflexivity.
      * left. rewrite dict_get_set_other in H by exact Hne. exact H.
    + right. apply Exists_cons_tl. exact H.
Qed.

Lemma lsblock_tokens_bad (good : list string) (tok : string) (rest : list string) :
  Forall (fun t => contains "=" t = true) good ->
  contains "=" tok = false ->
  forall cur,
    lsblock_tokens (good ++ tok :: rest) cur = Raise (ValueError (msg_unpack 1)).
Proof.
  intros Hgood Hbad cur.
  destruct (lsblock_tokens_total good Hgood cur) as (cur1 & Hrun & _).
  unfold lsblock_tokens in *. rewrite rfold_app, Hrun. cbn [rbind rfold].
  rewrite (split1_absent tok "=" Hbad). reflexivity.
Qed.

(* ---------- shlex on quoted pairs ---------- *)

Lemma append_assoc (a b c : string) : ((a ++ b) ++ c = a ++ b ++ c)%string.
Proof. induction a as [|x a IH]; cbn [append]; [reflexivity | rewrite IH; reflexivity]. Qed.

Lemma append_nil_r (a : string) : (a ++ "")%string = a.
Proof. induction a as [|x a IH]; cbn [append]; [reflexivity | rewrite IH; reflexivity]. Qed.

Lemma all_chars_app f (a b : string) :
  all_chars f (a ++ b) = all_chars f a && all_chars f b.
Proof.
  induction a as [|x a IH]; cbn [append all_chars]; [reflexivity|].
  rewrite IH, andb_assoc. reflexivity.
Qed.

Lemma word_char_inv (c : ascii) :
  word_char c = true ->
  shlex_whitespace c = false /\ shlex_quote c = false /\ shlex_escape c = false.
Proof.
  unfold word_char. rewrite !andb_true_iff, !negb_true_iff. tauto.
Qed.

Lemma key_char_word (c : ascii) :
  key_char c = true ->
  word_char c = true /\ Ascii.eqb c "=" = false /\ is_linebreak c = false.
Proof.
  unfold key_char. rewrite !andb_true_iff, !negb_true_iff. tauto.
Qed.

Lemma value_char_quoted (c : ascii) :
  value_char c = true ->
  Ascii.eqb c DQUOTE = false /\ shlex_escape c = false /\ is_linebreak c = false.
Proof.
  unfold value_char. rewrite !andb_true_iff, !negb_true_iff. tauto.
Qed.

Lemma key_chars_word (k : string) :
  all_chars key_char k = true -> all_chars word_char (k ++ "=") = true.
Proof.
  induction k as [|c k IH]; intros Hk; [reflexivity|].
  cbn [all_chars] in Hk. apply andb_true_iff in Hk. destruct Hk as [Hc Hk].
  cbn [append all_chars]. rewrite (IH Hk).
  destruct (key_char_word c Hc) as (-> & _). reflexivity.
Qed.

Lemma shlex_word_chars (k : string) :
  all_chars word_char k = true ->
  forall tok s,
    shlex_run LxWord tok (k ++ s) = shlex_run LxWord (tok ++ k) s.
Proof.
  induction k as [|c k IH]; intros Hk tok s.
  - rewrite append_nil_r. reflexivity.
  - cbn [all_chars] in Hk. apply andb_true_iff in Hk. destruct Hk as [Hc Hk].
    destruct (word_char_inv c Hc) as (Hw & Hq & He).
    cbn [append]. cbn [shlex_run]. rewrite Hw, Hq, He.
    rewrite (IH Hk). unfold snoc. rewrite append_assoc. reflexivity.
Qed.

Lemma shlex_word_start (k : string) :
  all_chars word_char k = true -> k <> "" ->
  forall s, shlex_run LxSpace "" (k ++ s) = shlex_run LxWord k s.
Proof.
  intros Hk Hne s. destruct k as [|c k]; [congruence|].
  cbn [all_chars] in Hk. apply andb_true_iff in Hk. destruct Hk as [Hc Hk].
  destruct (word_char_inv c Hc) as (Hw & Hq & He).
  cbn [append]. cbn [shlex_run]. rewrite Hw, He, Hq.
  rewrite (shlex_word_chars k Hk). reflexivity.
Qed.

Lemma shlex_quoted_chars (v : string) :
  all_chars value_char v = true ->
  forall tok s,
    shlex_run (LxQuote DQUOTE) tok (v ++ String DQUOTE s) =
    shlex_run LxWord (tok ++ v) s.
Proof.
  induction v as [|c v IH]; intros Hv tok s.
  - rewrite append_nil_r. cbn [append]. cbn [shlex_run]. rewrite Ascii.eqb_refl.
    reflexivity.
  - cbn [all_chars] in Hv. apply andb_true_iff in Hv. destruct Hv as [Hc Hv].
    destruct (value_char_quoted c Hc) as (Hq & He & _).
    cbn [append]. cbn [shlex_run]. rewrite Hq, He. cbn [andb].
    rewrite (IH Hv). unfold snoc. rewrite append_assoc. reflexivity.
Qed.

Lemma shlex_open_quote (tok rest : string) :
  shlex_run LxWord tok (String DQUOTE rest) =
  shlex_run (LxQuote DQUOTE) tok rest.
Proof. reflexivity. Qed.

Lemma quote_pair_app (k v s : string) :
  (quote_pair (k, v) ++ s)%string =
  ((k ++ "=") ++ String DQUOTE (v ++ String DQUOTE s))%string.
Proof.
  unfold quote_pair, dq. cbn [fst snd]. rewrite !append_assoc. reflexivity.
Qed.

Lemma shlex_pair (kv : string * string) (s : string) :
  well_formed_pair kv ->
  shlex_run LxSpace "" (quote_pair kv ++ s) =
  shlex_run LxWord (fst kv ++ "=" ++ snd kv) s.
Proof.
  destruct kv as [k v]. intros [Hk Hv]. cbn [fst snd] in *.
  rewrite quote_pair_app.
  rewrite (shlex_word_start (k ++ "=") (key_chars_word k Hk)).
  2:{ destruct k; discriminate. }
  rewrite shlex_open_quote, (shlex_quoted_chars v Hv).
  rewrite append_assoc. reflexivity.
Qed.

Lemma pairs_row_cons (kv : string * string) (l : list (string * string)) :
  pairs_row (kv :: l) =
  match l with
  | [] => quote_pair kv
  | _ => (quote_pair kv ++ " " ++ pairs_row l)%string
  end.
Proof. destruct l; reflexivity. Qed.

Lemma shlex_row (l : list (string * string)) :
  Forall well_formed_pair l ->
  shlex_split (pairs_row l) =
  Ret (map (fun kv => (fst kv ++ "=" ++ snd kv)%string) l).
Proof.
  unfold shlex_split. induction 1 as [|kv l Hkv Hl IH].
  - reflexivity.
  - rewrite pairs_row_cons. destruct l as [|kv' l'].
    + rewrite <- (append_nil_r (quote_pair kv)).
      rewrite (shlex_pair kv "" Hkv). reflexivity.
    + rewrite (shlex_pair kv _ Hkv).
      cbn [append shlex_run]. change (shlex_whitespace " ") with true.
      cbv iota. rewrite IH. reflexivity.
Qed.

Lemma split1_key (k v : string) :
  all_chars key_char k = true ->
  split1 (k ++ "=" ++ v) "=" = [k; v].
Proof.
  induction k as [|c k IH]; intros Hk.
  - reflexivity.
  - cbn [all_chars] in Hk. apply andb_true_iff in Hk. destruct Hk as [Hc Hk].
    destruct (key_char_word c Hc) as (_ & He & _).
    cbn [append split1]. rewrite He.
    change (k ++ String "=" v)%string with (k ++ "=" ++ v)%string.
    rewrite (IH Hk). reflexivity.
Qed.

Lemma lsblock_tokens_pairs (l : list (string * string)) :
  Forall well_formed_pair l ->
  forall cur,
    lsblock_tokens (map (fun kv => (fst kv ++ "=" ++ snd kv)%string) l) cur =
    Ret (fold_left (fun d kv => dict_set d (fst kv) (snd kv)) l cur).
Proof.
  unfold lsblock_tokens.
  induction 1 as [|[k v] l [Hk _] Hl IH]; intros cur.
  - reflexivity.
  - cbn [map rfold fold_left fst snd]. cbn [fst] in Hk.
    rewrite (split1_key k v Hk). cbn [unpack2 rbind]. apply IH.
Qed.

Lemma quote_pair_chars (kv : string * string) :
  well_formed_pair kv ->
  all_chars (fun c => negb (is_linebreak c)) (quote_pair kv) = true.
Proof.
  assert (Hmono : forall (f : ascii -> bool) s,
            (forall c, f c = true -> is_linebreak c = false) ->
            all_chars f s = true ->
            all_chars (fun c => negb (is_linebreak c)) s = true).
  { intros f s Hf. induction s as [|c s IH]; intros H; [reflexivity|].
    cbn [all_chars] in *. apply andb_true_iff in H. destruct H as [Hc Hs].
    rewrite (Hf c Hc), (IH Hs). reflexivity. }
  destruct kv as [k v]. intros [Hk Hv]. cbn [fst snd] in *.
  unfold quote_pair, dq. cbn [fst snd].
  rewrite !all_chars_app.
  rewrite (Hmono key_char k (fun c Hc => proj2 (proj2 (key_char_word c Hc))) Hk).
  rewrite (Hmono value_char v
             (fun c Hc => proj2 (proj2 (value_char_quoted c Hc))) Hv).
  reflexivity.
Qed.

Lemma pairs_row_chars (l : list (string * string)) :
  Forall well_formed_pair l ->
  all_chars (fun c => negb (is_linebreak c)) (pairs_row l) = true.
Proof.
  induction 1 as [|kv l Hkv Hl IH].
  - reflexivity.
  - rewrite pairs_row_cons. destruct l as [|kv' l'].
    + apply quote_pair_chars. exact Hkv.
    + rewrite !all_chars_app, (quote_pair_chars kv Hkv), IH. reflexivity.
Qed.

Lemma splitlines_line (r rest : string) :
  all_chars (fun c => negb (is_linebreak c)) r = true ->
  splitlines (r ++ String LF rest) = r :: splitlines rest.
Proof.
  induction r as [|c r IH]; intros Hr.
  - cbn [append splitlines]. change (is_linebreak LF) with true. cbv iota.
    destruct rest as [|c' rest']; [reflexivity|].
    change (Ascii.eqb LF CR) with false. reflexivity.
  - cbn [all_chars] in Hr. apply andb_true_iff in Hr. destruct Hr as [Hc Hr].
    apply negb_true_iff in Hc.
    cbn [append splitlines]. rewrite Hc, (IH Hr). reflexivity.
Qed.

Lemma pairs_output_lines (rows : list (list (string * string))) :
  Forall (Forall well_formed_pair) rows ->
  splitlines (pairs_output rows) = map pairs_row rows.
Proof.
  assert (Hconcat : forall l : list string,
            String.concat "" l = fold_right append "" l).
  { induction l as [|x [|y l] IH]; cbn [String.concat fold_right].
    - reflexivity.
    - rewrite append_nil_r. reflexivity.
    - cbn [String.concat fold_right] in IH. rewrite IH. reflexivity. }
  unfold pairs_output. intros H. rewrite Hconcat.
  induction H as [|row rows Hrow Hrows IH]; [reflexivity|].
  cbn [map fold_right]. unfold nl at 1. rewrite append_assoc. cbn [append].
  rewrite splitlines_line by (apply pairs_row_chars; exact Hrow).
  rewrite IH. reflexivity.
Qed.

Lemma lsblock_line_row (ret : dict (dict string)) (l : list (string * string))
  (kname : string) :
  Forall well_formed_pair l ->
  dict_get (dict_of_pairs l) "KNAME" = Some kname ->
  lsblock_line ret (pairs_row l) = Ret (dict_set ret kname (stored_row l)).
Proof.
  intros Hl Hk. unfold lsblock_line. rewrite (shlex_row l Hl). cbn [rbind].
  rewrite (lsblock_tokens_pairs l Hl []).
  change (fold_left (fun d kv => dict_set d (fst kv) (snd kv)) l [])
    with (dict_of_pairs l).
  cbn [rbind]. unfold dict_item at 1. rewrite Hk. cbn [rbind].
  unfold dict_item. rewrite dict_get_set_other by discriminate.
  rewrite Hk. cbn [rbind]. unfold stored_row. rewrite Hk. reflexivity.
Qed.

(* ---------- queries that run a tool ---------- *)

Lemma rstrip_newlines_last (s : string) :
  last_char (rstrip_newlines s) <> Some LF.
Proof.
  induction s as [|c s IH]; [discriminate|].
  cbn [rstrip_newlines].
  destruct (rstrip_newlines s) as [|d t] eqn:E.
  - destruct (Ascii.eqb_spec c LF) as [-> | Hne]; [discriminate|].
    cbn [last_char]. congruence.
  - cbn [last_char] in *. exact IH.
Qed.

Lemma rstrip_newlines_fixed (s : string) :
  last_char s <> Some LF -> rstrip_newlines s = s.
Proof.
  induction s as [|c s IH]; intros H; [reflexivity|].
  cbn [rstrip_newlines]. destruct s as [|d t].
  - cbn [rstrip_newlines]. cbn [last_char] in H.
    destruct (Ascii.eqb_spec c LF) as [-> | Hne]; [congruence | reflexivity].
  - rewrite IH by exact H. reflexivity.
Qed.

Lemma set_add_nodup (s : list string) (x : string) :
  NoDup s -> NoDup (set_add s x).
Proof.
  intros Hs. unfold set_add. destruct (mem x s) eqn:E; [exact Hs|].
  apply NoDup_app; [exact Hs | repeat constructor; intros [] |].
  intros y Hy [<- | []]. apply mem_In in Hy. congruence.
Qed.

Lemma fold_set_add (l : list string) :
  forall acc,
  NoDup acc ->
  NoDup (fold_left set_add l acc) /\
  forall x, In x (fold_left set_add l acc) <-> In x acc \/ In x l.
Proof.
  induction l as [|y l IH]; intros acc Hacc; cbn [fold_left].
  - split; [exact Hacc|]. intros x. cbn [In]. tauto.
  - destruct (IH (set_add acc y) (set_add_nodup acc y Hacc)) as [H1 H2].
    split; [exact H1|]. intros x. rewrite H2, in_set_add. cbn [In].
    split; intros H; repeat destruct H as [H | H]; auto.
Qed.

Lemma mfor_return_pure {A R} (f : A -> option R) (l : list A) (w : World) :
  mfor_return (fun x => ret (f x)) l w =
  (Ret (match find (fun x => match f x with Some _ => true | None => false end) l with
        | Some x => f x
        | None => None
        end), w).
Proof.
  induction l as [|x l IH]; [reflexivity|].
  cbn [mfor_return find]. unfold bind, ret at 1.
  destruct (f x) as [r|] eqn:E; [rewrite E; reflexivity | exact IH].
Qed.

Lemma find_first {A} (f : A -> bool) (pre : list A) (x : A) (post : list A) :
  Forall (fun y => f y = false) pre -> f x = true ->
  find f (pre ++ x :: post) = Some x.
Proof.
  induction 1 as [|y pre Hy Hpre IH]; intros Hx; cbn [app find].
  - rewrite Hx. reflexivity.
  - rewrite Hy. apply IH. exact Hx.
Qed.

Lemma find_none_all {A} (f : A -> bool) (l : list A) :
  Forall (fun y => f y = false) l -> find f l = None.
Proof.
  induction 1 as [|y l Hy Hl IH]; cbn [find]; [reflexivity|].
  rewrite Hy. exact IH.
Qed.

Lemma insert_by_len_in (x : string) (l : list string) (y : string) :
  In y (insert_by_len x l) <-> y = x \/ In y l.
Proof.
  induction l as [|z l IH]; cbn [insert_by_len In].
  - intuition congruence.
  - destruct (String.length x <=? String.length z)%nat; cbn [In].
    + intuition congruence.
    + rewrite IH. intuition congruence.
Qed.

Lemma sort_by_len_in (l : list string) (y : string) :
  In y (sort_by_len l) <-> In y l.
Proof.
  induction l as [|x l IH]; cbn [sort_by_len fold_right In]; [tauto|].
  rewrite insert_by_len_in. fold (sort_by_len l). rewrite IH.
  intuition congruence.
Qed.

Lemma insert_by_len_hd (x : string) (l : list string) :
  (forall y, In y l -> (String.length (hd "" l) <= String.length y)%nat) ->
  forall y, In y (insert_by_len x l) ->
    (String.length (hd "" (insert_by_len x l)) <= String.length y)%nat.
Proof.
  intros Hl y Hy. destruct l as [|z l]; cbn [insert_by_len hd] in *.
  - destruct Hy as [<- | []]. lia.
  - destruct (Nat.leb_spec (String.length x) (String.length z)) as [Hle | Hgt];
      cbn [hd In] in *.
    + destruct Hy as [<- | Hy]; [lia|].
      specialize (Hl y Hy). lia.
    + destruct Hy as [<- | Hy]; [lia|].
      apply insert_by_len_in in Hy. destruct Hy as [-> | Hy]; [lia|].
      apply Hl. right. exact Hy.
Qed.

Lemma sort_by_len_hd (l : list string) :
  forall y, In y (sort_by_len l) ->
    (String.length (hd "" (sort_by_len l)) <= String.length y)%nat.
Proof.
  induction l as [|x l IH]; cbn [sort_by_len fold_right].
  - intros y [].
  - fold (sort_by_len l). apply insert_by_len_hd. exact IH.
Qed.

Lemma hd_in (l : list string) : l <> [] -> In (hd "" l) l.
Proof. destruct l; [congruence | left; reflexivity]. Qed.

Lemma filter_none {A} (f : A -> bool) (l : list A) :
  (forall x, In x l -> f x = false) -> filter f l = [].
Proof.
  induction l as [|x l IH]; intros H; [reflexivity|].
  cbn [filter]. rewrite (H x (or_introl eq_refl)).
  apply IH. intros y Hy. apply H. right. exact Hy.
Qed.

(* ---------- tables of the block listing ---------- *)

Lemma dict_set_fresh {V} (d : dict V) (k : string) (v : V) :
  ~ In k (map fst d) -> dict_set d k v = d ++ [(k, v)].
Proof.
  induction d as [|[k' v'] d IH]; intros H; [reflexivity|].
  cbn [dict_set app]. cbn [map fst In] in H.
  destruct (String.eqb_spec k' k) as [-> | Hne]; [tauto|].
  rewrite IH by tauto. reflexivity.
Qed.

Lemma parsed_table (lines : string) (t : dict (dict string)) :
  _lsblock_pairs_to_dict lines = Ret t -> lsblock_table t.
Proof.
  intros Hrun. rewrite lsblock_unfold in Hrun. split.
  - destruct (lsblock_lines_keys (splitlines lines) [] t) as (H & _).
    + constructor.
    + intros k row [].
    + exact Hrun.
    + exact H.
  - apply (rfold_rows (splitlines lines) [] t); [intros k row [] | exact Hrun].
Qed.


Lemma lsblock_table_path (t : dict (dict string)) k row :
  lsblock_table t -> In (k, row) t ->
  dict_get row "device_path" = Some (device_path_of row).
Proof.
  intros [_ Hrows] Hin. destruct (Hrows k row Hin) as [_ Hp].
  unfold device_path_of. rewrite Hp. reflexivity.
Qed.

Section Tables.

Context {collab : Collaborators}.

Lemma lsblock_run_inv (args : option (list string)) (w w1 : World)
  (t : dict (dict string)) :
  _lsblock args w = (Ret t, w1) -> lsblock_table t.
Proof.
  unfold _lsblock, bind, lift. intros Hrun.
  destruct (util_subp _ [0] w) as [[[out err] | e] w2]; [| inversion Hrun].
  destruct (_lsblock_pairs_to_dict (replace out "!" "/")) as [t' |] eqn:E;
    inversion Hrun; subst.
  apply (parsed_table _ _ E).
Qed.

Lemma lsblock_pure (answer : list string -> result (string * string))
  (args : option (list string)) (w : World) :
  lsblk_answers answer ->
  _lsblock args w = (lsblock_of answer (default_args args), w).
Proof.
  intros Hans. unfold _lsblock, lsblock_of, bind, lift.
  change (["lsblk"; "--noheadings"; "--bytes"; "--pairs";
           ("--output=" ++ join "," (list_remove lsblk_keys "SCHED"))%string] ++
          map (fun x => replace x "!" "/") match args with
                                           | Some a => a
                                           | None => []
                                           end)
    with (lsblk_cmd (map (fun x => replace x "!" "/") (default_args args))).
  rewrite Hans.
  destruct (answer _) as [[out err] | e]; reflexivity.
Qed.

End Tables.
(* ---------- the loops over a block listing ---------- *)


Lemma mounted_fold (mountpoint : string) (l : dict (dict string)) :
  (forall k row, In (k, row) l ->
     dict_get row "MOUNTPOINT" <> None /\
     dict_get row "device_path" = Some (device_path_of row)) ->
  forall (found : list string) (w : World),
  mfold (fun found (item : string * dict string) =>
           let (devname, data) := item in
           mp <- lift (dict_item data "MOUNTPOINT") ;;
           if String.eqb mp mountpoint
           then p <- lift (dict_item data "device_path") ;;
                ret (set_add found p)
           else ret found)
        l found w =
  (Ret (fold_left set_add
          (map (fun item => device_path_of (snd item))
               (filter (mounted_at mountpoint) l)) found), w).
Proof.
  induction l as [|[k row] l IH]; intros Hrows found w.
  - reflexivity.
  - cbn [mfold filter]. unfold bind at 1. unfold bind at 1.
    destruct (Hrows k row (or_introl eq_refl)) as [Hmp Hdp].
    unfold lift at 1, dict_item at 1, mounted_at at 1. cbn [snd].
    destruct (dict_get row "MOUNTPOINT") as [mp|] eqn:Em; [| congruence].
    cbn [opt_eqb].
    destruct (String.eqb mp mountpoint) eqn:Eq.
    + unfold bind at 1. unfold lift at 1, dict_item at 1. rewrite Hdp.
      unfold ret at 1. cbn [map fold_left snd].
      apply IH. intros k' row' Hin. exact (Hrows k' row' (or_intror Hin)).
    + unfold ret at 1. apply IH. intros k' row' Hin. exact (Hrows k' row' (or_intror Hin)).
Qed.

Lemma proc_fold (mountpoint : string) (mounts : list mount) :
  forall (acc : list string) (w : World),
  mfold (fun acc m =>
           if String.eqb (m_mp m) mountpoint
           then p <- ask (fun w => os_path_realpath w (m_dev m)) ;;
                ret (acc ++ [p])
           else ret acc)
        mounts acc w =
  (Ret (acc ++ map (fun m => os_path_realpath w (m_dev m))
                 (filter (fun m => String.eqb (m_mp m) mountpoint) mounts)), w).
Proof.
  induction mounts as [|m mounts IH]; intros acc w.
  - cbn. rewrite app_nil_r. reflexivity.
  - cbn [mfold filter]. unfold bind at 1.
    destruct (String.eqb (m_mp m) mountpoint).
    + unfold bind, ask, ret at 1. rewrite IH. cbn [map].
      rewrite <- app_assoc. reflexivity.
    + unfold ret at 1. apply IH.
Qed.

Lemma rescan_fold (l : dict (dict string)) :
  (forall k row, In (k, row) l ->
     dict_get row "device_path" = Some (device_path_of row)) ->
  forall (devices : list string) (w : World),
  mfold (fun devices (item : string * dict string) =>
           let (devname, data) := item in
           if opt_eqb (dict_get data "RM") (Some "1") then ret devices
           else if opt_neqb (dict_get data "RO") "0"
                   || opt_neqb (dict_get data "TYPE") "disk"
           then ret devices
           else p <- lift (dict_item data "device_path") ;;
                ret (devices ++ [p]))
        l devices w =
  (Ret (devices ++ rescan_targets l), w).
Proof.
  induction l as [|[k row] l IH]; intros Hrows devices w.
  - cbn. rewrite app_nil_r. reflexivity.
  - cbn [mfold]. unfold bind at 1.
    unfold rescan_targets. cbn [flat_map snd]. fold (rescan_targets l).
    unfold removable, writable_disk.
    assert (Hl : forall k' row', In (k', row') l ->
              dict_get row' "device_path" = Some (device_path_of row')).
    { intros k' row' Hin. exact (Hrows k' row' (or_intror Hin)). }
    destruct (opt_eqb (dict_get row "RM") (Some "1")).
    + unfold ret at 1. apply IH. exact Hl.
    + destruct (opt_neqb (dict_get row "RO") "0"
                || opt_neqb (dict_get row "TYPE") "disk"); cbn [negb].
      * unfold ret at 1. apply IH. exact Hl.
      * unfold bind at 1, lift at 1, dict_item at 1.
        rewrite (Hrows k row (or_introl eq_refl)). unfold ret at 1.
        rewrite IH by exact Hl. rewrite <- app_assoc. reflexivity.
Qed.

Section Devices.

Context {collab : Collaborators}.

Lemma installable_fold (include_removable : bool) (min_size : option Z)
  (l : dict (dict string)) :
  forall (good : list string) (w : World) (good' : list string) (w' : World),
  mfold (installable_step include_removable min_size)
        l good w = (Ret good', w') ->
  w' = w /\
  forall name, In name good' <->
    In name good \/
    exists data, In (name, data) l /\ installable include_removable min_size data.
Proof.
  induction l as [|[k row] l IH]; intros good w good' w' Hrun.
  - cbn in Hrun. inversion Hrun; subst. split; [reflexivity|].
    intros name. split; [auto|]. intros [H | (data & [] & _)]. exact H.
  - cbn [mfold] in Hrun. unfold bind at 1 in Hrun.
    unfold installable_step at 1 in Hrun.
    assert (Hskip : ~ installable include_removable min_size row ->
              mfold (installable_step include_removable min_size)
        l good w = (Ret good', w') ->
              w' = w /\
              forall name, In name good' <->
                In name good \/
                exists data, In (name, data) ((k, row) :: l) /\
                             installable include_removable min_size data).
    { intros Hno Hrun'. destruct (IH good w good' w' Hrun') as [-> Hiff].
      split; [reflexivity|]. intros name. rewrite Hiff.
      split; intros [H | (data & Hin & Hc)]; auto.
      - right. exists data. split; [right; exact Hin | exact Hc].
      - destruct Hin as [Heq | Hin].
        + inversion Heq; subst. contradiction.
        + right. exists data. split; assumption. }
    destruct (negb include_removable && opt_eqb (dict_get row "RM") (Some "1")) eqn:Erm.
    { unfold ret at 1 in Hrun. apply Hskip; [| exact Hrun].
      intros ([Hir | Hr] & _).
      - subst. cbn in Erm. discriminate Erm.
      - unfold removable in Hr. rewrite Hr, andb_false_r in Erm. discriminate. }
    destruct (opt_neqb (dict_get row "RO") "0"
              || opt_neqb (dict_get row "TYPE") "disk") eqn:Ewd.
    { unfold ret at 1 in Hrun. apply Hskip; [| exact Hrun].
      intros (_ & Hw & _). unfold writable_disk in Hw. rewrite Ewd in Hw.
      discriminate. }
    unfold bind at 1, lift at 1 in Hrun.
    assert (Hrmok : include_removable = true \/ removable row = false).
    { unfold removable. destruct include_removable; [left; reflexivity|].
      right. cbn [negb andb] in Erm. exact Erm. }
    assert (Hwdok : writable_disk row = true).
    { unfold writable_disk. rewrite Ewd. reflexivity. }
    destruct min_size as [m|].
    + fold (size_text row) in Hrun.
      destruct (int (size_text row)) as [sz|e] eqn:Ei; cbn [rbind] in Hrun;
        [| inversion Hrun].
      destruct (Z.ltb_spec sz m) as [Hlt | Hge].
      * unfold ret at 1 in Hrun. apply Hskip; [| exact Hrun].
        intros (_ & _ & Hs). destruct (Hs m eq_refl) as (sz' & Hsz & Hle).
        rewrite Ei in Hsz. inversion Hsz; subst. lia.
      * unfold ret at 1 in Hrun.
        destruct (IH (good ++ [k]) w good' w' Hrun) as [-> Hiff].
        split; [reflexivity|]. intros name. rewrite Hiff, in_app_iff.
        cbn [In]. split.
        -- intros [[H | [<- | []]] | (data & Hin & Hc)]; auto.
           ++ right. exists row. split; [left; reflexivity|].
              split; [exact Hrmok|]. split; [exact Hwdok|].
              intros m' Hm'. inversion Hm'; subst. exists sz. split; assumption.
           ++ right. exists data. split; [right; exact Hin | exact Hc].
        -- intros [H | (data & [Heq | Hin] & Hc)]; auto.
           ++ inversion Heq; subst. left. right. left. reflexivity.
           ++ right. exists data. split; assumption.
    + cbn [rbind] in Hrun. unfold ret at 1 in Hrun.
      destruct (IH (good ++ [k]) w good' w' Hrun) as [-> Hiff].
      split; [reflexivity|]. intros name. rewrite Hiff, in_app_iff.
      cbn [In]. split.
      * intros [[H | [<- | []]] | (data & Hin & Hc)]; auto.
        -- right. exists row. split; [left; reflexivity|].
           split; [exact Hrmok|]. split; [exact Hwdok|].
           intros m' Hm'. discriminate.
        -- right. exists data. split; [right; exact Hin | exact Hc].
      * intros [H | (data & [Heq | Hin] & Hc)]; auto.
        -- inversion Heq; subst. left. right. left. reflexivity.
        -- right. exists data. split; assumption.
Qed.

Lemma installable_total (include_removable : bool) (l : dict (dict string)) :
  forall (good : list string) (w : World),
  exists good',
    mfold (installable_step include_removable None) l good w = (Ret good', w).
Proof.
  induction l as [|[k row] l IH]; intros good w.
  - exists good. reflexivity.
  - cbn [mfold]. unfold bind at 1. unfold installable_step at 1.
    destruct (negb include_removable && opt_eqb (dict_get row "RM") (Some "1")).
    + apply IH.
    + destruct (opt_neqb (dict_get row "RO") "0"
                || opt_neqb (dict_get row "TYPE") "disk").
      * apply IH.
      * unfold bind at 1, lift at 1. apply IH.
Qed.

End Devices.
(* ---------- get_unused_blockdev_info ---------- *)

Lemma filter_length_zero {A} (f : A -> bool) (l : list A) :
  (List.length (filter f l) =? 0)%nat = forallb (fun x => negb (f x)) l.
Proof.
  induction l as [|x l IH]; [reflexivity|].
  cbn [filter forallb]. destruct (f x); cbn [negb andb List.length]; [reflexivity | exact IH].
Qed.

Section Unused.

Context {collab : Collaborators}.

Lemma get_unused_unfold (w : World) :
  get_unused_blockdev_info w =
  (bdinfo <- _lsblock (Some ["--nodeps"]) ;; mfold unused_step bdinfo []) w.
Proof. reflexivity. Qed.

Lemma unused_fold_table (l : dict (dict string)) :
  (forall k row, In (k, row) l -> row_ok k row) ->
  forall acc w out w',
  lsblock_table acc ->
  mfold unused_step l acc w = (Ret out, w') ->
  lsblock_table out.
Proof.
  induction l as [|[k row] l IH]; intros Hl acc w out w' Hacc Hrun.
  - cbn in Hrun. inversion Hrun; subst. exact Hacc.
  - cbn [mfold] in Hrun. unfold bind at 1 in Hrun.
    unfold unused_step at 1 in Hrun.
    unfold bind at 1, lift at 1 in Hrun.
    destruct (dict_item row "device_path") as [p|]; [| inversion Hrun].
    unfold bind at 1 in Hrun.
    destruct (_lsblock (Some [p]) w) as [[cur|e] w1]; [| inversion Hrun].
    assert (Hl' : forall k' row', In (k', row') l -> row_ok k' row').
    { intros k' row' Hin. exact (Hl k' row' (or_intror Hin)). }
    destruct (_ =? 0)%nat; unfold ret at 1 in Hrun.
    + refine (IH Hl' _ _ _ _ _ Hrun).
      destruct Hacc as [Hnd Hrows]. split.
      * apply dict_set_nodup. exact Hnd.
      * intros k' row' Hin. apply in_dict_set in Hin.
        destruct Hin as [[-> ->] | Hin]; [| exact (Hrows k' row' Hin)].
        exact (Hl k row (or_introl eq_refl)).
    + exact (IH Hl' _ _ _ _ Hacc Hrun).
Qed.

Lemma unused_table (w w' : World) (unused : dict (dict string)) :
  get_unused_blockdev_info w = (Ret unused, w') -> lsblock_table unused.
Proof.
  rewrite get_unused_unfold. unfold bind at 1. intros Hrun.
  destruct (_lsblock (Some ["--nodeps"]) w) as [[bdinfo|e] w1] eqn:E;
    [| inversion Hrun].
  destruct (lsblock_run_inv _ _ _ _ E) as [_ Hrows].
  apply (unused_fold_table bdinfo Hrows [] w1 unused w'); [| exact Hrun].
  split; [constructor | intros k row []].
Qed.

Lemma unused_step_pure (answer : list string -> result (string * string))
  (acc : dict (dict string)) (k : string) (row : dict string) (w : World) :
  lsblk_answers answer ->
  dict_get row "device_path" = Some (device_path_of row) ->
  unused_step acc (k, row) w =
  (let? cur := lsblock_of answer [device_path_of row] in
   Ret (if forallb (fun x => negb (mounted x)) cur
        then dict_set acc k row else acc), w).
Proof.
  intros Hans Hp. unfold unused_step, bind, lift, dict_item. rewrite Hp.
  rewrite (lsblock_pure answer (Some [device_path_of row]) w Hans).
  cbn [default_args].
  destruct (lsblock_of answer [device_path_of row]) as [cur|e]; [| reflexivity].
  cbn [rbind]. rewrite filter_length_zero.
  change (fun x : string * dict string =>
            negb (truthy (dict_get (snd x) "MOUNTPOINT")))
    with (fun x => negb (mounted x)).
  destruct (forallb _ cur); reflexivity.
Qed.

Lemma unused_fold_pure (answer : list string -> result (string * string))
  (l : dict (dict string)) :
  lsblk_answers answer ->
  (forall k row, In (k, row) l ->
     dict_get row "device_path" = Some (device_path_of row)) ->
  NoDup (map fst l) ->
  forall acc w,
  (forall k, In k (map fst l) -> ~ In k (map fst acc)) ->
  ((forall item, In item l ->
      exists cur, lsblock_of answer [device_path_of (snd item)] = Ret cur) ->
   mfold unused_step l acc w = (Ret (acc ++ filter (unmounted answer) l), w))
  /\
  (forall out w',
     mfold unused_step l acc w = (Ret out, w') ->
     forall item, In item l ->
       exists cur, lsblock_of answer [device_path_of (snd item)] = Ret cur).
Proof.
  intros Hans. induction l as [|[k row] l IH]; intros Hl Hnd acc w Hdis.
  - split.
    + intros _. cbn. rewrite app_nil_r. reflexivity.
    + intros out w' _ item [].
  - cbn [map fst] in Hnd. inversion Hnd as [|? ? Hk Hnd']; subst.
    assert (Hl' : forall k' row', In (k', row') l ->
              dict_get row' "device_path" = Some (device_path_of row')).
    { intros k' row' Hin. exact (Hl k' row' (or_intror Hin)). }
    assert (Hfresh : ~ In k (map fst acc)) by (apply Hdis; left; reflexivity).
    assert (Hdis1 : forall k', In k' (map fst l) -> ~ In k' (map fst acc)).
    { intros k' Hk'. apply Hdis. right. exact Hk'. }
    assert (Hdis2 : forall k', In k' (map fst l) ->
                               ~ In k' (map fst (acc ++ [(k, row)]))).
    { intros k' Hk' Hin. rewrite map_app in Hin. apply in_app_iff in Hin.
      destruct Hin as [Hin | [<- | []]]; [exact (Hdis1 k' Hk' Hin) | exact (Hk Hk')]. }
    cbn [mfold]. unfold bind at 1 2.
    rewrite (unused_step_pure answer acc k row w Hans (Hl k row (or_introl eq_refl))).
    cbn [filter]. unfold unmounted at 1. cbn [snd].
    destruct (lsblock_of answer [device_path_of row]) as [cur|e] eqn:Ecur;
      cbn [rbind].
    + rewrite (dict_set_fresh acc k row Hfresh).
      destruct (forallb (fun x => negb (mounted x)) cur).
      * destruct (IH Hl' Hnd' (acc ++ [(k, row)]) w Hdis2) as [IHa IHb].
        split.
        -- intros Hall. rewrite IHa.
           ++ rewrite <- app_assoc. reflexivity.
           ++ intros item Hin. apply Hall. right. exact Hin.
        -- intros out w' Hrun item [<- | Hin].
           ++ exists cur. exact Ecur.
           ++ exact (IHb out w' Hrun item Hin).
      * destruct (IH Hl' Hnd' acc w Hdis1) as [IHa IHb].
        split.
        -- intros Hall. apply IHa. intros item Hin. apply Hall. right. exact Hin.
        -- intros out w' Hrun item [<- | Hin].
           ++ exists cur. exact Ecur.
           ++ exact (IHb out w' Hrun item Hin).
    + split.
      * intros Hall. destruct (Hall (k, row) (or_introl eq_refl)) as [cur Hc].
        cbn [snd] in Hc. congruence.
      * intros out w' Hrun. inversion Hrun.
Qed.

End Unused.
(* ---------- /proc/mounts ---------- *)

Lemma lstrip_head (s : string) (c : ascii) (t : string) :
  lstrip s = String c t -> is_space c = false.
Proof.
  induction s as [|a s IH]; intros H; [discriminate|].
  cbn [lstrip] in H. destruct (is_space a) eqn:E; [exact (IH H)|].
  inversion H; subst. exact E.
Qed.

Lemma word_chars (s : string) :
  all_chars (fun c => negb (is_space c)) (fst (word s)) = true.
Proof.
  induction s as [|c s IH]; [reflexivity|].
  cbn [word]. destruct (is_space c) eqn:E; [reflexivity|].
  destruct (word s) as [w rest]. cbn [fst all_chars] in *.
  rewrite E, IH. reflexivity.
Qed.

Lemma word_nonempty (c : ascii) (s : string) :
  is_space c = false -> fst (word (String c s)) <> "".
Proof.
  intros E. cbn [word]. rewrite E. destruct (word s). discriminate.
Qed.

Lemma split_ws_fields (fuel : nat) :
  forall (maxsplit : nat) (s : string) (i : nat) (x : string),
  nth_error (split_ws_fuel fuel maxsplit s) i = Some x ->
  x <> "" /\ ((i < maxsplit)%nat -> field x).
Proof.
  induction fuel as [|fuel IH]; intros maxsplit s i x H.
  - destruct i; discriminate.
  - cbn [split_ws_fuel] in H.
    destruct (lstrip s) as [|c t] eqn:E; [destruct i; discriminate|].
    pose proof (lstrip_head s c t E) as Hc.
    destruct maxsplit as [|m].
    + destruct i as [|i]; [| destruct i; discriminate].
      inversion H; subst. split; [discriminate | lia].
    + pose proof (word_chars (String c t)) as Hw.
      pose proof (word_nonempty c t Hc) as Hn.
      destruct (word (String c t)) as [wd rest]. cbn [fst] in *.
      destruct i as [|i].
      * inversion H; subst. split; [exact Hn|]. intros _. split; assumption.
      * cbn [nth_error] in H. destruct (IH m rest i x H) as [H1 H2].
        split; [exact H1|]. intros Hi. apply H2. lia.
Qed.

Lemma mounts_fold (lines : list string) :
  forall acc : list mount,
  let P := fun m : mount =>
             field (m_dev m) /\ field (m_mp m) /\ field (m_vfs m) /\
             field (m_opts m) /\ field (m_freq m) /\ m_passno m <> "" in
  Forall P acc ->
  Forall P (fold_left
              (fun mounts line =>
                 match split_ws (strip line) 5 with
                 | [dev; mp; vfs; opts; freq; passno] =>
                     mounts ++ [mkMount dev mp vfs opts freq passno]
                 | _ => mounts
                 end) lines acc) /\
  (List.length (fold_left
              (fun mounts line =>
                 match split_ws (strip line) 5 with
                 | [dev; mp; vfs; opts; freq; passno] =>
                     mounts ++ [mkMount dev mp vfs opts freq passno]
                 | _ => mounts
                 end) lines acc) <= List.length acc + List.length lines)%nat.
Proof.
  induction lines as [|line lines IH]; intros acc P Hacc.
  - cbn [fold_left List.length]. split; [exact Hacc | lia].
  - cbn [fold_left].
    destruct (split_ws (strip line) 5)
      as [|dev [|mp [|vfs [|opts [|freq [|passno [|? ?]]]]]]] eqn:E;
      try (destruct (IH acc Hacc) as [H1 H2]; split;
           [exact H1 | cbn [List.length]; lia]).
    unfold split_ws in E.
    assert (Hf : forall i x,
              nth_error [dev; mp; vfs; opts; freq; passno] i = Some x ->
              x <> "" /\ ((i < 5)%nat -> field x)).
    { intros i x Hx. rewrite <- E in Hx. exact (split_ws_fields _ _ _ _ _ Hx). }
    destruct (IH (acc ++ [mkMount dev mp vfs opts freq passno])) as [H1 H2].
    + apply Forall_app. split; [exact Hacc|]. constructor; [| constructor].
      unfold P. cbn [m_dev m_mp m_vfs m_opts m_freq m_passno].
      split; [apply (Hf 0%nat dev eq_refl); lia|].
      split; [apply (Hf 1%nat mp eq_refl); lia|].
      split; [apply (Hf 2%nat vfs eq_refl); lia|].
      split; [apply (Hf 3%nat opts eq_refl); lia|].
      split; [apply (Hf 4%nat freq eq_refl); lia|].
      exact (proj1 (Hf 5%nat passno eq_refl)).
    + split; [exact H1|]. rewrite length_app in H2. cbn [List.length] in *. lia.
Qed.

Lemma join_cons (x y : string) (l : list string) :
  join " " (x :: y :: l) = (x ++ String " " (join " " (y :: l)))%string.
Proof. reflexivity. Qed.

Lemma field_head (f : string) :
  field f -> exists c t, f = String c t /\ is_space c = false.
Proof.
  intros [Hne Hc]. destruct f as [|c t]; [congruence|].
  cbn [all_chars] in Hc. apply andb_true_iff in Hc. destruct Hc as [Hc _].
  apply negb_true_iff in Hc. eauto.
Qed.

Lemma word_field (f rest : string) :
  all_chars (fun c => negb (is_space c)) f = true ->
  (rest = "" \/ exists t, rest = String " " t) ->
  word (f ++ rest) = (f, rest).
Proof.
  intros Hf Hrest. induction f as [|c f IH].
  - cbn [append]. destruct Hrest as [-> | (t & ->)]; reflexivity.
  - cbn [all_chars] in Hf. apply andb_true_iff in Hf. destruct Hf as [Hc Hf].
    apply negb_true_iff in Hc. cbn [append word]. rewrite Hc, (IH Hf).
    reflexivity.
Qed.

Lemma split_ws_space (fuel m : nat) (s : string) :
  split_ws_fuel fuel m (String " " s) = split_ws_fuel fuel m s.
Proof. destruct fuel; reflexivity. Qed.

Lemma lstrip_field (f rest : string) :
  field f -> lstrip (f ++ rest) = (f ++ rest)%string.
Proof.
  intros Hf. destruct (field_head f Hf) as (c & t & -> & Hc).
  cbn [append lstrip]. rewrite Hc. reflexivity.
Qed.

Lemma split_ws_step (fuel m : nat) (s : string) (c : ascii) (t : string) :
  lstrip s = String c t ->
  split_ws_fuel (S fuel) m s =
  match m with
  | O => [String c t]
  | S m' => let (w, rest) := word (String c t) in
            w :: split_ws_fuel fuel m' rest
  end.
Proof. intros H. cbn [split_ws_fuel]. rewrite H. reflexivity. Qed.

(** [str.split(None, m)] on fields one space apart. *)
Lemma split_ws_join (r : list string) :
  Forall field r ->
  forall fuel m, (List.length r < fuel)%nat ->
  split_ws_fuel fuel m (join " " r) =
  match r with
  | [] => []
  | _ => if (List.length r <=? m)%nat then r
         else firstn m r ++ [join " " (skipn m r)]
  end.
Proof.
  induction 1 as [|f r Hf Hr IH]; intros fuel m Hfuel.
  - destruct fuel; reflexivity.
  - destruct fuel as [|fuel]; [cbn [List.length] in Hfuel; lia|].
    cbn [List.length] in Hfuel.
    assert (Hj : exists rest,
              join " " (f :: r) = (f ++ rest)%string /\
              (rest = "" \/ exists t, rest = String " " t) /\
              rest = match r with [] => "" | _ => String " " (join " " r) end).
    { destruct r as [|y r'].
      - exists "". cbn. rewrite append_nil_r. auto.
      - exists (String " " (join " " (y :: r'))). rewrite join_cons. eauto. }
    destruct Hj as (rest & Hj & Hrest & Hrest').
    destruct (field_head f Hf) as (c & t & Hft & Hc).
    assert (Hls : lstrip (join " " (f :: r)) = String c (t ++ rest)).
    { rewrite Hj, (lstrip_field f rest Hf), Hft. reflexivity. }
    rewrite (split_ws_step fuel m _ c (t ++ rest) Hls).
    replace (String c (t ++ rest)) with (f ++ rest)%string
      by (rewrite Hft; reflexivity).
    destruct m as [|m].
    + cbn [Nat.leb firstn skipn app List.length]. rewrite Hj. reflexivity.
    + rewrite (word_field f rest (proj2 Hf) Hrest).
      cbn [List.length firstn skipn].
      change (S (List.length r) <=? S m)%nat with (List.length r <=? m)%nat.
      destruct r as [|y r'].
      * subst rest. destruct fuel; reflexivity.
      * subst rest. rewrite split_ws_space.
        rewrite (IH fuel m ltac:(cbn [List.length] in *; lia)).
        destruct (List.length (y :: r') <=? m)%nat; reflexivity.
Qed.

Lemma join_length (r : list string) :
  Forall field r -> (List.length r <= String.length (join " " r))%nat.
Proof.
  induction 1 as [|f r Hf Hr IH]; [cbn; lia|].
  destruct (field_head f Hf) as (c & t & -> & _).
  destruct r as [|y r'].
  - cbn. lia.
  - rewrite join_cons. cbn [append String.length List.length] in *.
    assert (Hl : forall a b : string,
              String.length (a ++ b) = (String.length a + String.length b)%nat).
    { induction a as [|x a IHa]; intros b; cbn; [reflexivity | rewrite IHa; reflexivity]. }
    rewrite Hl. cbn [String.length]. lia.
Qed.

Lemma last_char_app (a b : string) :
  b <> "" -> last_char (a ++ b) = last_char b.
Proof.
  intros Hb. induction a as [|x a IH]; [reflexivity|].
  cbn [append last_char]. destruct (a ++ b)%string as [|y t] eqn:E.
  - destruct a; [cbn in E; congruence | discriminate].
  - exact IH.
Qed.

Lemma last_char_field (f : string) :
  field f -> exists c, last_char f = Some c /\ is_space c = false.
Proof.
  intros [Hne Hc]. induction f as [|x f IH]; [congruence|].
  cbn [all_chars] in Hc. apply andb_true_iff in Hc. destruct Hc as [Hx Hc].
  destruct f as [|y f'].
  - exists x. split; [reflexivity | apply negb_true_iff; exact Hx].
  - apply IH; [discriminate | exact Hc].
Qed.

Lemma rstrip_fixed (s : string) :
  (forall c, last_char s = Some c -> is_space c = false) -> rstrip s = s.
Proof.
  induction s as [|x s IH]; intros H; [reflexivity|].
  cbn [rstrip]. destruct s as [|y s'].
  - cbn [rstrip]. rewrite (H x eq_refl). reflexivity.
  - rewrite IH by exact H. reflexivity.
Qed.

Lemma join_last (r : list string) :
  Forall field r -> r <> [] ->
  exists c, last_char (join " " r) = Some c /\ is_space c = false.
Proof.
  induction 1 as [|f r Hf Hr IH]; intros Hne; [congruence|].
  destruct r as [|y r'].
  - cbn. apply last_char_field. exact Hf.
  - rewrite join_cons. rewrite last_char_app by discriminate.
    destruct (IH ltac:(discriminate)) as (c & Hc & Hs).
    exists c. split; [| exact Hs].
    cbn [last_char]. destruct (join " " (y :: r')) eqn:E; [| exact Hc].
    cbn in Hc. discriminate.
Qed.

Lemma strip_join (r : list string) :
  Forall field r -> strip (join " " r) = join " " r.
Proof.
  intros Hr. unfold strip. destruct r as [|f r']; [reflexivity|].
  destruct (join_last (f :: r') Hr ltac:(discriminate)) as (c & Hc & Hs).
  rewrite rstrip_fixed.
  - inversion Hr as [|? ? Hf Hr']; subst. destruct r' as [|y r''].
    + change (join " " [f]) with f.
      rewrite <- (append_nil_r f). apply lstrip_field. exact Hf.
    + rewrite join_cons. apply lstrip_field. exact Hf.
  - intros c' Hc'. rewrite Hc in Hc'. inversion Hc'; subst. exact Hs.
Qed.

(** One line of the file. *)
Lemma mounts_line (r : list string) :
  Forall field r ->
  match split_ws (strip (join " " r)) 5 with
  | [dev; mp; vfs; opts; freq; passno] => [mkMount dev mp vfs opts freq passno]
  | _ => []
  end = row_mounts r.
Proof.
  intros Hr. rewrite (strip_join r Hr). unfold split_ws.
  rewrite (split_ws_join r Hr) by (pose proof (join_length r Hr); lia).
  destruct r as [|a [|b [|c [|d [|e [|f more]]]]]]; try reflexivity.
Qed.

Lemma split_line (r rest : string) :
  all_chars (fun c => negb (is_space c) || Ascii.eqb c " ") r = true ->
  split (r ++ String LF rest) (String LF "") = r :: split rest (String LF "").
Proof.
  unfold split. induction r as [|c r IH]; intros Hr.
  - cbn [append split_from].
    change (String.prefix (String LF "") (String LF rest))
      with (if Ascii.ascii_dec LF LF then String.prefix "" rest else false).
    destruct (Ascii.ascii_dec LF LF); [| congruence].
    rewrite prefix_empty. cbn [String.length Nat.sub].
    destruct (split_from (String LF "") 0 rest). reflexivity.
  - cbn [all_chars] in Hr. apply andb_true_iff in Hr. destruct Hr as [Hc Hr].
    cbn [append split_from].
    change (String.prefix (String LF "") (String c (r ++ String LF rest)))
      with (if Ascii.ascii_dec LF c then String.prefix "" (r ++ String LF rest)
            else false).
    destruct (Ascii.ascii_dec LF c) as [<- | Hne]; [discriminate Hc|].
    specialize (IH Hr).
    destruct (split_from (String LF "") 0 (r ++ String LF rest)) as [p ps].
    inversion IH; subst. reflexivity.
Qed.

Lemma join_chars (r : list string) :
  Forall field r ->
  all_chars (fun c => negb (is_space c) || Ascii.eqb c " ") (join " " r) = true.
Proof.
  assert (Hmono : forall s, all_chars (fun c => negb (is_space c)) s = true ->
            all_chars (fun c => negb (is_space c) || Ascii.eqb c " ") s = true).
  { induction s as [|c s IH]; intros H; [reflexivity|].
    cbn [all_chars] in *. apply andb_true_iff in H. destruct H as [Hc Hs].
    rewrite Hc, (IH Hs). reflexivity. }
  induction 1 as [|f r Hf Hr IH]; [reflexivity|].
  destruct r as [|y r'].
  - cbn. apply Hmono. exact (proj2 Hf).
  - rewrite join_cons, all_chars_app. rewrite (Hmono f (proj2 Hf)).
    cbn [all_chars andb]. exact IH.
Qed.

Lemma mounts_text_lines (rows : list (list string)) :
  Forall (Forall field) rows ->
  split (mounts_text rows) (String LF "") = map (join " ") rows ++ [""].
Proof.
  assert (Hconcat : forall l : list string,
            String.concat "" l = fold_right append "" l).
  { induction l as [|x [|y l] IH]; cbn [String.concat fold_right].
    - reflexivity.
    - rewrite append_nil_r. reflexivity.
    - cbn [String.concat fold_right] in IH. rewrite IH. reflexivity. }
  unfold mounts_text. intros H. rewrite Hconcat.
  induction H as [|row rows Hrow Hrows IH]; [reflexivity|].
  cbn [map fold_right app]. unfold nl at 1. rewrite append_assoc. cbn [append].
  rewrite split_line by (apply join_chars; exact Hrow).
  rewrite IH. reflexivity.
Qed.

Lemma mounts_rows (rows : list (list string)) :
  Forall (Forall field) rows ->
  forall acc : list mount,
  fold_left
    (fun mounts line =>
       match split_ws (strip line) 5 with
       | [dev; mp; vfs; opts; freq; passno] =>
           mounts ++ [mkMount dev mp vfs opts freq passno]
       | _ => mounts
       end)
    (map (join " ") rows ++ [""]) acc =
  acc ++ flat_map row_mounts rows.
Proof.
  induction 1 as [|row rows Hrow Hrows IH]; intros acc.
  - cbn. rewrite app_nil_r. reflexivity.
  - cbn [map app fold_left flat_map].
    pose proof (mounts_line row Hrow) as Hl.
    destruct (split_ws (strip (join " " row)) 5)
      as [|dev [|mp [|vfs [|opts [|freq [|passno [|? ?]]]]]]];
      rewrite IH, <- Hl; cbn [app]; rewrite <- ?app_assoc; reflexivity.
Qed.

Lemma partition_offsets_fold (ptdata : list ptentry) :
  forall acc : list Z,
  fold_left (fun offsets (e : ptentry) =>
               let '(kname, ptnum, start, size) := e in
               offsets ++ [start] ++ [start + size - 1024 * 1024])
            ptdata acc =
  acc ++ flat_map (fun e : ptentry =>
                     let '(kname, ptnum, start, size) := e in
                     [start; start + size - MiB]) ptdata.
Proof.
  induction ptdata as [|[[[k n] start] size] l IH]; intros acc.
  - cbn. rewrite app_nil_r. reflexivity.
  - cbn [fold_left flat_map]. rewrite IH, <- app_assoc. reflexivity.
Qed.

Lemma combinations2_distinct {A B} (l : list (A * B)) :
  NoDup (map snd l) ->
  forall a b, In (a, b) (combinations2 l) -> snd a <> snd b.
Proof.
  induction l as [|x l IH]; intros Hnd a b Hin; [destruct Hin|].
  cbn [map] in Hnd. inversion Hnd as [|? ? Hx Hnd']; subst.
  cbn [combinations2] in Hin. apply in_app_iff in Hin.
  destruct Hin as [Hin | Hin].
  - apply in_map_iff in Hin. destruct Hin as (y & Heq & Hy).
    inversion Heq; subst. intros Hs. apply Hx. rewrite Hs.
    apply in_map. exact Hy.
  - exact (IH Hnd' a b Hin).
Qed.

(* ---------- get_root_device and blkid ---------- *)


Lemma split1_first_no_sep (s : string) (c : ascii) :
  forall p ps, split1 s c = p :: ps -> contains (String c "") p = false.
Proof.
  induction s as [|a s IH]; intros p ps H.
  - cbn in H. inversion H; subst. reflexivity.
  - cbn [split1] in H. destruct (Ascii.eqb_spec a c) as [-> | Hne].
    + inversion H; subst. reflexivity.
    + destruct (split1 s c) as [|q qs] eqn:E.
      * inversion H; subst. cbn [contains].
        change (String.prefix (String c "") (String a ""))
          with (if Ascii.ascii_dec c a then String.prefix "" "" else false).
        destruct (Ascii.ascii_dec c a); [congruence | reflexivity].
      * inversion H; subst. cbn [contains].
        change (String.prefix (String c "") (String a q))
          with (if Ascii.ascii_dec c a then String.prefix "" q else false).
        destruct (Ascii.ascii_dec c a); [congruence|].
        cbn [orb]. exact (IH q _ eq_refl).
Qed.

Lemma dict_of_pairs_nodup {V} (l : list (string * V)) :
  NoDup (map fst (dict_of_pairs l)).
Proof.
  unfold dict_of_pairs.
  assert (H : forall acc : dict V, NoDup (map fst acc) ->
              NoDup (map fst (fold_left (fun d kv => dict_set d (fst kv) (snd kv))
                                l acc))).
  { induction l as [|kv l IH]; intros acc Hacc; [exact Hacc|].
    cbn [fold_left]. apply IH. apply dict_set_nodup. exact Hacc. }
  apply H. constructor.
Qed.

(** The line loop of [blkid] keeps a table with unique keys, none of which
    contains ":". *)
Lemma blkid_lines (lines : list string) :
  forall data out,
  let ok := fun t : dict (dict string) =>
              NoDup (map fst t) /\
              forall dev row, In (dev, row) t ->
                contains ":" dev = false /\ NoDup (map fst row) in
  ok data ->
  rfold (fun data line =>
           let? (curdev, curdata) := unpack2 (split1 line ":") in
           let? toks := shlex_split curdata in
           let? pairs := rfold (fun acc tok =>
                                  let? kv := unpack2 (split1 tok "=") in
                                  Ret (acc ++ [kv]))
                               toks [] in
           Ret (dict_set data curdev (dict_of_pairs pairs)))
        lines data = Ret out ->
  ok out.
Proof.
  induction lines as [|line lines IH]; intros data out ok Hdata Hrun.
  - inversion Hrun; subst. exact Hdata.
  - cbn [rfold] in Hrun.
    destruct (split1 line ":") as [|curdev [|curdata [|? ?]]] eqn:Es;
      cbn [unpack2 rbind] in Hrun; try discriminate.
    destruct (shlex_split curdata) as [toks|]; cbn [rbind] in Hrun;
      [| discriminate].
    destruct (rfold _ toks []) as [pairs|]; cbn [rbind] in Hrun; [| discriminate].
    apply (IH (dict_set data curdev (dict_of_pairs pairs)) out); [| exact Hrun].
    destruct Hdata as [Hnd Hrows]. split.
    + apply dict_set_nodup. exact Hnd.
    + intros dev row Hin. apply in_dict_set in Hin.
      destruct Hin as [[-> ->] | Hin]; [| exact (Hrows dev row Hin)].
      split; [exact (split1_first_no_sep line ":" _ _ Es)|].
      apply dict_of_pairs_nodup.
Qed.

Lemma split1_cut (s : string) (c : ascii) (a b : string) :
  split1 s c = [a; b] ->
  s = (a ++ String c b)%string /\ contains (String c "") a = false.
Proof.
  intros H. split.
  - revert a H. induction s as [|x s IH]; intros a H; [discriminate|].
    cbn [split1] in H. destruct (Ascii.eqb_spec x c) as [-> | Hne].
    + inversion H; subst. reflexivity.
    + destruct (split1 s c) as [|p [|q [|? ?]]] eqn:E; inversion H; subst.
      cbn [append]. rewrite <- (IH p eq_refl). reflexivity.
  - exact (split1_first_no_sep s c a [b] H).
Qed.

Lemma split1_at (c : ascii) (a b : string) :
  contains (String c "") a = false -> split1 (a ++ String c b) c = [a; b].
Proof.
  induction a as [|x a IH]; intros H.
  - cbn [append split1]. rewrite Ascii.eqb_refl. reflexivity.
  - cbn [contains] in H. apply orb_false_iff in H. destruct H as [Hp Hc].
    change (String.prefix (String c "") (String x a))
      with (if Ascii.ascii_dec c x then String.prefix "" a else false) in Hp.
    cbn [append split1]. destruct (Ascii.eqb_spec x c) as [-> | Hne].
    + destruct (Ascii.ascii_dec c c); [| congruence].
      rewrite prefix_empty in Hp. discriminate.
    + rewrite (IH Hc). reflexivity.
Qed.

Lemma pairs_loop (toks : list string) :
  forall acc pairs,
  rfold (fun acc tok =>
           let? kv := unpack2 (split1 tok "=") in Ret (acc ++ [kv]))
        toks acc = Ret pairs ->
  pairs = acc ++ map (fun tok => (key_of tok, value_of tok)) toks.
Proof.
  induction toks as [|tok toks IH]; intros acc pairs Hrun.
  - inversion Hrun; subst. rewrite app_nil_r. reflexivity.
  - cbn [rfold] in Hrun.
    destruct (split1 tok "=") as [|k [|v [|? ?]]] eqn:Es;
      cbn [unpack2 rbind] in Hrun; try discriminate.
    assert (Hk : key_of tok = k) by (unfold key_of; rewrite Es; reflexivity).
    assert (Hv : value_of tok = v) by (unfold value_of; rewrite Es; reflexivity).
    rewrite (IH _ _ Hrun). cbn [map]. rewrite Hk, Hv, <- app_assoc. reflexivity.
Qed.

Lemma blkid_lines_entries (lines : list string) :
  forall data out,
  rfold (fun data line =>
           let? (curdev, curdata) := unpack2 (split1 line ":") in
           let? toks := shlex_split curdata in
           let? pairs := rfold (fun acc tok =>
                                  let? kv := unpack2 (split1 tok "=") in
                                  Ret (acc ++ [kv]))
                               toks [] in
           Ret (dict_set data curdev (dict_of_pairs pairs)))
        lines data = Ret out ->
  exists entries : list (string * dict string),
    Forall2 (fun line e =>
               exists rest toks,
                 split1 line ":" = [fst e; rest] /\
                 shlex_split rest = Ret toks /\
                 forall key, dict_get (snd e) key = token_value key toks)
            lines entries /\
    out = fold_left (fun d kv => dict_set d (fst kv) (snd kv)) entries data.
Proof.
  induction lines as [|line lines IH]; intros data out Hrun.
  - inversion Hrun; subst. exists []. split; [constructor | reflexivity].
  - cbn [rfold] in Hrun.
    destruct (split1 line ":") as [|curdev [|curdata [|? ?]]] eqn:Es;
      cbn [unpack2 rbind] in Hrun; try discriminate.
    destruct (shlex_split curdata) as [toks|] eqn:Hlex; cbn [rbind] in Hrun;
      [| discriminate].
    destruct (rfold _ toks []) as [pairs|] eqn:Hp; cbn [rbind] in Hrun;
      [| discriminate].
    destruct (IH _ out Hrun) as (entries & Hall & ->).
    exists ((curdev, dict_of_pairs pairs) :: entries).
    split; [| reflexivity].
    constructor; [| exact Hall].
    exists curdata, toks. cbn [fst snd]. split; [exact Es|].
    split; [exact Hlex|].
    intros key. rewrite (pairs_loop toks [] pairs Hp). cbn [app].
    unfold dict_of_pairs. rewrite dict_get_fold_set. unfold token_value.
    destruct (last_value key _); reflexivity.
Qed.

(** What [blkid] makes of the lines of the tool's output. *)
Lemma blkid_lines_table (lines : list string) (binfo : dict (dict string)) :
  rfold (fun data line =>
           let? (curdev, curdata) := unpack2 (split1 line ":") in
           let? toks := shlex_split curdata in
           let? pairs := rfold (fun acc tok =>
                                  let? kv := unpack2 (split1 tok "=") in
                                  Ret (acc ++ [kv]))
                               toks [] in
           Ret (dict_set data curdev (dict_of_pairs pairs)))
        lines [] = Ret binfo ->
  (forall line, In line lines ->
     exists dev rest,
       line = (dev ++ ":" ++ rest)%string /\ contains ":" dev = false /\
       dict_get binfo dev <> None)
  /\
  (forall dev, dict_get binfo dev <> None ->
     exists rest, In (dev ++ ":" ++ rest)%string lines)
  /\
  (forall pre dev rest post toks,
     lines = pre ++ (dev ++ ":" ++ rest)%string :: post ->
     contains ":" dev = false -> shlex_split rest = Ret toks ->
     (forall l, In l post -> startswith l (dev ++ ":") = false) ->
     exists data,
       dict_get binfo dev = Some data /\
       forall key, dict_get data key = token_value key toks).
Proof.
  intros Hrun.
  destruct (blkid_lines_entries lines [] binfo Hrun) as (entries & Hall & Hret).
  assert (Hget : forall k, dict_get binfo k = last_value k entries).
  { intros k. rewrite Hret, dict_get_fold_set.
    destruct (last_value k entries); reflexivity. }
  split; [| split].
  - intros line Hin.
    destruct (Forall2_in_l _ _ _ line Hall Hin)
      as ([dev data] & He & rest & toks & Hs & _).
    cbn [fst] in Hs. destruct (split1_cut line ":" dev rest Hs) as [Hl Hc].
    exists dev, rest. split; [exact Hl|]. split; [exact Hc|].
    rewrite Hget. intros Hn. apply last_value_none in Hn. apply Hn.
    apply (in_map fst) in He. exact He.
  - intros dev Hn. rewrite Hget in Hn.
    destruct (last_value dev entries) as [data|] eqn:El; [| congruence].
    apply last_value_in in El.
    destruct (Forall2_in_r _ _ _ (dev, data) Hall El)
      as (line & Hl & rest & toks & Hs & _).
    cbn [fst] in Hs. destruct (split1_cut line ":" dev rest Hs) as [-> _].
    exists rest. exact Hl.
  - intros pre dev rest post toks Hsplit Hc Hlex Hpost.
    rewrite Hsplit in Hall. apply Forall2_app_inv_l in Hall.
    destruct Hall as (epre & erest & _ & Hrest & ->).
    inversion Hrest as [|? [dev' data] ? epost (rest' & toks' & Hs & Hlex' & Hdata) Hepost];
      subst.
    cbn [fst snd] in Hs, Hdata.
    change (dev ++ ":" ++ rest)%string with (dev ++ String ":" rest)%string in Hs.
    rewrite (split1_at ":" dev rest Hc) in Hs. inversion Hs; subst dev' rest'.
    rewrite Hlex in Hlex'. inversion Hlex'; subst toks'.
    exists data. split; [| exact Hdata].
    rewrite Hget. apply last_value_split. intros Hin.
    apply in_map_iff in Hin. destruct Hin as ([k2 data2] & Heq & Hin).
    cbn [fst] in Heq. subst k2.
    destruct (Forall2_in_r _ _ _ (dev, data2) Hepost Hin)
      as (l & Hl & r2 & t2 & Hs2 & _).
    cbn [fst] in Hs2. destruct (split1_cut l ":" dev r2 Hs2) as [-> _].
    specialize (Hpost _ Hl).
    change (dev ++ String ":" r2)%string with (dev ++ ":" ++ r2)%string in Hpost.
    rewrite <- append_assoc, startswith_app in Hpost. discriminate.
Qed.

Section Root.

Context {collab : Collaborators} {helpers : Helpers}.




End Root.
(** X1.  [wipe_file] copies its source into the file.  With a block size
    [buflen > 0] and a source whose every read returns exactly [buflen]
    bytes (a reader, or the zero buffer used without one), the call
    returns, the file holds the first [size] bytes of the blocks read, end
    to end, its length and every other file are unchanged and one debug
    record is written.  Without a reader every byte of the file is zero
    afterwards. *)
Theorem wipe_file_copies_source path reader buflen w c :
  file_data w path = Ret c ->
  0 < buflen ->
  (forall (n fuel : nat),
     (forall k, blen (reader_of reader buflen k) = buflen) ->
     blen c <= Z.of_nat n * buflen -> (List.length c < fuel)%nat ->
     exists w',
       wipe_file fuel path reader buflen w = Some (Ret tt, w') /\
       file_data w' path =
         Ret (firstn (List.length c) (stream (reader_of reader buflen) n)) /\
       same_but_data path w w' /\
       LOG w' = LOG w ++ [(DEBUG, msg_wiping path (blen c) buflen)])
  /\
  (forall fuel : nat, (List.length c < fuel)%nat ->
     exists w',
       wipe_file fuel path None buflen w = Some (Ret tt, w') /\
       file_data w' path = Ret (repeat x00 (List.length c)) /\
       same_but_data path w w').
Proof.
  intros Hd Hb. split.
  - intros n fuel Hrf Hn Hfuel.
    exact (wipe_file_full_blocks path reader buflen w c Hd Hb Hrf n fuel Hn Hfuel).
  - intros fuel Hfuel.
    destruct (wipe_file_full_blocks path None buflen w c Hd Hb) with
      (n := List.length c) (fuel := fuel) as (w' & Hrun & Hd' & Hsame & _).
    + intros k. cbn [reader_of]. rewrite blen_zeros. lia.
    + unfold blen. nia.
    + exact Hfuel.
    + exists w'. split; [exact Hrun|]. split; [| exact Hsame].
      rewrite Hd'. cbn [reader_of]. rewrite stream_zeros.
      rewrite firstn_repeat_le; [reflexivity | nia].
Qed.

(** X3.  The degenerate block sizes of [wipe_file] without a reader: with
    a negative [buflen] and a non-empty file the first test raises the
    short-read error before anything is written; with [buflen = 0] and a
    non-empty file, or a negative [buflen] and an empty file, the loop
    writes empty blocks and never ends. *)
Theorem wipe_file_degenerate_buflen path buflen w c :
  file_data w path = Ret c ->
  (buflen < 0 -> 0 < blen c ->
   forall fuel : nat,
     wipe_file (S fuel) path None buflen w =
     Some (Raise (ValueError (msg_short_read 0 buflen 0)),
           snd (log_debug (msg_wiping path (blen c) buflen) w)))
  /\
  ((buflen = 0 /\ 0 < blen c) \/ (buflen < 0 /\ blen c = 0) ->
   forall fuel : nat, wipe_file fuel path None buflen w = None).
Proof.
  intros Hd. split.
  - intros Hb Hc fuel.
    rewrite (wipe_file_unfold (S fuel) path None buflen w c Hd).
    cbn [wipe_file_loop reader_of]. unfold tell. cbn [pos].
    assert (Hz : zeros buflen = []).
    { unfold zeros. replace (Z.to_nat buflen) with O by lia. reflexivity. }
    rewrite Hz. change (blen []) with 0.
    replace (negb (0 =? buflen) && (0 + 0 <? blen c)) with true; [reflexivity|].
    symmetry. apply andb_true_iff. split.
    + apply negb_true_iff. apply Z.eqb_neq. lia.
    + apply Z.ltb_lt. lia.
  - intros Hcase fuel.
    rewrite (wipe_file_unfold fuel path None buflen w c Hd).
    cbn [reader_of]. apply wipe_loop_spins; [exact Hcase | exact Hd].
Qed.
(** X4.  [zero_file_at_offsets] with [strict=False] never raises once the
    file is open, whatever the offsets, and what it leaves is known byte by
    byte: byte [i] of the file is zero if it lies in the window of one of
    the offsets (an offset that resolves inside the file, then
    [buflen * count] bytes clipped at the end of the file) and is the old
    byte otherwise; the length and all other files are unchanged. *)
Theorem zero_file_at_offsets_bytes path offsets buflen count w c :
  file_data w path = Ret c ->
  exists w' c',
    zero_file_at_offsets path offsets buflen count false w = (Ret tt, w') /\
    file_data w' path = Ret c' /\
    List.length c' = List.length c /\
    (forall i : nat,
       nth i c' x00 =
       if existsb (fun o => in_window buflen count (blen c) o i) offsets
       then x00 else nth i c x00) /\
    same_but_data path w w'.
Proof.
  intros Hd.
  destruct (zero_nonstrict path offsets buflen count w c Hd)
    as (w' & Hrun & Hd' & Hsame & _).
  exists w'. eexists. split; [exact Hrun|]. split; [exact Hd'|].
  split; [| split; [| exact Hsame]].
  - apply blen_length_eq. apply zero_all_length. reflexivity.
  - intros i. apply zero_all_nth. reflexivity.
Qed.

(** X5.  The result of [zero_file_at_offsets] with [strict=False] depends
    on the set of offsets only: two lists with the same elements, in any
    order and with any repetitions, leave the same bytes, and running the
    call a second time on its own result changes no byte. *)
Theorem zero_file_at_offsets_order_free path l l' buflen count w c :
  file_data w path = Ret c ->
  (forall o, In o l <-> In o l') ->
  exists w1 w2 w3 c',
    zero_file_at_offsets path l buflen count false w = (Ret tt, w1) /\
    zero_file_at_offsets path l' buflen count false w = (Ret tt, w2) /\
    zero_file_at_offsets path l buflen count false w1 = (Ret tt, w3) /\
    file_data w1 path = Ret c' /\
    file_data w2 path = Ret c' /\
    file_data w3 path = Ret c'.
Proof.
  intros Hd Hsame.
  destruct (zero_nonstrict path l buflen count w c Hd) as (w1 & Hrun1 & Hd1 & _).
  destruct (zero_nonstrict path l' buflen count w c Hd) as (w2 & Hrun2 & Hd2 & _).
  destruct (zero_nonstrict path l buflen count w1 _ Hd1) as (w3 & Hrun3 & Hd3 & _).
  exists w1, w2, w3, (zero_all buflen count (blen c) l c).
  split; [exact Hrun1|]. split; [exact Hrun2|]. split; [exact Hrun3|].
  split; [exact Hd1|]. split.
  - rewrite Hd2. f_equal. symmetry.
    apply zero_all_same_elements; [reflexivity | exact Hsame].
  - rewrite Hd3. f_equal.
    rewrite (zero_all_length buflen count (blen c) l c eq_refl).
    apply zero_all_idem. reflexivity.
Qed.

(** X6.  [zero_file_at_offsets] with [strict=True]: when every offset
    resolves inside the file and its whole window fits, the call returns,
    writes the same bytes as the non-strict call and logs nothing; when the
    first offset that does not fit resolves inside the file, the call
    raises the short-write error for it (without the words about
    shortening), the windows of the offsets before it are written and no
    byte of its own window or of a later one is. *)
Theorem zero_file_at_offsets_strict path buflen count w c :
  file_data w path = Ret c ->
  let size := blen c in
  (forall offsets, Forall (fits buflen count size) offsets ->
     exists w' w0 c',
       zero_file_at_offsets path offsets buflen count true w = (Ret tt, w') /\
       zero_file_at_offsets path offsets buflen count false w = (Ret tt, w0) /\
       file_data w' path = Ret c' /\ file_data w0 path = Ret c' /\
       LOG w' = LOG w)
  /\
  (forall pre off post,
     Forall (fits buflen count size) pre ->
     inside size off -> resolve size off + buflen * count > size ->
     exists w' c',
       zero_file_at_offsets path (pre ++ off :: post) buflen count true w =
         (Raise (ValueError (m_short path size (buflen * count) off
                               (size - resolve size off) true)), w') /\
       file_data w' path = Ret c' /\
       List.length c' = List.length c /\
       (forall i : nat,
          nth i c' x00 =
          if existsb (fun o => in_window buflen count size o i) pre
          then x00 else nth i c x00) /\
       LOG w' = LOG w).
Proof.
  intros Hd size. split.
  - intros offsets Hfit.
    destruct (zero_strict_ok path offsets buflen count w c Hd Hfit)
      as (w' & Hrun & Hd' & _ & Hlog).
    destruct (zero_nonstrict path offsets buflen count w c Hd)
      as (w0 & Hrun0 & Hd0 & _).
    exists w', w0. eexists. repeat split; eassumption.
  - intros pre off post Hfit Hin Hshort.
    assert (Hnot : ~ fits buflen count (blen c) off).
    { intros [_ Hf]. fold size in Hf. lia. }
    destruct (zero_strict_raise path pre off post buflen count w c Hd Hfit Hnot)
      as (w' & Hrun & Hd' & _ & Hlog).
    exists w'. eexists. split.
    + rewrite Hrun. unfold strict_error.
      apply outside_b_false in Hin. fold size. rewrite Hin. reflexivity.
    + split; [exact Hd'|]. split; [| split; [| exact Hlog]].
      * apply blen_length_eq. apply zero_all_length. reflexivity.
      * intros i. apply zero_all_nth. reflexivity.
Qed.

Section QuickZeroMore.

Context {collab : Collaborators}.

(** X7.  [quick_zero] on a regular file of at most 2 MiB zeroes the whole
    file: its two windows (the first MiB and the last MiB, each clipped to
    the file) cover every byte; for a file shorter than 1 MiB the offset
    [-1 MiB] resolves before the start of the file and is skipped.  The
    call never raises. *)
Theorem quick_zero_small_file (path : string) (w : World) (c : list byte) :
  os_stat w path = Ret S_IFREG ->
  file_data w path = Ret c ->
  blen c <= 2 * MiB ->
  exists w',
    quick_zero path false w = (Ret tt, w') /\
    file_data w' path = Ret (repeat x00 (List.length c)) /\
    same_but_data path w w'.
Proof.
  intros Hs Hd Hsize.
  assert (Hq : quick_zero path false w =
    (log_debug (msg_wiping_1M path [0; - MiB]) ;;
     zero_file_at_offsets path [0; - MiB] 1024 1024 false) w).
  { unfold quick_zero. unfold bind at 1. rewrite is_block_device_eq, Hs.
    cbn [S_ISBLK]. unfold bind at 1. rewrite os_path_isfile_eq, Hs.
    reflexivity. }
  rewrite Hq. unfold bind at 1. unfold log_debug at 1.
  set (w1 := mkWorld _ _ _ _ _ _).
  assert (Hd1 : file_data w1 path = Ret c) by exact Hd.
  destruct (zero_nonstrict path [0; - MiB] 1024 1024 w1 c Hd1)
    as (w' & Hrun & Hd' & Hsame & _).
  exists w'. split; [exact Hrun|]. split.
  - rewrite Hd'. f_equal.
    apply nth_ext with (d := x00) (d' := x00).
    + rewrite repeat_length. apply blen_length_eq.
      apply zero_all_length. reflexivity.
    + intros i Hi.
      assert (Hic : (i < List.length c)%nat).
      { rewrite <- (blen_length_eq _ _
                      (zero_all_length 1024 1024 (blen c) [0; - MiB] c eq_refl)).
        exact Hi. }
      rewrite zero_all_nth by reflexivity.
      rewrite nth_repeat.
      destruct (existsb _ _) eqn:E; [reflexivity|].
      exfalso. cbn [existsb] in E. rewrite orb_false_r in E.
      apply orb_false_iff in E. destruct E as [E1 E2].
      unfold in_window, outside_b, resolve, block_end, MiB in *.
      pose proof (blen_nonneg c) as Hc0.
      unfold blen in *.
      change (0 <? 0) with false in E1. cbn match in E1.
      change (- (1024 * 1024) <? 0) with true in E2. cbn match in E2.
      rewrite Z2Nat.id in E1, E2 by lia.
      repeat match goal with
             | H : context [?a >? ?b] |- _ => rewrite (Z.gtb_ltb a b) in H
             end.
      repeat match goal with
             | H : context [?a <? ?b] |- _ =>
                 destruct (Z.ltb_spec a b); cbn [negb andb orb] in H
             | H : context [?a <=? ?b] |- _ =>
                 destruct (Z.leb_spec a b); cbn [negb andb orb] in H
             end; try discriminate; lia.
  - destruct Hsame as (A1 & A2 & A3 & A4 & A5). repeat split; assumption.
Qed.

(** X8.  The [partitions] flag of [quick_zero] counts for block devices
    only.  On a path that [is_block_device] does not take for a block
    device, [partitions=True] behaves as [partitions=False] and the
    partition table is not read.  On a block device whose partition table
    [sysfs_partition_data] returns, the offsets wiped are [0] and [-1 MiB]
    followed, for each partition, by its start and by 1 MiB before its end;
    the call returns, one debug record names these offsets, and a byte of
    the device is zero afterwards if it lies in the window of one of them
    and unchanged otherwise. *)
Theorem quick_zero_partitions (path : string) (w : World) :
  (fst (is_block_device path w) <> Ret true ->
   quick_zero path true w = quick_zero path false w)
  /\
  (forall c ptdata w1,
     os_stat w path = Ret S_IFBLK ->
     file_data w path = Ret c ->
     sysfs_partition_data (Some path) None w = (Ret ptdata, w1) ->
     exists w' c',
       quick_zero path true w = (Ret tt, w') /\
       file_data w' path = Ret c' /\
       List.length c' = List.length c /\
       (forall i : nat,
          nth i c' x00 =
          if existsb (fun o => in_window 1024 1024 (blen c) o i)
               (partition_offsets ptdata)
          then x00 else nth i c x00) /\
       same_but_data path w w' /\
       In (DEBUG, msg_wiping_1M path (partition_offsets ptdata)) (LOG w')).
Proof.
  split.
  - intros Hnb. unfold quick_zero, bind.
    destruct (is_block_device path w) as [[[|] | e] w1] eqn:E.
    + cbn in Hnb. congruence.
    + reflexivity.
    + reflexivity.
  - intros c ptdata w1 Hs Hd Hpt.
    assert (Hw1 : w1 = w)
      by exact (read_only_run _ _ _ _ (read_only_sysfs_partition_data _ _) Hpt).
    subst w1.
    assert (Hq : quick_zero path true w =
      (log_debug (msg_wiping_1M path (partition_offsets ptdata)) ;;
       zero_file_at_offsets path (partition_offsets ptdata) 1024 1024 false) w).
    { unfold quick_zero. unfold bind at 1. rewrite is_block_device_eq, Hs.
      cbn [S_ISBLK]. unfold bind at 1. unfold ret at 1. cbn [negb andb].
      unfold bind at 1. unfold bind at 1. rewrite Hpt. unfold ret at 1.
      rewrite partition_offsets_fold. reflexivity. }
    rewrite Hq. unfold bind at 1. unfold log_debug at 1.
    set (w0 := mkWorld _ _ _ _ _ _).
    assert (Hd0 : file_data w0 path = Ret c) by exact Hd.
    destruct (zero_nonstrict path (partition_offsets ptdata) 1024 1024 w0 c Hd0)
      as (w' & Hrun & Hd' & Hsame & Hlog).
    exists w'. eexists. split; [exact Hrun|]. split; [exact Hd'|].
    split; [| split; [| split]].
    + apply blen_length_eq. apply zero_all_length. reflexivity.
    + intros i. apply zero_all_nth. reflexivity.
    + destruct Hsame as (A1 & A2 & A3 & A4 & A5). repeat split; assumption.
    + rewrite Hlog. apply in_or_app. left. cbn [LOG w0].
      apply in_or_app. right. left. reflexivity.
Qed.

End QuickZeroMore.
Section SysfsTheorems.

Context {collab : Collaborators}.

(** X9.  [sysfs_partition_data] needs a block device.  Called without
    one it raises: the [ValueError] of the missing arguments when there is
    no sysfs path either, and a [TypeError] when only a sysfs path is
    given, since the parent of the device [None] is looked up.  Called on
    a whole disk (a device whose parent resolution yields no partition
    number), when it returns it has changed nothing; the entries returned
    are, in the order of the directory listing, exactly the children of
    the disk's sysfs directory that hold a regular file "partition"; each
    entry carries the number read from that file, and its offset and size
    are the values of the child's "start" and "size" files multiplied by
    the logical block size read from the disk's own queue directory. *)
Theorem sysfs_partition_data_whole_disk (blockdev : string) (w w1 w' : World)
  (parent : string) (partnum : option string) (ptdata : list ptentry) :
  (forall sysfs_path,
     sysfs_partition_data None sysfs_path w =
     (Raise (match sysfs_path with
             | None => ValueError msg_both_none
             | Some _ => TypeError
             end), w))
  /\
  (blockdev <> "" ->
   get_blockdev_for_partition blockdev w = (Ret (parent, partnum), w1) ->
   truthy partnum = false ->
   sysfs_partition_data (Some blockdev) None w = (Ret ptdata, w') ->
   w' = w /\
   exists sysfs_path unit ds,
     sys_block_path blockdev None true w = (Ret sysfs_path, w) /\
     sysfs_path = normpath ("/sys/class/block/" ++ dev_short blockdev) /\
     read_int (path_join sysfs_path "queue/logical_block_size") w = Ret unit /\
     os_listdir w sysfs_path = Ret ds /\
     map (fun e : ptentry => let '(k, _, _, _) := e in k) ptdata =
       filter (has_partition_file w sysfs_path) ds /\
     forall k n off sz, In (k, n, off, sz) ptdata ->
       read_int (path_join (path_join sysfs_path k) "partition") w = Ret n /\
       exists start size,
         read_int (path_join (path_join sysfs_path k) "start") w = Ret start /\
         read_int (path_join (path_join sysfs_path k) "size") w = Ret size /\
         off = start * unit /\ sz = size * unit).
Proof.
  split.
  { intros [p|]; reflexivity. }
  intros Hne Hg Htr Hrun.
  assert (Hw1 : w1 = w)
    by exact (read_only_run _ _ _ _ (read_only_get_blockdev_for_partition blockdev) Hg).
  subst w1.
  split.
  { exact (read_only_run _ _ _ _ (read_only_sysfs_partition_data _ _) Hrun). }
  destruct blockdev as [|a b']; [contradiction|].
  set (b := String a b') in Hg, Hne |- *.
  unfold sysfs_partition_data in Hrun. fold b in Hrun.
  unfold bind at 1 in Hrun. unfold bind at 1 in Hrun.
  rewrite (read_only_eq _ w (read_only_sys_block_path b None true)) in Hrun.
  destruct (fst (sys_block_path b None true w)) as [sp | e] eqn:Esp; [| discriminate].
  assert (Hsp : sys_block_path b None true w = (Ret sp, w)).
  { rewrite (read_only_eq _ w (read_only_sys_block_path b None true)), Esp.
    reflexivity. }
  cbn [ret] in Hrun. unfold ret at 1 in Hrun.
  unfold bind at 1 in Hrun. rewrite Hg in Hrun.
  rewrite Htr in Hrun.
  unfold bind at 1 in Hrun. unfold ret at 1 in Hrun.
  unfold bind at 1 in Hrun. unfold path_join_opt at 1, ret at 1 in Hrun.
  unfold bind at 1 in Hrun. unfold query at 1 in Hrun.
  set (qf := path_join sp "queue/logical_block_size") in *.
  destruct (util_load_file qf w) as [s | e] eqn:El; [| discriminate].
  unfold bind at 1 in Hrun. unfold lift at 1 in Hrun.
  destruct (int s) as [bs | e] eqn:Ei; [| discriminate].
  unfold bind at 1 in Hrun. unfold path_join_opt at 1, ret at 1 in Hrun.
  unfold bind at 1 in Hrun. unfold query at 1 in Hrun. fold qf in Hrun.
  rewrite El in Hrun.
  unfold bind at 1 in Hrun. unfold lift at 1 in Hrun. rewrite Ei in Hrun.
  unfold bind at 1 in Hrun. unfold query at 1 in Hrun.
  destruct (os_listdir w sp) as [ds | e] eqn:Eds; [| discriminate].
  change (mfold (partition_step sp bs) ds [] w = (Ret ptdata, w')) in Hrun.
  destruct (partition_loop_spec sp bs ds [] w ptdata w' Hrun)
    as (new & Hout & Hmap & Hall).
  cbn [app] in Hout. subst new.
  exists sp, bs, ds.
  split; [exact Hsp|]. split.
  { unfold sys_block_path in Hsp. unfold bind at 1 in Hsp. rewrite Hg in Hsp.
    rewrite Htr in Hsp. unfold bind, os_path_exists, ask in Hsp.
    cbn [app] in Hsp.
    match type of Hsp with
    | (if ?c then _ else _) _ = _ => destruct c; [discriminate|]
    end.
    unfold ret in Hsp. inversion Hsp. reflexivity. }
  split.
  { unfold read_int. fold qf. rewrite El. exact Ei. }
  split; [exact Eds|]. split; [exact Hmap | exact Hall].
Qed.

(** X10.  [get_blockdev_for_partition] on a device that is no partition:
    a result without partition number names the real path of the device,
    nothing is changed, and the call is idempotent there: asked again about
    the path it returned (a real path), it returns the same pair.  When
    sysfs has neither an entry of the device's name nor a cciss entry, the
    call raises the [ValueError] that names the path given and the first
    entry tried. *)
Theorem get_blockdev_for_partition_whole_disk (devpath : string) (w : World) :
  (forall p w1,
     get_blockdev_for_partition devpath w = (Ret (p, None), w1) ->
     p = os_path_realpath w devpath /\ w1 = w /\
     (os_path_realpath w p = p ->
      get_blockdev_for_partition p w = (Ret (p, None), w)))
  /\
  (sysfs_entry w (basename (os_path_realpath w devpath)) = None ->
   get_blockdev_for_partition devpath w =
   (Raise (ValueError
             (msg_no_syspath devpath
                ("/sys/class/block/" ++ basename (os_path_realpath w devpath)))),
    w)).
Proof.
  split.
  - intros p w1 Hrun.
    rewrite get_blockdev_for_partition_eq in Hrun. cbv zeta in Hrun.
    destruct (sysfs_entry w (basename (os_path_realpath w devpath)))
      as [sp |] eqn:Ese; [| discriminate].
    destruct (exists_at w (path_join sp "partition")) eqn:Ept.
    + destruct (util_load_file (path_join sp "partition") w); cbn [rbind] in Hrun;
        [| discriminate].
      destruct (util_load_file _ w); cbn [rbind] in Hrun; discriminate.
    + inversion Hrun; subst. split; [reflexivity|]. split; [reflexivity|].
      intros Hreal. rewrite get_blockdev_for_partition_eq. cbv zeta.
      rewrite Hreal, Ese, Ept. reflexivity.
  - intros Hnone. rewrite get_blockdev_for_partition_eq. cbv zeta.
    rewrite Hnone. reflexivity.
Qed.

End SysfsTheorems.
(** X11.  [get_dev_name_entry] is a normal form: the short name it returns
    never contains "/dev/", and the path it returns is a fixed point:
    asked about that path, it returns the same pair.  [is_valid_device]
    therefore tests the same path for a name and for the path built from
    it. *)
Theorem get_dev_name_entry_idempotent (devname : string) :
  contains "/dev/" (fst (get_dev_name_entry devname)) = false /\
  get_dev_name_entry (snd (get_dev_name_entry devname)) =
    get_dev_name_entry devname /\
  forall (collab : Collaborators),
    is_valid_device (snd (get_dev_name_entry devname)) = is_valid_device devname.
Proof.
  assert (Hno : contains "/dev/" (fst (get_dev_name_entry devname)) = false).
  { unfold get_dev_name_entry. cbn [fst]. apply split_last_no_sep. discriminate. }
  assert (Hid : get_dev_name_entry (snd (get_dev_name_entry devname)) =
                get_dev_name_entry devname).
  { unfold get_dev_name_entry in *. cbn [fst snd] in *.
    set (b := last_item (split devname "/dev/")) in *.
    assert (Hs : split ("/dev/" ++ b) "/dev/" = [""; b]).
    { rewrite split_sep_app by discriminate.
      rewrite (split_absent b "/dev/" Hno). reflexivity. }
    rewrite Hs. reflexivity. }
  split; [exact Hno|]. split; [exact Hid|].
  intros collab. unfold is_valid_device. rewrite Hid. reflexivity.
Qed.

(** X12.  [dev_short] and [dev_path] are inverse to each other on plain
    names: [dev_short] never returns a name with a slash, [dev_path] always
    returns a path under /dev/ and is idempotent, a path already under
    /dev/ is returned as it is, and [dev_short (dev_path name)] is [name]
    for every name without a slash. *)
Theorem dev_short_dev_path_round_trip (devname : string) :
  contains "/" (dev_short devname) = false /\
  startswith (dev_path devname) "/dev/" = true /\
  dev_path (dev_path devname) = dev_path devname /\
  (contains "/" devname = false -> dev_short (dev_path devname) = devname).
Proof.
  assert (Hstart : startswith (dev_path devname) "/dev/" = true).
  { unfold dev_path. destruct (startswith devname "/dev/") eqn:E.
    - exact E.
    - apply startswith_app. }
  split; [| split; [exact Hstart | split]].
  - unfold dev_short. destruct (contains sep devname) eqn:E.
    + apply contains_sep_basename.
    + exact E.
  - unfold dev_path at 1. rewrite Hstart. reflexivity.
  - intros Hno. unfold dev_path.
    destruct (startswith devname "/dev/") eqn:E.
    + exfalso. unfold startswith in E.
      destruct devname as [|c d]; [discriminate|].
      cbn [contains] in Hno. apply orb_false_iff in Hno. destruct Hno as [Hp _].
      change (String.prefix "/dev/" (String c d))
        with (if Ascii.ascii_dec "/" c then String.prefix "dev/" d else false) in E.
      change (String.prefix "/" (String c d))
        with (if Ascii.ascii_dec "/" c then String.prefix "" d else false) in Hp.
      destruct (Ascii.ascii_dec "/" c); [| discriminate].
      rewrite prefix_empty in Hp. discriminate.
    + unfold dev_short.
      change ("/dev/" ++ devname)%string with ("/dev" ++ String "/" devname)%string.
      rewrite basename_after_slash by exact Hno.
      rewrite contains_sep_app_slash. reflexivity.
Qed.
(** X13.  The table [_lsblock_pairs_to_dict] returns is a dict in earnest:
    no kernel name occurs twice among its keys, it has at most one row per
    line of output, no row has a key twice, and looking a key up returns
    the row stored with it.  A key is in the table if and only if it is the
    KNAME value of a line of the output, and a later line with the same
    KNAME replaces the row of an earlier one: what is stored under a KNAME
    value is the row of the last line that has it. *)
Theorem lsblock_table_keys_unique (lines : string) (ret : dict (dict string)) :
  _lsblock_pairs_to_dict lines = Ret ret ->
  NoDup (map fst ret) /\
  (List.length ret <= List.length (splitlines lines))%nat /\
  (forall k row, In (k, row) ret ->
     NoDup (map fst row) /\ dict_get ret k = Some row) /\
  (forall k, dict_get ret k <> None <->
     exists line toks,
       In line (splitlines lines) /\ shlex_split line = Ret toks /\
       token_value "KNAME" toks = Some k) /\
  (forall pre line post toks k,
     splitlines lines = pre ++ line :: post ->
     shlex_split line = Ret toks -> token_value "KNAME" toks = Some k ->
     (forall l toks', In l post -> shlex_split l = Ret toks' ->
        token_value "KNAME" toks' <> Some k) ->
     exists row, dict_get ret k = Some row /\ row_of_tokens toks k row).
Proof.
  intros Hrun.
  destruct (lsblock_lines_table lines ret Hrun) as (Hlines & Hrows & Hlast).
  rewrite lsblock_unfold in Hrun.
  destruct (lsblock_lines_keys (splitlines lines) [] ret) as (H1 & H2 & H3).
  - constructor.
  - intros k row [].
  - exact Hrun.
  - split; [exact H1|]. split; [exact H3|]. split; [| split; [| exact Hlast]].
    + intros k row Hin. split; [eapply H2; exact Hin|].
      apply dict_get_in; assumption.
    + intros k. split.
      * intros Hk. destruct (dict_get ret k) as [row|] eqn:Eg; [| congruence].
        apply dict_get_some_in in Eg.
        destruct (Hrows k row Eg) as (line & toks & Hl & Hlex & Hk' & _).
        exists line, toks. auto.
      * intros (line & toks & Hl & Hlex & Hk).
        destruct (Hlines line Hl) as (toks' & k' & row & Hlex' & Hk' & Hin).
        rewrite Hlex in Hlex'. inversion Hlex'; subst toks'.
        rewrite Hk in Hk'. inversion Hk'; subst k'.
        rewrite (dict_get_in ret k row H1 Hin). discriminate.
Qed.

(** X14.  How [_lsblock_pairs_to_dict] fails.  The first line that is not
    in the pairs format ends the parse with its error and no table is
    returned: a line that does not lex raises the lexer's [ValueError], a
    line with a token without "=" raises the [ValueError] of the failed
    unpacking, and a line whose tokens are all KEY=VALUE but name no KNAME
    raises [KeyError('KNAME')]; an empty line is such a line. *)
Theorem lsblock_first_bad_line (lines : string) (pre : list string)
  (line : string) (post : list string) :
  splitlines lines = pre ++ line :: post ->
  Forall pairs_line pre ->
  (forall e, shlex_split line = Raise e ->
     _lsblock_pairs_to_dict lines = Raise e)
  /\
  (forall good tok rest,
     shlex_split line = Ret (good ++ tok :: rest) ->
     Forall (fun t => contains "=" t = true) good ->
     contains "=" tok = false ->
     _lsblock_pairs_to_dict lines = Raise (ValueError (msg_unpack 1)))
  /\
  (forall toks,
     shlex_split line = Ret toks ->
     Forall (fun t => contains "=" t = true) toks ->
     ~ Exists (fun t => key_of t = "KNAME") toks ->
     _lsblock_pairs_to_dict lines = Raise (KeyError "KNAME"))
  /\
  (line = "" -> _lsblock_pairs_to_dict lines = Raise (KeyError "KNAME")).
Proof.
  intros Hsplit Hpre.
  destruct (rfold_lines_total pre Hpre []) as (ret1 & Hrun1).
  assert (Hstep : forall e, lsblock_line ret1 line = Raise e ->
                  _lsblock_pairs_to_dict lines = Raise e).
  { intros e He. rewrite lsblock_unfold, Hsplit, rfold_app, Hrun1.
    cbn [rbind rfold]. rewrite He. reflexivity. }
  assert (Hkname : forall toks,
     shlex_split line = Ret toks ->
     Forall (fun t => contains "=" t = true) toks ->
     ~ Exists (fun t => key_of t = "KNAME") toks ->
     _lsblock_pairs_to_dict lines = Raise (KeyError "KNAME")).
  { intros toks Hlex Hall Hno. apply Hstep. unfold lsblock_line.
    rewrite Hlex. cbn [rbind].
    destruct (lsblock_tokens_total toks Hall []) as (cur & Hrun & _).
    rewrite Hrun. cbn [rbind]. unfold dict_item.
    destruct (dict_get cur "KNAME") as [k|] eqn:Ek; [| reflexivity].
    exfalso.
    destruct (lsblock_tokens_keys_back toks [] cur "KNAME" Hrun) as [H | H].
    - rewrite Ek. discriminate.
    - apply H. reflexivity.
    - exact (Hno H). }
  split; [| split; [| split; [exact Hkname |]]].
  - intros e Hlex. apply Hstep. unfold lsblock_line. rewrite Hlex. reflexivity.
  - intros good tok rest Hlex Hgood Hbad. apply Hstep. unfold lsblock_line.
    rewrite Hlex. cbn [rbind].
    rewrite (lsblock_tokens_bad good tok rest Hgood Hbad). reflexivity.
  - intros ->. apply (Hkname []).
    + reflexivity.
    + constructor.
    + intros H. inversion H.
Qed.
(** X15.  Quoting and parsing are inverse to each other.  An output in
    lsblk's pairs format, one row of KEY="VALUE" pairs per line, parses
    back to the pairs it was written from: [shlex.split] returns one
    KEY=VALUE token per pair with the value unquoted, spaces inside a value
    included, and [_lsblock_pairs_to_dict] returns the table that stores
    each row, with its [device_path], under the row's KNAME value. *)
Theorem lsblock_parses_quoted_rows (rows : list (list (string * string))) :
  Forall (Forall well_formed_pair) rows ->
  Forall (fun l => dict_get (dict_of_pairs l) "KNAME" <> None) rows ->
  Forall (fun l => shlex_split (pairs_row l) =
                   Ret (map (fun kv => (fst kv ++ "=" ++ snd kv)%string) l)) rows /\
  _lsblock_pairs_to_dict (pairs_output rows) = Ret (stored_table rows).
Proof.
  intros Hwf Hk. split.
  - apply Forall_forall. intros l Hin. apply shlex_row.
    rewrite Forall_forall in Hwf. apply Hwf. exact Hin.
  - rewrite lsblock_unfold, (pairs_output_lines rows Hwf).
    unfold stored_table. generalize (@nil (string * dict string)).
    induction rows as [|l rows IH]; intros ret; [reflexivity|].
    inversion Hwf as [|? ? Hl Hwf']; subst. inversion Hk as [|? ? Hkl Hk']; subst.
    destruct (dict_get (dict_of_pairs l) "KNAME") as [kname|] eqn:Ek;
      [| congruence].
    cbn [map rfold fold_left]. rewrite (lsblock_line_row ret l kname Hl Ek).
    cbn [rbind]. rewrite Ek. apply IH; assumption.
Qed.
Section ToolTheorems.

Context {collab : Collaborators}.

(** X16.  [get_scsi_wwid] never fails with the tool's error: when scsi_id
    exits with a [ProcessExecutionError] the call returns [None] and logs
    one warning; when the tool answers, the call returns its output
    without the newlines at its end, so a WWID returned never ends in a
    newline and an output without one is returned as it is.  With
    [replace_whitespace] the flag "--replace-whitespace" is the last
    argument of the command. *)
Theorem get_scsi_wwid_swallows_tool_error (device : string)
  (replace_whitespace : bool) (w : World) :
  let cmd := scsi_id_cmd device ++
             (if replace_whitespace then ["--replace-whitespace"] else []) in
  (forall out err w1,
     util_subp cmd [0] w = (Ret (out, err), w1) ->
     get_scsi_wwid device replace_whitespace w =
       (Ret (Some (rstrip_newlines out)), w1) /\
     (last_char out <> Some LF -> rstrip_newlines out = out))
  /\
  (forall c x w1,
     util_subp cmd [0] w = (Raise (ProcessExecutionError c x), w1) ->
     get_scsi_wwid device replace_whitespace w =
       (Ret None, snd (log_warn (msg_text "Failed to get WWID") w1)))
  /\
  (forall c x,
     fst (get_scsi_wwid device replace_whitespace w)
     <> Raise (ProcessExecutionError c x))
  /\
  (forall wwid,
     fst (get_scsi_wwid device replace_whitespace w) = Ret (Some wwid) ->
     last_char wwid <> Some LF).
Proof.
  intros cmd.
  assert (Heq : get_scsi_wwid device replace_whitespace w =
    match util_subp cmd [0] w with
    | (Ret (out, _), w1) => (Ret (Some (rstrip_newlines out)), w1)
    | (Raise (ProcessExecutionError c x), w1) =>
        (Ret None, snd (log_warn (msg_text "Failed to get WWID") w1))
    | (Raise e, w1) => (Raise e, w1)
    end).
  { unfold get_scsi_wwid, try_except, bind. subst cmd. unfold scsi_id_cmd.
    destruct replace_whitespace; cbn [app];
      destruct (util_subp _ [0] w) as [[[out err] | e] w1];
      try reflexivity; destruct e; reflexivity. }
  split; [| split; [| split]].
  - intros out err w1 Hrun. rewrite Heq, Hrun.
    split; [reflexivity | apply rstrip_newlines_fixed].
  - intros c x w1 Hrun. rewrite Heq, Hrun. reflexivity.
  - intros c x. rewrite Heq.
    destruct (util_subp cmd [0] w) as [[[out err] | e] w1]; [discriminate|].
    destruct e; cbn; congruence.
  - intros wwid. rewrite Heq.
    destruct (util_subp cmd [0] w) as [[[out err] | e] w1].
    + cbn. intros H. inversion H; subst. apply rstrip_newlines_last.
    + destruct e; cbn; discriminate.
Qed.

(** X17.  [get_volume_uuid] answers from the first line of blkid's export
    output that contains the text "UUID" anywhere (a PARTUUID= or
    UUID_SUB= line before the UUID= line is such a line): it returns what
    follows the last "=" of that line, so the value returned never
    contains "="; when no line contains "UUID" it returns the empty
    string. *)
Theorem get_volume_uuid_first_uuid_line (path : string) (w w1 : World)
  (out err : string) :
  util_subp ["blkid"; "-o"; "export"; path] [0] w = (Ret (out, err), w1) ->
  exists uuid,
    get_volume_uuid path w = (Ret uuid, w1) /\
    contains "=" uuid = false /\
    (Forall (fun line => contains "UUID" line = false) (splitlines out) ->
     uuid = "") /\
    (forall pre line post,
       splitlines out = pre ++ line :: post ->
       Forall (fun l => contains "UUID" l = false) pre ->
       contains "UUID" line = true ->
       uuid = last_item (split line "=")).
Proof.
  intros Hrun.
  set (f := fun line : string =>
              if contains "UUID" line then Some (last_item (split line "="))
              else None).
  assert (Hloop : forall w',
    mfor_return (fun line =>
                   if contains "UUID" line
                   then ret (Some (last_item (split line "=")))
                   else ret None) (splitlines out) w' =
    mfor_return (fun line => ret (f line)) (splitlines out) w').
  { intros w'. induction (splitlines out) as [|l ls IH]; [reflexivity|].
    cbn [mfor_return]. unfold bind, f. 
    destruct (contains "UUID" l); cbn; [reflexivity | exact IH]. }
  assert (Hf : forall x, match f x with Some _ => true | None => false end
                         = contains "UUID" x).
  { intros x. unfold f. destruct (contains "UUID" x); reflexivity. }
  assert (Hfind : forall l, find (fun x => match f x with Some _ => true | None => false end) l
                            = find (contains "UUID") l).
  { induction l as [|x l IH]; [reflexivity|]. cbn [find]. rewrite Hf, IH. reflexivity. }
  assert (Heq : get_volume_uuid path w =
    (Ret (match find (contains "UUID") (splitlines out) with
          | Some line => last_item (split line "=")
          | None => ""
          end), w1)).
  { unfold get_volume_uuid. unfold bind at 1. rewrite Hrun.
    unfold bind at 1. rewrite Hloop, mfor_return_pure, Hfind.
    destruct (find (contains "UUID") (splitlines out)) as [line|] eqn:E.
    - apply find_some in E. destruct E as [_ E]. unfold f. rewrite E. reflexivity.
    - reflexivity. }
  eexists. split; [exact Heq|]. split; [| split].
  - destruct (find (contains "UUID") (splitlines out)).
    + apply split_last_no_sep. discriminate.
    + reflexivity.
  - intros Hnone. rewrite (find_none_all _ _ Hnone). reflexivity.
  - intros pre line post Hsplit Hpre Hline.
    rewrite Hsplit, (find_first _ pre line post Hpre Hline). reflexivity.
Qed.

(** X18.  [lookup_disk] picks a shortest name: when it returns a path,
    that path is the real path of an entry of /dev/disk/by-id/ whose name
    contains the serial, no entry containing the serial has a shorter
    name, and the path exists; when no entry contains the serial it raises
    a [ValueError].  Nothing is changed either way. *)
Theorem lookup_disk_shortest_name (serial : string) (w : World)
  (names : list string) :
  os_listdir w "/dev/disk/by-id/" = Ret names ->
  ((forall x, In x names -> contains serial x = false) ->
   lookup_disk serial w =
   (Raise (ValueError (msg_text ("no disk with serial '" ++ serial ++ "' found"))),
    w))
  /\
  (forall path w',
     lookup_disk serial w = (Ret path, w') ->
     w' = w /\ exists_at w path = true /\
     exists name,
       In name names /\ contains serial name = true /\
       path = os_path_realpath w ("/dev/disk/by-id/" ++ name) /\
       forall other, In other names -> contains serial other = true ->
         (String.length name <= String.length other)%nat).
Proof.
  intros Hls. split.
  - intros Hnone. unfold lookup_disk. unfold bind at 1. unfold query.
    rewrite Hls.
    rewrite (filter_none (fun x => contains serial x) names Hnone).
    reflexivity.
  - intros path w' Hrun. unfold lookup_disk in Hrun.
    unfold bind at 1, query in Hrun. rewrite Hls in Hrun.
    remember (filter (fun x => contains serial x) names) as disks eqn:Edisks.
    destruct disks as [|d ds]; [cbv beta delta [raise] in Hrun; inversion Hrun|].
    cbv iota in Hrun.
    assert (Hne : d :: ds <> []) by discriminate.
    revert Hne Hrun Edisks. generalize (d :: ds). clear d ds.
    intros disks Hne Hrun Edisks. subst disks.
    set (disks := filter (fun x => contains serial x) names) in *.
    unfold os_path_exists, bind, ask in Hrun. cbv beta iota in Hrun.
    set (name := hd "" (sort_by_len disks)) in *.
    fold (exists_at w (os_path_realpath w ("/dev/disk/by-id/" ++ name))) in Hrun.
    destruct (exists_at w (os_path_realpath w ("/dev/disk/by-id/" ++ name))) eqn:Eex;
      rewrite ?Eex in Hrun; cbn [negb] in Hrun;
      [| cbv beta delta [raise] in Hrun; inversion Hrun].
    cbv beta delta [ret] in Hrun. inversion Hrun; subst path w'.
    split; [reflexivity|]. split; [exact Eex|].
    assert (Hin : In name (sort_by_len disks)).
    { apply hd_in. intros Hnil. apply Hne.
      destruct disks as [|d ds]; [reflexivity|].
      assert (In d (sort_by_len (d :: ds)))
        by (apply (proj2 (sort_by_len_in (d :: ds) d)); left; reflexivity).
      rewrite Hnil in H. destruct H. }
    pose proof (proj1 (sort_by_len_in disks name) Hin) as Hin'.
    apply (proj1 (filter_In _ _ _)) in Hin'. destruct Hin' as [Hn Hc].
    exists name. split; [exact Hn|]. split; [exact Hc|]. split; [reflexivity|].
    intros other Ho Hco. apply sort_by_len_hd.
    apply (proj2 (sort_by_len_in disks other)).
    apply (proj2 (filter_In _ _ _)). split; assumption.
Qed.

End ToolTheorems.
Section DeviceTheorems.

Context {collab : Collaborators} {helpers : Helpers}.

(** X19.  [get_unused_blockdev_info], when lsblk is a query that answers
    from its arguments alone: the call returns exactly when the listing of
    the top-level devices ([--nodeps]) and the listing of each of them
    parse; it changes nothing, and a device is in the result if and only
    if it is a top-level device whose own listing (the device and what
    depends on it) has no row with a non-empty MOUNTPOINT.  The result
    keeps the order and the rows of the top-level listing. *)
Theorem get_unused_blockdev_info_unmounted
  (answer : list string -> result (string * string)) (w : World)
  (bdinfo : dict (dict string)) :
  lsblk_answers answer ->
  lsblock_of answer ["--nodeps"] = Ret bdinfo ->
  ((forall item, In item bdinfo ->
      exists cur, lsblock_of answer [device_path_of (snd item)] = Ret cur) <->
   exists unused w', get_unused_blockdev_info w = (Ret unused, w'))
  /\
  (forall unused w',
     get_unused_blockdev_info w = (Ret unused, w') ->
     w' = w /\
     unused = filter (unmounted answer) bdinfo /\
     forall k row, In (k, row) unused <->
       In (k, row) bdinfo /\
       exists cur,
         lsblock_of answer [device_path_of row] = Ret cur /\
         forall item, In item cur -> mounted item = false).
Proof.
  intros Hans Hbd.
  assert (Hrun0 : _lsblock (Some ["--nodeps"]) w = (Ret bdinfo, w)).
  { rewrite (lsblock_pure answer _ w Hans). cbn [default_args]. rewrite Hbd.
    reflexivity. }
  pose proof (lsblock_run_inv _ _ _ _ Hrun0) as Htable.
  assert (Hpaths : forall k row, In (k, row) bdinfo ->
            dict_get row "device_path" = Some (device_path_of row)).
  { intros k row Hin. exact (lsblock_table_path bdinfo k row Htable Hin). }
  destruct (unused_fold_pure answer bdinfo Hans Hpaths (proj1 Htable) [] w)
    as [Hall Hback].
  { intros k _ []. }
  assert (Heq : get_unused_blockdev_info w = mfold unused_step bdinfo [] w).
  { rewrite get_unused_unfold. unfold bind at 1. rewrite Hrun0. reflexivity. }
  split.
  - split.
    + intros Hsub. eexists. eexists. rewrite Heq. apply Hall. exact Hsub.
    + intros (unused & w' & Hrun). rewrite Heq in Hrun.
      exact (Hback unused w' Hrun).
  - intros unused w' Hrun. rewrite Heq in Hrun.
    pose proof (Hback unused w' Hrun) as Hsub.
    rewrite (Hall Hsub) in Hrun. cbn [app] in Hrun. inversion Hrun; subst.
    split; [reflexivity|]. split; [reflexivity|].
    intros k row. rewrite filter_In. unfold unmounted. cbn [snd].
    split.
    + intros [Hin Hun]. split; [exact Hin|].
      destruct (lsblock_of answer [device_path_of row]) as [cur|e];
        [| discriminate].
      exists cur. split; [reflexivity|]. intros item Hitem.
      rewrite forallb_forall in Hun. apply negb_true_iff. exact (Hun item Hitem).
    + intros [Hin (cur & Hcur & Hnone)]. split; [exact Hin|].
      rewrite Hcur. apply forallb_forall. intros item Hitem.
      apply negb_true_iff. exact (Hnone item Hitem).
Qed.

(** X20.  [get_installable_blockdevs] is a filter of the unused devices:
    when it returns, the state is the one [get_unused_blockdev_info] left
    and a device is in the list if and only if it is an unused device that
    is not read-only (RO is "0"), is of TYPE "disk", is not removable
    (RM is not "1") unless [include_removable] is set, and, when a
    [min_size] is given, whose SIZE (taken as "0" when the row has none)
    reads as an integer not below it.  Without [min_size] the call always
    returns. *)
Theorem get_installable_blockdevs_filter (include_removable : bool)
  (min_size : option Z) (w w1 : World) (unused : dict (dict string)) :
  get_unused_blockdev_info w = (Ret unused, w1) ->
  (forall good w',
     get_installable_blockdevs include_removable min_size w = (Ret good, w') ->
     w' = w1 /\
     forall name, In name good <->
       exists data, In (name, data) unused /\
                    installable include_removable min_size data)
  /\
  (min_size = None ->
   exists good,
     get_installable_blockdevs include_removable min_size w = (Ret good, w1)).
Proof.
  intros Hun. split.
  - intros good w' Hrun. unfold get_installable_blockdevs in Hrun.
    unfold bind at 1 in Hrun. rewrite Hun in Hrun.
    change (mfold (installable_step include_removable min_size) unused [] w1
            = (Ret good, w')) in Hrun.
    destruct (installable_fold include_removable min_size unused [] w1 good w' Hrun)
      as [-> Hiff].
    split; [reflexivity|]. intros name. rewrite Hiff. cbn [In]. tauto.
  - intros ->. unfold get_installable_blockdevs. unfold bind at 1. rewrite Hun.
    exact (installable_total include_removable unused [] w1).
Qed.


(** X22.  [rescan_block_devices] swallows the failure of blockdev and
    still waits for udev: the devices it rescans are the unused devices
    that are not removable, not read-only and of TYPE "disk"; when there
    are none it only logs and runs no tool; otherwise it runs blockdev
    once on all of them, and whether blockdev returns or fails with a
    [ProcessExecutionError] (then one warning is logged) the call ends with
    [udevadm_settle]; any other error of blockdev is raised and settle is
    not run. *)
Theorem rescan_block_devices_swallows_tool_error (w w1 : World)
  (unused : dict (dict string)) :
  get_unused_blockdev_info w = (Ret unused, w1) ->
  let devices := rescan_targets unused in
  (devices = [] ->
   rescan_block_devices w =
   (Ret tt, snd (log_debug (msg_text "no devices found to rescan") w1)))
  /\
  (devices <> [] ->
   forall r w2,
     util_subp (["blockdev"; "--rereadpt"] ++ devices) [0] w1 = (r, w2) ->
     rescan_block_devices w =
     match r with
     | Ret _ => udevadm_settle w2
     | Raise (ProcessExecutionError _ _) =>
         udevadm_settle
           (snd (log_warn (msg_text "rescanning devices failed") w2))
     | Raise e => (Raise e, w2)
     end).
Proof.
  intros Hun devices.
  pose proof (unused_table w w1 unused Hun) as Htable.
  assert (Hpaths : forall k row, In (k, row) unused ->
            dict_get row "device_path" = Some (device_path_of row)).
  { intros k row Hin. exact (lsblock_table_path unused k row Htable Hin). }
  assert (Heq : rescan_block_devices w =
    match devices with
    | [] => log_debug (msg_text "no devices found to rescan") w1
    | _ =>
        (try_except
           (_ <- util_subp (["blockdev"; "--rereadpt"] ++ devices) [0] ;; ret tt)
           (fun e =>
              match e with
              | ProcessExecutionError _ _ =>
                  Some (log_warn (msg_text "rescanning devices failed"))
              | _ => None
              end) ;;
         udevadm_settle) w1
    end).
  { unfold rescan_block_devices. unfold bind at 1. rewrite Hun.
    unfold bind at 1. rewrite (rescan_fold unused Hpaths [] w1).
    cbn [app]. fold devices. destruct devices; reflexivity. }
  split.
  - intros Hnil. rewrite Heq, Hnil. reflexivity.
  - intros Hne r w2 Hsub. rewrite Heq.
    destruct devices as [|d ds]; [congruence|].
    unfold bind at 1. unfold try_except. unfold bind at 1. rewrite Hsub.
    destruct r as [[out err] | e]; [reflexivity|].
    destruct e; reflexivity.
Qed.

(** X23.  [get_blockdev_sector_size] needs a listing of exactly one row:
    when lsblk lists the device alone the call returns the integers of the
    row's LOG-SEC and PHY-SEC; when the listing has no row or more than one
    (a disk is listed with its partitions) the unpacking [[parent] = info]
    fails and the call raises a [ValueError].  One debug record is written
    before. *)
Theorem get_blockdev_sector_size_single_row (devpath : string) (w w1 : World)
  (info : dict (dict string)) :
  _lsblock (Some [devpath]) w = (Ret info, w1) ->
  let w2 := snd (log_debug (msg_text "get_blockdev_sector_size: info") w1) in
  (List.length info <> 1%nat ->
   get_blockdev_sector_size devpath w =
   (Raise (ValueError (msg_unpack (List.length info))), w2))
  /\
  (forall k row ls ps logical physical,
     info = [(k, row)] ->
     dict_get row "LOG-SEC" = Some ls -> int ls = Ret logical ->
     dict_get row "PHY-SEC" = Some ps -> int ps = Ret physical ->
     get_blockdev_sector_size devpath w = (Ret (logical, physical), w2)).
Proof.
  intros Hrun w2. split.
  - intros Hlen. unfold get_blockdev_sector_size.
    unfold bind at 1. rewrite Hrun. unfold bind at 1. unfold log_debug at 1.
    unfold bind at 1, lift at 1.
    destruct info as [|[k row] [|x info']]; cbn [map List.length] in *.
    + reflexivity.
    + congruence.
    + rewrite length_map. reflexivity.
  - intros k row ls ps logical physical -> Hls Hil Hps Hip.
    unfold get_blockdev_sector_size.
    unfold bind at 1. rewrite Hrun. unfold bind at 1. unfold log_debug at 1.
    unfold bind, lift, dict_item. cbn [map fst dict_get].
    rewrite String.eqb_refl, Hls, Hil, Hps, Hip. reflexivity.
Qed.

(** X24.  [get_mountpoints] is the union of the mount points of
    /proc/mounts and of the non-empty MOUNTPOINT values of the block
    listing, each once: the list returned has no duplicates and holds
    exactly these paths; the empty MOUNTPOINT of an unmounted device is
    never returned. *)
Theorem get_mountpoints_union (w w1 : World) (info : dict (dict string))
  (mounts : list mount) :
  _lsblock None w = (Ret info, w1) ->
  get_proc_mounts w1 = (Ret mounts, w1) ->
  exists mps,
    get_mountpoints w = (Ret mps, w1) /\
    NoDup mps /\
    forall x, In x mps <->
      (exists m, In m mounts /\ m_mp m = x) \/
      (exists k row, In (k, row) info /\
                     dict_get row "MOUNTPOINT" = Some x /\ x <> "").
Proof.
  intros Hls Hpm. eexists. split; [| split].
  - unfold get_mountpoints. unfold bind at 1. rewrite Hls.
    unfold bind at 1. rewrite Hpm. reflexivity.
  - apply fold_set_add. constructor.
  - intros x.
    rewrite (proj2 (fold_set_add _ [] (NoDup_nil _))). cbn [In].
    rewrite in_app_iff, in_map_iff, in_flat_map.
    split.
    + intros [[] | [(m & Hm & Hin) | ([k row] & Hin & Hx)]].
      * left. exists m. split; assumption.
      * right. exists k, row. split; [exact Hin|]. cbn [snd] in Hx.
        destruct (dict_get row "MOUNTPOINT") as [[|c s]|];
          [destruct Hx | | destruct Hx].
        destruct Hx as [<- | []]. split; [reflexivity | discriminate].
    + intros [(m & Hin & Hm) | (k & row & Hin & Hx & Hne)]; right.
      * left. exists m. split; assumption.
      * right. exists (k, row). split; [exact Hin|]. cbn [snd]. rewrite Hx.
        destruct x as [|c s]; [congruence | left; reflexivity].
Qed.

(** X25.  [get_devices_for_mp] asks lsblk first and /proc/mounts only when
    lsblk knows no device for the mount point: when some row of the
    listing has the MOUNTPOINT asked about, the devices returned are the
    [device_path]s of exactly these rows, each once, and /proc/mounts does
    not count; when no row has it, the devices returned are the real paths
    of the devices that /proc/mounts shows mounted there, in the order of
    the file. *)
Theorem get_devices_for_mp_lsblk_first (mountpoint : string) (w w1 : World)
  (bdinfo : dict (dict string)) (mounts : list mount) :
  _lsblock None w = (Ret bdinfo, w1) ->
  (forall k row, In (k, row) bdinfo -> dict_get row "MOUNTPOINT" <> None) ->
  get_proc_mounts w1 = (Ret mounts, w1) ->
  exists devs,
    get_devices_for_mp mountpoint w = (Ret devs, w1) /\
    ((exists item, In item bdinfo /\ mounted_at mountpoint item = true) ->
     NoDup devs /\
     forall p, In p devs <->
       exists k row, In (k, row) bdinfo /\
                     dict_get row "MOUNTPOINT" = Some mountpoint /\
                     dict_get row "device_path" = Some p) /\
    ((forall item, In item bdinfo -> mounted_at mountpoint item = false) ->
     devs = map (fun m => os_path_realpath w1 (m_dev m))
              (filter (fun m => String.eqb (m_mp m) mountpoint) mounts)).
Proof.
  intros Hls Hmp Hpm.
  pose proof (lsblock_run_inv _ _ _ _ Hls) as Htable.
  assert (Hrows : forall k row, In (k, row) bdinfo ->
            dict_get row "MOUNTPOINT" <> None /\
            dict_get row "device_path" = Some (device_path_of row)).
  { intros k row Hin. split; [exact (Hmp k row Hin)|].
    exact (lsblock_table_path bdinfo k row Htable Hin). }
  set (found := fold_left set_add
          (map (fun item : string * dict string => device_path_of (snd item))
               (filter (mounted_at mountpoint) bdinfo)) []).
  assert (Heq : get_devices_for_mp mountpoint w =
    match found with
    | _ :: _ => (Ret found, w1)
    | [] => (Ret (map (fun m => os_path_realpath w1 (m_dev m))
                    (filter (fun m => String.eqb (m_mp m) mountpoint) mounts)), w1)
    end).
  { unfold get_devices_for_mp. unfold bind at 1. rewrite Hls.
    unfold bind at 1. rewrite (mounted_fold mountpoint bdinfo Hrows [] w1).
    fold found. destruct found; [| reflexivity].
    unfold bind at 1. rewrite Hpm. rewrite proc_fold. reflexivity. }
  assert (Hfound : forall p, In p found <->
            exists k row, In (k, row) bdinfo /\
                          dict_get row "MOUNTPOINT" = Some mountpoint /\
                          dict_get row "device_path" = Some p).
  { intros p. unfold found.
    rewrite (proj2 (fold_set_add _ [] (NoDup_nil _))). cbn [In].
    rewrite in_map_iff. split.
    - intros [[] | ([k row] & <- & Hin)]. apply filter_In in Hin.
      destruct Hin as [Hin Hm]. exists k, row. split; [exact Hin|].
      unfold mounted_at in Hm. cbn [snd] in *.
      destruct (dict_get row "MOUNTPOINT") as [mp|] eqn:E; [| discriminate].
      cbn [opt_eqb] in Hm. apply String.eqb_eq in Hm. subst mp.
      split; [reflexivity|]. exact (proj2 (Hrows k row Hin)).
    - intros (k & row & Hin & Hm & Hp). right. exists (k, row). cbn [snd].
      split.
      + unfold device_path_of. rewrite Hp. reflexivity.
      + apply filter_In. split; [exact Hin|]. unfold mounted_at. cbn [snd].
        rewrite Hm. cbn [opt_eqb]. apply String.eqb_refl. }
  destruct found as [|d ds] eqn:Efound.
  - eexists. split; [exact Heq|]. split.
    + intros ([k row] & Hin & Hm). exfalso.
      assert (Hex : exists k0 row0, In (k0, row0) bdinfo /\
                dict_get row0 "MOUNTPOINT" = Some mountpoint /\
                dict_get row0 "device_path" = Some (device_path_of row)).
      { exists k, row. split; [exact Hin|]. split.
        - unfold mounted_at in Hm. cbn [snd] in Hm.
          destruct (dict_get row "MOUNTPOINT") as [mp|]; [| discriminate].
          cbn [opt_eqb] in Hm. apply String.eqb_eq in Hm. congruence.
        - exact (proj2 (Hrows k row Hin)). }
      apply Hfound in Hex. destruct Hex.
    + intros _. reflexivity.
  - eexists. split; [exact Heq|]. split.
    + intros _. split; [| exact Hfound].
      rewrite <- Efound. unfold found. apply fold_set_add. constructor.
    + intros Hnone. exfalso.
      assert (Hd : In d (d :: ds)) by (left; reflexivity).
      apply Hfound in Hd. destruct Hd as (k & row & Hin & Hm & _).
      specialize (Hnone (k, row) Hin). unfold mounted_at in Hnone.
      cbn [snd] in Hnone. rewrite Hm in Hnone. cbn [opt_eqb] in Hnone.
      rewrite String.eqb_refl in Hnone. discriminate.
Qed.

End DeviceTheorems.
Section MountTheorems.

Context {collab : Collaborators} {helpers : Helpers}.

(** X26.  [get_proc_mounts] fails only when /proc/mounts cannot be read.
    It changes nothing, returns at most one entry per piece of the text
    between newlines, and in every entry the device, the mount point, the
    file system type, the options and the dump frequency are fields cut at
    white space (not empty, no white space inside) and the last component
    is not empty.  On a file in the layout of /proc/mounts, one row of
    fields per line, the entries are those of the rows in the order of the
    file: a line with fewer than six fields is skipped without an error,
    and a line with six or more gives one entry whose first five
    components are its first five fields and whose last component is what
    is left of the line. *)
Theorem get_proc_mounts_fields (w : World) :
  (forall e, read_text w "/proc/mounts" = Raise e ->
             get_proc_mounts w = (Raise e, w))
  /\
  (forall text, read_text w "/proc/mounts" = Ret text ->
     exists mounts,
       get_proc_mounts w = (Ret mounts, w) /\
       (List.length mounts <= List.length (split text (String LF "")))%nat /\
       forall m, In m mounts ->
         field (m_dev m) /\ field (m_mp m) /\ field (m_vfs m) /\
         field (m_opts m) /\ field (m_freq m) /\ m_passno m <> "")
  /\
  (forall rows, Forall (Forall field) rows ->
     read_text w "/proc/mounts" = Ret (mounts_text rows) ->
     get_proc_mounts w = (Ret (flat_map row_mounts rows), w)).
Proof.
  split; [| split].
  - intros e He. unfold get_proc_mounts, bind, query. rewrite He. reflexivity.
  - intros text Ht. eexists. split; [| split].
    + unfold get_proc_mounts, bind, query. rewrite Ht. reflexivity.
    + apply (mounts_fold (split text (String LF "")) []). constructor.
    + apply Forall_forall.
      apply (mounts_fold (split text (String LF "")) []). constructor.
  - intros rows Hrows Ht.
    unfold get_proc_mounts, bind, query. rewrite Ht. unfold ret.
    rewrite (mounts_text_lines rows Hrows), (mounts_rows rows Hrows []).
    reflexivity.
Qed.

(** X27.  [get_multipath_wwids] finds nothing where no two file systems
    share a UUID: when the UUIDs of blkid's entries are pairwise different
    the result is the empty set, no device is resolved to its parent and
    scsi_id is not run (the state is the one blkid left). *)
Theorem get_multipath_wwids_no_shared_uuid (w w1 : World)
  (binfo : dict (dict string)) :
  blkid None true w = (Ret binfo, w1) ->
  NoDup (map snd (devuuids_of binfo)) ->
  first_of_pairs binfo = [] /\
  get_multipath_wwids w = (Ret [], w1).
Proof.
  intros Hb Hnd.
  assert (Hloop : forall l : list ((string * string) * (string * string)),
            (forall a b, In (a, b) l -> snd a <> snd b) ->
            flat_map (fun pr : (string * string) * (string * string) =>
                        if String.eqb (snd (fst pr)) (snd (snd pr))
                        then [fst (fst pr)] else []) l = [] /\
            forall acc w', mfold candidate_step l acc w' = (Ret acc, w')).
  { induction l as [|[[d1 u1] [d2 u2]] l IH]; intros Hl.
    - split; [reflexivity | intros; reflexivity].
    - destruct IH as [IH1 IH2].
      { intros a b Hin. apply Hl. right. exact Hin. }
      pose proof (Hl (d1, u1) (d2, u2) (or_introl eq_refl)) as Hne.
      cbn [fst snd] in Hne. apply String.eqb_neq in Hne.
      split.
      + cbn [flat_map fst snd]. rewrite Hne. exact IH1.
      + intros acc w'. cbn [mfold]. unfold bind at 1.
        unfold candidate_step at 1. rewrite Hne. unfold ret at 1. apply IH2. }
  destruct (Hloop (combinations2 (devuuids_of binfo))
              (combinations2_distinct _ Hnd)) as [H1 H2].
  split; [exact H1|].
  rewrite get_multipath_wwids_unfold. unfold bind at 1. rewrite Hb.
  unfold bind at 1. rewrite H2. reflexivity.
Qed.

(** X28.  [stop_all_unused_multipath_devices] does nothing where the
    multipath tool is not installed ([util.which] finds no program: no
    command is run), and otherwise runs "multipath -F" once, taking the
    exit codes 0 and 1 for success; a [ProcessExecutionError] of the tool
    is logged as a warning and not raised. *)
Theorem stop_all_unused_multipath_devices_quiet (w w1 : World)
  (multipath : option string) :
  util_which "multipath" w = (Ret multipath, w1) ->
  (truthy multipath = false ->
   stop_all_unused_multipath_devices w = (Ret tt, w1))
  /\
  (forall program, multipath = Some program -> program <> "" ->
   forall r w2,
     util_subp [program; "-F"] [0; 1] w1 = (r, w2) ->
     stop_all_unused_multipath_devices w =
     match r with
     | Ret _ => (Ret tt, w2)
     | Raise (ProcessExecutionError _ _) =>
         (Ret tt, snd (log_warn (msg_text "Failed to stop multipath devices") w2))
     | Raise e => (Raise e, w2)
     end).
Proof.
  intros Hw. split.
  - intros Hf. unfold stop_all_unused_multipath_devices, bind. rewrite Hw.
    destruct multipath as [[|c s]|]; [reflexivity | discriminate | reflexivity].
  - intros program -> Hne r w2 Hsub.
    unfold stop_all_unused_multipath_devices. unfold bind at 1. rewrite Hw.
    destruct program as [|c s]; [congruence|].
    unfold try_except, bind. rewrite Hsub.
    destruct r as [[out err] | e]; [reflexivity|]. destruct e; reflexivity.
Qed.

End MountTheorems.
Section MoreTheorems.

Context {collab : Collaborators} {helpers : Helpers}.

(** X29.  The modes of [wipe_volume].  A mode other than "pvremove",
    "zero", "random", "superblock" and "superblock-recursive" raises a
    [ValueError] and nothing is touched.  The mode "zero" leaves every
    byte of the volume zero and its length unchanged; the mode "random"
    leaves the first bytes of what /dev/urandom hands out, as long as
    every read returns the 4 MiB asked for. *)
Theorem wipe_volume_modes (path : string) (w : World) :
  (forall mode fuel,
     ~ In mode ["pvremove"; "zero"; "random"; "superblock"; "superblock-recursive"] ->
     wipe_volume fuel path mode w =
     Some (Raise (ValueError (msg_text ("wipe mode " ++ mode ++ " not supported"))),
           w))
  /\
  (forall c fuel,
     file_data w path = Ret c -> (List.length c < fuel)%nat ->
     exists w',
       wipe_volume fuel path "zero" w = Some (Ret tt, w') /\
       file_data w' path = Ret (repeat x00 (List.length c)) /\
       same_but_data path w w')
  /\
  (forall c fuel n,
     file_data w path = Ret c -> (List.length c < fuel)%nat ->
     (forall k, blen (urandom_read k) = 4 * 1024 * 1024) ->
     blen c <= Z.of_nat n * (4 * 1024 * 1024) ->
     exists w',
       wipe_volume fuel path "random" w = Some (Ret tt, w') /\
       file_data w' path = Ret (firstn (List.length c) (stream urandom_read n)) /\
       same_but_data path w w').
Proof.
  split; [| split].
  - intros mode fuel Hno. unfold wipe_volume.
    repeat match goal with
           | |- context [String.eqb mode ?s] =>
               destruct (String.eqb_spec mode s) as [-> | _];
               [exfalso; apply Hno; cbn; tauto |]
           end.
    reflexivity.
  - intros c fuel Hd Hfuel.
    change (wipe_volume fuel path "zero" w)
      with (wipe_file fuel path None (4 * 1024 * 1024) w).
    destruct (wipe_file_full_blocks path None (4 * 1024 * 1024) w c Hd)
      with (n := List.length c) (fuel := fuel) as (w' & Hrun & Hd' & Hsame & _).
    + lia.
    + intros k. cbn [reader_of]. rewrite blen_zeros. lia.
    + unfold blen. nia.
    + exact Hfuel.
    + exists w'. split; [exact Hrun|]. split; [| exact Hsame].
      rewrite Hd'. cbn [reader_of]. rewrite stream_zeros.
      rewrite firstn_repeat_le; [reflexivity | nia].
  - intros c fuel n Hd Hfuel Hfull Hn.
    change (wipe_volume fuel path "random" w)
      with (wipe_file fuel path (Some urandom_read) (4 * 1024 * 1024) w).
    destruct (wipe_file_full_blocks path (Some urandom_read) (4 * 1024 * 1024)
                w c Hd) with (n := n) (fuel := fuel)
      as (w' & Hrun & Hd' & Hsame & _).
    + lia.
    + exact Hfull.
    + exact Hn.
    + exact Hfuel.
    + exists w'. split; [exact Hrun|]. split; [exact Hd' | exact Hsame].
Qed.

End MoreTheorems.
Section RootTheorems.

Context {collab : Collaborators} {helpers : Helpers}.


(** X30.  The table of [blkid]: the argument [devs] is not used, the
    query always lists all devices; in the table returned no device
    occurs twice, no key contains ":", no entry has a key twice, and
    looking a device up returns its entry.  The table is read off the
    output of the tool line by line: every line is a device, a ":" and the
    rest, the device being what precedes the first ":"; the devices of the
    table are the devices of the lines; and a later line for the same
    device replaces the earlier one: the entry of a device holds the values
    of the tokens of the last line that starts with the device and ":". *)
Theorem blkid_table_keys_unique (devs : option (list string)) (cache : bool)
  (w : World) :
  blkid devs cache w = blkid None cache w /\
  forall binfo w',
    blkid devs cache w = (Ret binfo, w') ->
    NoDup (map fst binfo) /\
    (forall dev data, In (dev, data) binfo ->
       contains ":" dev = false /\ NoDup (map fst data) /\
       dict_get binfo dev = Some data) /\
    exists w0 out err,
      util_subp ["blkid"; "-o"; "full"] [0] w0 = (Ret (out, err), w') /\
      (cache = true -> w0 = w) /\
      (forall line, In line (splitlines out) ->
         exists dev rest,
           line = (dev ++ ":" ++ rest)%string /\ contains ":" dev = false /\
           dict_get binfo dev <> None) /\
      (forall dev, dict_get binfo dev <> None ->
         exists rest, In (dev ++ ":" ++ rest)%string (splitlines out)) /\
      (forall pre dev rest post toks,
         splitlines out = pre ++ (dev ++ ":" ++ rest)%string :: post ->
         contains ":" dev = false -> shlex_split rest = Ret toks ->
         (forall l, In l post -> startswith l (dev ++ ":") = false) ->
         exists data,
           dict_get binfo dev = Some data /\
           forall key, dict_get data key = token_value key toks).
Proof.
  split; [reflexivity|].
  intros binfo w' Hrun. unfold blkid in Hrun. unfold bind at 1 in Hrun.
  assert (Hw0 : exists w1,
            (cache = true -> w1 = w) /\
            (' (out, err) <- util_subp ["blkid"; "-o"; "full"] [0] ;;
             lift (rfold (fun data line =>
                            let? (curdev, curdata) := unpack2 (split1 line ":") in
                            let? toks := shlex_split curdata in
                            let? pairs := rfold (fun acc tok =>
                                                   let? kv := unpack2 (split1 tok "=") in
                                                   Ret (acc ++ [kv]))
                                                toks [] in
                            Ret (dict_set data curdev (dict_of_pairs pairs)))
                         (splitlines out) [])) w1 = (Ret binfo, w')).
  { destruct cache.
    - exists w. split; [reflexivity | exact Hrun].
    - match type of Hrun with
      | context [match ?m w with _ => _ end] => destruct (m w) as [[u|e] w1]
      end; [| inversion Hrun].
      exists w1. split; [discriminate | exact Hrun]. }
  clear Hrun. destruct Hw0 as (w1 & Hc & Hrun).
  unfold bind at 1 in Hrun.
  destruct (util_subp ["blkid"; "-o"; "full"] [0] w1) as [[[out err]|e] w2] eqn:Et;
    [| inversion Hrun].
  unfold lift in Hrun.
  match type of Hrun with
  | (?r, _) = _ => destruct r as [t|e] eqn:Er; [| inversion Hrun]
  end.
  inversion Hrun; subst.
  destruct (blkid_lines (splitlines out) [] binfo) as [Hnd Hrows].
  - split; [constructor | intros dev row []].
  - exact Er.
  - split; [exact Hnd|]. split.
    + intros dev data Hin.
      destruct (Hrows dev data Hin) as [H1 H2].
      split; [exact H1|]. split; [exact H2|]. apply dict_get_in; assumption.
    + exists w1, out, err. split; [exact Et|]. split; [exact Hc|].
      exact (blkid_lines_table (splitlines out) binfo Er).
Qed.

End RootTheorems.

(* ---------- the further properties on the example systems ---------- *)

Lemma wipe_file_copies_source_witness :
  (exists w',
     wipe_file 6 "disk.img" (Some pair_reader) 2 (img_system (repeat x01 5)) =
       Some (Ret tt, w') /\
     file_data w' "disk.img" = Ret [xaa; xbb; xaa; xbb; xaa]) /\
  (exists w',
     wipe_file 6 "disk.img" None 2 (img_system (repeat x01 5)) = Some (Ret tt, w') /\
     file_data w' "disk.img" = Ret (repeat x00 5)).
Proof.
  split.
  - destruct (proj1 (wipe_file_copies_source "disk.img" (Some pair_reader) 2
                       (img_system (repeat x01 5)) (repeat x01 5) eq_refl
                       ltac:(lia)) 3%nat 6%nat)
      as (w' & Hrun & Hd & _).
    + intros k. reflexivity.
    + vm_compute. discriminate.
    + simpl. lia.
    + exists w'. split; [exact Hrun | exact Hd].
  - destruct (proj2 (wipe_file_copies_source "disk.img" None 2
                       (img_system (repeat x01 5)) (repeat x01 5) eq_refl
                       ltac:(lia)) 6%nat)
      as (w' & Hrun & Hd & _).
    + simpl. lia.
    + exists w'. split; [exact Hrun | exact Hd].
Defined.

Lemma wipe_file_degenerate_buflen_witness :
  (exists w', wipe_file 1 "disk.img" None (-1) (img_system [x01]) =
              Some (Raise (ValueError (msg_short_read 0 (-1) 0)), w')) /\
  wipe_file 1000 "disk.img" None 0 (img_system [x01]) = None.
Proof.
  destruct (wipe_file_degenerate_buflen "disk.img" (-1) (img_system [x01]) [x01]
              eq_refl) as [Hneg _].
  destruct (wipe_file_degenerate_buflen "disk.img" 0 (img_system [x01]) [x01]
              eq_refl) as [_ Hzero].
  split.
  - eexists. apply Hneg; [lia | vm_compute; reflexivity].
  - apply Hzero. left. split; [reflexivity | vm_compute; reflexivity].
Defined.

Lemma zero_file_at_offsets_bytes_witness :
  exists w' c',
    zero_file_at_offsets "disk.img" [1; 9; -1] 1 2 false
      (img_system [x41; x42; x43; x44; x45; x46]) = (Ret tt, w') /\
    file_data w' "disk.img" = Ret c' /\
    nth 0 c' x00 = x41 /\ nth 1 c' x00 = x00 /\ nth 2 c' x00 = x00 /\
    nth 3 c' x00 = x44 /\ nth 5 c' x00 = x00.
Proof.
  destruct (zero_file_at_offsets_bytes "disk.img" [1; 9; -1] 1 2
              (img_system [x41; x42; x43; x44; x45; x46])
              [x41; x42; x43; x44; x45; x46] eq_refl)
    as (w' & c' & Hrun & Hd & _ & Hnth & _).
  exists w', c'. split; [exact Hrun|]. split; [exact Hd|].
  repeat split; rewrite Hnth; reflexivity.
Defined.

Lemma zero_file_at_offsets_order_free_witness :
  exists w1 w2 c',
    zero_file_at_offsets "disk.img" [0; -1] 1 1 false
      (img_system [x41; x42; x43]) = (Ret tt, w1) /\
    zero_file_at_offsets "disk.img" [-1; 0; -1] 1 1 false
      (img_system [x41; x42; x43]) = (Ret tt, w2) /\
    file_data w1 "disk.img" = Ret c' /\ file_data w2 "disk.img" = Ret c'.
Proof.
  destruct (zero_file_at_offsets_order_free "disk.img" [0; -1] [-1; 0; -1] 1 1
              (img_system [x41; x42; x43]) [x41; x42; x43] eq_refl)
    as (w1 & w2 & w3 & c' & H1 & H2 & _ & Hd1 & Hd2 & _).
  - intros o. simpl. tauto.
  - exists w1, w2, c'. repeat split; assumption.
Defined.

Lemma zero_file_at_offsets_strict_witness :
  exists w' c',
    zero_file_at_offsets "disk.img" ([0] ++ 2 :: [1]) 1 2 true
      (img_system [x41; x42; x43]) =
      (Raise (ValueError (m_short "disk.img" 3 2 2 1 true)), w') /\
    file_data w' "disk.img" = Ret c' /\
    nth 0 c' x00 = x00 /\ nth 1 c' x00 = x00 /\ nth 2 c' x00 = x43.
Proof.
  destruct (zero_file_at_offsets_strict "disk.img" 1 2
              (img_system [x41; x42; x43]) [x41; x42; x43] eq_refl)
    as [_ Hraise].
  destruct (Hraise [0] 2 [1]) as (w' & c' & Hrun & Hd & _ & Hnth & _).
  - repeat constructor; vm_compute; discriminate.
  - split; vm_compute; discriminate.
  - vm_compute. reflexivity.
  - exists w', c'. split; [exact Hrun|]. split; [exact Hd|].
    repeat split; rewrite Hnth; reflexivity.
Defined.

Lemma quick_zero_small_file_witness :
  exists w',
    @quick_zero (table_tools []) "disk.img" false (img_system (repeat xff 10)) =
      (Ret tt, w') /\
    file_data w' "disk.img" = Ret (repeat x00 10).
Proof.
  destruct (@quick_zero_small_file (table_tools []) "disk.img"
              (img_system (repeat xff 10)) (repeat xff 10) eq_refl eq_refl)
    as (w' & Hrun & Hd & _).
  - vm_compute. discriminate.
  - exists w'. split; [exact Hrun | exact Hd].
Defined.

Lemma quick_zero_partitions_witness :
  (@quick_zero (table_tools []) "disk.img" true (img_system (repeat xff 10)) =
   @quick_zero (table_tools []) "disk.img" false (img_system (repeat xff 10)))
  /\
  exists w',
    @quick_zero (table_tools []) "/dev/vda" true vda_disk_system = (Ret tt, w') /\
    In (DEBUG, msg_wiping_1M "/dev/vda"
                 [0; - MiB; 2048 * 512; 2048 * 512 + 204800 * 512 - MiB])
       (LOG w').
Proof.
  split.
  - apply (proj1 (@quick_zero_partitions (table_tools []) "disk.img"
                    (img_system (repeat xff 10)))).
    vm_compute. discriminate.
  - destruct (proj2 (@quick_zero_partitions (table_tools []) "/dev/vda"
                       vda_disk_system)
                (repeat xff 16) [("vda1", 1, 2048 * 512, 204800 * 512)]
                _ eq_refl eq_refl
                (run_eq (@sysfs_partition_data (table_tools [])
                           (Some "/dev/vda") None) vda_disk_system
                        [("vda1", 1, 2048 * 512, 204800 * 512)] eq_refl))
      as (w' & c' & Hrun & _ & _ & _ & _ & Hlog).
    exists w'. split; [exact Hrun | exact Hlog].
Defined.

Lemma sysfs_partition_data_whole_disk_witness :
  exists unit,
    @read_int (table_tools []) "/sys/class/block/vda/queue/logical_block_size"
      vda_system = Ret unit /\
    forall k n off sz, In (k, n, off, sz) [("vda1", 1, 2048 * 512, 204800 * 512)] ->
      exists start size, off = start * unit /\ sz = size * unit.
Proof.
  destruct (proj2 (@sysfs_partition_data_whole_disk (table_tools []) "/dev/vda"
              vda_system
              (snd (@get_blockdev_for_partition (table_tools []) "/dev/vda"
                      vda_system))
              (snd (@sysfs_partition_data (table_tools []) (Some "/dev/vda") None
                      vda_system))
              "/dev/vda" None
              [("vda1", 1, 2048 * 512, 204800 * 512)]))
    as (_ & sp & unit & ds & _ & -> & Hunit & _ & _ & Hall).
  - discriminate.
  - exact (run_eq (@get_blockdev_for_partition (table_tools []) "/dev/vda")
             vda_system ("/dev/vda", None) eq_refl).
  - reflexivity.
  - exact (run_eq (@sysfs_partition_data (table_tools []) (Some "/dev/vda") None)
             vda_system [("vda1", 1, 2048 * 512, 204800 * 512)] eq_refl).
  - exists unit. split; [exact Hunit|].
    intros k n off sz Hin. destruct (Hall k n off sz Hin) as (_ & start & size & _ & _ & Ho & Hs).
    exists start, size. split; assumption.
Defined.

Lemma get_blockdev_for_partition_whole_disk_witness :
  @get_blockdev_for_partition (table_tools []) "/dev/vda" vda_system =
    (Ret ("/dev/vda", None), vda_system) /\
  @get_blockdev_for_partition (table_tools []) "/dev/nodisk" vda_system =
    (Raise (ValueError (msg_no_syspath "/dev/nodisk" "/sys/class/block/nodisk")),
     vda_system).
Proof.
  split.
  - destruct (proj1 (@get_blockdev_for_partition_whole_disk (table_tools [])
                       "/dev/vda" vda_system) "/dev/vda" _
                (run_eq (@get_blockdev_for_partition (table_tools []) "/dev/vda")
                   vda_system ("/dev/vda", None) eq_refl))
      as (_ & _ & Hid).
    apply Hid. reflexivity.
  - apply (proj2 (@get_blockdev_for_partition_whole_disk (table_tools [])
                    "/dev/nodisk" vda_system)).
    reflexivity.
Defined.

Lemma dev_short_dev_path_round_trip_witness :
  dev_short (dev_path "vda1") = "vda1".
Proof.
  apply (dev_short_dev_path_round_trip "vda1"). reflexivity.
Defined.

(** X13 on a listing that names [sda] twice: the row stored is that of
    the later line. *)
Lemma lsblock_table_keys_unique_witness :
  exists ret row,
    _lsblock_pairs_to_dict twice_listing = Ret ret /\
    List.length ret = 2%nat /\
    dict_get ret "sda" = Some row /\
    dict_get row "MOUNTPOINT" = Some "/mnt".
Proof.
  destruct (_lsblock_pairs_to_dict twice_listing) as [ret|] eqn:Hrun;
    [| vm_compute in Hrun; discriminate].
  destruct (lsblock_table_keys_unique twice_listing ret Hrun)
    as (_ & _ & _ & _ & Hlast).
  destruct (Hlast
              [("KNAME=" ++ dq ++ "sda" ++ dq ++ " NAME=" ++ dq ++ "sda" ++ dq
                ++ " RM=" ++ dq ++ "0" ++ dq ++ " RO=" ++ dq ++ "0" ++ dq
                ++ " TYPE=" ++ dq ++ "disk" ++ dq
                ++ " MOUNTPOINT=" ++ dq ++ "" ++ dq)%string;
               ("KNAME=" ++ dq ++ "sdb" ++ dq ++ " NAME=" ++ dq ++ "sdb" ++ dq
                ++ " RM=" ++ dq ++ "0" ++ dq ++ " RO=" ++ dq ++ "0" ++ dq
                ++ " TYPE=" ++ dq ++ "disk" ++ dq
                ++ " MOUNTPOINT=" ++ dq ++ "" ++ dq)%string]
              ("KNAME=" ++ dq ++ "sda" ++ dq ++ " NAME=" ++ dq ++ "sda" ++ dq
               ++ " RM=" ++ dq ++ "0" ++ dq ++ " RO=" ++ dq ++ "0" ++ dq
               ++ " TYPE=" ++ dq ++ "disk" ++ dq
               ++ " MOUNTPOINT=" ++ dq ++ "/mnt" ++ dq)%string
              []
              ["KNAME=sda"; "NAME=sda"; "RM=0"; "RO=0"; "TYPE=disk";
               "MOUNTPOINT=/mnt"]
              "sda")
    as (row & Hget & _ & _ & Hvals).
  - vm_compute. reflexivity.
  - vm_compute. reflexivity.
  - vm_compute. reflexivity.
  - intros l toks' [].
  - exists ret, row. split; [reflexivity|]. split.
    + vm_compute in Hrun. inversion Hrun. reflexivity.
    + split; [exact Hget|]. rewrite Hvals by discriminate. reflexivity.
Defined.

Lemma lsblock_first_bad_line_witness :
  _lsblock_pairs_to_dict (sda_line ++ nl ++ nl ++ sda_line) =
  Raise (KeyError "KNAME").
Proof.
  destruct (lsblock_first_bad_line (sda_line ++ nl ++ nl ++ sda_line)
              [sda_line] "" [sda_line]) as (_ & _ & _ & Hempty).
  - vm_compute. reflexivity.
  - constructor; [| constructor].
    exists ["KNAME=/dev/sda"; "NAME=sda"].
    split; [vm_compute; reflexivity|].
    split; [repeat constructor | left; reflexivity].
  - apply Hempty. reflexivity.
Defined.

Lemma lsblock_parses_quoted_rows_witness :
  _lsblock_pairs_to_dict
    (pairs_output [[("KNAME", "sda"); ("MODEL", "QEMU HARDDISK")];
                   [("KNAME", "sda1"); ("MOUNTPOINT", "/mnt/my disk")]]) =
  Ret [("sda", [("KNAME", "sda"); ("MODEL", "QEMU HARDDISK");
                ("device_path", "/dev/sda")]);
       ("sda1", [("KNAME", "sda1"); ("MOUNTPOINT", "/mnt/my disk");
                 ("device_path", "/dev/sda1")])].
Proof.
  destruct (lsblock_parses_quoted_rows
              [[("KNAME", "sda"); ("MODEL", "QEMU HARDDISK")];
               [("KNAME", "sda1"); ("MOUNTPOINT", "/mnt/my disk")]])
    as [_ Hparse].
  - repeat constructor.
  - repeat constructor; vm_compute; discriminate.
  - exact Hparse.
Defined.

Lemma get_scsi_wwid_swallows_tool_error_witness :
  @get_scsi_wwid clone_tools "/dev/sda" false clone_system =
    (Ret (Some "WWID-A"), clone_system) /\
  @get_scsi_wwid clone_tools "/dev/sdc" false clone_system =
    (Ret None, snd (log_warn (msg_text "Failed to get WWID") clone_system)).
Proof.
  destruct (@get_scsi_wwid_swallows_tool_error clone_tools "/dev/sda" false
              clone_system) as (Hok & _).
  destruct (@get_scsi_wwid_swallows_tool_error clone_tools "/dev/sdc" false
              clone_system) as (_ & Hfail & _).
  split.
  - exact (proj1 (Hok ("WWID-A" ++ nl)%string "" clone_system eq_refl)).
  - exact (Hfail _ _ clone_system eq_refl).
Defined.

Lemma get_volume_uuid_first_uuid_line_witness :
  @get_volume_uuid export_tools "/dev/sda1" empty_system = (Ret "U1", empty_system).
Proof.
  destruct (@get_volume_uuid_first_uuid_line export_tools "/dev/sda1"
              empty_system empty_system _ "" eq_refl)
    as (uuid & Hrun & _ & _ & Hfirst).
  rewrite (Hfirst ["DEVNAME=/dev/sda1"] "UUID=U1" ["TYPE=ext4"; "PARTUUID=0001-01"])
    in Hrun.
  - exact Hrun.
  - vm_compute. reflexivity.
  - repeat constructor.
  - reflexivity.
Defined.

Lemma lookup_disk_shortest_name_witness :
  lookup_disk "QEMU_S1" byid_system = (Ret "/dev/sda", byid_system) /\
  lookup_disk "QEMU_S9" byid_system =
    (Raise (ValueError (msg_text "no disk with serial 'QEMU_S9' found")),
     byid_system).
Proof.
  destruct (lookup_disk_shortest_name "QEMU_S1" byid_system
              ["ata-QEMU_S1-part1"; "ata-QEMU_S1"; "ata-QEMU_S2"] eq_refl)
    as [_ Hret].
  destruct (lookup_disk_shortest_name "QEMU_S9" byid_system
              ["ata-QEMU_S1-part1"; "ata-QEMU_S1"; "ata-QEMU_S2"] eq_refl)
    as [Hnone _].
  split.
  - pose proof (run_eq (lookup_disk "QEMU_S1") byid_system "/dev/sda" eq_refl) as Hrun.
    destruct (Hret _ _ Hrun) as (Hw & _). rewrite Hw in Hrun. exact Hrun.
  - apply Hnone. intros x [<- | [<- | [<- | []]]]; reflexivity.
Defined.

Lemma get_unused_blockdev_info_unmounted_witness :
  exists w',
    @get_unused_blockdev_info clone_tools clone_system =
    (Ret (filter (unmounted (tool_answer clone_tools)) clone_disks), w').
Proof.
  destruct (@get_unused_blockdev_info_unmounted clone_tools
              (tool_answer clone_tools) clone_system clone_disks)
    as [Hiff Hret].
  - intros args w. reflexivity.
  - vm_compute. reflexivity.
  - destruct (proj1 Hiff) as (unused & w' & Hrun).
    + intros item [<- | [<- | [<- | []]]]; eexists; vm_compute; reflexivity.
    + exists w'. destruct (Hret unused w' Hrun) as (_ & <- & _). exact Hrun.
Defined.

Lemma get_installable_blockdevs_filter_witness :
  @get_installable_blockdevs clone_tools false None clone_system =
    (Ret ["sdb"; "sdc"],
     snd (@get_unused_blockdev_info clone_tools clone_system)) /\
  forall name,
    In name ["sdb"; "sdc"] <->
    exists data,
      In (name, data)
         (filter (unmounted (tool_answer clone_tools)) clone_disks) /\
      installable false None data.
Proof.
  destruct (@get_installable_blockdevs_filter clone_tools false None
              clone_system _ _
              (run_eq (@get_unused_blockdev_info clone_tools) clone_system
                 (filter (unmounted (tool_answer clone_tools)) clone_disks)
                 eq_refl))
    as [Hret _].
  pose proof (run_eq (@get_installable_blockdevs clone_tools false None)
                clone_system ["sdb"; "sdc"] eq_refl) as Hrun.
  destruct (Hret _ _ Hrun) as [Hw Hiff].
  split; [rewrite <- Hw; exact Hrun | exact Hiff].
Defined.


Lemma rescan_block_devices_swallows_tool_error_witness :
  @rescan_block_devices clone_tools clone_system =
  @udevadm_settle clone_tools
    (snd (@get_unused_blockdev_info clone_tools clone_system)).
Proof.
  destruct (@rescan_block_devices_swallows_tool_error clone_tools clone_system
              _ _
              (run_eq (@get_unused_blockdev_info clone_tools) clone_system
                 (filter (unmounted (tool_answer clone_tools)) clone_disks)
                 eq_refl))
    as [_ Hrun].
  exact (Hrun ltac:(vm_compute; discriminate)
              (Ret (EmptyString, EmptyString)) _ eq_refl).
Defined.

Lemma get_blockdev_sector_size_single_row_witness :
  (exists w', @get_blockdev_sector_size loop_tools "/dev/loop0" empty_system =
              (Ret (512, 4096), w')) /\
  (exists w', @get_blockdev_sector_size clone_tools "/dev/sda" clone_system =
              (Raise (ValueError (msg_unpack 2)), w')).
Proof.
  split.
  - eexists.
    refine (proj2 (@get_blockdev_sector_size_single_row loop_tools "/dev/loop0"
                     empty_system _ _
                     (run_eq (@_lsblock loop_tools (Some ["/dev/loop0"]))
                        empty_system
                        [("loop0", [("KNAME", "loop0"); ("LOG-SEC", "512");
                                    ("PHY-SEC", "4096");
                                    ("device_path", "/dev/loop0")])] eq_refl))
                  "loop0" _ "512" "4096" 512 4096 eq_refl eq_refl eq_refl eq_refl
                  eq_refl).
  - eexists.
    refine (proj1 (@get_blockdev_sector_size_single_row clone_tools "/dev/sda"
                     clone_system _ _
                     (run_eq (@_lsblock clone_tools (Some ["/dev/sda"]))
                        clone_system
                        [("sda",
                          [("KNAME", "sda"); ("NAME", "sda"); ("RM", "0");
                           ("RO", "0"); ("TYPE", "disk"); ("MOUNTPOINT", "");
                           ("device_path", "/dev/sda")]);
                         ("sda1",
                          [("KNAME", "sda1"); ("NAME", "sda1"); ("RM", "0");
                           ("RO", "0"); ("TYPE", "part");
                           ("MOUNTPOINT", "/target");
                           ("device_path", "/dev/sda1")])] eq_refl)) _).
    simpl. discriminate.
Defined.

Lemma get_mountpoints_union_witness :
  exists mps w1,
    @get_mountpoints clone_tools clone_system = (Ret mps, w1) /\
    NoDup mps /\ In "/target" mps.
Proof.
  destruct (@get_mountpoints_union clone_tools clone_system clone_system
              clone_listing
              [mkMount "/dev/sda1" "/target" "ext4" "rw" "0" "0"])
    as (mps & Hrun & Hnd & Hiff).
  - reflexivity.
  - reflexivity.
  - exists mps, clone_system. split; [exact Hrun|]. split; [exact Hnd|].
    apply Hiff. left. eexists. split; [left; reflexivity | reflexivity].
Defined.

Lemma get_devices_for_mp_lsblk_first_witness :
  exists devs,
    @get_devices_for_mp clone_tools "/target" clone_system =
      (Ret devs, clone_system) /\
    forall p, In p devs <->
      exists k row, In (k, row) clone_listing /\
                    dict_get row "MOUNTPOINT" = Some "/target" /\
                    dict_get row "device_path" = Some p.
Proof.
  destruct (@get_devices_for_mp_lsblk_first clone_tools "/target" clone_system
              clone_system clone_listing
              [mkMount "/dev/sda1" "/target" "ext4" "rw" "0" "0"])
    as (devs & Hrun & Hfound & _).
  - reflexivity.
  - intros k row Hin. unfold clone_listing in Hin. cbn [In] in Hin.
    repeat (destruct Hin as [Hin | Hin];
            [inversion Hin; subst; vm_compute; discriminate |]).
    destruct Hin.
  - reflexivity.
  - exists devs. split; [exact Hrun|]. apply Hfound.
    eexists. split; [right; left; reflexivity | reflexivity].
Defined.

(** X26 on a file of three lines: the second has two fields and is
    skipped, the third has eight and its last component is the rest of the
    line. *)
Lemma get_proc_mounts_fields_witness :
  get_proc_mounts mounts_system =
  (Ret [mkMount "rootfs" "/" "rootfs" "rw" "0" "0";
        mkMount "/dev/sda1" "/target" "ext4" "rw" "0" "0 # root"],
   mounts_system).
Proof.
  apply (proj2 (proj2 (get_proc_mounts_fields mounts_system))
           [["rootfs"; "/"; "rootfs"; "rw"; "0"; "0"];
            ["none"; "/broken"];
            ["/dev/sda1"; "/target"; "ext4"; "rw"; "0"; "0"; "#"; "root"]]).
  - repeat (constructor; try (split; [discriminate | reflexivity])).
  - reflexivity.
Defined.

Lemma get_multipath_wwids_no_shared_uuid_witness :
  @get_multipath_wwids plain_tools empty_system = (Ret [], empty_system).
Proof.
  refine (proj2 (@get_multipath_wwids_no_shared_uuid plain_tools empty_system
                   empty_system
                   [("/dev/sda1", [("UUID", "U1")]);
                    ("/dev/sdb1", [("UUID", "U2")])] eq_refl _)).
  repeat constructor; simpl; intuition discriminate.
Defined.

Lemma stop_all_unused_multipath_devices_quiet_witness :
  @stop_all_unused_multipath_devices clone_tools no_multipath clone_system =
    (Ret tt, clone_system) /\
  @stop_all_unused_multipath_devices clone_tools with_multipath clone_system =
    (Ret tt,
     snd (log_warn (msg_text "Failed to stop multipath devices") clone_system)).
Proof.
  split.
  - exact (proj1 (@stop_all_unused_multipath_devices_quiet clone_tools
                    no_multipath clone_system clone_system None eq_refl)
                 eq_refl).
  - refine (proj2 (@stop_all_unused_multipath_devices_quiet clone_tools
                     with_multipath clone_system clone_system
                     (Some "/sbin/multipath") eq_refl)
                  "/sbin/multipath" eq_refl _
                  (Raise (ProcessExecutionError ["/sbin/multipath"; "-F"] 1))
                  clone_system eq_refl).
    discriminate.
Defined.

Lemma wipe_volume_modes_witness :
  @wipe_volume clone_tools no_multipath 6 "disk.img" "shred"
    (img_system (repeat x01 5)) =
    Some (Raise (ValueError (msg_text "wipe mode shred not supported")),
          img_system (repeat x01 5)) /\
  exists w',
    @wipe_volume clone_tools no_multipath 6 "disk.img" "zero"
      (img_system (repeat x01 5)) = Some (Ret tt, w') /\
    file_data w' "disk.img" = Ret (repeat x00 5).
Proof.
  destruct (@wipe_volume_modes clone_tools no_multipath "disk.img"
              (img_system (repeat x01 5))) as (Hbad & Hzero & _).
  split.
  - apply Hbad. simpl. intuition discriminate.
  - destruct (Hzero (repeat x01 5) 6%nat eq_refl) as (w' & Hrun & Hd & _).
    + simpl. lia.
    + exists w'. split; [exact Hrun | exact Hd].
Defined.


(** X30 on an output that lists [sda1] twice: the entry is that of the
    later line. *)
Lemma blkid_table_keys_unique_witness :
  exists binfo w' data,
    @blkid stale_tools None true empty_system = (Ret binfo, w') /\
    dict_get binfo "/dev/sda1" = Some data /\
    dict_get data "UUID" = Some "U1".
Proof.
  destruct (@blkid stale_tools None true empty_system) as [[binfo|e] w'] eqn:Hrun;
    [| vm_compute in Hrun; inversion Hrun].
  destruct (proj2 (@blkid_table_keys_unique stale_tools None true empty_system)
              binfo w' Hrun)
    as (_ & _ & w0 & out & err & Hsub & Hw0 & _ & _ & Hlast).
  rewrite (Hw0 eq_refl) in Hsub.
  assert (Hout : out = ("/dev/sda1: UUID=" ++ dq ++ "OLD" ++ dq ++ nl
                        ++ "/dev/sdb1: UUID=" ++ dq ++ "U2" ++ dq ++ nl
                        ++ "/dev/sda1: UUID=" ++ dq ++ "U1" ++ dq
                        ++ " TYPE=" ++ dq ++ "ext4" ++ dq ++ nl)%string).
  { vm_compute in Hsub. vm_compute. congruence. }
  subst out. clear Hsub.
  destruct (Hlast
              [("/dev/sda1: UUID=" ++ dq ++ "OLD" ++ dq)%string;
               ("/dev/sdb1: UUID=" ++ dq ++ "U2" ++ dq)%string]
              "/dev/sda1"
              (" UUID=" ++ dq ++ "U1" ++ dq ++ " TYPE=" ++ dq ++ "ext4" ++ dq)%string
              []
              ["UUID=U1"; "TYPE=ext4"])
    as (data & Hget & Hvals).
  - vm_compute. reflexivity.
  - vm_compute. reflexivity.
  - vm_compute. reflexivity.
  - intros l [].
  - exists binfo, w', data. split; [reflexivity|]. split; [exact Hget|].
    rewrite Hvals. reflexivity.
Defined.
